(* ===== verification/_CoqProject ===== *)
-Q . S2P
Prelude.v
JsString.v
Db.v
Schema.v
ProcessReceipt.v
Pdf.v
Actions.v
Route.v
Client.v
Totals.v
ReportsList.v
ReportsTable.v
ReportPage.v
Upload.v
SpendByDay.v
ReportForm.v
ReceiptView.v
AppShell.v
UploadPage.v
CategorySearch.v
Preview.v
