(* ===== verification/Prelude.v ===== *)
(** * A verification library for autoexpense

    autoexpense is a Next.js expense-report application.  Users upload
    receipt images or PDFs; a hosted vision model extracts a structured
    record (merchant, date, tax, tip, line items); the record is checked
    against a zod schema, the page images are stored as blobs, and the
    merchant, category, receipt and line-item rows are written through
    Prisma in one transaction while partial results are streamed to the
    browser.  The browser keeps the rows in TanStack DB collections
    whose mutation handlers call ownership-checked server actions; the
    pages edit reports, receipts and line items through those
    collections.

    ** How the parts interact

    A browser event runs a handler of a page (a function on the page's
    state, the client [Collections] and the database [Db]); a handler
    that writes calls [collection.insert/update/delete], which runs the
    collection's [onInsert/onUpdate/onDelete] handler, a server action,
    on the database ([dbm] program) and refetches the collection
    through its [queryFn] when the action succeeds, or rolls the
    optimistic change back when it throws.  The extraction runs on the
    server ([extractReceipt]) and streams messages that the browser's
    [startReceipt] consumes into the pending collection.

    ** Files, in dependency order

    - [Prelude] (this file): the error monad [result] of code that
      throws, integer sums [zsum], the scope [ae_scope], the hint
      databases [ae] and [ae_rw], shared lemmas on lists and sums.
    - [JsString]: the string operations of JavaScript the code uses
      ([toUpperCase], [startsWith], [endsWith], [split], [Number] on
      digit strings, lexicographic order).
    - [Db]: the Prisma database: one [gmap] per table keyed by id, the
      unique index on [normalizedName], the state-and-error monad [dbm],
      [$transaction] with rollback, the well-formedness [db_wf].
    - [Schema]: [ExtractReceiptSchema] and its partial version
      ([src/src/lib/schemas/extract-receipt.ts]) as [safeParse] on JSON.
    - [ProcessReceipt]: [src/src/server/actions/process-receipt.ts]:
      [createMerchantIfNotExists], [createCategoryIfNotExists],
      [createExpenseReportFromParse], the page uploads, the detached
      extraction task with its stream, and [extractReceipt].
    - [Pdf]: [pdfToImages] of [lib/pdf.ts] over a heap of [ArrayBuffer]s
      with Node's [Buffer] pool.
    - [Actions]: the CRUD actions of [src/src/server/actions/*.ts] over a
      record of table operations [Table], with [getCurrentUser].
    - [Route]: [GET /api/receipt/file] and the image pager of
      [receipt-images-view.tsx].
    - [Client]: the collections of [src/src/client-db/collections.ts]
      ([CollectionHandlers], [collection_commit], [collection_update]),
      [startReceipt] of [upload-form.tsx] and its step relation.
    - [Totals]: [totalPaid], the receipt and preview totals, the
      category chart and [useReportDateRange].
    - [ReportsList]: [src/src/app/reports/page.tsx] (query string,
      ordered offset/limit query, pages, links) and [createNewReport].
    - [ReportsTable]: [ReportsTableRow] of the same page: the cells of a
      row and its delete button through [reportCollection].
    - [ReportPage]: [ViewReportPage] of [app/reports/[id]/page.tsx]: the
      query on the route id and what the page renders.
    - [Upload]: the hook [useReceiptUpload] and [FileList].
    - [SpendByDay]: the day chart and date-fns' [eachDayOfInterval].
    - [ReportForm]: [UploadExpenseReportFormSchema], the [form.subscribe]
      debounce of [upload-form.tsx] as a timed state machine over
      renders, inputs and waits, [handleValueChanged] of
      [app/reports/[id]/page.tsx], the status options of
      [status-select.tsx] and [useDebouncedFunction].
    - [ReceiptView]: every handler of [receipt-view.tsx] (inline tax and
      tip editors of [inline-edit.tsx], category popover of
      [category/select.tsx], date, new line item, line item rows with
      [EditLineItemSchema]); the number builtins are the class
      [JsNumber].
    - [AppShell]: [app/layout.tsx], [app/page.tsx], [check-auth.tsx],
      [collection-loader.tsx], [sign-in/page.tsx] and the sidebar of
      [nav.tsx].
    - [UploadPage]: the file inputs of [upload-form.tsx], the rows of its
      receipts query with their React keys, [UploadFormReceiptPreview]
      and the dates and total the page shows.
    - [CategorySearch]: the live query of [CategoryCommand]
      ([category/select.tsx]): TanStack's [like] as a matcher on the
      pattern, the items listed and their check marks.
    - [Preview]: the card [ReceiptPreview] of [receipt-preview.tsx]
      renders, as an [option] that is [None] when rendering throws.

    ** What the theorems show

    - C1-C7 (ProcessReceipt): merchant deduplication by normalized
      name, atomicity and success of the transaction, the invariant
      [db_wf], the stream protocol, the failed transaction, and the
      end-to-end commit of [extractReceipt].
    - C8 (Pdf): page images under 4 KB come back from [pdfToImages]
      as Node's shared Buffer pool, so [extractReceipt] stores the same
      8192 bytes for consecutive small pages of a PDF.
    - C9-C13 (Actions): the ownership guard of [updateReports], and the
      defects of [createReceipts], [updateCategories],
      [deleteCategories] and of the status check of [updateReports].
    - C14 (Route): images served for every page the pager reaches.
    - C15-C18 (Client): the pending-extraction invariant (rule
      induction on [client_reachable]), commit and endless spinner of
      [startReceipt], the merchant delete defect.
    - C19-C21 (Totals): the form total against the receipt views, the
      category chart, the date range bounds.
    - C22-C23 (Preview): the rendered card of a pending extraction
      never shows its tip; an incomplete streamed currency makes the
      card throw.
    - C24-C26 (ReportsList): hidden reports, the paging refinement,
      [createNewReport]; C27 (ReportsTable): the delete button.
    - C28-C29 (Upload), C30 (Schema: refinement of the partial schema),
      C31-C32 (SpendByDay: termination of the day loop with its fuel,
      totals).
    - C33-C35 (ReportForm): the debounce saves the last values once per
      subscription, an undone edit is still saved, and the unvalidated
      values reach the database.
    - C36-C38 (ReceiptView): tip/tax edits, deletion on an emptied
      quantity, creation of a category from the popover; C39
      (CategorySearch): the [like] query is a case-insensitive
      substring search for a search without wildcards.
    - C40 (AppShell): the loading screen hides only when every preload
      succeeds.
    Each theorem with hypotheses has a [_witness] applying it to
    concrete inputs.

    ** Bounds and fuel

    Money and quantities are exact integers [Z] (in the unit of the
    inputs, e.g. cents); floating-point rounding is not modelled.  Times
    are [Z] milliseconds.  [eachDayOfInterval]'s loop gets fuel
    [S (day_count ...)], which [each_day_loop_terminates] (C31) shows is
    enough; every other loop is structural recursion on a list.  Timers
    of the form fire as soon as they are due.

    ** Not modelled

    React rendering beyond the values a page shows, the hosted model
    (its output, the list of partial objects, is an input), the
    rendering of PDF pages by pdf2pic (the page bytes are an input),
    Azure blob I/O beyond the name-to-bytes store, the better-auth
    configuration (the session is an input), Intl number
    and date formatting and [toLocaleDateString] (parameters where a
    value is shown), the order of rows of live queries that sort,
    [components/ui/datepicker.tsx] (used by no page, relies on date-fns
    parse formats), [components/ui/collapsible.tsx] (Radix wrapper),
    [hooks/use-idb.ts] (empty), the react-query client singleton and the
    construction of the Azure storage and model clients ([server/storage.ts],
    [lib/ai.ts]) from the environment.

    ** Conventions

    A JavaScript [throw] is the [Err] branch of [result]; an awaited
    Prisma call that rejects is the [Err] branch of [dbm]; a browser
    handler that throws leaves the state as it was. *)

From stdpp Require Export base list gmap strings pretty.
From Stdlib Require Export ZArith Lia.

Declare Scope ae_scope.
Delimit Scope ae_scope with ae.
Open Scope string_scope.
Open Scope nat_scope.
Open Scope list_scope.

Create HintDb ae discriminated.
Create Rewrite HintDb ae_rw.

(** ** The error monad of code that throws *)

Inductive result (A : Type) : Type :=
| Ok (a : A)
| Err (msg : string).
Arguments Ok {A} a.
Arguments Err {A} msg.

#[export] Instance result_ret : MRet result := λ A a, Ok a.
#[export] Instance result_bind : MBind result := λ A B f r,
  match r with Ok a => f a | Err m => Err m end.
#[export] Instance result_fmap : FMap result := λ A B f r,
  match r with Ok a => Ok (f a) | Err m => Err m end.

(** [throw new Error(msg)] *)
Notation "'throw' m" := (Err m) (at level 10, only parsing) : ae_scope.

Definition is_ok {A} (r : result A) : bool :=
  match r with Ok _ => true | Err _ => false end.

Lemma result_bind_Ok {A B} (a : A) (f : A → result B) :
  (Ok a ≫= f) = f a.
Proof. done. Qed.

Lemma result_bind_Err {A B} (m : string) (f : A → result B) :
  (Err m ≫= f) = Err m.
Proof. done. Qed.

Lemma result_bind_eq_Ok {A B} (r : result A) (f : A → result B) b :
  (r ≫= f) = Ok b → ∃ a, r = Ok a ∧ f a = Ok b.
Proof. destruct r; simpl; [eauto | discriminate]. Qed.

#[export] Hint Rewrite @result_bind_Ok @result_bind_Err : ae_rw.

(** ** Integer sums over lists *)

Definition zsum {A} (f : A → Z) (l : list A) : Z :=
  foldr (λ x acc, (f x + acc)%Z) 0%Z l.

Lemma zsum_nil {A} (f : A → Z) : zsum f [] = 0%Z.
Proof. done. Qed.

Lemma zsum_cons {A} (f : A → Z) x l : zsum f (x :: l) = (f x + zsum f l)%Z.
Proof. done. Qed.

Lemma zsum_app {A} (f : A → Z) l1 l2 :
  zsum f (l1 ++ l2) = (zsum f l1 + zsum f l2)%Z.
Proof. induction l1 as [|x l1 IH]; simpl; [done|]. unfold zsum in *; simpl; lia. Qed.

Lemma zsum_ext {A} (f g : A → Z) l :
  (∀ x, x ∈ l → f x = g x) → zsum f l = zsum g l.
Proof.
  induction l as [|x l IH]; intros Hfg; [done|].
  rewrite !zsum_cons, Hfg, ?IH; [done| |]; set_solver.
Qed.

Lemma zsum_plus {A} (f g : A → Z) l :
  zsum (λ x, f x + g x)%Z l = (zsum f l + zsum g l)%Z.
Proof. induction l as [|x l IH]; [done|]. rewrite !zsum_cons, IH. lia. Qed.

(** Splitting a sum by a boolean test: the two filters partition it. *)
Lemma zsum_filter_split {A} (P : A → bool) (f : A → Z) l :
  zsum f l = (zsum f (filter (λ x, P x = true) l)
              + zsum f (filter (λ x, P x = false) l))%Z.
Proof.
  induction l as [|x l IH]; [done|].
  rewrite zsum_cons, !filter_cons.
  destruct (P x); repeat case_decide; try congruence; rewrite ?zsum_cons; lia.
Qed.

Lemma zsum_map {A B} (g : A → B) (f : B → Z) l :
  zsum f (map g l) = zsum (f ∘ g) l.
Proof. induction l as [|x l IH]; [done|]. rewrite map_cons, !zsum_cons, IH. done. Qed.

(** A running total [for (...) total += f(x)] is the sum. *)
Lemma foldl_add_zsum {A} (f : A → Z) a l :
  foldl (λ t x, t + f x)%Z a l = (a + zsum f l)%Z.
Proof. revert a. induction l as [|x l IH]; intros a; simpl; [lia|]. rewrite IH. lia. Qed.

Lemma zsum_filter {A} (P : A → Prop) `{∀ x, Decision (P x)} (f : A → Z) l :
  zsum f (filter P l) = zsum (λ x, if decide (P x) then f x else 0%Z) l.
Proof.
  induction l as [|x l IH]; [done|]. rewrite filter_cons, zsum_cons.
  case_decide; rewrite ?zsum_cons, IH; lia.
Qed.

(** The sum over the rows of a join written with the list monad. *)
Lemma zsum_bind {A B} (f : B → Z) (g : A → list B) l :
  zsum f (l ≫= g) = zsum (λ x, zsum f (g x)) l.
Proof.
  induction l as [|x l IH]; [done|]. change ((x :: l) ≫= g) with (g x ++ (l ≫= g)).
  by rewrite zsum_app, zsum_cons, IH.
Qed.

(** Exchanging the order of a double sum. *)
Lemma zsum_swap {A B} (f : A → B → Z) la lb :
  zsum (λ a, zsum (f a) lb) la = zsum (λ b, zsum (λ a, f a b) la) lb.
Proof.
  induction la as [|a la IH].
  - rewrite zsum_nil. induction lb as [|b lb IHlb]; [done|]. by rewrite zsum_cons, <-IHlb.
  - rewrite zsum_cons, IH, <-zsum_plus. done.
Qed.

Lemma zsum_mul_r {A} (f : A → Z) c l : (zsum f l * c)%Z = zsum (λ x, f x * c)%Z l.
Proof. induction l as [|x l IH]; [done|]. rewrite !zsum_cons, <-IH. lia. Qed.

Lemma zsum_0 {A} (l : list A) : zsum (λ _, 0%Z) l = 0%Z.
Proof. induction l as [|x l IH]; [done|]. by rewrite zsum_cons, IH. Qed.

Lemma zsum_all0 {A} (f : A → Z) l : (∀ x, x ∈ l → f x = 0%Z) → zsum f l = 0%Z.
Proof. intros Hf. rewrite <-(zsum_0 l). by apply zsum_ext. Qed.

(** [zsum] respects pointwise equal summands: [setoid_rewrite] can
    rewrite under the binder of a summand. *)
#[export] Instance zsum_proper {A} : Proper (pointwise_relation A eq ==> eq ==> eq) (@zsum A).
Proof. intros f g Hfg l ? <-. apply zsum_ext. intros x _. apply Hfg. Qed.

(** A sum of a constant over the elements that pass a test. *)
Lemma zsum_indicator {A} (P : A → Prop) `{∀ x, Decision (P x)} (v : Z) l :
  zsum (λ x, if decide (P x) then v else 0%Z) l = (v * Z.of_nat (length (filter P l)))%Z.
Proof.
  induction l as [|x l IH]; [simpl; lia|]. rewrite zsum_cons, filter_cons, IH.
  case_decide; simpl; lia.
Qed.

(** The rows of a join on a test: [l ≫= λ x, if P x then [mk x] else []]. *)
Lemma zsum_bind_if {A B} (P : A → Prop) `{∀ x, Decision (P x)} (f : B → Z) (mk : A → B) l :
  zsum f (l ≫= λ x, if decide (P x) then [mk x] else []) = zsum (λ x, if decide (P x) then f (mk x) else 0%Z) l.
Proof. rewrite zsum_bind. apply zsum_ext. intros x _. case_decide; simpl; lia. Qed.

#[export] Hint Rewrite @zsum_nil @zsum_cons @zsum_app : ae_rw.

(** ** Lists *)

(** A filter that keeps every element is the identity. *)
Lemma filter_Forall_id {A} (P : A → Prop) `{∀ x, Decision (P x)} l :
  Forall P l → filter P l = l.
Proof. induction 1; [done|]. rewrite filter_cons_True by done. by f_equal. Qed.

(** Filters that agree on the elements of the list. *)
Lemma filter_ext_in {A} (P1 P2 : A → Prop) `{∀ x, Decision (P1 x), ∀ x, Decision (P2 x)}
    (l : list A) :
  (∀ x, x ∈ l → P1 x ↔ P2 x) → filter P1 l = filter P2 l.
Proof.
  induction l as [|x l IH]; intros Hiff; [done|]. rewrite !filter_cons.
  rewrite IH by (intros y Hy; apply Hiff; by right).
  specialize (Hiff x (list_elem_of_here x l)). repeat case_decide; tauto.
Qed.

(** ** Shared tactics *)

(** Close the goals that are a contradiction between constructors or an
    equation on constructors. *)
Ltac inv_ok :=
  repeat match goal with
  | H : Ok _ = Ok _ |- _ => injection H as H
  | H : Ok _ = Err _ |- _ => discriminate H
  | H : Err _ = Ok _ |- _ => discriminate H
  | H : Some _ = Some _ |- _ => injection H as H
  | H : (_, _) = (_, _) |- _ => injection H as H
  end; subst.
