(* ===== verification/JsString.v ===== *)
(** JavaScript string operations used by autoexpense: [toUpperCase]
    (on the ASCII letters, which is what the normalized names of
    merchants and categories go through), [startsWith], [includes],
    [split(sep)[i]] with its [undefined] for a missing part, and the
    template literal of blob names in
    [src/src/server/actions/process-receipt.ts]. *)

From S2P Require Import Prelude.
From Stdlib Require Import Ascii.
From stdpp Require Import pretty.

(** ** [String.prototype.toUpperCase] on ASCII *)

Definition ascii_upper (c : ascii) : ascii :=
  let n := nat_of_ascii c in
  if (97 <=? n) && (n <=? 122) then ascii_of_nat (n - 32) else c.

Fixpoint toUpperCase (s : string) : string :=
  match s with
  | EmptyString => EmptyString
  | String c s' => String (ascii_upper c) (toUpperCase s')
  end.

(** [s.startsWith(p)] *)
Definition startsWith (s p : string) : bool := String.prefix p s.

(** [s.includes(t)] *)
Definition includes (s t : string) : bool :=
  match String.index 0 t s with Some _ => true | None => false end.

(** [s.endsWith(t)] *)
Definition endsWith (s t : string) : bool :=
  let n := String.length s in
  let k := String.length t in
  (k <=? n) && String.eqb (String.substring (n - k) k s) t.

(** [s.split(sep)] for a one-character separator: the parts between
    separators, always at least one part. *)
Fixpoint split_go (sep : ascii) (s : string) (cur : string) : list string :=
  match s with
  | EmptyString => [cur]
  | String c s' =>
      if Ascii.eqb c sep then cur :: split_go sep s' ""
      else split_go sep s' (cur +:+ String c "")
  end.

Definition split (sep : ascii) (s : string) : list string := split_go sep s "".

(** [s.split(sep)[i]]: [None] stands for [undefined]. *)
Definition split_at (sep : ascii) (s : string) (i : nat) : option string :=
  split sep s !! i.

(** A template literal interpolates [undefined] as the text "undefined". *)
Definition interp_opt (o : option string) : string :=
  match o with Some s => s | None => "undefined" end.

(** [c] does not occur in [s]. *)
Fixpoint no_char (c : ascii) (s : string) : bool :=
  match s with
  | EmptyString => true
  | String c' s' => negb (Ascii.eqb c c') && no_char c s'
  end.

(** Every character of [s] satisfies [p]. *)
Fixpoint all_chars (p : ascii → bool) (s : string) : bool :=
  match s with
  | EmptyString => true
  | String c s' => p c && all_chars p s'
  end.

Definition is_digit (c : ascii) : bool :=
  (48 <=? nat_of_ascii c) && (nat_of_ascii c <=? 57).

(** The decimal value of a string of digits, read from the left. *)
Fixpoint dec_go (acc : N) (s : string) : N :=
  match s with
  | EmptyString => acc
  | String c s' => dec_go (acc * 10 + N.of_nat (nat_of_ascii c - 48))%N s'
  end.

(** [Number(s)] on the strings the code passes it: a string of decimal
    digits (the empty string included, which [Number] reads as [0]) is
    its value; every other string is [NaN] ([None]).  [Number] also
    accepts signs, decimals, exponents, hexadecimal and surrounding
    blanks, which no caller in the code produces. *)
Definition js_Number (s : string) : option Z :=
  if all_chars is_digit s then Some (Z.of_N (dec_go 0 s)) else None.

(** [String(n)] and template interpolation of a number: [NaN] prints as
    "NaN", an integer as its decimal numeral with a leading "-" when it
    is negative ([pretty] on [Z]). *)
Definition js_num_to_string (n : option Z) : string :=
  match n with Some z => pretty z | None => "NaN" end.

(** The order in which a blob listing returns names: byte-wise
    lexicographic order (on ASCII names, also JavaScript's [<=]). *)
Fixpoint str_leb (a b : string) : bool :=
  match a, b with
  | EmptyString, _ => true
  | String _ _, EmptyString => false
  | String c a', String d b' =>
      (nat_of_ascii c <? nat_of_ascii d) || (Ascii.eqb c d && str_leb a' b')
  end.

Definition str_le (a b : string) : Prop := str_leb a b = true.

#[export] Instance str_le_dec : RelDecision str_le.
Proof. intros a b. unfold str_le. apply _. Defined.

(** [s.split(sep)] joined back with [sep]: [String.concat]. *)
Definition js_join (sep : ascii) (parts : list string) : string :=
  String.concat (String sep "") parts.

(** ** Lemmas *)

Lemma ascii_upper_idem c : ascii_upper (ascii_upper c) = ascii_upper c.
Proof.
  unfold ascii_upper at 2 3.
  destruct ((97 <=? nat_of_ascii c) && (nat_of_ascii c <=? 122)) eqn:E.
  - apply andb_true_iff in E as [E1 E2]. apply Nat.leb_le in E1, E2.
    unfold ascii_upper. rewrite nat_ascii_embedding by lia.
    replace (97 <=? nat_of_ascii c - 32) with false; [done|].
    symmetry. apply Nat.leb_gt. lia.
  - unfold ascii_upper. by rewrite E.
Qed.

Lemma toUpperCase_idem s : toUpperCase (toUpperCase s) = toUpperCase s.
Proof. induction s as [|c s IH]; simpl; [done|]. by rewrite ascii_upper_idem, IH. Qed.

Lemma toUpperCase_length s : String.length (toUpperCase s) = String.length s.
Proof. induction s as [|c s IH]; simpl; congruence. Qed.

#[export] Hint Rewrite toUpperCase_idem toUpperCase_length : ae_rw.

Lemma startsWith_app p s : startsWith (p +:+ s) p = true.
Proof.
  unfold startsWith. induction p as [|c p IH]; simpl.
  - by destruct s.
  - destruct (ascii_dec c c); [done | congruence].
Qed.

Lemma append_inv_head (p a b : string) : p +:+ a = p +:+ b → a = b.
Proof. induction p as [|c p IH]; simpl; [done|]. intros [= H]. by apply IH. Qed.

(** Two strings without [c] followed by [c] split the same way. *)
Lemma no_char_app_inj c p q e e' :
  no_char c p = true → no_char c q = true →
  p +:+ String c e = q +:+ String c e' → p = q ∧ e = e'.
Proof.
  revert q. induction p as [|a p IH]; intros [|b q] Hp Hq; simpl in *.
  - by intros [= ->].
  - intros [= -> _]. apply andb_true_iff in Hq as [Hq _].
    by rewrite Ascii.eqb_refl in Hq.
  - intros [= <- _]. apply andb_true_iff in Hp as [Hp _].
    by rewrite Ascii.eqb_refl in Hp.
  - apply andb_true_iff in Hp as [_ Hp], Hq as [_ Hq].
    intros [= -> Heq]. destruct (IH q Hp Hq Heq) as [-> ->]. done.
Qed.

Lemma string_app_assoc (a b c : string) : a +:+ (b +:+ c) = (a +:+ b) +:+ c.
Proof. induction a as [|x a IH]; [done|]. exact (f_equal (String x) IH). Qed.

(** stdpp makes [String.append] opaque to [simpl]: its two equations. *)
Lemma string_app_cons c (a b : string) : String c a +:+ b = String c (a +:+ b).
Proof. reflexivity. Qed.

Lemma string_app_nil_l (b : string) : "" +:+ b = b.
Proof. reflexivity. Qed.

Lemma string_app_nil_r (a : string) : a +:+ "" = a.
Proof. induction a as [|x a IH]; [done|]. exact (f_equal (String x) IH). Qed.

Lemma all_chars_app p s t : all_chars p (s +:+ t) = all_chars p s && all_chars p t.
Proof. induction s as [|c s IH]; simpl; [done|]. by rewrite IH, andb_assoc. Qed.

Lemma dec_go_app acc s t : dec_go acc (s +:+ t) = dec_go (dec_go acc s) t.
Proof. revert acc. induction s as [|c s IH]; intros acc; simpl; auto. Qed.

Lemma pretty_N_char_digit x : is_digit (pretty_N_char x) = true.
Proof. unfold pretty_N_char. by repeat case_match. Qed.

Lemma pretty_N_char_value x : (x < 10)%N → N.of_nat (nat_of_ascii (pretty_N_char x) - 48) = x.
Proof.
  intros Hx.
  assert (x = 0 ∨ x = 1 ∨ x = 2 ∨ x = 3 ∨ x = 4 ∨ x = 5 ∨ x = 6 ∨ x = 7 ∨ x = 8 ∨ x = 9)%N
    as Hc by lia.
  by repeat destruct Hc as [->|Hc]; [..|subst x].
Qed.

(** [pretty_N_go x s] is the numeral of [x] in front of [s]. *)
Lemma pretty_N_go_app x s : pretty_N_go x s = pretty_N_go x "" +:+ s.
Proof.
  revert s. induction (N.lt_wf_0 x) as [x _ IH]; intros s.
  destruct (decide (x = 0)%N) as [->|Hx]; [by rewrite !pretty_N_go_0|].
  rewrite !(pretty_N_go_step x) by lia.
  assert (Hlt : (x `div` 10 < x)%N) by (apply N.div_lt; lia).
  rewrite (IH _ Hlt (String _ s)), (IH _ Hlt (String _ "")).
  by rewrite <-string_app_assoc.
Qed.

Lemma pretty_N_go_digits x s :
  all_chars is_digit s = true → all_chars is_digit (pretty_N_go x s) = true.
Proof.
  intros Hs. rewrite pretty_N_go_app, all_chars_app, Hs, andb_true_r.
  induction (N.lt_wf_0 x) as [x _ IH].
  destruct (decide (x = 0)%N) as [->|Hx]; [by rewrite pretty_N_go_0|].
  rewrite pretty_N_go_step, pretty_N_go_app, all_chars_app by lia.
  rewrite IH by (apply N.div_lt; lia). simpl. by rewrite pretty_N_char_digit.
Qed.

Lemma pretty_N_go_value x : dec_go 0 (pretty_N_go x "") = x.
Proof.
  induction (N.lt_wf_0 x) as [x _ IH].
  destruct (decide (x = 0)%N) as [->|Hx]; [by rewrite pretty_N_go_0|].
  rewrite pretty_N_go_step, pretty_N_go_app, dec_go_app by lia.
  rewrite IH by (apply N.div_lt; lia). simpl.
  rewrite pretty_N_char_value by (apply N.mod_lt; lia).
  rewrite (N.div_mod x 10) at 3 by lia. lia.
Qed.

(** A decimal numeral is made of digits, and [Number] reads it back. *)
Lemma pretty_nat_digits (n : nat) : all_chars is_digit (pretty n) = true.
Proof.
  unfold pretty, pretty_nat, pretty, pretty_N. case_decide; [done|].
  by apply pretty_N_go_digits.
Qed.

Lemma js_Number_pretty (n : nat) : js_Number (pretty n) = Some (Z.of_nat n).
Proof.
  unfold js_Number. rewrite pretty_nat_digits. f_equal.
  unfold pretty, pretty_nat, pretty, pretty_N. case_decide as Hn.
  - simpl. lia.
  - rewrite pretty_N_go_value. lia.
Qed.

Lemma pretty_Z_of_nat (n : nat) : pretty (Z.of_nat n) = pretty n.
Proof. by destruct n. Qed.

Lemma no_char_app c s t : no_char c (s +:+ t) = no_char c s && no_char c t.
Proof. induction s as [|d s IH]; simpl; [done|]. by rewrite IH, andb_assoc. Qed.

(** A character that is not a digit does not occur in a numeral. *)
Lemma digits_no_char c s :
  is_digit c = false → all_chars is_digit s = true → no_char c s = true.
Proof.
  intros Hc. induction s as [|d s IH]; simpl; [done|].
  intros [Hd Hs]%andb_true_iff. rewrite IH by done. destruct (Ascii.eqb_spec c d); [congruence|done].
Qed.

Lemma pretty_nat_no_char c (n : nat) : is_digit c = false → no_char c (pretty n) = true.
Proof. intros Hc. apply digits_no_char; [done|apply pretty_nat_digits]. Qed.

Lemma pretty_N_char_not_dot x : Ascii.eqb "." (pretty_N_char x) = false.
Proof. unfold pretty_N_char. by repeat case_match. Qed.

Lemma pretty_N_go_no_dot x s : no_char "." s = true → no_char "." (pretty_N_go x s) = true.
Proof.
  revert s. induction (N.lt_wf_0 x) as [x _ IH]; intros s Hs.
  destruct (decide (x = 0)%N) as [->|Hx]; [by rewrite pretty_N_go_0|].
  rewrite pretty_N_go_step by lia. apply IH; [apply N.div_lt; lia|].
  cbn [no_char]. by rewrite pretty_N_char_not_dot, Hs.
Qed.

(** A decimal numeral has no dot. *)
Lemma pretty_nat_no_dot (n : nat) : no_char "." (pretty n) = true.
Proof.
  change (no_char "." (pretty (N.of_nat n)) = true). unfold pretty at 1, pretty_N.
  case_decide; [reflexivity|].
  by apply pretty_N_go_no_dot.
Qed.

(** ** Prefixes *)

Lemma startsWith_iff s p : startsWith s p = true ↔ ∃ t, s = p +:+ t.
Proof.
  unfold startsWith. revert s. induction p as [|c p IH]; intros [|d s]; simpl.
  - split; [by exists ""|done].
  - split; [by exists (String d s)|done].
  - split; [done|]. by intros [t ?].
  - destruct (ascii_dec c d) as [->|Hcd].
    + rewrite IH. split; intros [t Ht]; exists t; [by rewrite Ht|].
      rewrite string_app_cons in Ht. congruence.
    + split; [done|]. intros [t [= ??]]. congruence.
Qed.

(** Two digit strings followed by text: either the numerals are equal,
    or the first one extends the second one by a digit; a dot cannot
    come where the other numeral has a digit. *)
Lemma digits_dot_prefix a b x t :
  all_chars is_digit a = true → all_chars is_digit b = true →
  a +:+ String "." x = b +:+ t →
  (a = b ∧ t = String "." x) ∨ (∃ d r, a = b +:+ String d r ∧ is_digit d = true).
Proof.
  revert a. induction b as [|c b IH]; intros [|d a] Ha Hb Heq; simpl in *.
  - by left.
  - right. exists d, a. split; [done|]. by apply andb_true_iff in Ha as [? _].
  - injection Heq as <- _. apply andb_true_iff in Hb as [Hb _]. done.
  - apply andb_true_iff in Ha as [Hd Ha], Hb as [_ Hb]. injection Heq as <- Heq.
    destruct (IH a Ha Hb Heq) as [[-> ->]|(d' & r & -> & Hd')]; [by left|].
    right. by exists d', r.
Qed.

(** ** The string order *)

Lemma str_leb_refl a : str_leb a a = true.
Proof. induction a as [|c a IH]; simpl; [done|]. by rewrite Ascii.eqb_refl, IH, orb_true_r. Qed.

Lemma nat_of_ascii_inj c d : nat_of_ascii c = nat_of_ascii d → c = d.
Proof. intros H. by rewrite <-(ascii_nat_embedding c), H, ascii_nat_embedding. Qed.

Ltac str_leb_cases :=
  repeat match goal with
  | H : _ || _ = true |- _ => apply orb_true_iff in H as [H|H]
  | H : _ && _ = true |- _ => apply andb_true_iff in H as [H ?]
  | H : (_ <? _) = true |- _ => apply Nat.ltb_lt in H
  | H : Ascii.eqb _ _ = true |- _ => apply Ascii.eqb_eq in H; subst
  end.

Lemma str_leb_trans a b c : str_leb a b = true → str_leb b c = true → str_leb a c = true.
Proof.
  revert b c. induction a as [|x a IH]; intros [|y b] [|z c]; simpl; try done.
  intros Hab Hbc. str_leb_cases; apply orb_true_iff.
  all: first [left; apply Nat.ltb_lt; lia | right; rewrite Ascii.eqb_refl; eauto].
Qed.

Lemma str_leb_total a b : str_leb a b = true ∨ str_leb b a = true.
Proof.
  revert b. induction a as [|x a IH]; intros [|y b]; simpl; auto.
  destruct (decide (nat_of_ascii x < nat_of_ascii y)).
  { left. apply orb_true_iff. left. by apply Nat.ltb_lt. }
  destruct (decide (nat_of_ascii y < nat_of_ascii x)).
  { right. apply orb_true_iff. left. by apply Nat.ltb_lt. }
  assert (x = y) as <- by (apply nat_of_ascii_inj; lia).
  rewrite Ascii.eqb_refl. destruct (IH b); [left|right]; apply orb_true_iff; by right.
Qed.

Lemma str_leb_antisym a b : str_leb a b = true → str_leb b a = true → a = b.
Proof.
  revert b. induction a as [|x a IH]; intros [|y b]; simpl; try done.
  intros Hab Hba. str_leb_cases; try lia. by rewrite (IH b).
Qed.

#[export] Instance str_le_total : Total str_le.
Proof. intros a b. apply str_leb_total. Qed.
#[export] Instance str_le_trans : Transitive str_le.
Proof. intros a b c. apply str_leb_trans. Qed.

Lemma str_leb_app_cancel p a b : str_leb (p +:+ a) (p +:+ b) = str_leb a b.
Proof.
  induction p as [|c p IH]; [done|].
  change (((nat_of_ascii c <? nat_of_ascii c) || (Ascii.eqb c c && str_leb (p +:+ a) (p +:+ b)))
          = str_leb a b).
  rewrite Nat.ltb_irrefl, Ascii.eqb_refl. exact IH.
Qed.

(** A dot sorts before every digit. *)
Lemma str_leb_dot_digit x d r : is_digit d = true → str_leb (String "." x) (String d r) = true.
Proof.
  unfold is_digit. intros Hd. apply andb_true_iff in Hd as [Hd _]. apply Nat.leb_le in Hd.
  simpl. apply orb_true_iff. left. apply Nat.ltb_lt. change (nat_of_ascii ".") with 46. lia.
Qed.

(** ** Splitting *)

Lemma split_go_no_sep sep s cur : no_char sep s = true → split_go sep s cur = [cur +:+ s].
Proof.
  revert cur. induction s as [|c s IH]; intros cur Hs; simpl in *.
  - by rewrite string_app_nil_r.
  - apply andb_true_iff in Hs as [Hc Hs]. rewrite Ascii.eqb_sym in Hc.
    apply negb_true_iff in Hc. rewrite Hc, IH by done. by rewrite <-string_app_assoc.
Qed.

Lemma split_go_app_sep sep s t cur :
  no_char sep s = true → split_go sep (s +:+ String sep t) cur = (cur +:+ s) :: split_go sep t "".
Proof.
  revert cur. induction s as [|c s IH]; intros cur Hs; simpl in *.
  - by rewrite Ascii.eqb_refl, string_app_nil_r.
  - apply andb_true_iff in Hs as [Hc Hs]. rewrite Ascii.eqb_sym in Hc.
    apply negb_true_iff in Hc. rewrite Hc, IH by done. by rewrite <-string_app_assoc.
Qed.
