(* ===== verification/Db.v ===== *)
(** The Prisma database of autoexpense as explicit state.

    Each table is a [gmap] from the primary key [id] to the row; the
    unique index on [normalizedName] of merchants and categories is the
    predicate [unique_on]; [findUnique] on it is [find_unique].  The
    monad [dbm] threads the database and lets a call fail: a statement
    that fails outside a transaction keeps the writes made before it
    (each statement commits), while [transaction] ([db.$transaction])
    rolls every write of its body back when the body fails.

    The row types follow the fields the code reads and writes (the
    Prisma schema itself is not under src/). *)

From S2P Require Import Prelude JsString.

(** ** Enumerations of the schema *)

Inductive UserRole := Normal | Reviewer.
Inductive ExpenseReportStatus := DRAFT | SUBMITTED | REJECTED | APPROVED.

#[export] Instance UserRole_eq_dec : EqDecision UserRole.
Proof. solve_decision. Defined.
#[export] Instance ExpenseReportStatus_eq_dec : EqDecision ExpenseReportStatus.
Proof. solve_decision. Defined.

Record User := mkUser { user_id : string; user_role : UserRole }.

(** ** Rows *)

Record Merchant := mkMerchant {
  merchant_id : string;
  merchant_name : string;
  merchant_normalizedName : string;
  merchant_address : option string;
  merchant_createdAt : Z;
  merchant_updatedAt : Z;
}.

Record Category := mkCategory {
  category_id : string;
  category_name : string;
  category_normalizedName : string;
  category_createdAt : Z;
  category_updatedAt : Z;
}.

Record Receipt := mkReceipt {
  receipt_id : string;
  receipt_expenseReportId : string;
  receipt_merchantId : string;
  receipt_categoryId : string;
  receipt_pageCount : nat;
  receipt_tax : Z;
  receipt_tip : Z;
  receipt_date : option Z;
  receipt_paymentMethod : option string;
  receipt_confidence : Z;
  receipt_currency : string;
  receipt_createdAt : Z;
  receipt_updatedAt : Z;
}.

Record ReceiptLineItem := mkLineItem {
  lineItem_id : string;
  lineItem_receiptId : string;
  lineItem_description : string;
  lineItem_quantity : Z;
  lineItem_unitPrice : Z;
  lineItem_sku : option string;
  lineItem_currency : option string;
  lineItem_createdAt : Z;
  lineItem_updatedAt : Z;
}.

Record ExpenseReport := mkReport {
  report_id : string;
  report_title : string;
  report_description : string;
  report_status : ExpenseReportStatus;
  report_userId : string;
  report_createdAt : Z;
  report_updatedAt : Z;
}.

(** Decidable equality of rows, for [decide] and [simplify_eq]. *)
#[export] Instance Merchant_eq_dec : EqDecision Merchant.
Proof. solve_decision. Defined.
#[export] Instance Category_eq_dec : EqDecision Category.
Proof. solve_decision. Defined.
#[export] Instance Receipt_eq_dec : EqDecision Receipt.
Proof. solve_decision. Defined.
#[export] Instance ReceiptLineItem_eq_dec : EqDecision ReceiptLineItem.
Proof. solve_decision. Defined.
#[export] Instance ExpenseReport_eq_dec : EqDecision ExpenseReport.
Proof. solve_decision. Defined.

(** ** The database *)

Record Db := mkDb {
  db_reports : gmap string ExpenseReport;
  db_receipts : gmap string Receipt;
  db_lineItems : gmap string ReceiptLineItem;
  db_merchants : gmap string Merchant;
  db_categories : gmap string Category;
  db_now : Z;     (** the clock read by [new Date()] and [@default(now())] *)
  db_next : N;    (** the supply of fresh ids for [@default(cuid())] *)
}.

Definition set_reports f d := mkDb (f (db_reports d)) (db_receipts d) (db_lineItems d)
  (db_merchants d) (db_categories d) (db_now d) (db_next d).
Definition set_receipts f d := mkDb (db_reports d) (f (db_receipts d)) (db_lineItems d)
  (db_merchants d) (db_categories d) (db_now d) (db_next d).
Definition set_lineItems f d := mkDb (db_reports d) (db_receipts d) (f (db_lineItems d))
  (db_merchants d) (db_categories d) (db_now d) (db_next d).
Definition set_merchants f d := mkDb (db_reports d) (db_receipts d) (db_lineItems d)
  (f (db_merchants d)) (db_categories d) (db_now d) (db_next d).
Definition set_categories f d := mkDb (db_reports d) (db_receipts d) (db_lineItems d)
  (db_merchants d) (f (db_categories d)) (db_now d) (db_next d).
Definition bump_next d := mkDb (db_reports d) (db_receipts d) (db_lineItems d)
  (db_merchants d) (db_categories d) (db_now d) (db_next d + 1)%N.

(** ** The state-and-error monad of awaited Prisma calls *)

Record dbm (A : Type) : Type := DBM { run_dbm : Db → result A * Db }.
Arguments DBM {A} _.
Arguments run_dbm {A} _ _.

#[export] Instance dbm_ret : MRet dbm := λ A a, DBM (λ d, (Ok a, d)).
#[export] Instance dbm_bind : MBind dbm := λ A B f m, DBM (λ d,
  match run_dbm m d with
  | (Ok a, d') => run_dbm (f a) d'
  | (Err e, d') => (Err e, d')
  end).

Definition dbm_throw {A} (msg : string) : dbm A := DBM (λ d, (Err msg, d)).
Definition dbm_read {A} (f : Db → A) : dbm A := DBM (λ d, (Ok (f d), d)).
Definition dbm_modify (f : Db → Db) : dbm unit := DBM (λ d, (Ok tt, f d)).

(** [db.$transaction(async (tx) => body)]: the body's writes are kept
    only if it succeeds. *)
Definition transaction {A} (body : dbm A) : dbm A := DBM (λ d,
  match run_dbm body d with
  | (Ok a, d') => (Ok a, d')
  | (Err e, _) => (Err e, d)
  end).

(** [@default(cuid())]: a fresh identifier. *)
Definition gen_id (n : N) : string := "c" +:+ pretty n.
Definition fresh_id : dbm string := DBM (λ d, (Ok (gen_id (db_next d)), bump_next d)).

(** ** Unique indexes and primary keys *)

Section UniqueIndex.
Context {R : Type} (key : R → string).

(** [findUnique({ where: { key: v } })] *)
Definition find_unique (v : string) (m : gmap string R) : option R :=
  snd <$> head (map_to_list (filter (λ kv : string * R, key kv.2 = v) m)).

(** The unique index: no two rows share a key value. *)
Definition unique_on (m : gmap string R) : Prop :=
  ∀ k1 k2 r1 r2, m !! k1 = Some r1 → m !! k2 = Some r2 → key r1 = key r2 → k1 = k2.

(** The primary key: every row is stored under its own id. *)
Definition keyed_by (m : gmap string R) : Prop :=
  ∀ k r, m !! k = Some r → key r = k.

End UniqueIndex.

(** ** Prisma calls on the tables *)

(** The messages of Prisma's P2002 (unique constraint) and P2003
    (foreign key) errors. *)
Definition err_unique (field : string) : string :=
  "Unique constraint failed on the fields: (" +:+ field +:+ ")".
Definition err_fk : string := "Foreign key constraint violated".

(** [tx.merchant.findUnique({ where: { normalizedName } })] *)
Definition merchant_findUnique (norm : string) : dbm (option Merchant) :=
  dbm_read (λ d, find_unique merchant_normalizedName norm (db_merchants d)).

(** [tx.merchant.create({ data: { name, address, normalizedName } })]:
    [id] and the timestamps come from the column defaults. *)

(** [tx.merchant.create({ data: { name, address, normalizedName } })]:
    [id] and the timestamps come from the column defaults. *)
Definition merchant_create (name : string) (address : option string) (norm : string)
    : dbm Merchant :=
  id ← fresh_id;
  DBM (λ d, match db_merchants d !! id with
  | Some _ => (Err (err_unique "id"), d)
  | None =>
      match find_unique merchant_normalizedName norm (db_merchants d) with
      | Some _ => (Err (err_unique "normalizedName"), d)
      | None =>
          let m := mkMerchant id name norm address (db_now d) (db_now d) in
          (Ok m, set_merchants (insert id m) d)
      end
  end).

(** [tx.category.findUnique({ where: { normalizedName } })] *)
Definition category_findUnique (norm : string) : dbm (option Category) :=
  dbm_read (λ d, find_unique category_normalizedName norm (db_categories d)).

(** [tx.category.create({ data: { name, normalizedName } })] *)
Definition category_create (name norm : string) : dbm Category :=
  id ← fresh_id;
  DBM (λ d, match db_categories d !! id with
  | Some _ => (Err (err_unique "id"), d)
  | None =>
      match find_unique category_normalizedName norm (db_categories d) with
      | Some _ => (Err (err_unique "normalizedName"), d)
      | None =>
          let c := mkCategory id name norm (db_now d) (db_now d) in
          (Ok c, set_categories (insert id c) d)
      end
  end).

(** Inserting a receipt row: the primary key must be free and the
    report, merchant and category it references must exist. *)
Definition receipt_insert (r : Receipt) : dbm Receipt := DBM (λ d,
  match db_receipts d !! receipt_id r with
  | Some _ => (Err (err_unique "id"), d)
  | None =>
      match db_reports d !! receipt_expenseReportId r,
            db_merchants d !! receipt_merchantId r,
            db_categories d !! receipt_categoryId r with
      | Some _, Some _, Some _ => (Ok r, set_receipts (insert (receipt_id r) r) d)
      | _, _, _ => (Err err_fk, d)
      end
  end).

(** Inserting a line-item row: free primary key, existing receipt. *)
Definition lineItem_insert (li : ReceiptLineItem) : dbm ReceiptLineItem := DBM (λ d,
  match db_lineItems d !! lineItem_id li with
  | Some _ => (Err (err_unique "id"), d)
  | None =>
      match db_receipts d !! lineItem_receiptId li with
      | Some _ => (Ok li, set_lineItems (insert (lineItem_id li) li) d)
      | None => (Err err_fk, d)
      end
  end).

(** Running a Prisma call on each element, in order, stopping at the
    first failure. *)
Fixpoint dbm_mapM {A B} (f : A → dbm B) (l : list A) : dbm (list B) :=
  match l with
  | [] => mret []
  | x :: l' => y ← f x; ys ← dbm_mapM f l'; mret (y :: ys)
  end.

(** The [data] of one line item in [createManyAndReturn]. *)
Record LineItemInput := mkLineItemInput {
  lii_currency : option string;
  lii_receiptId : string;
  lii_description : string;
  lii_unitPrice : Z;
  lii_quantity : Z;
}.

(** The callback of [createManyAndReturn] for one row: [id] and the
    timestamps from the column defaults ([sku] is not in [data]). *)
Definition lineItem_create_one (x : LineItemInput) : dbm ReceiptLineItem :=
  id ← fresh_id;
  now ← dbm_read db_now;
  lineItem_insert (mkLineItem id (lii_receiptId x) (lii_description x)
                     (lii_quantity x) (lii_unitPrice x) None (lii_currency x) now now).

(** [tx.receiptLineItem.createManyAndReturn({ data })]: one statement,
    so all rows are written or none. *)
Definition lineItem_createManyAndReturn (data : list LineItemInput)
    : dbm (list ReceiptLineItem) :=
  transaction (dbm_mapM lineItem_create_one data).

(** ** The well-formedness of the database *)

(** What the schema guarantees of every state: rows stored under their
    primary key, the unique indexes on [normalizedName], the foreign
    keys of receipts and line items, and ids from the [cuid()] supply
    not yet used. *)
Record db_wf (d : Db) : Prop := {
  wf_reports_keyed : keyed_by report_id (db_reports d);
  wf_receipts_keyed : keyed_by receipt_id (db_receipts d);
  wf_lineItems_keyed : keyed_by lineItem_id (db_lineItems d);
  wf_merchants_keyed : keyed_by merchant_id (db_merchants d);
  wf_categories_keyed : keyed_by category_id (db_categories d);
  wf_merchants_unique : unique_on merchant_normalizedName (db_merchants d);
  wf_categories_unique : unique_on category_normalizedName (db_categories d);
  wf_receipt_fk : ∀ k r, db_receipts d !! k = Some r →
    is_Some (db_reports d !! receipt_expenseReportId r) ∧
    is_Some (db_merchants d !! receipt_merchantId r) ∧
    is_Some (db_categories d !! receipt_categoryId r);
  wf_lineItem_fk : ∀ k li, db_lineItems d !! k = Some li →
    is_Some (db_receipts d !! lineItem_receiptId li);
  wf_fresh : ∀ n, (db_next d ≤ n)%N →
    db_merchants d !! gen_id n = None ∧ db_categories d !! gen_id n = None ∧
    db_lineItems d !! gen_id n = None;
}.

(** A call preserves [P] whatever it returns. *)
Definition preserves (P : Db → Prop) {A} (m : dbm A) : Prop :=
  ∀ d r d', P d → run_dbm m d = (r, d') → P d'.

(** [d'] extends [d]: every row of [d] is still in [d'], same clock. *)
Record db_le (d d' : Db) : Prop := {
  le_reports : db_reports d ⊆ db_reports d';
  le_receipts : db_receipts d ⊆ db_receipts d';
  le_lineItems : db_lineItems d ⊆ db_lineItems d';
  le_merchants : db_merchants d ⊆ db_merchants d';
  le_categories : db_categories d ⊆ db_categories d';
  le_now : db_now d' = db_now d;
}.

(** The rows [createManyAndReturn] returns: ids from the supply, in
    order, the clock as timestamps. *)
Fixpoint lineItem_rows (n : N) (now : Z) (data : list LineItemInput) : list ReceiptLineItem :=
  match data with
  | [] => []
  | x :: xs =>
      mkLineItem (gen_id n) (lii_receiptId x) (lii_description x) (lii_quantity x)
        (lii_unitPrice x) None (lii_currency x) now now
      :: lineItem_rows (n + 1)%N now xs
  end.

(** ** A small database for concrete runs *)

Definition example_report : ExpenseReport := mkReport "r1" "Client trip" "" DRAFT "u1" 0 0.
Definition example_db : Db := mkDb {[ "r1" := example_report ]} ∅ ∅ ∅ ∅ 100 0.

(** ** Lemmas *)

Lemma dbm_bind_ok {A B} (m : dbm A) (f : A → dbm B) d a d' :
  run_dbm m d = (Ok a, d') → run_dbm (m ≫= f) d = run_dbm (f a) d'.
Proof. intros H. simpl. by rewrite H. Qed.

Lemma dbm_bind_err {A B} (m : dbm A) (f : A → dbm B) d e d' :
  run_dbm m d = (Err e, d') → run_dbm (m ≫= f) d = (Err e, d').
Proof. intros H. simpl. by rewrite H. Qed.

Lemma run_dbm_ret {A} (a : A) d : run_dbm (mret a) d = (Ok a, d).
Proof. done. Qed.

(** A failed transaction leaves the database as it was. *)
Lemma transaction_err {A} (body : dbm A) d e :
  fst (run_dbm body d) = Err e → run_dbm (transaction body) d = (Err e, d).
Proof. simpl. destruct (run_dbm body d) as [[] ?]; simpl; congruence. Qed.

Lemma transaction_ok {A} (body : dbm A) d a d' :
  run_dbm body d = (Ok a, d') → run_dbm (transaction body) d = (Ok a, d').
Proof. intros H. simpl. by rewrite H. Qed.

Lemma gen_id_inj n1 n2 : gen_id n1 = gen_id n2 → n1 = n2.
Proof. unfold gen_id. intros H. apply (inj pretty). by injection H. Qed.


Section UniqueIndexLemmas.
Context {R : Type} (key : R → string).
Local Abbreviation find_unique := (find_unique key).
Local Abbreviation unique_on := (unique_on key).
Local Abbreviation keyed_by := (keyed_by key).

Lemma find_unique_Some v m r :
  find_unique v m = Some r → ∃ k, m !! k = Some r ∧ key r = v.
Proof.
  unfold find_unique.
  destruct (map_to_list (filter (λ kv : string * R, key kv.2 = v) m))
    as [|[k r'] l] eqn:E; simpl; [done|].
  intros [= ->]. exists k.
  assert ((k, r) ∈ map_to_list (filter (λ kv : string * R, key kv.2 = v) m)) as Hin
    by (rewrite E; left).
  by apply elem_of_map_to_list, map_lookup_filter_Some in Hin.
Qed.

Lemma find_unique_None v m :
  find_unique v m = None ↔ ∀ k r, m !! k = Some r → key r ≠ v.
Proof.
  unfold find_unique. split.
  - destruct (map_to_list (filter (λ kv : string * R, key kv.2 = v) m)) eqn:E;
      simpl; [|done].
    intros _ k r Hk Hv. apply map_to_list_empty_iff in E.
    assert (filter (λ kv : string * R, key kv.2 = v) m !! k = Some r) as Hf
      by (by apply map_lookup_filter_Some).
    by rewrite E, lookup_empty in Hf.
  - intros Hno.
    destruct (map_to_list (filter (λ kv : string * R, key kv.2 = v) m))
      as [|[k r] l] eqn:E; simpl; [done|].
    assert ((k, r) ∈ map_to_list (filter (λ kv : string * R, key kv.2 = v) m)) as Hin
      by (rewrite E; left).
    apply elem_of_map_to_list, map_lookup_filter_Some in Hin as [Hk Hv].
    by destruct (Hno k r Hk).
Qed.

Lemma find_unique_hit v m k r :
  unique_on m → m !! k = Some r → key r = v → find_unique v m = Some r.
Proof.
  intros Hu Hk Hv. destruct (find_unique v m) as [r'|] eqn:E.
  - apply find_unique_Some in E as (k' & Hk' & Hv').
    assert (k' = k) as -> by (eapply Hu; eauto; congruence). congruence.
  - pose proof (proj1 (find_unique_None v m) E) as E'. by destruct (E' k r).
Qed.

Lemma unique_on_insert m k r :
  unique_on m → (∀ k' r', m !! k' = Some r' → key r' = key r → k' = k) →
  unique_on (<[k:=r]> m).
Proof.
  intros Hu Hnew k1 k2 r1 r2 H1 H2 Hkey.
  rewrite lookup_insert in H1, H2.
  repeat case_decide; simplify_eq; eauto using eq_sym.
Qed.

Lemma keyed_by_insert m k r :
  keyed_by m → key r = k → keyed_by (<[k:=r]> m).
Proof.
  intros Hk Hr k' r'. rewrite lookup_insert. case_decide; [intros; simplify_eq|]; eauto.
Qed.

Lemma unique_on_delete m k : unique_on m → unique_on (delete k m).
Proof.
  intros Hu k1 k2 r1 r2 H1 H2. rewrite lookup_delete in H1, H2.
  repeat case_decide; simplify_eq; eauto.
Qed.
End UniqueIndexLemmas.

(** ** Invariants of calls *)

Section Preserves.
Context (P : Db → Prop).

Lemma preserves_ret {A} (a : A) : preserves P (mret a).
Proof. intros d r d' HP [= _ <-]. done. Qed.

Lemma preserves_throw {A} (msg : string) : preserves P (dbm_throw (A:=A) msg).
Proof. intros d r d' HP [= _ <-]. done. Qed.

Lemma preserves_read {A} (f : Db → A) : preserves P (dbm_read f).
Proof. intros d r d' HP [= _ <-]. done. Qed.

Lemma preserves_bind {A B} (m : dbm A) (f : A → dbm B) :
  preserves P m → (∀ a, preserves P (f a)) → preserves P (m ≫= f).
Proof.
  intros Hm Hf d r d' HP. simpl.
  destruct (run_dbm m d) as [[a|e] d1] eqn:E.
  - intros H. eapply Hf; [eapply Hm; eauto | exact H].
  - intros [= _ <-]. eapply Hm; eauto.
Qed.

Lemma preserves_transaction {A} (m : dbm A) : preserves P m → preserves P (transaction m).
Proof.
  intros Hm d r d' HP. simpl.
  destruct (run_dbm m d) as [[a|e] d1] eqn:E; intros [= _ <-]; eauto.
Qed.

Lemma preserves_mapM {A B} (f : A → dbm B) l :
  (∀ x, preserves P (f x)) → preserves P (dbm_mapM f l).
Proof.
  intros Hf. induction l as [|x l IH]; simpl.
  - apply preserves_ret.
  - apply preserves_bind; [done|]. intros b.
    apply preserves_bind; [done|]. intros bs. apply preserves_ret.
Qed.
Lemma preserves_mapM_in {A B} (f : A → dbm B) l :
  (∀ x, x ∈ l → preserves P (f x)) → preserves P (dbm_mapM f l).
Proof.
  induction l as [|x l IH]; intros Hf; simpl.
  - apply preserves_ret.
  - apply preserves_bind; [apply Hf; set_solver|]. intros b.
    apply preserves_bind; [apply IH; set_solver|]. intros bs. apply preserves_ret.
Qed.
End Preserves.

#[export] Hint Resolve preserves_ret preserves_throw preserves_read
  preserves_transaction preserves_mapM : ae.

(** Prove [preserves P m] by following the structure of [m]. *)
Ltac preserves_tac :=
  repeat first
    [ solve [eauto with ae]
    | apply preserves_bind;
        [| match goal with
           | |- ∀ _ : _ * _, _ => intros [? ?]
           | _ => intro
           end]
    | progress case_match ].

(** Unfold the monad and the table calls, and nothing else. *)
Ltac dbm_simpl :=
  cbn [run_dbm mbind dbm_bind mret dbm_ret dbm_read dbm_throw dbm_modify transaction
       fresh_id db_merchants db_categories db_receipts db_lineItems db_reports db_now
       db_next bump_next set_merchants set_categories set_receipts set_lineItems
       set_reports merchant_findUnique category_findUnique merchant_create
       category_create receipt_insert lineItem_insert dbm_mapM
       lineItem_createManyAndReturn fst snd
       merchant_id merchant_name merchant_normalizedName merchant_address merchant_createdAt merchant_updatedAt category_id category_name
       category_normalizedName category_createdAt category_updatedAt receipt_id receipt_expenseReportId receipt_merchantId receipt_categoryId receipt_pageCount receipt_tax receipt_tip
       receipt_date receipt_paymentMethod receipt_confidence receipt_currency receipt_createdAt receipt_updatedAt lineItem_id lineItem_receiptId lineItem_description lineItem_quantity
       lineItem_unitPrice lineItem_sku lineItem_currency lineItem_createdAt lineItem_updatedAt report_id report_title report_description report_status report_userId report_createdAt report_updatedAt lii_currency lii_receiptId lii_description lii_unitPrice lii_quantity].

(** ** The invariant under the writes of the calls *)

Section Wf.
Implicit Types d : Db.

Lemma wf_bump d : db_wf d → db_wf (bump_next d).
Proof. intros []; constructor; simpl; auto. intros n Hn. apply wf_fresh0. lia. Qed.

Lemma gen_id_fresh_ne d n : (db_next d + 1 ≤ n)%N → gen_id n ≠ gen_id (db_next d).
Proof. intros Hn Heq. apply gen_id_inj in Heq. lia. Qed.

Lemma wf_insert_merchant d m :
  db_wf d → merchant_id m = gen_id (db_next d) →
  find_unique merchant_normalizedName (merchant_normalizedName m) (db_merchants d) = None →
  db_wf (set_merchants (insert (merchant_id m) m) (bump_next d)).
Proof.
  intros [] Hid Hfind. rewrite find_unique_None in Hfind.
  constructor; simpl; auto.
  - by apply keyed_by_insert.
  - apply unique_on_insert; [done|]. intros k' r' Hk' Heq. by destruct (Hfind k' r').
  - intros k r Hk. destruct (wf_receipt_fk0 k r Hk) as (? & ? & ?).
    split_and!; [done| |done]. rewrite lookup_insert_is_Some'. auto.
  - intros n Hn. rewrite Hid, lookup_insert_ne by (apply not_eq_sym, gen_id_fresh_ne; lia).
    apply wf_fresh0. lia.
Qed.

Lemma wf_insert_category d c :
  db_wf d → category_id c = gen_id (db_next d) →
  find_unique category_normalizedName (category_normalizedName c) (db_categories d) = None →
  db_wf (set_categories (insert (category_id c) c) (bump_next d)).
Proof.
  intros [] Hid Hfind. rewrite find_unique_None in Hfind.
  constructor; simpl; auto.
  - by apply keyed_by_insert.
  - apply unique_on_insert; [done|]. intros k' r' Hk' Heq. by destruct (Hfind k' r').
  - intros k r Hk. destruct (wf_receipt_fk0 k r Hk) as (? & ? & ?).
    split_and!; [done|done|]. rewrite lookup_insert_is_Some'. auto.
  - intros n Hn. rewrite Hid, lookup_insert_ne by (apply not_eq_sym, gen_id_fresh_ne; lia).
    apply wf_fresh0. lia.
Qed.

Lemma wf_insert_receipt d r :
  db_wf d →
  is_Some (db_reports d !! receipt_expenseReportId r) →
  is_Some (db_merchants d !! receipt_merchantId r) →
  is_Some (db_categories d !! receipt_categoryId r) →
  db_wf (set_receipts (insert (receipt_id r) r) d).
Proof.
  intros [] H1 H2 H3. constructor; simpl; auto.
  - by apply keyed_by_insert.
  - intros k r' Hk. rewrite lookup_insert in Hk. case_decide; simplify_eq; eauto.
  - intros k li Hk. rewrite lookup_insert_is_Some'. eauto.
Qed.

Lemma wf_insert_lineItem d li :
  db_wf d → lineItem_id li = gen_id (db_next d) →
  is_Some (db_receipts d !! lineItem_receiptId li) →
  db_wf (set_lineItems (insert (lineItem_id li) li) (bump_next d)).
Proof.
  intros [] Hid Hfk. constructor; simpl; auto.
  - by apply keyed_by_insert.
  - intros k l Hk. rewrite lookup_insert in Hk. case_decide; simplify_eq; eauto.
  - intros n Hn. rewrite Hid, lookup_insert_ne by (apply not_eq_sym, gen_id_fresh_ne; lia).
    apply wf_fresh0. lia.
Qed.
End Wf.

Section WfCalls.
Lemma fresh_id_wf : preserves db_wf fresh_id.
Proof. intros d r d' Hwf [= _ <-]. by apply wf_bump. Qed.

Lemma merchant_findUnique_wf norm : preserves db_wf (merchant_findUnique norm).
Proof. apply preserves_read. Qed.

Lemma category_findUnique_wf norm : preserves db_wf (category_findUnique norm).
Proof. apply preserves_read. Qed.

Lemma merchant_create_wf name address norm :
  preserves db_wf (merchant_create name address norm).
Proof.
  intros d r d' Hwf. simpl.
  destruct (db_merchants d !! gen_id (db_next d)) eqn:E1;
    [intros [= _ <-]; by apply wf_bump|].
  destruct (find_unique merchant_normalizedName norm (db_merchants d)) eqn:E2;
    intros [= _ <-]; [by apply wf_bump|].
  by apply wf_insert_merchant.
Qed.

Lemma category_create_wf name norm : preserves db_wf (category_create name norm).
Proof.
  intros d r d' Hwf. simpl.
  destruct (db_categories d !! gen_id (db_next d)) eqn:E1;
    [intros [= _ <-]; by apply wf_bump|].
  destruct (find_unique category_normalizedName norm (db_categories d)) eqn:E2;
    intros [= _ <-]; [by apply wf_bump|].
  by apply wf_insert_category.
Qed.

Lemma receipt_insert_wf r : preserves db_wf (receipt_insert r).
Proof.
  intros d res d' Hwf. simpl.
  destruct (db_receipts d !! receipt_id r); [by intros [= _ <-]|].
  destruct (db_reports d !! receipt_expenseReportId r) eqn:E1,
    (db_merchants d !! receipt_merchantId r) eqn:E2,
    (db_categories d !! receipt_categoryId r) eqn:E3; intros [= _ <-]; try done.
  apply wf_insert_receipt; eauto.
Qed.

Lemma lineItem_create_one_wf (x : LineItemInput) : preserves db_wf (lineItem_create_one x).
Proof.
  intros d r d' Hwf. unfold lineItem_create_one. dbm_simpl.
  destruct (db_lineItems d !! gen_id (db_next d)) eqn:E1;
    [intros [= _ <-]; by apply wf_bump|].
  destruct (db_receipts d !! lii_receiptId x) eqn:E2; intros [= _ <-]; [|by apply wf_bump].
  apply (wf_insert_lineItem d (mkLineItem _ _ _ _ _ _ _ _ _)); simpl; eauto.
Qed.

Lemma lineItem_createManyAndReturn_wf data :
  preserves db_wf (lineItem_createManyAndReturn data).
Proof.
  apply preserves_transaction, preserves_mapM. intros x. apply lineItem_create_one_wf.
Qed.
End WfCalls.

#[export] Hint Resolve fresh_id_wf merchant_findUnique_wf category_findUnique_wf
  merchant_create_wf category_create_wf receipt_insert_wf
  lineItem_createManyAndReturn_wf : ae.

(** ** Extension of the database *)

#[export] Instance db_le_preorder : PreOrder db_le.
Proof.
  split.
  - intros d. by constructor.
  - intros d1 d2 d3 [] []. constructor; etrans; eauto.
Qed.

Lemma db_le_bump d : db_le d (bump_next d).
Proof. by constructor. Qed.

Lemma db_le_insert_lineItem d li :
  db_lineItems d !! lineItem_id li = None → db_le d (set_lineItems (insert (lineItem_id li) li) d).
Proof. constructor; simpl; try done. by apply insert_subseteq. Qed.

Lemma db_le_insert_receipt d r :
  db_receipts d !! receipt_id r = None → db_le d (set_receipts (insert (receipt_id r) r) d).
Proof. constructor; simpl; try done. by apply insert_subseteq. Qed.

Lemma db_le_insert_merchant d m :
  db_merchants d !! merchant_id m = None → db_le d (set_merchants (insert (merchant_id m) m) d).
Proof. constructor; simpl; try done. by apply insert_subseteq. Qed.

Lemma db_le_insert_category d c :
  db_categories d !! category_id c = None → db_le d (set_categories (insert (category_id c) c) d).
Proof. constructor; simpl; try done. by apply insert_subseteq. Qed.

#[export] Hint Resolve db_le_bump : ae.

(** ** The line items written by [createManyAndReturn] *)

Lemma lineItem_create_one_run d x :
  db_wf d → is_Some (db_receipts d !! lii_receiptId x) →
  run_dbm (lineItem_create_one x) d =
    (Ok (mkLineItem (gen_id (db_next d)) (lii_receiptId x) (lii_description x) (lii_quantity x)
           (lii_unitPrice x) None (lii_currency x) (db_now d) (db_now d)),
     set_lineItems (insert (gen_id (db_next d))
       (mkLineItem (gen_id (db_next d)) (lii_receiptId x) (lii_description x) (lii_quantity x)
          (lii_unitPrice x) None (lii_currency x) (db_now d) (db_now d))) (bump_next d)).
Proof.
  intros Hwf [r Hr]. unfold lineItem_create_one. dbm_simpl.
  destruct (wf_fresh _ Hwf (db_next d)) as (_ & _ & ->); [lia|]. by rewrite Hr.
Qed.

Lemma lineItem_mapM_spec data : ∀ d,
  db_wf d → Forall (λ x, is_Some (db_receipts d !! lii_receiptId x)) data →
  ∃ d', run_dbm (dbm_mapM lineItem_create_one data) d
          = (Ok (lineItem_rows (db_next d) (db_now d) data), d') ∧
    db_wf d' ∧ db_le d d' ∧ db_receipts d' = db_receipts d ∧
    Forall (λ li, db_lineItems d' !! lineItem_id li = Some li)
      (lineItem_rows (db_next d) (db_now d) data).
Proof.
  induction data as [|x data IH]; intros d Hwf Hfk.
  - exists d. split_and!; done.
  - apply Forall_cons in Hfk as [Hx Hfk]. cbn [dbm_mapM].
    erewrite dbm_bind_ok by (by apply lineItem_create_one_run).
    set (li := mkLineItem _ _ _ _ _ _ _ _ _).
    set (d1 := set_lineItems (insert (gen_id (db_next d)) li) (bump_next d)).
    assert (db_wf d1) as Hwf1 by (by apply (wf_insert_lineItem d li)).
    assert (db_le d d1) as Hle1.
    { etrans; [apply (db_le_bump d)|]. apply (db_le_insert_lineItem (bump_next d) li).
      by destruct (wf_fresh _ Hwf (db_next d)) as (_ & _ & ?); [lia|]. }
    destruct (IH d1) as (d' & Hrun & Hwf' & Hle' & Hrec' & Hall); [done|done|].
    erewrite dbm_bind_ok by exact Hrun.
    exists d'. split_and!; [done|done|by etrans|done|].
    constructor; [|done].
    eapply lookup_weaken; [|apply Hle']. apply lookup_insert_eq.
Qed.

Lemma lineItem_createManyAndReturn_spec d data :
  db_wf d → Forall (λ x, is_Some (db_receipts d !! lii_receiptId x)) data →
  ∃ d', run_dbm (lineItem_createManyAndReturn data) d
          = (Ok (lineItem_rows (db_next d) (db_now d) data), d') ∧
    db_wf d' ∧ db_le d d' ∧ db_receipts d' = db_receipts d ∧
    Forall (λ li, db_lineItems d' !! lineItem_id li = Some li)
      (lineItem_rows (db_next d) (db_now d) data).
Proof.
  intros Hwf Hfk. destruct (lineItem_mapM_spec data d Hwf Hfk) as (d' & Hrun & Hrest).
  exists d'. split; [|done]. by apply transaction_ok.
Qed.

Lemma length_lineItem_rows n now data : length (lineItem_rows n now data) = length data.
Proof. revert n. induction data; simpl; auto. Qed.

Lemma lineItem_rows_receiptId n now data li :
  li ∈ lineItem_rows n now data → ∃ x, x ∈ data ∧ lineItem_receiptId li = lii_receiptId x.
Proof.
  revert n. induction data as [|x data IH]; intros n Hin; simpl in Hin; [set_solver|].
  apply elem_of_cons in Hin as [->|Hin]; [exists x; set_solver|].
  destruct (IH _ Hin) as (y & ? & ?). exists y. set_solver.
Qed.

Lemma receipt_insert_run d r :
  db_receipts d !! receipt_id r = None →
  is_Some (db_reports d !! receipt_expenseReportId r) →
  is_Some (db_merchants d !! receipt_merchantId r) →
  is_Some (db_categories d !! receipt_categoryId r) →
  run_dbm (receipt_insert r) d = (Ok r, set_receipts (insert (receipt_id r) r) d).
Proof. intros H0 [? H1] [? H2] [? H3]. dbm_simpl. by rewrite H0, H1, H2, H3. Qed.

Lemma example_db_wf : db_wf example_db.
Proof.
  constructor; simpl.
  - intros k r. rewrite lookup_singleton. case_decide; intros; by simplify_eq.
  - intros k r. by rewrite lookup_empty.
  - intros k r. by rewrite lookup_empty.
  - intros k r. by rewrite lookup_empty.
  - intros k r. by rewrite lookup_empty.
  - intros k1 k2 r1 r2. by rewrite lookup_empty.
  - intros k1 k2 r1 r2. by rewrite lookup_empty.
  - intros k r. by rewrite lookup_empty.
  - intros k r. by rewrite lookup_empty.
  - intros n _. by rewrite !lookup_empty.
Qed.
