(* ===== verification/Schema.v ===== *)
(** The zod schemas of [src/src/lib/schemas/extract-receipt.ts] and
    their [safeParse] on JSON values.

    A JSON value is [json]; an object is the list of its fields (the
    first occurrence of a key wins, a missing key reads as
    [undefined]).  [safeParse] returns [Some data] on success.  The
    conventions of zod v4 that matter here: [z.object] strips unknown
    keys and rejects non-objects; [.optional()] accepts [undefined]
    (not [null]); a [.default(v)] under [.optional()] still supplies
    [v] for [undefined] (zod v4 behaviour); [.refine] adds a check.

    [new Date(s).getTime()] is the interface [DateParse]: [None] stands
    for [NaN]. *)

From S2P Require Import Prelude JsString.
From Stdlib Require Import Ascii.

#[local] Set Warnings "-register-all".
Inductive json :=
| JUndefined
| JNull
| JBool (b : bool)
| JNum (n : Z)
| JStr (s : string)
| JArr (xs : list json)
| JObj (fields : list (string * json)).

(** [o[k]] *)
Fixpoint get_field (fs : list (string * json)) (k : string) : json :=
  match fs with
  | [] => JUndefined
  | (k', v) :: fs' => if String.eqb k k' then v else get_field fs' k
  end.

(** ** The date parser the schema and the transaction call *)

Class DateParse := date_parse : string → option Z.

(** [new Date(s).getTime()] on ISO dates [YYYY-MM-DD], as a day key
    [YYYYMMDD] that orders dates like the timestamps do; every other
    string is [NaN].  The theorems are stated for any [DateParse]; this
    one is used by the concrete runs. *)
Definition digit (c : ascii) : option nat :=
  let n := nat_of_ascii c in
  if (48 <=? n) && (n <=? 57) then Some (n - 48) else None.

Definition iso_date_parse : DateParse := λ s,
  match String.list_ascii_of_string s with
  | [y1; y2; y3; y4; s1; m1; m2; s2; d1; d2] =>
      if Ascii.eqb s1 "-" && Ascii.eqb s2 "-" then
        y1 ← digit y1; y2 ← digit y2; y3 ← digit y3; y4 ← digit y4;
        m1 ← digit m1; m2 ← digit m2; d1 ← digit d1; d2 ← digit d2;
        let y := y1 * 1000 + y2 * 100 + y3 * 10 + y4 in
        let m := m1 * 10 + m2 in
        let d := d1 * 10 + d2 in
        if (1 <=? m) && (m <=? 12) && (1 <=? d) && (d <=? 31)
        then Some (Z.of_nat (y * 10000 + m * 100 + d))
        else None
      else None
  | _ => None
  end.

(** ** zod primitives *)

Definition z_string (v : json) : option string :=
  match v with JStr s => Some s | _ => None end.

Definition z_number (v : json) : option Z :=
  match v with JNum n => Some n | _ => None end.

(** [.optional()] *)
Definition z_optional {A} (p : json → option A) (v : json) : option (option A) :=
  match v with JUndefined => Some None | _ => Some <$> p v end.

(** [.default(d).optional()] in zod v4: [undefined] becomes [d]. *)
Definition z_default_optional {A} (d : A) (p : json → option A) (v : json) : option A :=
  match v with JUndefined => Some d | _ => p v end.

Definition z_object {A} (p : list (string * json) → option A) (v : json) : option A :=
  match v with JObj fs => p fs | _ => None end.

Definition z_array {A} (p : json → option A) (v : json) : option (list A) :=
  match v with JArr xs => mapM p xs | _ => None end.

(** ** ExtractReceiptLineItemSchema *)

Record ExtractedLineItem := mkExtractedLineItem {
  item_description : string;
  item_sku : option string;
  item_quantity : Z;
  item_unitPrice : Z;
  item_currency : string;
}.

Definition ExtractReceiptLineItemSchema (v : json) : option ExtractedLineItem :=
  z_object (λ fs,
    description ← z_string (get_field fs "description");
    sku ← z_optional z_string (get_field fs "sku");
    quantity ← z_default_optional 1%Z z_number (get_field fs "quantity");
    unitPrice ← z_number (get_field fs "unitPrice");
    currency ← z_default_optional "USD" z_string (get_field fs "currency");
    mret (mkExtractedLineItem description sku quantity unitPrice currency)) v.

(** ** ExtractReceiptSchema *)

Record ExtractedMerchant := mkExtractedMerchant {
  em_name : string;
  em_address : option string;
}.

Record ExtractedReceiptData := mkExtractedReceiptData {
  erd_merchant : ExtractedMerchant;
  erd_date : string;
  erd_currency : string;
  erd_category : option string;
  erd_tax : Z;
  erd_tip : Z;
  erd_paymentMethod : option string;
  erd_confidence : Z;
  erd_items : list ExtractedLineItem;
}.

Section Schemas.
Context {dp : DateParse}.

(** [z.string().refine((x) => !isNaN(new Date(x).getTime()))] *)
Definition z_date_string (v : json) : option string :=
  s ← z_string v;
  match date_parse s with Some _ => Some s | None => None end.

Definition ExtractReceiptSchema (v : json) : option ExtractedReceiptData :=
  z_object (λ fs,
    merchant ← z_object (λ ms,
      name ← z_string (get_field ms "name");
      address ← z_optional z_string (get_field ms "address");
      mret (mkExtractedMerchant name address)) (get_field fs "merchant");
    date ← z_date_string (get_field fs "date");
    currency ← z_string (get_field fs "currency");
    category ← z_optional z_string (get_field fs "category");
    tax ← z_number (get_field fs "tax");
    tip ← z_number (get_field fs "tip");
    paymentMethod ← z_optional z_string (get_field fs "paymentMethod");
    confidence ← z_number (get_field fs "confidence");
    items ← z_array ExtractReceiptLineItemSchema (get_field fs "items");
    mret (mkExtractedReceiptData merchant date currency category tax tip
            paymentMethod confidence items)) v.
End Schemas.

(** ** PartialExtractReceiptSchema *)

Record PartialLineItem := mkPartialLineItem {
  pitem_description : option string;
  pitem_sku : option string;
  pitem_quantity : Z;
  pitem_unitPrice : option Z;
  pitem_currency : string;
}.

Record PartialExtractReceiptData := mkPartialExtractReceiptData {
  prd_merchant : option (option string * option string);
  prd_date : option string;
  prd_currency : option string;
  prd_category : option string;
  prd_tax : option Z;
  prd_tip : option Z;
  prd_paymentMethod : option string;
  prd_confidence : option Z;
  prd_items : option (list PartialLineItem);
}.

(** [ExtractReceiptLineItemSchema.partial()]: every field optional; the
    fields with a default keep it. *)
Definition PartialLineItemSchema (v : json) : option PartialLineItem :=
  z_object (λ fs,
    description ← z_optional z_string (get_field fs "description");
    sku ← z_optional z_string (get_field fs "sku");
    quantity ← z_default_optional 1%Z z_number (get_field fs "quantity");
    unitPrice ← z_optional z_number (get_field fs "unitPrice");
    currency ← z_default_optional "USD" z_string (get_field fs "currency");
    mret (mkPartialLineItem description sku quantity unitPrice currency)) v.

Definition PartialExtractReceiptSchema (v : json) : option PartialExtractReceiptData :=
  z_object (λ fs,
    merchant ← z_optional (z_object (λ ms,
      name ← z_optional z_string (get_field ms "name");
      address ← z_optional z_string (get_field ms "address");
      mret (name, address))) (get_field fs "merchant");
    date ← z_optional z_string (get_field fs "date");
    currency ← z_optional z_string (get_field fs "currency");
    category ← z_optional z_string (get_field fs "category");
    tax ← z_optional z_number (get_field fs "tax");
    tip ← z_optional z_number (get_field fs "tip");
    paymentMethod ← z_optional z_string (get_field fs "paymentMethod");
    confidence ← z_optional z_number (get_field fs "confidence");
    items ← z_optional (z_array PartialLineItemSchema) (get_field fs "items");
    mret (mkPartialExtractReceiptData merchant date currency category tax tip
            paymentMethod confidence items)) v.

(** The view of a full record as a partial one. *)
Definition item_to_partial (i : ExtractedLineItem) : PartialLineItem :=
  mkPartialLineItem (Some (item_description i)) (item_sku i) (item_quantity i)
    (Some (item_unitPrice i)) (item_currency i).

Definition to_partial (d : ExtractedReceiptData) : PartialExtractReceiptData :=
  mkPartialExtractReceiptData
    (Some (Some (em_name (erd_merchant d)), em_address (erd_merchant d)))
    (Some (erd_date d)) (Some (erd_currency d)) (erd_category d)
    (Some (erd_tax d)) (Some (erd_tip d)) (erd_paymentMethod d)
    (Some (erd_confidence d)) (Some (map item_to_partial (erd_items d))).

(** ** Inputs for concrete runs *)

(** A receipt object as the model streams it once complete. *)
Definition sample_receipt_json : json :=
  JObj [("merchant", JObj [("name", JStr "Corner Deli"); ("address", JStr "1 Main St")]);
        ("date", JStr "2024-06-02"); ("currency", JStr "USD"); ("tax", JNum 80);
        ("tip", JNum 150); ("confidence", JNum 1);
        ("items", JArr [JObj [("description", JStr "Sandwich"); ("unitPrice", JNum 900)]])].

Definition sample_receipt_data : ExtractedReceiptData :=
  mkExtractedReceiptData (mkExtractedMerchant "Corner Deli" (Some "1 Main St")) "2024-06-02" "USD"
    None 80 150 None 1 [mkExtractedLineItem "Sandwich" None 1 900 "USD"].

(** ** Lemmas *)

Lemma z_optional_Some {A} (p : json → option A) v a :
  p JUndefined = None → p v = Some a → z_optional p v = Some (Some a).
Proof. intros Hu Hv. destruct v; simpl; rewrite ?Hv; simpl; congruence. Qed.

Lemma z_string_undefined : z_string JUndefined = None.
Proof. reflexivity. Qed.

Lemma z_number_undefined : z_number JUndefined = None.
Proof. reflexivity. Qed.

(** [mapM] of a parser whose results another parser maps. *)
Lemma mapM_refine {A B} (p : json → option A) (q : json → option B) (f : A → B) xs
    (ys : list A) :
  (∀ x a, p x = Some a → q x = Some (f a)) →
  mapM p xs = Some ys → mapM q xs = Some (f <$> ys).
Proof.
  intros Hpq Hys%mapM_Some. apply mapM_Some, Forall2_fmap_r.
  eapply Forall2_impl; [exact Hys|]. intros x a. apply Hpq.
Qed.

(** Reading an optional field that the full schema read as a value. *)
Ltac refine_field H :=
  let Hf := fresh "Hf" in
  match type of H with
  | context [z_string ?v] =>
      destruct (z_string v) eqn:Hf; simpl in H; [|discriminate];
      rewrite (z_optional_Some z_string v _ z_string_undefined Hf)
  | context [z_number ?v] =>
      destruct (z_number v) eqn:Hf; simpl in H; [|discriminate];
      rewrite (z_optional_Some z_number v _ z_number_undefined Hf)
  end.

Lemma line_item_refines x i :
  ExtractReceiptLineItemSchema x = Some i → PartialLineItemSchema x = Some (item_to_partial i).
Proof.
  destruct x as [| | | | | |fs]; try discriminate. cbn [ExtractReceiptLineItemSchema
    PartialLineItemSchema z_object]. intros H.
  refine_field H. simpl.
  destruct (z_optional z_string (get_field fs "sku")) eqn:Hs; simpl in H; [|discriminate].
  destruct (z_default_optional 1%Z z_number _) eqn:Hq; simpl in H; [|discriminate].
  refine_field H. simpl.
  destruct (z_default_optional "USD" z_string _) eqn:Hc; simpl in H; [|discriminate].
  injection H as <-. reflexivity.
Qed.

(** The merchant object of the full schema, read by the partial one. *)
Lemma merchant_refines v m :
  z_object (λ ms,
      name ← z_string (get_field ms "name");
      address ← z_optional z_string (get_field ms "address");
      mret (mkExtractedMerchant name address)) v = Some m →
  z_optional (z_object (λ ms,
      name ← z_optional z_string (get_field ms "name");
      address ← z_optional z_string (get_field ms "address");
      mret (name, address))) v = Some (Some (Some (em_name m), em_address m)).
Proof.
  destruct v as [| | | | | |ms]; try discriminate. cbn [z_object z_optional]. intros H.
  refine_field H. simpl.
  destruct (z_optional z_string (get_field ms "address")) eqn:Ha; simpl in H; [|discriminate].
  by injection H as <-.
Qed.

Section Refinement.
Context {dp : DateParse}.

(** (C30) Refinement of the streamed schema by the final one: every
    object that [ExtractReceiptSchema] accepts, [PartialExtractReceiptSchema]
    accepts too, with the same content ([to_partial]); so the last
    partial object the client shows agrees with the record written to
    the database. *)
Theorem partial_schema_refines v d :
  ExtractReceiptSchema v = Some d → PartialExtractReceiptSchema v = Some (to_partial d).
Proof.
  destruct v as [| | | | | |fs]; try discriminate.
  cbn [ExtractReceiptSchema PartialExtractReceiptSchema z_object]. intros H.
  destruct (z_object _ (get_field fs "merchant")) as [m|] eqn:Hm; simpl in H; [|discriminate].
  rewrite (merchant_refines _ m Hm). simpl.
  unfold z_date_string in H. refine_field H.
  destruct (date_parse _); simpl in H; [|discriminate]. simpl.
  refine_field H. simpl.
  destruct (z_optional z_string (get_field fs "category")) eqn:Hc; simpl in H; [|discriminate].
  refine_field H. simpl. refine_field H. simpl.
  destruct (z_optional z_string (get_field fs "paymentMethod")) eqn:Hp; simpl in H; [|discriminate].
  refine_field H. simpl.
  destruct (get_field fs "items") as [| | | | |xs|] eqn:Hi; simpl in H; try discriminate.
  destruct (mapM ExtractReceiptLineItemSchema xs) as [ys|] eqn:Hys; simpl in H; [|discriminate].
  cbn [z_optional z_array].
  rewrite (mapM_refine _ _ item_to_partial xs ys line_item_refines Hys). simpl.
  by injection H as <-.
Qed.
End Refinement.

Lemma partial_schema_refines_witness :
  PartialExtractReceiptSchema sample_receipt_json = Some (to_partial sample_receipt_data).
Proof. apply (partial_schema_refines (dp:=iso_date_parse)). vm_compute. reflexivity. Defined.
