(* ===== verification/ProcessReceipt.v ===== *)
(** The receipt extraction pipeline of
    [src/src/server/actions/process-receipt.ts].

    - [documentTypeFromMime] classifies the upload;
    - [createMerchantIfNotExists] and [createCategoryIfNotExists] look a
      row up by its upper-cased name and create it when it is missing;
    - [createExpenseReportFromParse] is the [db.$transaction] that
      writes merchant, category, receipt and line items;
    - [extractReceipt_prepare] is the synchronous part of
      [extractReceipt] (its guards and the page files), and
      [extraction_task] the detached [async] task: it forwards every
      partial object of the model to the stream, validates the last
      one, uploads the pages as blobs, runs the transaction and closes
      the stream.

    The hosted model and pdf2pic are inputs: the list of partial
    objects the model streams, and the function from a PDF to its page
    images. *)

From S2P Require Import Prelude JsString Db Schema.
From Stdlib Require Import Init.Byte Ascii.

(** ** documentTypeFromMime *)

Inductive DocumentType := DocImage | DocPdf.

#[export] Instance DocumentType_eq_dec : EqDecision DocumentType.
Proof. solve_decision. Defined.

Definition documentTypeFromMime (mime : string) : result DocumentType :=
  if startsWith mime "image/" then Ok DocImage
  else if includes mime "pdf" || includes mime "acrobat" then Ok DocPdf
  else Err ("can't process file with type: " +:+ mime).

(** ** createMerchantIfNotExists, createCategoryIfNotExists *)

(** [existing ?? created] *)
Definition coalesce {A} (a b : option A) : option A :=
  match a with Some x => Some x | None => b end.

Definition createMerchantIfNotExists (merchant : ExtractedMerchant) : dbm (Merchant * bool) :=
  let normalizedMerchantName := toUpperCase (em_name merchant) in
  existingMerchant ← merchant_findUnique normalizedMerchantName;
  createdMerchant ← (match existingMerchant with
    | None =>
        m ← merchant_create (em_name merchant) (em_address merchant) normalizedMerchantName;
        mret (Some m)
    | Some _ => mret None
    end);
  match coalesce existingMerchant createdMerchant with
  | None => dbm_throw "this shouldnt be possible. merchantId is null"
  | Some merchantToReturn =>
      let wasMerchantCreated := bool_decide (is_Some createdMerchant) in
      mret (merchantToReturn, wasMerchantCreated)
  end.

Definition createCategoryIfNotExists (category : string) : dbm (Category * bool) :=
  let normalizedCategory := toUpperCase category in
  existingCategory ← category_findUnique normalizedCategory;
  createdCategory ← (match existingCategory with
    | None => c ← category_create category normalizedCategory; mret (Some c)
    | Some _ => mret None
    end);
  match coalesce existingCategory createdCategory with
  | None => dbm_throw "this shouldnt be possible. merchantId is null"
  | Some categoryToReturn =>
      let wasCategoryCreated := bool_decide (is_Some createdCategory) in
      mret (categoryToReturn, wasCategoryCreated)
  end.

(** ** createExpenseReportFromParse *)

Definition ExtractionResult : Type :=
  Receipt * list ReceiptLineItem * option Merchant * option Category.

Section Transaction.
Context {dp : DateParse}.

(** [date: new Date(fullReceipt.date)]: Prisma rejects an invalid date. *)
Definition parse_receipt_date (s : string) : dbm Z :=
  match date_parse s with
  | Some t => mret t
  | None => dbm_throw "Invalid value for argument date: Invalid Date"
  end.

Definition lineItemData (receiptId : string) (x : ExtractedLineItem) : LineItemInput :=
  mkLineItemInput (Some (item_currency x)) receiptId (item_description x)
    (item_unitPrice x) (item_quantity x).

Definition createExpenseReportFromParse (fullReceipt : ExtractedReceiptData)
    (reportId receiptId : string) (pageCount : nat) : dbm ExtractionResult :=
  transaction (
    '(merchant, wasMerchantCreated) ← createMerchantIfNotExists (erd_merchant fullReceipt);
    '(category, wasCategoryCreated) ←
      createCategoryIfNotExists (default "Uncategorized" (erd_category fullReceipt));
    date ← parse_receipt_date (erd_date fullReceipt);
    now ← dbm_read db_now;
    createdReceipt ← receipt_insert (mkReceipt receiptId reportId (merchant_id merchant)
      (category_id category) pageCount (erd_tax fullReceipt) (erd_tip fullReceipt)
      (Some date) (erd_paymentMethod fullReceipt) (erd_confidence fullReceipt)
      (erd_currency fullReceipt) now now);
    createdLineItems ← lineItem_createManyAndReturn
      (map (lineItemData receiptId) (erd_items fullReceipt));
    mret (createdReceipt, createdLineItems,
          (if wasMerchantCreated : bool then Some merchant else None),
          (if wasCategoryCreated : bool then Some category else None))).
End Transaction.

(** ** extractReceipt *)

Record File := mkFile {
  file_name : string;
  file_type : string;
  file_bytes : list byte;
}.

(** A [FormData] entry is a file or a string. *)
Inductive FormValue := FVFile (f : File) | FVString (s : string).

Record FormData := mkFormData {
  fd_file : option FormValue;      (** [formData.get("file")] *)
  fd_receiptId : option string;    (** [formData.get("receipt-id") as string] *)
  fd_reportId : option string;     (** [formData.get("report-id") as string] *)
}.

(** The page images sent to the model and uploaded: [{ buffer, extension }]. *)
Record PageFile := mkPageFile {
  page_buffer : list byte;
  page_extension : option string;
}.

(** [!s] on a [string | null]. *)
Definition falsy_string (o : option string) : bool :=
  match o with Some s => String.eqb s "" | None => true end.

(** The value stream of [createStreamableValue]: the values sent with
    [update] and [done], and whether [done] was called. *)
Inductive ReceiptExtractionStreamMessage :=
| MsgPartial (partial : json)
| MsgFinished (res : ExtractionResult).

Record Streamable := mkStreamable {
  sv_values : list ReceiptExtractionStreamMessage;
  sv_closed : bool;
}.

Definition stream_create : Streamable := mkStreamable [] false.
Definition stream_update (s : Streamable) (m : ReceiptExtractionStreamMessage) : Streamable :=
  mkStreamable (sv_values s ++ [m]) (sv_closed s).
Definition stream_done (s : Streamable) (m : option ReceiptExtractionStreamMessage) : Streamable :=
  mkStreamable (sv_values s ++ option_list m) true.

(** The server state the task changes: the database and the blob
    container [receipts]. *)
Record Server := mkServer {
  srv_db : Db;
  srv_blobs : gmap string (list byte);
}.

(** [`${reportId}/${receiptId}/receipt-${index}.${file.extension}`] *)
Definition blob_name (reportId receiptId : string) (index : nat) (ext : option string) : string :=
  reportId +:+ "/" +:+ receiptId +:+ "/receipt-" +:+ pretty index +:+ "." +:+ interp_opt ext.

(** [for (const [index, file] of files.entries()) await blobClient.upload(...)];
    an upload replaces the blob of the same name. *)
Fixpoint upload_pages (reportId receiptId : string) (index : nat) (files : list PageFile)
    (blobs : gmap string (list byte)) : gmap string (list byte) :=
  match files with
  | [] => blobs
  | f :: fs =>
      upload_pages reportId receiptId (S index) fs
        (<[blob_name reportId receiptId index (page_extension f) := page_buffer f]> blobs)
  end.

(** [let last = undefined; for await (...) { last = partialObject; ... }] *)
Definition last_partial (partials : list json) : json :=
  default JUndefined (last partials).

Section Extract.
Context {dp : DateParse} (pdfToImages : list byte → list (list byte)).

(** The synchronous part of [extractReceipt]: the guards, in the order
    of the code, and the page files. *)
Definition extractReceipt_prepare (formData : FormData)
    : result (string * string * list PageFile) :=
  file ← (match fd_file formData with
          | Some (FVFile f) => Ok f
          | _ => Err "did not receive a file"
          end);
  receiptId ← (if falsy_string (fd_receiptId formData)
               then Err "you must provide a receipt id."
               else Ok (default "" (fd_receiptId formData)));
  reportId ← (if falsy_string (fd_reportId formData)
              then Err "you must provide an expense report id"
              else Ok (default "" (fd_reportId formData)));
  documentType ← documentTypeFromMime (file_type file);
  let files :=
    match documentType with
    | DocImage => [mkPageFile (file_bytes file) (split_at "."%char (file_name file) 1)]
    | DocPdf => map (λ x, mkPageFile x (Some "png")) (pdfToImages (file_bytes file))
    end in
  mret (receiptId, reportId, files).

(** The detached task.  When the transaction rejects, the task's
    promise rejects: the stream is left open. *)
Definition extraction_task (partials : list json) (reportId receiptId : string)
    (files : list PageFile) (srv : Server) : Streamable * Server :=
  let stream := foldl (λ s p, stream_update s (MsgPartial p)) stream_create partials in
  match ExtractReceiptSchema (last_partial partials) with
  | Some data =>
      let blobs := upload_pages reportId receiptId 0 files (srv_blobs srv) in
      match run_dbm (createExpenseReportFromParse data reportId receiptId (length files))
              (srv_db srv) with
      | (Ok res, db') => (stream_done stream (Some (MsgFinished res)), mkServer db' blobs)
      | (Err _, db') => (stream, mkServer db' blobs)
      end
  | None => (stream_done stream None, srv)
  end.

Definition extractReceipt (formData : FormData) (partials : list json) (srv : Server)
    : result (Streamable * Server) :=
  '(receiptId, reportId, files) ← extractReceipt_prepare formData;
  mret (extraction_task partials reportId receiptId files srv).
End Extract.

(** ** Inputs for concrete runs *)

Definition example_merchant : ExtractedMerchant := mkExtractedMerchant "Blue Cafe" None.

Definition example_item : ExtractedLineItem := mkExtractedLineItem "Latte" None 2 450 "USD".

Definition example_data : ExtractedReceiptData :=
  mkExtractedReceiptData example_merchant "2024-05-01" "USD" (Some "Meals") 90 100 None 1
    [example_item].

Definition example_receipt_json : json :=
  JObj [("merchant", JObj [("name", JStr "Blue Cafe")]); ("date", JStr "2024-05-01");
        ("currency", JStr "USD"); ("category", JStr "Meals"); ("tax", JNum 90);
        ("tip", JNum 100); ("confidence", JNum 1);
        ("items", JArr [JObj [("description", JStr "Latte"); ("quantity", JNum 2);
                              ("unitPrice", JNum 450)]])].

Definition example_file : File := mkFile "latte.jpg" "image/jpeg" [x01; x02].

Definition example_form : FormData :=
  mkFormData (Some (FVFile example_file)) (Some "rc1") (Some "r1").

Definition example_server : Server := mkServer example_db ∅.

(** ** Deduplication of merchants and categories *)

Section Dedup.
Implicit Types d : Db.

Lemma createMerchantIfNotExists_wf em : preserves db_wf (createMerchantIfNotExists em).
Proof. unfold createMerchantIfNotExists. preserves_tac. Qed.

Lemma createCategoryIfNotExists_wf c : preserves db_wf (createCategoryIfNotExists c).
Proof. unfold createCategoryIfNotExists. preserves_tac. Qed.

(** The outcome of [createMerchantIfNotExists] on a well-formed database. *)
Lemma createMerchantIfNotExists_spec d em :
  db_wf d →
  run_dbm (createMerchantIfNotExists em) d =
  match find_unique merchant_normalizedName (toUpperCase (em_name em)) (db_merchants d) with
  | Some m => (Ok (m, false), d)
  | None =>
      let m := mkMerchant (gen_id (db_next d)) (em_name em) (toUpperCase (em_name em))
                 (em_address em) (db_now d) (db_now d) in
      (Ok (m, true), set_merchants (insert (merchant_id m) m) (bump_next d))
  end.
Proof.
  intros Hwf. unfold createMerchantIfNotExists. dbm_simpl.
  destruct (find_unique merchant_normalizedName _ (db_merchants d)) eqn:E; [done|].
  dbm_simpl. destruct (wf_fresh _ Hwf (db_next d)) as (-> & _ & _); [lia|]. dbm_simpl.
  by rewrite E.
Qed.

(** The same for categories. *)
Theorem createCategoryIfNotExists_correct d c :
  db_wf d →
  run_dbm (createCategoryIfNotExists c) d =
  match find_unique category_normalizedName (toUpperCase c) (db_categories d) with
  | Some cat => (Ok (cat, false), d)
  | None =>
      let cat := mkCategory (gen_id (db_next d)) c (toUpperCase c) (db_now d) (db_now d) in
      (Ok (cat, true), set_categories (insert (category_id cat) cat) (bump_next d))
  end.
Proof.
  intros Hwf. unfold createCategoryIfNotExists. dbm_simpl.
  destruct (find_unique category_normalizedName _ (db_categories d)) eqn:E; [done|].
  dbm_simpl. destruct (wf_fresh _ Hwf (db_next d)) as (_ & -> & _); [lia|]. dbm_simpl.
  by rewrite E.
Qed.

(** (C1) On a well-formed database, [createMerchantIfNotExists]
    succeeds.  When a merchant with the upper-cased name exists it is
    returned with [wasMerchantCreated = false] and nothing is
    written; otherwise a merchant with the next id, the extracted
    name and address and the upper-cased name is inserted and
    returned with [true]. *)
Theorem createMerchantIfNotExists_correct d em :
  db_wf d →
  run_dbm (createMerchantIfNotExists em) d =
  match find_unique merchant_normalizedName (toUpperCase (em_name em)) (db_merchants d) with
  | Some m => (Ok (m, false), d)
  | None =>
      let m := mkMerchant (gen_id (db_next d)) (em_name em) (toUpperCase (em_name em))
                 (em_address em) (db_now d) (db_now d) in
      (Ok (m, true), set_merchants (insert (merchant_id m) m) (bump_next d))
  end.
Proof. apply createMerchantIfNotExists_spec. Qed.

Lemma createMerchantIfNotExists_correct_witness :
  db_wf example_db ∧
  run_dbm (createMerchantIfNotExists example_merchant) example_db =
    (Ok (mkMerchant "c0" "Blue Cafe" "BLUE CAFE" None 100 100, true),
     set_merchants (insert "c0" (mkMerchant "c0" "Blue Cafe" "BLUE CAFE" None 100 100))
       (bump_next example_db)).
Proof.
  split; [apply example_db_wf|].
  rewrite (createMerchantIfNotExists_correct example_db example_merchant example_db_wf).
  reflexivity.
Defined.

(** Deduplication: once [createMerchantIfNotExists] has run for a
    name, running it again for any name with the same upper-case form
    returns the same merchant, reports it as not created, and writes
    nothing. *)
Theorem createMerchantIfNotExists_idempotent d d1 em1 em2 m b :
  db_wf d →
  toUpperCase (em_name em1) = toUpperCase (em_name em2) →
  run_dbm (createMerchantIfNotExists em1) d = (Ok (m, b), d1) →
  run_dbm (createMerchantIfNotExists em2) d1 = (Ok (m, false), d1).
Proof.
  intros Hwf Hname Hrun.
  assert (db_wf d1) as Hwf1 by (eapply createMerchantIfNotExists_wf; eauto).
  rewrite (createMerchantIfNotExists_spec _ _ Hwf1), <-Hname.
  rewrite (createMerchantIfNotExists_spec _ _ Hwf) in Hrun.
  destruct (find_unique _ _ (db_merchants d)) eqn:E; cbn zeta in Hrun; inv_ok;
    [by rewrite E|].
  erewrite find_unique_hit; [done | apply Hwf1 | simpl; apply lookup_insert_eq | done].
Qed.
End Dedup.

(** ** The transaction of createExpenseReportFromParse *)

Section TransactionLemmas.
Context {dp : DateParse}.
Implicit Types d : Db.

Lemma createMerchantIfNotExists_post d em :
  db_wf d →
  ∃ m b d1, run_dbm (createMerchantIfNotExists em) d = (Ok (m, b), d1) ∧
    db_wf d1 ∧ db_le d d1 ∧ db_merchants d1 !! merchant_id m = Some m ∧
    merchant_normalizedName m = toUpperCase (em_name em) ∧
    db_receipts d1 = db_receipts d ∧ db_categories d1 = db_categories d.
Proof.
  intros Hwf. pose proof (createMerchantIfNotExists_spec d em Hwf) as Hrun.
  destruct (find_unique _ _ (db_merchants d)) as [m|] eqn:E.
  - apply find_unique_Some in E as (k & Hk & Hn).
    rewrite <-(wf_merchants_keyed _ Hwf k m Hk) in Hk.
    exists m, false, d. split_and!; done.
  - cbn zeta in Hrun. eexists _, true, _. split_and!; [exact Hrun| | | |done|done|done].
    + by eapply createMerchantIfNotExists_wf.
    + etrans; [apply db_le_bump|]. apply db_le_insert_merchant.
      by destruct (wf_fresh _ Hwf (db_next d)) as (? & _ & _); [lia|].
    + apply lookup_insert_eq.
Qed.

Lemma createCategoryIfNotExists_post d c :
  db_wf d →
  ∃ cat b d1, run_dbm (createCategoryIfNotExists c) d = (Ok (cat, b), d1) ∧
    db_wf d1 ∧ db_le d d1 ∧ db_categories d1 !! category_id cat = Some cat ∧
    category_normalizedName cat = toUpperCase c ∧
    db_receipts d1 = db_receipts d ∧ db_merchants d1 = db_merchants d.
Proof.
  intros Hwf. pose proof (createCategoryIfNotExists_correct d c Hwf) as Hrun.
  destruct (find_unique _ _ (db_categories d)) as [cat|] eqn:E.
  - apply find_unique_Some in E as (k & Hk & Hn).
    rewrite <-(wf_categories_keyed _ Hwf k cat Hk) in Hk.
    exists cat, false, d. split_and!; done.
  - cbn zeta in Hrun. eexists _, true, _. split_and!; [exact Hrun| | | |done|done|done].
    + by eapply createCategoryIfNotExists_wf.
    + etrans; [apply db_le_bump|]. apply db_le_insert_category.
      by destruct (wf_fresh _ Hwf (db_next d)) as (_ & ? & _); [lia|].
    + apply lookup_insert_eq.
Qed.

Lemma createExpenseReportFromParse_preserves_wf data reportId receiptId n :
  preserves db_wf (createExpenseReportFromParse data reportId receiptId n).
Proof.
  apply preserves_transaction. unfold parse_receipt_date.
  preserves_tac; eauto using createMerchantIfNotExists_wf, createCategoryIfNotExists_wf.
Qed.

Lemma createExpenseReportFromParse_rollback data reportId receiptId n d e d' :
  run_dbm (createExpenseReportFromParse data reportId receiptId n) d = (Err e, d') →
  d' = d.
Proof.
  unfold createExpenseReportFromParse. cbn [run_dbm transaction].
  destruct (run_dbm _ d) as [[] ?]; congruence.
Qed.

Lemma createExpenseReportFromParse_success_spec d data reportId receiptId n :
  db_wf d → is_Some (db_reports d !! reportId) → db_receipts d !! receiptId = None →
  is_Some (date_parse (erd_date data)) →
  ∃ r lis om oc d',
    run_dbm (createExpenseReportFromParse data reportId receiptId n) d
      = (Ok (r, lis, om, oc), d') ∧
    db_wf d' ∧ db_le d d' ∧
    db_receipts d' !! receiptId = Some r ∧
    receipt_expenseReportId r = reportId ∧ receipt_pageCount r = n ∧
    (∃ m, db_merchants d' !! receipt_merchantId r = Some m ∧
          merchant_normalizedName m = toUpperCase (em_name (erd_merchant data))) ∧
    (∃ c, db_categories d' !! receipt_categoryId r = Some c ∧
          category_normalizedName c
            = toUpperCase (default "Uncategorized" (erd_category data))) ∧
    length lis = length (erd_items data) ∧
    Forall (λ li, lineItem_receiptId li = receiptId ∧
                  db_lineItems d' !! lineItem_id li = Some li) lis.
Proof.
  intros Hwf Hrep Hnone [t Ht].
  destruct (createMerchantIfNotExists_post d (erd_merchant data) Hwf)
    as (m & b & d1 & Hm & Hwf1 & Hle1 & Hm1 & Hmn & Hr1 & Hc1).
  destruct (createCategoryIfNotExists_post d1 (default "Uncategorized" (erd_category data)) Hwf1)
    as (c & b' & d2 & Hc & Hwf2 & Hle2 & Hc2 & Hcn & Hr2 & Hm2).
  set (r := mkReceipt receiptId reportId (merchant_id m) (category_id c) n (erd_tax data)
              (erd_tip data) (Some t) (erd_paymentMethod data) (erd_confidence data)
              (erd_currency data) (db_now d2) (db_now d2)).
  assert (run_dbm (receipt_insert r) d2 = (Ok r, set_receipts (insert receiptId r) d2)) as Hr.
  { apply receipt_insert_run; simpl.
    - by rewrite Hr2, Hr1.
    - destruct Hrep as [rep Hrep]. exists rep. eapply lookup_weaken; [done|].
      etrans; apply le_reports; eauto.
    - rewrite Hm2. eauto.
    - eauto. }
  set (d3 := set_receipts (insert receiptId r) d2).
  assert (db_wf d3) as Hwf3.
  { apply (wf_insert_receipt d2 r Hwf2); simpl; [|rewrite Hm2|]; eauto.
    destruct Hrep as [rep Hrep]. exists rep. eapply lookup_weaken; [done|].
    etrans; apply le_reports; eauto. }
  assert (db_le d2 d3) as Hle3 by (apply db_le_insert_receipt; simpl; by rewrite Hr2, Hr1).
  destruct (lineItem_createManyAndReturn_spec d3 (map (lineItemData receiptId) (erd_items data)))
    as (d4 & Hl & Hwf4 & Hle4 & Hr4 & Hall); [done| |].
  { apply Forall_forall. intros x Hx. apply list_elem_of_In, in_map_iff in Hx as (y & <- & _).
    simpl. rewrite lookup_insert_eq. eauto. }
  unfold createExpenseReportFromParse.
  erewrite transaction_ok; [do 5 eexists; split; [reflexivity|]|].
  2:{ erewrite dbm_bind_ok by exact Hm. cbn beta iota.
      erewrite dbm_bind_ok by exact Hc. cbn beta iota.
      unfold parse_receipt_date. rewrite Ht. cbn [run_dbm mbind dbm_bind mret dbm_ret dbm_read].
      erewrite dbm_bind_ok by exact Hr. fold d3.
      erewrite dbm_bind_ok by exact Hl. reflexivity. }
  assert (db_le d d4) as Hle by (do 3 (etrans; [eassumption|]); done).
  split_and!; try done.
  - rewrite Hr4. apply lookup_insert_eq.
  - exists m. split; [|done]. eapply lookup_weaken; [exact Hm1|].
    etrans; [apply le_merchants, Hle2|]. etrans; apply le_merchants; eassumption.
  - exists c. split; [|done]. eapply lookup_weaken; [exact Hc2|].
    etrans; apply le_categories; eassumption.
  - by rewrite length_lineItem_rows, length_map.
  - apply Forall_forall. intros li Hli. split.
    + apply lineItem_rows_receiptId in Hli as (x & Hx & ->).
      apply list_elem_of_In, in_map_iff in Hx as (y & <- & _). done.
    + by eapply Forall_forall in Hall.
Qed.
End TransactionLemmas.

Section TransactionClaims.
Context {dp : DateParse}.


(** (C2) Atomicity: when any step of the transaction fails, the
    database is exactly as before (no merchant, category, receipt or
    line item of the failed run remains, and no id is consumed). *)
Theorem createExpenseReportFromParse_atomic data reportId receiptId n d e d' :
  run_dbm (createExpenseReportFromParse data reportId receiptId n) d = (Err e, d') →
  d' = d.
Proof. apply createExpenseReportFromParse_rollback. Qed.

(** (C3) On a well-formed database, for an existing report, an unused
    receipt id and a date the parser accepts, the transaction
    succeeds; the receipt it writes belongs to the report, records the
    page count, points to a merchant and a category whose normalized
    names are the upper-cased extracted names ("Uncategorized" when
    the model gave no category), and one line item per extracted item
    is written for this receipt. *)
Theorem createExpenseReportFromParse_success d data reportId receiptId n :
  db_wf d → is_Some (db_reports d !! reportId) → db_receipts d !! receiptId = None →
  is_Some (date_parse (erd_date data)) →
  ∃ r lis om oc d',
    run_dbm (createExpenseReportFromParse data reportId receiptId n) d
      = (Ok (r, lis, om, oc), d') ∧
    db_wf d' ∧ db_le d d' ∧
    db_receipts d' !! receiptId = Some r ∧
    receipt_expenseReportId r = reportId ∧ receipt_pageCount r = n ∧
    (∃ m, db_merchants d' !! receipt_merchantId r = Some m ∧
          merchant_normalizedName m = toUpperCase (em_name (erd_merchant data))) ∧
    (∃ c, db_categories d' !! receipt_categoryId r = Some c ∧
          category_normalizedName c
            = toUpperCase (default "Uncategorized" (erd_category data))) ∧
    length lis = length (erd_items data) ∧
    Forall (λ li, lineItem_receiptId li = receiptId ∧
                  db_lineItems d' !! lineItem_id li = Some li) lis.
Proof. apply createExpenseReportFromParse_success_spec. Qed.
End TransactionClaims.

(** The database after extracting [example_data] into receipt [rc1]. *)
Definition example_db_after : Db :=
  snd (run_dbm (createExpenseReportFromParse (dp:=iso_date_parse) example_data "r1" "rc1" 1)
         example_db).


Lemma createExpenseReportFromParse_atomic_witness :
  run_dbm (createExpenseReportFromParse (dp:=iso_date_parse) example_data "r1" "rc1" 1)
    example_db_after = (Err (err_unique "id"), example_db_after).
Proof.
  assert (run_dbm (createExpenseReportFromParse (dp:=iso_date_parse) example_data "r1" "rc1" 1)
            example_db_after
          = (Err (err_unique "id"),
             snd (run_dbm (createExpenseReportFromParse (dp:=iso_date_parse) example_data
                             "r1" "rc1" 1) example_db_after))) as Hrun
    by (vm_compute; reflexivity).
  rewrite Hrun, (createExpenseReportFromParse_atomic _ _ _ _ _ _ _ Hrun). reflexivity.
Defined.

Lemma createExpenseReportFromParse_success_witness :
  ∃ r lis om oc d',
    run_dbm (createExpenseReportFromParse (dp:=iso_date_parse) example_data "r1" "rc1" 1)
      example_db = (Ok (r, lis, om, oc), d') ∧
    db_wf d' ∧ db_le example_db d' ∧ db_receipts d' !! "rc1" = Some r ∧
    receipt_expenseReportId r = "r1" ∧ receipt_pageCount r = 1 ∧
    (∃ m, db_merchants d' !! receipt_merchantId r = Some m ∧
          merchant_normalizedName m = toUpperCase (em_name (erd_merchant example_data))) ∧
    (∃ c, db_categories d' !! receipt_categoryId r = Some c ∧
          category_normalizedName c
            = toUpperCase (default "Uncategorized" (erd_category example_data))) ∧
    length lis = length (erd_items example_data) ∧
    Forall (λ li, lineItem_receiptId li = "rc1" ∧
                  db_lineItems d' !! lineItem_id li = Some li) lis.
Proof.
  apply (createExpenseReportFromParse_success (dp:=iso_date_parse)).
  - apply example_db_wf.
  - eexists; reflexivity.
  - reflexivity.
  - eexists; reflexivity.
Defined.

Section DuplicateReceipt.
Context {dp : DateParse}.

(** Extracting twice into the same receipt id fails: when the
    receipt id is already taken the transaction reports Prisma's
    unique-constraint error and leaves the database unchanged (the
    merchant or category it may have created is rolled back). *)
Theorem createExpenseReportFromParse_duplicate d data reportId receiptId n r0 :
  db_wf d → db_receipts d !! receiptId = Some r0 → is_Some (date_parse (erd_date data)) →
  run_dbm (createExpenseReportFromParse data reportId receiptId n) d
    = (Err (err_unique "id"), d).
Proof.
  intros Hwf Hr0 [t Ht].
  destruct (createMerchantIfNotExists_post d (erd_merchant data) Hwf)
    as (m & b & d1 & Hm & _ & _ & _ & _ & Hr1 & _).
  destruct (createCategoryIfNotExists_post d1 (default "Uncategorized" (erd_category data)))
    as (c & b' & d2 & Hc & _ & _ & _ & _ & Hr2 & _);
    [by eapply createMerchantIfNotExists_wf|].
  apply transaction_err.
  erewrite dbm_bind_ok by exact Hm. cbn beta iota.
  erewrite dbm_bind_ok by exact Hc. cbn beta iota.
  unfold parse_receipt_date. rewrite Ht. dbm_simpl. by rewrite Hr2, Hr1, Hr0.
Qed.
End DuplicateReceipt.

(** ** The extraction task and its stream *)

Lemma stream_updates_partials (partials : list json) s0 :
  foldl (λ s p, stream_update s (MsgPartial p)) s0 partials
  = mkStreamable (sv_values s0 ++ map MsgPartial partials) (sv_closed s0).
Proof.
  revert s0. induction partials as [|p ps IH]; intros [vs c]; simpl.
  - by rewrite app_nil_r.
  - rewrite IH. simpl. by rewrite <-app_assoc.
Qed.

(** The three outcomes of the task, as values. *)
Lemma extraction_task_ok {dp : DateParse} partials reportId receiptId files srv data res d' :
  ExtractReceiptSchema (last_partial partials) = Some data →
  run_dbm (createExpenseReportFromParse data reportId receiptId (length files)) (srv_db srv)
    = (Ok res, d') →
  extraction_task partials reportId receiptId files srv
  = (mkStreamable (map MsgPartial partials ++ [MsgFinished res]) true,
     mkServer d' (upload_pages reportId receiptId 0 files (srv_blobs srv))).
Proof. intros Hs Hr. unfold extraction_task. by rewrite stream_updates_partials, Hs, Hr. Qed.

Lemma extraction_task_err {dp : DateParse} partials reportId receiptId files srv data e d' :
  ExtractReceiptSchema (last_partial partials) = Some data →
  run_dbm (createExpenseReportFromParse data reportId receiptId (length files)) (srv_db srv)
    = (Err e, d') →
  extraction_task partials reportId receiptId files srv
  = (mkStreamable (map MsgPartial partials) false,
     mkServer d' (upload_pages reportId receiptId 0 files (srv_blobs srv))).
Proof. intros Hs Hr. unfold extraction_task. by rewrite stream_updates_partials, Hs, Hr. Qed.

Lemma extraction_task_none {dp : DateParse} partials reportId receiptId files srv :
  ExtractReceiptSchema (last_partial partials) = None →
  extraction_task partials reportId receiptId files srv
  = (mkStreamable (map MsgPartial partials) true, srv).
Proof.
  intros Hs. unfold extraction_task. rewrite stream_updates_partials, Hs. simpl.
  unfold stream_done. simpl. by rewrite app_nil_r.
Qed.

Section Task.
Context {dp : DateParse}.

(** (C5) The stream protocol: the stream carries every partial object
    of the model, in order, followed by at most one more message, a
    [finished] message holding exactly what the transaction returned
    for the last partial object once it validates.  The stream is
    left open exactly when the last object validates and the
    transaction fails. *)
Theorem extraction_task_protocol partials reportId receiptId files srv :
  let '(s, srv') := extraction_task partials reportId receiptId files srv in
  ∃ fin,
    sv_values s = map MsgPartial partials ++ option_list (MsgFinished <$> fin) ∧
    (∀ res, fin = Some res → ∃ data,
       ExtractReceiptSchema (last_partial partials) = Some data ∧
       run_dbm (createExpenseReportFromParse data reportId receiptId (length files))
         (srv_db srv) = (Ok res, srv_db srv')) ∧
    (sv_closed s = false ↔ ∃ data e,
       ExtractReceiptSchema (last_partial partials) = Some data ∧
       fst (run_dbm (createExpenseReportFromParse data reportId receiptId (length files))
              (srv_db srv)) = Err e).
Proof.
  unfold extraction_task. rewrite stream_updates_partials.
  destruct (ExtractReceiptSchema (last_partial partials)) as [data|] eqn:Hs.
  - destruct (run_dbm (createExpenseReportFromParse data reportId receiptId (length files))
                (srv_db srv)) as [[res|e] db'] eqn:Hr; cbn beta iota zeta;
      cbn [stream_done stream_create sv_values sv_closed app option_list].
    + exists (Some res). split_and!; [done| |].
      * intros ? [= <-]. exists data. by rewrite Hr.
      * split; [done|]. intros (data' & e & [= <-] & He). by rewrite Hr in He.
    + exists None. split_and!; [simpl; by rewrite app_nil_r|intros ? [=]|].
      split; [|done]. intros _. exists data, e. by rewrite Hr.
  - cbn [stream_done stream_create sv_values sv_closed app option_list].
    exists None. split_and!; [simpl; by rewrite app_nil_r|intros ? [=]|].
    split; [done|]. by intros (? & ? & ? & _).
Qed.

(** (C6) When the last object validates but the transaction fails,
    the page images have already been uploaded and stay in the blob
    container, the database is unchanged, and the stream is never
    closed (the task's promise rejects). *)
Theorem extraction_task_tx_failure partials reportId receiptId files srv data e :
  ExtractReceiptSchema (last_partial partials) = Some data →
  fst (run_dbm (createExpenseReportFromParse data reportId receiptId (length files))
         (srv_db srv)) = Err e →
  extraction_task partials reportId receiptId files srv =
    (mkStreamable (map MsgPartial partials) false,
     mkServer (srv_db srv) (upload_pages reportId receiptId 0 files (srv_blobs srv))).
Proof.
  intros Hs He. unfold extraction_task. rewrite stream_updates_partials, Hs.
  destruct (run_dbm _ (srv_db srv)) as [[res|e'] db'] eqn:Hr; simpl in He; [done|].
  apply createExpenseReportFromParse_rollback in Hr as ->. done.
Qed.

(** When the last object does not validate (or the model sent
    nothing), the stream is closed after the partial objects and
    nothing is written: no blob, no row. *)
Theorem extraction_task_invalid partials reportId receiptId files srv :
  ExtractReceiptSchema (last_partial partials) = None →
  extraction_task partials reportId receiptId files srv =
    (mkStreamable (map MsgPartial partials) true, srv).
Proof.
  intros Hs. unfold extraction_task. rewrite stream_updates_partials, Hs.
  unfold stream_done. simpl. by rewrite app_nil_r.
Qed.
End Task.

(** ** Blob names and uploads *)

Lemma blob_name_inj reportId receiptId i j e e' :
  blob_name reportId receiptId i e = blob_name reportId receiptId j e' → i = j.
Proof.
  unfold blob_name. intros Heq.
  do 4 apply append_inv_head in Heq. cbn [String.append] in Heq.
  apply no_char_app_inj in Heq as [Hp _]; [|apply pretty_nat_no_dot..].
  by apply (inj pretty).
Qed.

(** Names outside the pages from [index] on are untouched. *)
Lemma upload_pages_other reportId receiptId index files blobs name :
  (∀ j e, index ≤ j → name ≠ blob_name reportId receiptId j e) →
  upload_pages reportId receiptId index files blobs !! name = blobs !! name.
Proof.
  revert index blobs. induction files as [|f fs IH]; intros index blobs Hname; simpl; [done|].
  rewrite IH by (intros j e ?; apply Hname; lia).
  rewrite lookup_insert_ne; [done|]. intros Heq. by apply (Hname index (page_extension f)).
Qed.

Lemma upload_pages_lookup_spec reportId receiptId files blobs i f :
  files !! i = Some f →
  upload_pages reportId receiptId 0 files blobs
    !! blob_name reportId receiptId i (page_extension f) = Some (page_buffer f).
Proof.
  change i with (0 + i) at 2. generalize 0 as k. revert i blobs.
  induction files as [|g gs IH]; intros [|i] blobs k Hi; simpl in Hi; simplify_eq; simpl.
  - rewrite upload_pages_other; [by rewrite Nat.add_0_r, lookup_insert_eq|].
    intros j e Hj Heq. apply blob_name_inj in Heq. lia.
  - replace (k + S i) with (S k + i) by lia. by apply IH.
Qed.

(** Upload round trip: after the upload loop, page [i] of the
    receipt is stored, byte for byte, under
    [reportId/receiptId/receipt-i.ext]; a later page never overwrites
    an earlier one. *)
Theorem upload_pages_lookup reportId receiptId files blobs i f :
  files !! i = Some f →
  upload_pages reportId receiptId 0 files blobs
    !! blob_name reportId receiptId i (page_extension f) = Some (page_buffer f).
Proof. apply upload_pages_lookup_spec. Qed.

Lemma ExtractReceiptSchema_date {dp : DateParse} v data :
  ExtractReceiptSchema v = Some data → is_Some (date_parse (erd_date data)).
Proof.
  unfold ExtractReceiptSchema, z_object. destruct v; try discriminate.
  intros Hv. simplify_option_eq. unfold z_date_string in *. simplify_option_eq.
  destruct (date_parse _) eqn:E; simplify_eq. eauto.
Qed.

Section EndToEnd.
Context {dp : DateParse} (pdfToImages : list byte → list (list byte)).

(** (C7) End to end: when the form passes the guards, the database
    is well formed, the report exists and the receipt id is unused,
    and the model's last object validates, [extractReceipt] streams
    the partial objects and then one [finished] message and closes
    the stream; the receipt of that message is in the database, in the
    report, with the page count of the upload and one line item per
    extracted item, and every page is stored as a blob. *)
Theorem extractReceipt_commits formData partials srv receiptId reportId files data :
  extractReceipt_prepare pdfToImages formData = Ok (receiptId, reportId, files) →
  db_wf (srv_db srv) → is_Some (db_reports (srv_db srv) !! reportId) →
  db_receipts (srv_db srv) !! receiptId = None →
  ExtractReceiptSchema (last_partial partials) = Some data →
  ∃ s srv' r lis om oc,
    extractReceipt pdfToImages formData partials srv = Ok (s, srv') ∧
    sv_values s = map MsgPartial partials ++ [MsgFinished (r, lis, om, oc)] ∧
    sv_closed s = true ∧
    db_receipts (srv_db srv') !! receiptId = Some r ∧
    receipt_expenseReportId r = reportId ∧ receipt_pageCount r = length files ∧
    length lis = length (erd_items data) ∧
    (∀ i f, files !! i = Some f →
       srv_blobs srv' !! blob_name reportId receiptId i (page_extension f)
         = Some (page_buffer f)).
Proof.
  intros Hprep Hwf Hrep Hnone Hs.
  destruct (createExpenseReportFromParse_success_spec (srv_db srv) data reportId receiptId
              (length files) Hwf Hrep Hnone (ExtractReceiptSchema_date _ _ Hs))
    as (r & lis & om & oc & d' & Hrun & _ & _ & Hr & Hrep' & Hn & _ & _ & Hlen & _).
  unfold extractReceipt. rewrite Hprep. cbn [mbind result_bind].
  unfold extraction_task. rewrite stream_updates_partials, Hs, Hrun.
  do 6 eexists. split; [reflexivity|]. simpl.
  split_and!; try done. intros i f Hi. by apply upload_pages_lookup_spec.
Qed.
End EndToEnd.

(** ** Concrete runs of the theorems *)

Lemma createMerchantIfNotExists_idempotent_witness :
  let m := mkMerchant "c0" "Blue Cafe" "BLUE CAFE" None 100 100 in
  let d1 := set_merchants (insert "c0" m) (bump_next example_db) in
  run_dbm (createMerchantIfNotExists (mkExtractedMerchant "blue CAFE" (Some "Main St"))) d1
    = (Ok (m, false), d1).
Proof.
  apply (createMerchantIfNotExists_idempotent example_db _ example_merchant _ _ true).
  - apply example_db_wf.
  - reflexivity.
  - reflexivity.
Defined.

Lemma example_db_after_wf : db_wf example_db_after.
Proof.
  apply (createExpenseReportFromParse_preserves_wf (dp:=iso_date_parse) example_data "r1" "rc1" 1
           example_db
           (fst (run_dbm (createExpenseReportFromParse (dp:=iso_date_parse) example_data
                            "r1" "rc1" 1) example_db))
           _ example_db_wf).
  apply surjective_pairing.
Qed.

Lemma createExpenseReportFromParse_duplicate_witness :
  run_dbm (createExpenseReportFromParse (dp:=iso_date_parse) example_data "r1" "rc1" 1)
    example_db_after = (Err (err_unique "id"), example_db_after).
Proof.
  destruct (db_receipts example_db_after !! "rc1") as [r0|] eqn:E;
    [|vm_compute in E; discriminate].
  apply (createExpenseReportFromParse_duplicate (dp:=iso_date_parse) _ _ _ _ _ r0).
  - apply example_db_after_wf.
  - exact E.
  - eexists; reflexivity.
Defined.

Definition example_pages : list PageFile :=
  [mkPageFile [x01] (Some "png"); mkPageFile [x02] (Some "png")].

Lemma extraction_task_tx_failure_witness :
  extraction_task (dp:=iso_date_parse) [example_receipt_json] "r9" "rc1" example_pages
    example_server =
  (mkStreamable [MsgPartial example_receipt_json] false,
   mkServer example_db (upload_pages "r9" "rc1" 0 example_pages ∅)).
Proof.
  apply (extraction_task_tx_failure (dp:=iso_date_parse) [example_receipt_json] "r9" "rc1"
           example_pages example_server example_data err_fk).
  - reflexivity.
  - vm_compute. reflexivity.
Defined.

Lemma extraction_task_invalid_witness :
  extraction_task (dp:=iso_date_parse) [JObj [("merchant", JNull)]] "r1" "rc1" example_pages
    example_server =
  (mkStreamable [MsgPartial (JObj [("merchant", JNull)])] true, example_server).
Proof.
  apply (extraction_task_invalid (dp:=iso_date_parse) [JObj [("merchant", JNull)]] "r1" "rc1"
           example_pages example_server).
  reflexivity.
Defined.

Lemma upload_pages_lookup_witness :
  upload_pages "r1" "rc1" 0 example_pages ∅ !! blob_name "r1" "rc1" 1 (Some "png") = Some [x02].
Proof. apply (upload_pages_lookup _ _ _ _ 1 (mkPageFile [x02] (Some "png"))). reflexivity. Defined.

Lemma extractReceipt_commits_witness :
  ∃ s srv' r lis om oc,
    extractReceipt (dp:=iso_date_parse) (λ _, []) example_form [JObj []; example_receipt_json]
      example_server = Ok (s, srv') ∧
    sv_values s = map MsgPartial [JObj []; example_receipt_json]
                  ++ [MsgFinished (r, lis, om, oc)] ∧
    sv_closed s = true ∧
    db_receipts (srv_db srv') !! "rc1" = Some r ∧
    receipt_expenseReportId r = "r1" ∧ receipt_pageCount r = 1 ∧
    length lis = length (erd_items example_data) ∧
    (∀ i f, [mkPageFile [x01; x02] (Some "jpg")] !! i = Some f →
       srv_blobs srv' !! blob_name "r1" "rc1" i (page_extension f) = Some (page_buffer f)).
Proof.
  apply (extractReceipt_commits (dp:=iso_date_parse) (λ _, []) example_form
           [JObj []; example_receipt_json] example_server "rc1" "r1"
           [mkPageFile [x01; x02] (Some "jpg")] example_data).
  - reflexivity.
  - apply example_db_wf.
  - eexists; reflexivity.
  - reflexivity.
  - reflexivity.
Defined.
