(* ===== verification/Pdf.v ===== *)
(** The conversion of a PDF into page images, [pdfToImages] of
    [src/src/lib/pdf.ts], and the Node.js [Buffer]s it receives.

    pdf2pic renders every page ([bulk(-1)]) and hands each page over as
    the [Buffer] that [Buffer.concat] made of the output of the
    converter.  A Node [Buffer] is a view [byteOffset .. byteOffset +
    length] on an [ArrayBuffer], and [pdfToImages] returns
    [x.buffer!.buffer], the whole [ArrayBuffer] of each view.

    The [ArrayBuffer]s are a shared store ([Heap]): Node's [allocate]
    gives a result under half of [Buffer.poolSize] (8192 bytes) a slice
    of the current pool [ArrayBuffer], 8-byte aligned, and a larger one
    an [ArrayBuffer] of its own.  Views on the pool alias: the bytes
    [pdfToImages] returns for them are those of the pool after the last
    page.  The rendering itself is not modelled: the page bytes are an
    input, and so are the (uninitialised) bytes of a new pool. *)

From S2P Require Import Prelude JsString Db Schema ProcessReceipt.
From Stdlib Require Import Init.Byte.

#[local] Set Warnings "-clear-no-such-hyp".

(** A Node [Buffer]: a view on the [ArrayBuffer] [nb_ab] of the heap. *)
Record NodeBuffer := mkNodeBuffer {
  nb_ab : nat;
  nb_byteOffset : nat;
  nb_length : nat;
}.

Definition poolSize : nat := 8 * 1024.  (** [Buffer.poolSize], 8192 *)

(** The [ArrayBuffer]s, the next fresh one, and the pool:
    [allocPool] and [poolOffset]. *)
Record Heap := mkHeap {
  heap_abs : gmap nat (list byte);
  heap_next : nat;
  heap_pool : nat;
  heap_poolOffset : nat;
}.

(** [alignPool]: [if (poolOffset & 0x7) { poolOffset |= 0x7; poolOffset++; }] *)
Definition alignPool (n : nat) : nat := if n mod 8 =? 0 then n else n - n mod 8 + 8.

(** A new [ArrayBuffer] holding [bytes]. *)
Definition new_ab (bytes : list byte) (h : Heap) : nat * Heap :=
  (heap_next h, mkHeap (<[heap_next h := bytes]> (heap_abs h)) (S (heap_next h))
                   (heap_pool h) (heap_poolOffset h)).

(** [createPool()]: a new pool of [poolSize] uninitialised bytes. *)
Definition createPool (fresh : list byte) (h : Heap) : Heap :=
  let '(id, h') := new_ab fresh h in mkHeap (heap_abs h') (heap_next h') id 0.

(** [Buffer.concat(chunks)] of the bytes [data]: [allocUnsafe(length)]
    ([allocate]) and the copy of the chunks into it. *)
Definition buffer_concat (fresh : list byte) (h : Heap) (data : list byte) : NodeBuffer * Heap :=
  let size := length data in
  if size =? 0 then let '(id, h') := new_ab [] h in (mkNodeBuffer id 0 0, h')
  else if size <? poolSize / 2 then
    let h := if poolSize - heap_poolOffset h <? size then createPool fresh h else h in
    let off := heap_poolOffset h in
    let pool := default [] (heap_abs h !! heap_pool h) in
    let pool' := take off pool ++ data ++ drop (off + size) pool in
    (mkNodeBuffer (heap_pool h) off size,
     mkHeap (<[heap_pool h := pool']> (heap_abs h)) (heap_next h) (heap_pool h) (alignPool (off + size)))
  else let '(id, h') := new_ab data h in (mkNodeBuffer id 0 size, h').

(** The pages as pdf2pic returns them, one [Buffer.concat] each. *)
Fixpoint convert_pages (fresh : list byte) (h : Heap) (pages : list (list byte))
    : list NodeBuffer * Heap :=
  match pages with
  | [] => ([], h)
  | p :: ps =>
      let '(b, h1) := buffer_concat fresh h p in
      let '(bs, h2) := convert_pages fresh h1 ps in (b :: bs, h2)
  end.

(** [const ALL_PAGES_SENTINEL_VALUE = -1] *)
Definition ALL_PAGES_SENTINEL_VALUE : Z := (-1)%Z.

(** [conversionResult.map((x) => x.buffer!.buffer)], read in the heap
    after the conversion of all pages. *)
Definition images_of (h : Heap) (conversionResult : list NodeBuffer) : list (list byte) :=
  map (λ x, default [] (heap_abs h !! nb_ab x)) conversionResult.

(** [pdfToImages(pdfBuffer)]: pdf2pic renders the pages of the PDF
    ([render], an input) and [convert.bulk(ALL_PAGES_SENTINEL_VALUE,
    { responseType: "buffer" })] hands them over as [Buffer]s, allocated
    from the heap [h] of the Node process. *)
Definition pdfToImages (render : list byte → list (list byte)) (fresh : list byte) (h : Heap)
    (pdfBuffer : list byte) : list (list byte) :=
  let conversion := convert_pages fresh h (render pdfBuffer) in
  images_of conversion.2 conversion.1.

(** ** Lemmas *)

Lemma buffer_concat_large fresh h data :
  poolSize / 2 ≤ length data →
  buffer_concat fresh h data =
    (mkNodeBuffer (heap_next h) 0 (length data),
     mkHeap (<[heap_next h := data]> (heap_abs h)) (S (heap_next h)) (heap_pool h) (heap_poolOffset h)).
Proof.
  intros Hs. change (poolSize / 2) with 4096 in Hs. unfold buffer_concat. cbv zeta.
  rewrite (proj2 (Nat.eqb_neq _ _)) by lia. change (poolSize / 2) with 4096.
  by rewrite (proj2 (Nat.ltb_ge _ _)) by lia.
Qed.

(** A page under 4096 bytes that fits in the rest of the pool is
    written into the pool. *)
Lemma buffer_concat_small fresh h data pool :
  0 < length data < poolSize / 2 → heap_abs h !! heap_pool h = Some pool →
  heap_poolOffset h + length data ≤ poolSize →
  buffer_concat fresh h data =
    (mkNodeBuffer (heap_pool h) (heap_poolOffset h) (length data),
     mkHeap (<[heap_pool h := take (heap_poolOffset h) pool ++ data
                              ++ drop (heap_poolOffset h + length data) pool]> (heap_abs h))
       (heap_next h) (heap_pool h) (alignPool (heap_poolOffset h + length data))).
Proof.
  intros Hs Hpool Hfit. change (poolSize / 2) with 4096 in Hs. unfold buffer_concat. cbv zeta.
  rewrite (proj2 (Nat.eqb_neq _ _)) by lia. change (poolSize / 2) with 4096.
  rewrite (proj2 (Nat.ltb_lt _ _)) by lia. rewrite (proj2 (Nat.ltb_ge _ _)) by lia.
  by rewrite Hpool.
Qed.

Lemma convert_pages_cons fresh h p ps :
  convert_pages fresh h (p :: ps) =
    ((buffer_concat fresh h p).1 :: (convert_pages fresh (buffer_concat fresh h p).2 ps).1,
     (convert_pages fresh (buffer_concat fresh h p).2 ps).2).
Proof. simpl. destruct (buffer_concat fresh h p). by destruct (convert_pages _ _ ps). Qed.

(** Converting pages that each own an [ArrayBuffer] leaves the older
    [ArrayBuffer]s as they were. *)
Lemma convert_large_older fresh h pages id :
  Forall (λ p, poolSize / 2 ≤ length p) pages → id < heap_next h →
  heap_abs (convert_pages fresh h pages).2 !! id = heap_abs h !! id.
Proof.
  intros Hall. revert h. induction Hall as [|p ps Hp _ IH]; intros h Hid; [done|].
  rewrite convert_pages_cons, buffer_concat_large by done. cbn [fst snd].
  rewrite IH by (cbn; lia). cbn. by rewrite lookup_insert_ne by lia.
Qed.

Lemma pool_write_length (pool data : list byte) off :
  length pool = poolSize → off + length data ≤ poolSize →
  length (take off pool ++ data ++ drop (off + length data) pool) = poolSize.
Proof. intros Hp Hs. rewrite !length_app, length_take, length_drop, Nat.min_l by lia. lia. Qed.

(** ** Properties *)

Lemma images_of_large_pages fresh h pages :
  Forall (λ p, poolSize / 2 ≤ length p) pages →
  images_of (convert_pages fresh h pages).2 (convert_pages fresh h pages).1 = pages.
Proof.
  intros Hall. revert h. induction Hall as [|p ps Hp Hps IH]; intros h; [done|].
  rewrite convert_pages_cons, buffer_concat_large by done. cbn [fst snd images_of map].
  f_equal; [|apply IH]. rewrite convert_large_older by (done || cbn; lia).
  cbn. by rewrite lookup_insert_eq.
Qed.

(** Pages of at least 4096 bytes come back from [pdfToImages] byte for
    byte: each owns its [ArrayBuffer]. *)
Theorem pdfToImages_large_pages render fresh h pdf :
  Forall (λ p, poolSize / 2 ≤ length p) (render pdf) → pdfToImages render fresh h pdf = render pdf.
Proof. apply images_of_large_pages. Qed.

(** Two small pages that fit in the current pool alias: [pdfToImages]
    returns for both the same 8192 bytes, the whole pool, which holds
    both pages; neither page comes back on its own. *)
Theorem pdfToImages_small_pages_alias render fresh h pool pdf p1 p2 :
  render pdf = [p1; p2] →
  0 < length p1 < poolSize / 2 → 0 < length p2 < poolSize / 2 →
  heap_abs h !! heap_pool h = Some pool → length pool = poolSize →
  heap_poolOffset h + length p1 ≤ poolSize →
  alignPool (heap_poolOffset h + length p1) + length p2 ≤ poolSize →
  ∃ q, pdfToImages render fresh h pdf = [q; q] ∧ length q = poolSize.
Proof.
  intros Hr H1 H2 Hpool Hlen Hfit1 Hfit2. unfold pdfToImages. rewrite Hr.
  rewrite !convert_pages_cons, (buffer_concat_small _ _ p1 pool) by done. cbn [fst snd].
  rewrite (buffer_concat_small _ _ p2 (take (heap_poolOffset h) pool ++ p1
                                         ++ drop (heap_poolOffset h + length p1) pool))
    by (cbn; rewrite ?lookup_insert_eq; done || lia).
  cbn. rewrite !lookup_insert_eq. cbn. eexists. split; [reflexivity|].
  apply pool_write_length; [apply pool_write_length|]; lia.
Qed.

(** The page files [extractReceipt] makes of a PDF are the images of
    [pdfToImages], each with the extension [png]. *)
Lemma prepare_pdf_files P formData f receiptId reportId files :
  fd_file formData = Some (FVFile f) → documentTypeFromMime (file_type f) = Ok DocPdf →
  extractReceipt_prepare P formData = Ok (receiptId, reportId, files) →
  files = map (λ x, mkPageFile x (Some "png")) (P (file_bytes f)).
Proof.
  intros Hf Hdoc. unfold extractReceipt_prepare. rewrite Hf. simpl.
  destruct (falsy_string (fd_receiptId formData)); [done|]. simpl.
  destruct (falsy_string (fd_reportId formData)); [done|]. simpl.
  rewrite Hdoc. simpl. by intros [= _ _ <-].
Qed.

(** (C8) A PDF of two pages whose PNGs are under 4096 bytes and fit in
    Node's Buffer pool is stored as two identical blobs: [extractReceipt]
    uploads as [receipt-0.png] and [receipt-1.png] the same 8192 bytes,
    the whole pool holding both pages. *)
Theorem pdf_small_pages_stored_alike render fresh h pool formData f p1 p2 receiptId reportId files blobs :
  fd_file formData = Some (FVFile f) → documentTypeFromMime (file_type f) = Ok DocPdf →
  extractReceipt_prepare (pdfToImages render fresh h) formData = Ok (receiptId, reportId, files) →
  render (file_bytes f) = [p1; p2] →
  0 < length p1 < poolSize / 2 → 0 < length p2 < poolSize / 2 →
  heap_abs h !! heap_pool h = Some pool → length pool = poolSize →
  heap_poolOffset h + length p1 ≤ poolSize →
  alignPool (heap_poolOffset h + length p1) + length p2 ≤ poolSize →
  ∃ q, length q = poolSize ∧
    upload_pages reportId receiptId 0 files blobs !! blob_name reportId receiptId 0 (Some "png") = Some q ∧
    upload_pages reportId receiptId 0 files blobs !! blob_name reportId receiptId 1 (Some "png") = Some q.
Proof.
  intros Hf Hdoc Hprep Hr H1 H2 Hpool Hlen Hfit1 Hfit2.
  apply (prepare_pdf_files _ _ f) in Hprep as ->; [|done..].
  destruct (pdfToImages_small_pages_alias render fresh h pool (file_bytes f) p1 p2) as (q & Hq & Hql);
    [done..|].
  exists q. rewrite Hq. split; [done|]. split.
  - by apply (upload_pages_lookup_spec _ _ _ _ 0 (mkPageFile q (Some "png"))).
  - by apply (upload_pages_lookup_spec _ _ _ _ 1 (mkPageFile q (Some "png"))).
Qed.

(** ** Witnesses *)

Definition page_a : list byte := [x89; x50; x4e; x47].
Definition page_b : list byte := [x89; x50; x4e; x48].
Definition heap_start : Heap := mkHeap {[0 := replicate poolSize x00]} 1 0 0.

(** A renderer that gives two tiny pages for any document. *)
Definition render_two_small (_ : list byte) : list (list byte) := [page_a; page_b].

Lemma pdfToImages_small_pages_alias_witness :
  ∃ q, pdfToImages render_two_small [] heap_start [] = [q; q] ∧ length q = poolSize.
Proof.
  apply (pdfToImages_small_pages_alias render_two_small [] heap_start (replicate poolSize x00) [] page_a page_b);
    [reflexivity|cbn; lia|cbn; lia|reflexivity|apply length_replicate|cbn; lia|cbn; lia].
Defined.

Lemma pdfToImages_large_pages_witness :
  pdfToImages (λ _, [replicate 4096 x01]) [] heap_start [] = [replicate 4096 x01].
Proof. apply pdfToImages_large_pages. apply Forall_singleton. rewrite length_replicate. cbn; lia. Defined.

Definition pdf_form : FormData :=
  mkFormData (Some (FVFile (mkFile "scan.pdf" "application/pdf" []))) (Some "rc9") (Some "r1").

Lemma pdf_small_pages_stored_alike_witness :
  ∃ q, length q = poolSize ∧
    upload_pages "r1" "rc9" 0 (map (λ x, mkPageFile x (Some "png")) (pdfToImages render_two_small [] heap_start []))
      ∅ !! blob_name "r1" "rc9" 0 (Some "png") = Some q ∧
    upload_pages "r1" "rc9" 0 (map (λ x, mkPageFile x (Some "png")) (pdfToImages render_two_small [] heap_start []))
      ∅ !! blob_name "r1" "rc9" 1 (Some "png") = Some q.
Proof.
  apply (pdf_small_pages_stored_alike render_two_small [] heap_start (replicate poolSize x00) pdf_form
           (mkFile "scan.pdf" "application/pdf" []) page_a page_b);
    [reflexivity|reflexivity|reflexivity|reflexivity|cbn; lia|cbn; lia|reflexivity|
     apply length_replicate|cbn; lia|cbn; lia].
Defined.
