(* ===== verification/Actions.v ===== *)
(** The CRUD server actions of [src/src/server/actions/]: [report.ts],
    [receipt.ts], [receipt-line-item.ts], [merchant.ts] and
    [category.ts], and the [getCurrentUser] they start with
    ([src/src/lib/auth.ts]).

    A table is reached through [Table], a record of operations (read
    the map, change it, the primary key of a row, the foreign keys a
    row needs); [update], [delete], [createMany] and [findMany] are
    written once against it.  Each action is a [dbm] program; the
    current user is an argument.  The ownership sets of [update*] and
    [delete*] are read before the transaction, as in the code. *)

From S2P Require Import Prelude JsString Db.

(** ** Tables *)

Record Table (R : Type) := mkTable {
  t_get : Db → gmap string R;
  t_modify : (gmap string R → gmap string R) → Db → Db;
  t_id : R → string;
  t_unique : Db → R → bool; (** no other row has the row's unique fields *)
  t_fk : Db → R → bool;     (** the rows a row refers to exist *)
}.
Arguments t_get {R} _ _.
Arguments t_modify {R} _ _ _.
Arguments t_id {R} _ _.
Arguments t_unique {R} _ _ _.
Arguments t_fk {R} _ _ _.

(** [@unique] on a field other than the id: no row with another id has
    the same value. *)
Definition unique_free {R} (id field : R → string) (tbl : gmap string R) (row : R) : bool :=
  forallb (λ kv, String.eqb kv.1 (id row) || negb (String.eqb (field kv.2) (field row)))
    (map_to_list tbl).

Definition reports_table : Table ExpenseReport :=
  mkTable _ db_reports set_reports report_id (λ _ _, true) (λ _ _, true).
Definition receipts_table : Table Receipt :=
  mkTable _ db_receipts set_receipts receipt_id (λ _ _, true) (λ d r,
    bool_decide (is_Some (db_reports d !! receipt_expenseReportId r)) &&
    bool_decide (is_Some (db_merchants d !! receipt_merchantId r)) &&
    bool_decide (is_Some (db_categories d !! receipt_categoryId r))).
Definition lineItems_table : Table ReceiptLineItem :=
  mkTable _ db_lineItems set_lineItems lineItem_id (λ _ _, true) (λ d li,
    bool_decide (is_Some (db_receipts d !! lineItem_receiptId li))).
Definition merchants_table : Table Merchant :=
  mkTable _ db_merchants set_merchants merchant_id
    (λ d m, unique_free merchant_id merchant_normalizedName (db_merchants d) m) (λ _ _, true).
Definition categories_table : Table Category :=
  mkTable _ db_categories set_categories category_id
    (λ d c, unique_free category_id category_normalizedName (db_categories d) c) (λ _ _, true).

(** Prisma's P2025 error. *)
Definition err_not_found : string := "Record to update or delete does not exist.".

Section TableOps.
Context {R : Type} (t : Table R).

(** [tx.T.update({ where: { id: row.id }, data: row })] *)
Definition table_update (row : R) : dbm R := DBM (λ d,
  match t_get t d !! t_id t row with
  | None => (Err err_not_found, d)
  | Some _ =>
      if negb (t_unique t d row) then (Err (err_unique "normalizedName"), d)
      else if t_fk t d row then (Ok row, t_modify t (insert (t_id t row) row) d)
      else (Err err_fk, d)
  end).

(** [tx.T.delete({ where: { id } })] *)
Definition table_delete (id : string) : dbm R := DBM (λ d,
  match t_get t d !! id with
  | None => (Err err_not_found, d)
  | Some row => (Ok row, t_modify t (delete id) d)
  end).

(** [db.T.createMany({ data })]: one statement, all rows or none. *)
Definition table_createMany (rows : list R) : dbm unit :=
  transaction (dbm_mapM (λ row, DBM (λ d,
    match t_get t d !! t_id t row with
    | Some _ => (Err (err_unique "id"), d)
    | None =>
        if negb (t_unique t d row) then (Err (err_unique "normalizedName"), d)
        else if t_fk t d row then (Ok tt, t_modify t (insert (t_id t row) row) d)
        else (Err err_fk, d)
    end)) rows ≫= λ _, mret tt).

(** [db.T.findMany({ where })]: the rows that pass the filter. *)
Definition table_findMany (P : Db → R → bool) : dbm (list R) :=
  dbm_read (λ d, filter (λ row, P d row = true) (map_to_list (t_get t d)).*2).
End TableOps.

(** The law of a table: writing through [t_modify] is what reading
    through [t_get] sees. *)
Definition table_laws {R} (t : Table R) : Prop :=
  ∀ f d, t_get t (t_modify t f d) = f (t_get t d).

(** ** getCurrentUser *)

(** [auth.api.getSession(...)]: the session's user, if any. *)
Definition getCurrentUser (session : option User) : result User :=
  match session with
  | None => Err "not logged in"
  | Some u => Ok u
  end.

(** ** report.ts *)

Definition report_visible (user : User) (r : ExpenseReport) : bool :=
  match user_role user with
  | Normal => String.eqb (report_userId r) (user_id user)
  | Reviewer => bool_decide (report_status r ≠ DRAFT)
  end.

Definition getReports (user : User) : dbm (list ExpenseReport) :=
  table_findMany reports_table (λ _ r, report_visible user r).

(** [d.map((x) => ({ ...x, userId: user.id }))] *)
Definition with_user (user : User) (r : ExpenseReport) : ExpenseReport :=
  mkReport (report_id r) (report_title r) (report_description r) (report_status r)
    (user_id user) (report_createdAt r) (report_updatedAt r).

Definition createReports (user : User) (d : list ExpenseReport) : dbm unit :=
  table_createMany reports_table (map (with_user user) d).

Definition report_owned (userId : string) (d : Db) (id : string) : bool :=
  match db_reports d !! id with
  | Some r => String.eqb (report_userId r) userId
  | None => false
  end.

(** [getOwnedReportIds]: the ids of the list that name a report of the user. *)
Definition getOwnedReportIds (reportIds : list string) (userId : string) : dbm (list string) :=
  dbm_read (λ d, filter (λ id, report_owned userId d id = true) reportIds).

(** [{ ...update, updatedAt: new Date() }] *)
Definition report_touch (now : Z) (r : ExpenseReport) : ExpenseReport :=
  mkReport (report_id r) (report_title r) (report_description r) (report_status r)
    (report_userId r) (report_createdAt r) now.

(** The guard of the loops: [user.role !== Reviewer && !owned.has(id)]. *)
Definition skip_unowned (user : User) (owned : list string) (id : string) : bool :=
  negb (bool_decide (user_role user = Reviewer)) && negb (bool_decide (id ∈ owned)).

Definition updateReports (user : User) (updates : list ExpenseReport) : dbm unit :=
  ownedReportIds ← getOwnedReportIds (map report_id updates) (user_id user);
  transaction (dbm_mapM (λ update,
    if skip_unowned user ownedReportIds (report_id update) then mret tt
    else now ← dbm_read db_now;
         _ ← table_update reports_table (report_touch now update);
         mret tt) updates ≫= λ _, mret tt).

Definition deleteReports (user : User) (reportIds : list string) : dbm unit :=
  ownedReportIds ← getOwnedReportIds reportIds (user_id user);
  transaction (dbm_mapM (λ id,
    if skip_unowned user ownedReportIds id then mret tt
    else _ ← table_delete reports_table id; mret tt) reportIds ≫= λ _, mret tt).

(** ** receipt.ts *)

Definition receipt_visible (user : User) (d : Db) (r : Receipt) : bool :=
  match user_role user with
  | Normal => report_owned (user_id user) d (receipt_expenseReportId r)
  | Reviewer => true
  end.

Definition getReceipts (user : User) : dbm (list Receipt) :=
  table_findMany receipts_table (receipt_visible user).

(** [createReceipts] reads the user but checks nothing. *)
Definition createReceipts (user : User) (receipts : list Receipt) : dbm unit :=
  table_createMany receipts_table receipts.

Definition receipt_owned (userId : string) (d : Db) (id : string) : bool :=
  match db_receipts d !! id with
  | Some r => report_owned userId d (receipt_expenseReportId r)
  | None => false
  end.

Definition getOwnedReceipts (receiptIds : list string) (userId : string) : dbm (list string) :=
  dbm_read (λ d, filter (λ id, receipt_owned userId d id = true) receiptIds).

Definition receipt_touch (now : Z) (r : Receipt) : Receipt :=
  mkReceipt (receipt_id r) (receipt_expenseReportId r) (receipt_merchantId r)
    (receipt_categoryId r) (receipt_pageCount r) (receipt_tax r) (receipt_tip r)
    (receipt_date r) (receipt_paymentMethod r) (receipt_confidence r) (receipt_currency r)
    (receipt_createdAt r) now.

Definition updateReceipts (user : User) (updates : list Receipt) : dbm unit :=
  ownedReceiptIds ← getOwnedReceipts (map receipt_id updates) (user_id user);
  transaction (dbm_mapM (λ u,
    if skip_unowned user ownedReceiptIds (receipt_id u) then mret tt
    else now ← dbm_read db_now;
         _ ← table_update receipts_table (receipt_touch now u);
         mret tt) updates ≫= λ _, mret tt).

Definition deleteReceipts (user : User) (receiptIds : list string) : dbm unit :=
  ownedReceiptIds ← getOwnedReceipts receiptIds (user_id user);
  transaction (dbm_mapM (λ id,
    if skip_unowned user ownedReceiptIds id then mret tt
    else _ ← table_delete receipts_table id; mret tt) receiptIds ≫= λ _, mret tt).

(** ** receipt-line-item.ts *)

Definition lineItem_visible (user : User) (d : Db) (li : ReceiptLineItem) : bool :=
  match user_role user with
  | Normal => receipt_owned (user_id user) d (lineItem_receiptId li)
  | Reviewer => true
  end.

Definition getReceiptLineItems (user : User) : dbm (list ReceiptLineItem) :=
  table_findMany lineItems_table (lineItem_visible user).

(** [Array.from(new Set(items.map((x) => x.receiptId)))], then the owned ones. *)
Definition createReceiptLineItems (user : User) (items : list ReceiptLineItem) : dbm unit :=
  ownedReceiptIds ← getOwnedReceipts (remove_dups (map lineItem_receiptId items)) (user_id user);
  table_createMany lineItems_table
    (filter (λ i, bool_decide (user_role user = Reviewer) ||
                  bool_decide (lineItem_receiptId i ∈ ownedReceiptIds) = true) items).

Definition lineItem_owned (userId : string) (d : Db) (id : string) : bool :=
  match db_lineItems d !! id with
  | Some li => receipt_owned userId d (lineItem_receiptId li)
  | None => false
  end.

Definition getOwnedLineItems (lineItemIds : list string) (userId : string) : dbm (list string) :=
  dbm_read (λ d, filter (λ id, lineItem_owned userId d id = true) lineItemIds).

Definition lineItem_touch (now : Z) (li : ReceiptLineItem) : ReceiptLineItem :=
  mkLineItem (lineItem_id li) (lineItem_receiptId li) (lineItem_description li)
    (lineItem_quantity li) (lineItem_unitPrice li) (lineItem_sku li) (lineItem_currency li)
    (lineItem_createdAt li) now.

Definition updateReceiptLineItems (user : User) (updates : list ReceiptLineItem) : dbm unit :=
  ownedLineItemIds ← getOwnedLineItems (map lineItem_id updates) (user_id user);
  transaction (dbm_mapM (λ u,
    if skip_unowned user ownedLineItemIds (lineItem_id u) then mret tt
    else now ← dbm_read db_now;
         _ ← table_update lineItems_table (lineItem_touch now u);
         mret tt) updates ≫= λ _, mret tt).

Definition deleteReceiptLineItems (user : User) (lineItemIds : list string) : dbm unit :=
  ownedLineItemIds ← getOwnedLineItems lineItemIds (user_id user);
  transaction (dbm_mapM (λ id,
    if skip_unowned user ownedLineItemIds id then mret tt
    else _ ← table_delete lineItems_table id; mret tt) lineItemIds ≫= λ _, mret tt).

(** ** merchant.ts: no ownership checks *)

Definition getMerchants : dbm (list Merchant) := table_findMany merchants_table (λ _ _, true).

Definition with_normalized_name (m : Merchant) : Merchant :=
  mkMerchant (merchant_id m) (merchant_name m) (toUpperCase (merchant_name m))
    (merchant_address m) (merchant_createdAt m) (merchant_updatedAt m).

Definition createMerchants (merchants : list Merchant) : dbm unit :=
  table_createMany merchants_table (map with_normalized_name merchants).

Definition merchant_touch (now : Z) (m : Merchant) : Merchant :=
  mkMerchant (merchant_id m) (merchant_name m) (merchant_normalizedName m)
    (merchant_address m) (merchant_createdAt m) now.

Definition updateMerchants (updates : list Merchant) : dbm unit :=
  transaction (dbm_mapM (λ u,
    now ← dbm_read db_now; _ ← table_update merchants_table (merchant_touch now u); mret tt)
    updates ≫= λ _, mret tt).

Definition deleteMerchants (merchantIds : list string) : dbm unit :=
  transaction (dbm_mapM (λ id, _ ← table_delete merchants_table id; mret tt) merchantIds
    ≫= λ _, mret tt).

(** ** category.ts *)

Definition getCategories : dbm (list Category) := table_findMany categories_table (λ _ _, true).

Definition createCategories (d : list Category) : dbm unit :=
  table_createMany categories_table d.

(** [tx.expenseReport.update({ data: { ...update, updatedAt }, where: { id } })]
    with a category as [update]: the [data] object has the fields
    [name] and [normalizedName], which an expense report does not have,
    so Prisma rejects the call before it reaches the database. *)
Definition expenseReport_update_with_category (update : Category) : dbm unit :=
  dbm_throw "Unknown argument `name`. Available options are marked with ?.".

Definition updateCategories (updates : list Category) : dbm unit :=
  transaction (dbm_mapM expenseReport_update_with_category updates ≫= λ _, mret tt).

(** [deleteCategories] deletes expense reports, by the ids it is given. *)
Definition deleteCategories (reportIds : list string) : dbm unit :=
  transaction (dbm_mapM (λ id, _ ← table_delete reports_table id; mret tt) reportIds
    ≫= λ _, mret tt).

(** ** A database with two users for concrete runs *)

Definition user_u1 : User := mkUser "u1" Normal.
Definition user_u2 : User := mkUser "u2" Normal.

Definition report_r1 : ExpenseReport := mkReport "r1" "Client trip" "" DRAFT "u1" 0 0.
Definition report_r2 : ExpenseReport := mkReport "r2" "Conference" "" SUBMITTED "u2" 0 0.
Definition merchant_m1 : Merchant := mkMerchant "m1" "Blue Cafe" "BLUE CAFE" None 0 0.
Definition category_k1 : Category := mkCategory "k1" "Meals" "MEALS" 0 0.
Definition receipt_rc2 : Receipt :=
  mkReceipt "rc2" "r2" "m1" "k1" 1 90 100 (Some 20240501%Z) None 1 "USD" 0 0.

Definition actions_db : Db :=
  mkDb (<["r1" := report_r1]> {[ "r2" := report_r2 ]}) {[ "rc2" := receipt_rc2 ]} ∅
    {[ "m1" := merchant_m1 ]} {[ "k1" := category_k1 ]} 100 0.

(** ** Lemmas on tables *)

Lemma reports_table_laws : table_laws reports_table.
Proof. done. Qed.
Lemma receipts_table_laws : table_laws receipts_table.
Proof. done. Qed.
Lemma lineItems_table_laws : table_laws lineItems_table.
Proof. done. Qed.

#[export] Hint Resolve reports_table_laws receipts_table_laws lineItems_table_laws : ae.

Section TableLemmas.
Context {R : Type} (t : Table R) (Ht : table_laws t).

(** A row other than the one written keeps its value. *)
Lemma table_update_other row k v :
  t_id t row ≠ k → preserves (λ d, t_get t d !! k = v) (table_update t row).
Proof.
  intros Hne d r d' Hk. simpl.
  destruct (t_get t d !! t_id t row); [|by intros [= _ <-]].
  destruct (t_unique t d row); simpl; [|by intros [= _ <-]].
  destruct (t_fk t d row); intros [= _ <-]; [|done].
  by rewrite Ht, lookup_insert_ne.
Qed.

Lemma table_delete_other id k v :
  id ≠ k → preserves (λ d, t_get t d !! k = v) (table_delete t id).
Proof.
  intros Hne d r d' Hk. simpl.
  destruct (t_get t d !! id); intros [= _ <-]; [|done].
  by rewrite Ht, lookup_delete_ne.
Qed.
End TableLemmas.

(** [createMany] keeps an invariant that each inserted row keeps. *)
Lemma table_createMany_preserves {R} (t : Table R) (P : Db → Prop) rows :
  (∀ row d, row ∈ rows → P d → P (t_modify t (insert (t_id t row) row) d)) →
  preserves P (table_createMany t rows).
Proof.
  intros Hrow. apply preserves_transaction, preserves_bind; [|intros; apply preserves_ret].
  apply preserves_mapM_in. intros row Hin d r d' HP. simpl.
  destruct (t_get t d !! t_id t row); [by intros [= _ <-]|].
  destruct (t_unique t d row); simpl; [|by intros [= _ <-]].
  destruct (t_fk t d row); intros [= _ <-]; auto.
Qed.

Lemma skip_unowned_normal user owned id :
  user_role user = Normal → skip_unowned user owned id = false → id ∈ owned.
Proof.
  intros Hn. unfold skip_unowned. rewrite Hn. simpl.
  case_bool_decide; [done|discriminate].
Qed.

Lemma filter_owned_not_in {A} (P : A → bool) (l : list A) x :
  P x = false → x ∉ filter (λ y, P y = true) l.
Proof. intros Hx Hin. apply list_elem_of_filter in Hin as [? _]. congruence. Qed.

(** The loops of [update*] and [delete*]: when the body of every id the
    guard lets through preserves [P], the whole transaction does. *)
Lemma guarded_loop_preserves {A} (P : Db → Prop) user owned (idof : A → string)
    (body : A → dbm unit) (xs : list A) :
  (∀ x, skip_unowned user owned (idof x) = false → preserves P (body x)) →
  preserves P (transaction (dbm_mapM (λ x,
    if skip_unowned user owned (idof x) then mret tt else body x) xs ≫= λ _, mret tt)).
Proof.
  intros Hbody. apply preserves_transaction, preserves_bind; [|intros; apply preserves_ret].
  apply preserves_mapM. intros x. destruct (skip_unowned _ _ _) eqn:E; [apply preserves_ret|].
  by apply Hbody.
Qed.

(** Reading the owned list first, then running the loop. *)
Lemma run_read_bind {A B} (f : Db → A) (k : A → dbm B) d :
  run_dbm (dbm_read f ≫= k) d = run_dbm (k (f d)) d.
Proof. done. Qed.

Section Ownership.
Implicit Types (u : User) (d : Db).

(** The key of a row of another user is not in the owned list. *)
Lemma report_not_owned u d k r (ids : list string) :
  db_reports d !! k = Some r → report_userId r ≠ user_id u →
  k ∉ filter (λ id, report_owned (user_id u) d id = true) ids.
Proof.
  intros Hk Hu. apply filter_owned_not_in. unfold report_owned. rewrite Hk.
  by apply String.eqb_neq.
Qed.

Lemma receipt_not_owned u d k r (ids : list string) :
  db_receipts d !! k = Some r → report_owned (user_id u) d (receipt_expenseReportId r) = false →
  k ∉ filter (λ id, receipt_owned (user_id u) d id = true) ids.
Proof. intros Hk Hu. apply filter_owned_not_in. unfold receipt_owned. by rewrite Hk. Qed.
End Ownership.

(** ** Ownership guards *)

(** The loop of [update*] on a batch of one row the guard lets
    through, when the row exists and passes the unique and foreign-key
    checks: the touched row is written. *)
Lemma guarded_update_one {R} (t : Table R) (touch : Z → R → R) user owned upd d r0 :
  skip_unowned user owned (t_id t upd) = false →
  t_id t (touch (db_now d) upd) = t_id t upd →
  t_get t d !! t_id t upd = Some r0 →
  t_unique t d (touch (db_now d) upd) = true → t_fk t d (touch (db_now d) upd) = true →
  run_dbm (transaction (dbm_mapM (λ u,
    if skip_unowned user owned (t_id t u) then mret tt
    else now ← dbm_read db_now; _ ← table_update t (touch now u); mret tt) [upd]
      ≫= λ _, mret tt)) d
    = (Ok tt, t_modify t (insert (t_id t upd) (touch (db_now d) upd)) d).
Proof.
  intros Hskip Hid Hget Hu Hfk. simpl. rewrite Hskip. simpl. rewrite Hid, Hget. simpl.
  by rewrite Hu, Hfk.
Qed.

(** The loop of [delete*] on one id the guard lets through, when the
    row exists. *)
Lemma guarded_delete_one {R} (t : Table R) user owned id d r0 :
  skip_unowned user owned id = false → t_get t d !! id = Some r0 →
  run_dbm (transaction (dbm_mapM (λ id,
    if skip_unowned user owned id then mret tt
    else _ ← table_delete t id; mret tt) [id] ≫= λ _, mret tt)) d
    = (Ok tt, t_modify t (delete id) d).
Proof.
  intros Hskip Hget. simpl. rewrite Hskip. simpl. by rewrite Hget.
Qed.

(** An id in the owned list passes the guard. *)
Lemma skip_unowned_in user owned id : id ∈ owned → skip_unowned user owned id = false.
Proof. intros Hin. unfold skip_unowned. rewrite (bool_decide_true (id ∈ owned)) by done. by destruct (bool_decide _). Qed.

(** A normal user's update of a receipt of one of their reports is
    written with [updatedAt] set to the clock, when the rows it refers
    to exist. *)
Lemma updateReceipts_owned_run u d upd r0 :
  db_receipts d !! receipt_id upd = Some r0 →
  receipt_owned (user_id u) d (receipt_id upd) = true →
  t_fk receipts_table d (receipt_touch (db_now d) upd) = true →
  run_dbm (updateReceipts u [upd]) d
    = (Ok tt, set_receipts (insert (receipt_id upd) (receipt_touch (db_now d) upd)) d).
Proof.
  intros Hk Ho Hfk. unfold updateReceipts, getOwnedReceipts. rewrite run_read_bind.
  apply (guarded_update_one receipts_table receipt_touch u _ upd d r0); [|done|done|done|done].
  apply skip_unowned_in, list_elem_of_filter. split; [done|]. by apply list_elem_of_singleton.
Qed.

Lemma updateReceiptLineItems_owned_run u d upd li0 :
  db_lineItems d !! lineItem_id upd = Some li0 →
  lineItem_owned (user_id u) d (lineItem_id upd) = true →
  t_fk lineItems_table d (lineItem_touch (db_now d) upd) = true →
  run_dbm (updateReceiptLineItems u [upd]) d
    = (Ok tt, set_lineItems (insert (lineItem_id upd) (lineItem_touch (db_now d) upd)) d).
Proof.
  intros Hk Ho Hfk. unfold updateReceiptLineItems, getOwnedLineItems. rewrite run_read_bind.
  apply (guarded_update_one lineItems_table lineItem_touch u _ upd d li0); [|done|done|done|done].
  apply skip_unowned_in, list_elem_of_filter. split; [done|]. by apply list_elem_of_singleton.
Qed.

Lemma deleteReceiptLineItems_owned_run u d id li0 :
  db_lineItems d !! id = Some li0 → lineItem_owned (user_id u) d id = true →
  run_dbm (deleteReceiptLineItems u [id]) d = (Ok tt, set_lineItems (delete id) d).
Proof.
  intros Hk Ho. unfold deleteReceiptLineItems, getOwnedLineItems. rewrite run_read_bind.
  apply (guarded_delete_one lineItems_table u _ id d li0); [|done].
  apply skip_unowned_in, list_elem_of_filter. split; [done|]. by apply list_elem_of_singleton.
Qed.

Section Guards.
Implicit Types (u : User) (d : Db).

(** (C9) A normal user's [updateReports] never changes a report of
    another user, whatever the batch, and whether it succeeds or
    fails. *)
Theorem updateReports_others_untouched u updates d res d' k r :
  user_role u = Normal → db_reports d !! k = Some r → report_userId r ≠ user_id u →
  run_dbm (updateReports u updates) d = (res, d') → db_reports d' !! k = Some r.
Proof.
  intros Hn Hk Hu Hrun. unfold updateReports, getOwnedReportIds in Hrun. rewrite run_read_bind in Hrun.
  eapply (guarded_loop_preserves (λ d0, db_reports d0 !! k = Some r)); [|exact Hk|exact Hrun].
  intros x Hx%skip_unowned_normal; [|done].
  apply preserves_bind; [apply preserves_read|intros now].
  apply preserves_bind; [|intros; apply preserves_ret].
  apply (table_update_other reports_table reports_table_laws). simpl.
  intros Heq. apply (report_not_owned u d k r (map report_id updates) Hk Hu).
  by rewrite <-Heq.
Qed.

(** A normal user's [deleteReports] never deletes or changes a
    report of another user. *)
Theorem deleteReports_others_untouched u ids d res d' k r :
  user_role u = Normal → db_reports d !! k = Some r → report_userId r ≠ user_id u →
  run_dbm (deleteReports u ids) d = (res, d') → db_reports d' !! k = Some r.
Proof.
  intros Hn Hk Hu Hrun. unfold deleteReports, getOwnedReportIds in Hrun. rewrite run_read_bind in Hrun.
  eapply (guarded_loop_preserves (λ d0, db_reports d0 !! k = Some r)); [|exact Hk|exact Hrun].
  intros x Hx%skip_unowned_normal; [|done].
  apply preserves_bind; [|intros; apply preserves_ret].
  apply (table_delete_other reports_table reports_table_laws).
  intros Heq. apply (report_not_owned u d k r ids Hk Hu). by rewrite <-Heq.
Qed.

(** A normal user's [updateReceipts] never changes a receipt
    that sits in a report of another user. *)
Theorem updateReceipts_others_untouched u updates d res d' k r :
  user_role u = Normal → db_receipts d !! k = Some r →
  report_owned (user_id u) d (receipt_expenseReportId r) = false →
  run_dbm (updateReceipts u updates) d = (res, d') → db_receipts d' !! k = Some r.
Proof.
  intros Hn Hk Hu Hrun. unfold updateReceipts, getOwnedReceipts in Hrun. rewrite run_read_bind in Hrun.
  eapply (guarded_loop_preserves (λ d0, db_receipts d0 !! k = Some r)); [|exact Hk|exact Hrun].
  intros x Hx%skip_unowned_normal; [|done].
  apply preserves_bind; [apply preserves_read|intros now].
  apply preserves_bind; [|intros; apply preserves_ret].
  apply (table_update_other receipts_table receipts_table_laws). simpl.
  intros Heq. apply (receipt_not_owned u d k r (map receipt_id updates) Hk Hu).
  by rewrite <-Heq.
Qed.
End Guards.

(** ** Visibility *)

Section Visibility.
Implicit Types (u : User) (d : Db).

Lemma table_findMany_elem {R} (t : Table R) P d row :
  row ∈ (filter (λ x, P d x = true) (map_to_list (t_get t d)).*2) ↔
  (∃ k, t_get t d !! k = Some row) ∧ P d row = true.
Proof.
  rewrite list_elem_of_filter, list_elem_of_fmap. split.
  - intros [HP ([k x] & -> & Hin)]. apply elem_of_map_to_list in Hin. eauto.
  - intros [[k Hk] HP]. split; [done|]. exists (k, row). split; [done|].
    by apply elem_of_map_to_list.
Qed.

(** [getReports] returns exactly the reports the role may see:
    a normal user sees the reports whose [userId] is theirs; a
    reviewer sees every report that is not a draft, and no draft, not
    even their own. *)
Theorem getReports_visibility u d :
  ∃ l, run_dbm (getReports u) d = (Ok l, d) ∧
    ∀ r, r ∈ l ↔ (∃ k, db_reports d !! k = Some r) ∧
      match user_role u with
      | Normal => report_userId r = user_id u
      | Reviewer => report_status r ≠ DRAFT
      end.
Proof.
  eexists. split; [reflexivity|]. intros r.
  rewrite (table_findMany_elem reports_table (λ _ r, report_visible u r)).
  unfold report_visible. destruct (user_role u).
  - by rewrite String.eqb_eq.
  - by rewrite bool_decide_eq_true.
Qed.
End Visibility.

(** ** What the guards let through *)

Section Unchecked.
Implicit Types (u : User) (d : Db).

Lemma report_owned_true u d r :
  db_reports d !! report_id r = Some r → report_userId r = user_id u →
  report_owned (user_id u) d (report_id r) = true.
Proof. intros Hk Hu. unfold report_owned. rewrite Hk. by apply String.eqb_eq. Qed.

(** A normal user's update of one of their own reports is written as
    sent, with [updatedAt] set to the clock. *)
Lemma updateReports_owned_run u d upd r0 :
  user_role u = Normal → db_reports d !! report_id upd = Some r0 →
  report_userId r0 = user_id u →
  run_dbm (updateReports u [upd]) d
    = (Ok tt, set_reports (insert (report_id upd) (report_touch (db_now d) upd)) d).
Proof.
  intros Hn Hk Hu. unfold updateReports, getOwnedReportIds. rewrite run_read_bind.
  change (map report_id [upd]) with [report_id upd].
  rewrite (filter_cons_True (λ id, report_owned (user_id u) d id = true)).
  2:{ unfold report_owned. rewrite Hk. by apply String.eqb_eq. }
  cbn [filter list_filter map dbm_mapM].
  replace (skip_unowned u [report_id upd] (report_id upd)) with false.
  2:{ unfold skip_unowned.
      rewrite (bool_decide_true (report_id upd ∈ [report_id upd]))
        by (by apply list_elem_of_singleton).
      by rewrite andb_false_r. }
  dbm_simpl. unfold table_update.
  cbn [run_dbm t_get t_id t_fk t_modify reports_table report_touch report_id].
  dbm_simpl. by rewrite Hk.
Qed.

(** (C10) The guard of [updateReports] only checks that the report is
    currently the user's: a normal user's update of their own report
    is written as sent, whatever its [status] (a normal user can mark
    their own report APPROVED) and whatever its [userId] (they can
    hand the report to another user). *)
Theorem updateReports_owner_writes_update u d upd r0 :
  user_role u = Normal → db_reports d !! report_id upd = Some r0 →
  report_userId r0 = user_id u →
  run_dbm (updateReports u [upd]) d
    = (Ok tt, set_reports (insert (report_id upd) (report_touch (db_now d) upd)) d).
Proof. apply updateReports_owned_run. Qed.

(** (C11) [createReceipts] checks nothing about the user: any signed-in
    user, of any role, can add a receipt to any report, including a
    report of another user. *)
Theorem createReceipts_unchecked u d r :
  db_receipts d !! receipt_id r = None →
  is_Some (db_reports d !! receipt_expenseReportId r) →
  is_Some (db_merchants d !! receipt_merchantId r) →
  is_Some (db_categories d !! receipt_categoryId r) →
  run_dbm (createReceipts u [r]) d = (Ok tt, set_receipts (insert (receipt_id r) r) d).
Proof.
  intros Hnone H1 H2 H3. unfold createReceipts, table_createMany. dbm_simpl.
  cbn [t_get t_id t_fk t_modify receipts_table]. rewrite Hnone.
  rewrite !bool_decide_true by done. done.
Qed.


End Unchecked.

Section CreateLineItems.
Implicit Types (u : User) (d : Db).

(** A normal user's [createReceiptLineItems] only adds line
    items to receipts of their own reports: every line item present
    afterwards was there before or belongs to an owned receipt. *)
Theorem createReceiptLineItems_normal_owned u items d res d' k li :
  user_role u = Normal →
  run_dbm (createReceiptLineItems u items) d = (res, d') →
  db_lineItems d' !! k = Some li →
  db_lineItems d !! k = Some li ∨ receipt_owned (user_id u) d (lineItem_receiptId li) = true.
Proof.
  intros Hn Hrun. unfold createReceiptLineItems, getOwnedReceipts in Hrun.
  rewrite run_read_bind in Hrun. revert k li.
  eapply (table_createMany_preserves lineItems_table
    (λ d0, ∀ k li, db_lineItems d0 !! k = Some li →
       db_lineItems d !! k = Some li ∨
       receipt_owned (user_id u) d (lineItem_receiptId li) = true)); [|by left|exact Hrun].
  intros row d0 Hin HP k li. simpl. rewrite lookup_insert.
  destruct (decide (lineItem_id row = k)); [|apply HP]. intros [= <-]. right.
  apply list_elem_of_filter in Hin as [Hown _]. rewrite Hn in Hown. simpl in Hown.
  apply bool_decide_eq_true, list_elem_of_filter in Hown as [Hown _]. done.
Qed.
End CreateLineItems.

(** ** Concrete runs of the theorems *)

Definition update_r2 : ExpenseReport := mkReport "r2" "Mine now" "" APPROVED "u1" 0 0.

Lemma updateReports_others_untouched_witness :
  db_reports (snd (run_dbm (updateReports user_u1 [update_r2]) actions_db)) !! "r2"
    = Some report_r2.
Proof.
  apply (updateReports_others_untouched user_u1 [update_r2] actions_db
           (fst (run_dbm (updateReports user_u1 [update_r2]) actions_db)) _ "r2" report_r2).
  - reflexivity.
  - reflexivity.
  - discriminate.
  - apply surjective_pairing.
Defined.

Lemma deleteReports_others_untouched_witness :
  db_reports (snd (run_dbm (deleteReports user_u1 ["r2"]) actions_db)) !! "r2"
    = Some report_r2.
Proof.
  apply (deleteReports_others_untouched user_u1 ["r2"] actions_db
           (fst (run_dbm (deleteReports user_u1 ["r2"]) actions_db)) _ "r2" report_r2).
  - reflexivity.
  - reflexivity.
  - discriminate.
  - apply surjective_pairing.
Defined.

Definition update_rc2 : Receipt :=
  mkReceipt "rc2" "r1" "m1" "k1" 1 0 0 None None 1 "USD" 0 0.

Lemma updateReceipts_others_untouched_witness :
  db_receipts (snd (run_dbm (updateReceipts user_u1 [update_rc2]) actions_db)) !! "rc2"
    = Some receipt_rc2.
Proof.
  apply (updateReceipts_others_untouched user_u1 [update_rc2] actions_db
           (fst (run_dbm (updateReceipts user_u1 [update_rc2]) actions_db)) _ "rc2" receipt_rc2).
  - reflexivity.
  - reflexivity.
  - reflexivity.
  - apply surjective_pairing.
Defined.

Definition approve_r1 : ExpenseReport := mkReport "r1" "Client trip" "" APPROVED "u2" 0 0.

Lemma updateReports_owner_writes_update_witness :
  run_dbm (updateReports user_u1 [approve_r1]) actions_db
    = (Ok tt, set_reports (insert "r1" (report_touch 100 approve_r1)) actions_db).
Proof.
  apply (updateReports_owner_writes_update user_u1 actions_db approve_r1 report_r1).
  - reflexivity.
  - reflexivity.
  - reflexivity.
Defined.

Definition receipt_rc9 : Receipt :=
  mkReceipt "rc9" "r2" "m1" "k1" 1 0 0 None None 1 "USD" 0 0.

Lemma createReceipts_unchecked_witness :
  run_dbm (createReceipts user_u1 [receipt_rc9]) actions_db
    = (Ok tt, set_receipts (insert "rc9" receipt_rc9) actions_db).
Proof.
  apply (createReceipts_unchecked user_u1 actions_db receipt_rc9).
  - reflexivity.
  - eexists; reflexivity.
  - eexists; reflexivity.
  - eexists; reflexivity.
Defined.



Definition lineItem_on_rc2 : ReceiptLineItem :=
  mkLineItem "li9" "rc2" "Injected" 1 100 None None 0 0.

Lemma createReceiptLineItems_normal_owned_witness :
  db_lineItems actions_db !! "li9" = Some lineItem_on_rc2 ∨
  receipt_owned "u2" actions_db (lineItem_receiptId lineItem_on_rc2) = true.
Proof.
  apply (createReceiptLineItems_normal_owned user_u2 [lineItem_on_rc2] actions_db
           (fst (run_dbm (createReceiptLineItems user_u2 [lineItem_on_rc2]) actions_db))
           (snd (run_dbm (createReceiptLineItems user_u2 [lineItem_on_rc2]) actions_db))).
  - reflexivity.
  - apply surjective_pairing.
  - vm_compute. reflexivity.
Defined.
