(* ===== verification/Route.v ===== *)
(** The receipt image route [GET /api/receipt/file] of
    [src/src/app/api/receipt/file/route.ts] and the pager of
    [src/src/components/reports/receipt-images-view.tsx] that requests
    it, page by page.

    The route reads the receipt, lists the blobs of the container
    [receipts] whose names start with
    [${expenseReportId}/${id}/receipt-${page - 1}], and answers with
    the first one in the listing (blob listings are in byte-wise
    lexicographic order).  The main theorem is the round trip with the
    upload loop of [extractReceipt]: every page the pager can show is
    answered with exactly the bytes uploaded for it, although the
    prefix of page [i] also matches the pages [10 i], [10 i + 1], ...
    (a dot sorts before every digit).

    A response is modelled by its status and JSON message or by the
    body of the blob; the content-type and length headers and the
    streaming of the body are not modelled.  An exception escaping the
    handler (Prisma's [findUniqueOrThrow], a failed download) is
    [RespThrow]: Next.js answers it with status 500. *)

From S2P Require Import Prelude JsString Db Schema ProcessReceipt.
From stdpp Require Import sorting.
From Stdlib Require Import Init.Byte Ascii.

(** ** URLs *)

(** One [name=value] pair of a query string: the name runs to the first
    "=", the value is the rest ([URLSearchParams]; percent-decoding and
    "+" are not modelled, the ids and numerals the code puts in a URL
    contain neither). *)
Definition query_pair (part : string) : string * string :=
  match JsString.split "="%char part with
  | [] => (part, "")
  | k :: vs => (k, js_join "="%char vs)
  end.

Definition parse_query (q : string) : list (string * string) :=
  map query_pair (filter (λ p, p ≠ "") (JsString.split "&"%char q)).

(** [req.nextUrl.searchParams]: the query after the first "?". *)
Definition url_search_params (url : string) : list (string * string) :=
  match JsString.split "?"%char url with
  | _ :: (_ :: _) as qs => parse_query (js_join "?"%char qs)
  | _ => []
  end.

(** [searchParams.get(k)]: the first value of [k], [null] when absent. *)
Fixpoint search_get (ps : list (string * string)) (k : string) : option string :=
  match ps with
  | [] => None
  | (k', v) :: ps' => if String.eqb k k' then Some v else search_get ps' k
  end.

(** ** Blob listing *)

(** [containerClient.listBlobsFlat({ prefix })]: the names that start
    with [prefix], in lexicographic order. *)
Definition listBlobsFlat (blobs : gmap string (list byte)) (prefix : string) : list string :=
  merge_sort str_le (filter (λ n, startsWith n prefix = true) (map fst (map_to_list blobs))).

(** [`${receipt.expenseReportId}/${receipt.id}/receipt-${s}`] *)
Definition receipt_blob_prefix (reportId receiptId s : string) : string :=
  reportId +:+ "/" +:+ receiptId +:+ "/receipt-" +:+ s.

(** ** GET *)

Inductive Response :=
| RespJson (status : Z) (message : string)
| RespFile (body : list byte)
| RespThrow (message : string).

Definition GET (session : option User) (searchParams : list (string * string))
    (srv : Server) : Response :=
  match session with
  | None => RespJson 401 "you are not signed in"
  | Some _ =>
      let receiptId := search_get searchParams "id" in
      if falsy_string receiptId then RespJson 400 "invalid receipt id" else
      let pageNumber := js_Number (default "1" (search_get searchParams "page")) in
      match db_receipts (srv_db srv) !! default "" receiptId with
      | None => RespThrow "No Receipt found"
      | Some receipt =>
          let prefix := receipt_blob_prefix (receipt_expenseReportId receipt)
                          (receipt_id receipt) (js_num_to_string (Z.pred <$> pageNumber)) in
          let firstBlobName := head (listBlobsFlat (srv_blobs srv) prefix) in
          if falsy_string firstBlobName
          then RespJson 200 "failed to get first blob for receipt"
          else match srv_blobs srv !! default "" firstBlobName with
               | Some body => RespFile body
               | None => RespThrow "BlobNotFound"
               end
      end
  end.

(** ** The pager of [ReceiptImageView] *)

(** [`/api/receipt/file?id=${receiptId}&page=${currentPage}`] *)
Definition image_url (receiptId : string) (currentPage : nat) : string :=
  "/api/receipt/file?id=" +:+ receiptId +:+ "&page=" +:+ pretty currentPage.

Inductive PagerClick := ClickPrev | ClickNext.

(** The two buttons: [setCurrentPage((p) => Math.max(p - 1, 1))] and
    [setCurrentPage((p) => Math.min(p + 1, pageCount))]. *)
Definition pager_click (pageCount : nat) (c : PagerClick) (p : nat) : nat :=
  match c with
  | ClickPrev => Nat.max (p - 1) 1
  | ClickNext => Nat.min (p + 1) pageCount
  end.

(** The pages the pager shows: it starts at [useState(1)]; the buttons
    are rendered only when [pageCount > 1]. *)
Inductive pager_reachable (pageCount : nat) : nat → Prop :=
| pager_start : pager_reachable pageCount 1
| pager_step c p :
    pager_reachable pageCount p → 1 < pageCount →
    pager_reachable pageCount (pager_click pageCount c p).

(** ** Lemmas *)

Lemma split_go_ne_nil sep s cur : split_go sep s cur ≠ [].
Proof. revert cur. induction s as [|c s IH]; intros cur; simpl; [done|]. case_match; auto. Qed.

Lemma join_split_go sep s cur : js_join sep (split_go sep s cur) = cur +:+ s.
Proof.
  revert cur. induction s as [|c s IH]; intros cur; simpl.
  - by rewrite string_app_nil_r.
  - destruct (Ascii.eqb_spec c sep) as [->|_].
    + pose proof (IH "") as H.
      destruct (split_go sep s "") as [|y ys] eqn:E; [by apply split_go_ne_nil in E|].
      unfold js_join in *.
      change (cur +:+ (String sep "" +:+ String.concat (String sep "") (y :: ys))
              = cur +:+ String sep s).
      by rewrite H.
    + rewrite IH. by rewrite <-string_app_assoc.
Qed.

(** [s.split(sep).join(sep)] is [s]. *)
Lemma join_split sep s : js_join sep (JsString.split sep s) = s.
Proof. apply join_split_go. Qed.

Lemma listBlobsFlat_elem blobs prefix n :
  n ∈ listBlobsFlat blobs prefix ↔ is_Some (blobs !! n) ∧ startsWith n prefix = true.
Proof.
  unfold listBlobsFlat. rewrite (merge_sort_Permutation _ _), list_elem_of_filter.
  rewrite list_elem_of_fmap. split.
  - intros [Hp ([k v] & -> & Hkv)]. apply elem_of_map_to_list in Hkv. by eauto.
  - intros [[v Hv] Hp]. split; [done|]. exists (n, v). by rewrite elem_of_map_to_list.
Qed.

(** The first name of a listing is a name of the listing that sorts
    strictly before every other one. *)
Lemma listBlobsFlat_head blobs prefix n :
  n ∈ listBlobsFlat blobs prefix →
  (∀ m, m ∈ listBlobsFlat blobs prefix → m ≠ n → str_leb n m = true) →
  head (listBlobsFlat blobs prefix) = Some n.
Proof.
  intros Hn Hmin.
  assert (Sorted str_le (listBlobsFlat blobs prefix)) as Hs by apply Sorted_merge_sort, _.
  apply Sorted_StronglySorted in Hs; [|apply _].
  destruct (listBlobsFlat blobs prefix) as [|h l] eqn:E; [by apply not_elem_of_nil in Hn|].
  simpl. f_equal. destruct (decide (h = n)) as [|Hh]; [done|].
  apply StronglySorted_inv in Hs as [_ Hs].
  apply elem_of_cons in Hn as [->|Hn]; [done|].
  rewrite List.Forall_forall in Hs.
  apply str_leb_antisym; [apply Hs, list_elem_of_In, Hn|].
  apply Hmin; [by left|done].
Qed.

Lemma upload_pages_lookup_inv reportId receiptId k files blobs n b :
  upload_pages reportId receiptId k files blobs !! n = Some b →
  blobs !! n = Some b ∨
  ∃ j f, files !! j = Some f ∧ n = blob_name reportId receiptId (k + j) (page_extension f).
Proof.
  revert k blobs. induction files as [|f fs IH]; intros k blobs H; simpl in H; [by left|].
  destruct (IH _ _ H) as [Hb|(j & g & Hj & ->)].
  - destruct (decide (n = blob_name reportId receiptId k (page_extension f))) as [->|Hne].
    + right. exists 0, f. by rewrite Nat.add_0_r.
    + left. by rewrite lookup_insert_ne in Hb.
  - right. exists (S j), g. split; [done|]. by rewrite Nat.add_succ_r.
Qed.

Lemma blob_name_as_prefix reportId receiptId i e :
  blob_name reportId receiptId i e
  = receipt_blob_prefix reportId receiptId (pretty i +:+ String "." (interp_opt e)).
Proof. reflexivity. Qed.

Lemma startsWith_app_cancel p a b : startsWith (p +:+ a) (p +:+ b) = startsWith a b.
Proof.
  unfold startsWith. induction p as [|c p IH]; [done|].
  rewrite !string_app_cons. simpl. destruct (ascii_dec c c); [done|congruence].
Qed.

Lemma receipt_blob_prefix_startsWith reportId receiptId a b :
  startsWith (receipt_blob_prefix reportId receiptId a) (receipt_blob_prefix reportId receiptId b)
  = startsWith a b.
Proof. unfold receipt_blob_prefix. by rewrite !startsWith_app_cancel. Qed.

Lemma str_leb_receipt_blob_prefix reportId receiptId a b :
  str_leb (receipt_blob_prefix reportId receiptId a) (receipt_blob_prefix reportId receiptId b)
  = str_leb a b.
Proof. unfold receipt_blob_prefix. by rewrite !str_leb_app_cancel. Qed.

(** The blob of page [j] is listed under the prefix of page [i] only
    when [j = i] or the numeral of [j] extends the numeral of [i]; in
    the second case the blob of page [i] sorts first. *)
Lemma page_blob_prefix reportId receiptId i j e e' :
  startsWith (blob_name reportId receiptId j e') (receipt_blob_prefix reportId receiptId (pretty i))
    = true →
  j = i ∨ str_leb (blob_name reportId receiptId i e) (blob_name reportId receiptId j e') = true.
Proof.
  rewrite blob_name_as_prefix, receipt_blob_prefix_startsWith, startsWith_iff.
  intros [t Ht].
  destruct (digits_dot_prefix _ _ _ _ (pretty_nat_digits j) (pretty_nat_digits i) Ht)
    as [[Hij _]|(d & r & Hj & Hd)]; [left; by apply (inj pretty)|right].
  rewrite !blob_name_as_prefix, str_leb_receipt_blob_prefix, Hj, <-string_app_assoc.
  rewrite str_leb_app_cancel, string_app_cons. by apply str_leb_dot_digit.
Qed.

(** The query the pager's URL carries. *)
Lemma image_url_params receiptId p :
  no_char "&" receiptId = true → no_char "?" receiptId = true →
  url_search_params (image_url receiptId p) = [("id", receiptId); ("page", pretty p)].
Proof.
  intros Hamp Hq. unfold url_search_params, image_url, JsString.split.
  change ("/api/receipt/file?id=" +:+ receiptId +:+ "&page=" +:+ pretty p)
    with ("/api/receipt/file" +:+ String "?" ("id=" +:+ receiptId +:+ "&page=" +:+ pretty p)).
  rewrite split_go_app_sep by reflexivity.
  rewrite split_go_no_sep; cycle 1.
  { rewrite !no_char_app, Hq, pretty_nat_no_char by reflexivity. reflexivity. }
  cbn [js_join String.concat]. rewrite !string_app_nil_l.
  unfold parse_query, JsString.split.
  change ("id=" +:+ receiptId +:+ "&page=" +:+ pretty p)
    with (("id=" +:+ receiptId) +:+ String "&" ("page=" +:+ pretty p)).
  rewrite split_go_app_sep by (rewrite no_char_app, Hamp; reflexivity).
  rewrite split_go_no_sep by (rewrite no_char_app, pretty_nat_no_char; reflexivity).
  rewrite !string_app_nil_l, filter_cons_True, filter_cons_True, filter_nil by
    (by destruct receiptId).
  cbn [map]. unfold query_pair, JsString.split.
  change ("id=" +:+ receiptId) with ("id" +:+ String "=" receiptId).
  change ("page=" +:+ pretty p) with ("page" +:+ String "=" (pretty p)).
  rewrite !split_go_app_sep by reflexivity. rewrite !join_split_go. done.
Qed.

Lemma receipt_blob_prefix_nil reportId receiptId s m :
  startsWith m (receipt_blob_prefix reportId receiptId s) = true →
  startsWith m (receipt_blob_prefix reportId receiptId "") = true.
Proof.
  rewrite !startsWith_iff. intros [t ->]. exists (s +:+ t).
  unfold receipt_blob_prefix. by rewrite string_app_nil_r, <-!string_app_assoc.
Qed.

Lemma blob_name_ne_empty reportId receiptId i e : blob_name reportId receiptId i e ≠ "".
Proof. unfold blob_name. by destruct reportId. Qed.

(** After the upload loop, with no earlier blob of the receipt, the
    listing under the prefix of page [i] starts with the blob of page
    [i]. *)
Lemma upload_pages_first_blob reportId receiptId files blobs0 i f :
  (∀ n, is_Some (blobs0 !! n) →
        startsWith n (receipt_blob_prefix reportId receiptId "") = false) →
  files !! i = Some f →
  head (listBlobsFlat (upload_pages reportId receiptId 0 files blobs0)
          (receipt_blob_prefix reportId receiptId (pretty i)))
  = Some (blob_name reportId receiptId i (page_extension f)).
Proof.
  intros Hfresh Hf. apply listBlobsFlat_head.
  - apply listBlobsFlat_elem. split; [by rewrite upload_pages_lookup_spec|].
    by rewrite blob_name_as_prefix, receipt_blob_prefix_startsWith, startsWith_app.
  - intros m [[b Hb] Hm]%listBlobsFlat_elem Hne.
    destruct (upload_pages_lookup_inv _ _ _ _ _ _ _ Hb) as [H0|(j & g & Hg & ->)].
    { apply receipt_blob_prefix_nil in Hm. by rewrite Hfresh in Hm. }
    destruct (page_blob_prefix _ _ i j (page_extension f) _ Hm) as [->|]; [|done].
    by simplify_eq.
Qed.

Lemma falsy_string_Some s : s ≠ "" → falsy_string (Some s) = false.
Proof. intros Hs. by apply String.eqb_neq. Qed.

(** GET on the URL of page [S i] answers with the bytes uploaded for
    page [i]. *)
Lemma GET_uploaded_page u srv r files blobs0 i f :
  db_receipts (srv_db srv) !! receipt_id r = Some r → receipt_id r ≠ "" →
  no_char "&" (receipt_id r) = true → no_char "?" (receipt_id r) = true →
  srv_blobs srv = upload_pages (receipt_expenseReportId r) (receipt_id r) 0 files blobs0 →
  (∀ n, is_Some (blobs0 !! n) →
        startsWith n (receipt_blob_prefix (receipt_expenseReportId r) (receipt_id r) "") = false) →
  files !! i = Some f →
  GET (Some u) (url_search_params (image_url (receipt_id r) (S i))) srv = RespFile (page_buffer f).
Proof.
  intros Hr Hid Hamp Hq Hblobs Hfresh Hf.
  rewrite image_url_params by done. unfold GET.
  change (search_get [("id", receipt_id r); ("page", pretty (S i))] "id")
    with (Some (receipt_id r)).
  change (search_get [("id", receipt_id r); ("page", pretty (S i))] "page")
    with (Some (pretty (S i))).
  cbn [default id]. rewrite falsy_string_Some, js_Number_pretty, Hr by done. cbn [fmap option_fmap option_map].
  replace (Z.pred (Z.of_nat (S i))) with (Z.of_nat i) by lia.
  cbn [js_num_to_string]. rewrite pretty_Z_of_nat, Hblobs.
  rewrite (upload_pages_first_blob _ _ _ _ _ f) by done.
  rewrite falsy_string_Some by apply blob_name_ne_empty. cbn [default id].
  by rewrite upload_pages_lookup_spec.
Qed.

(** The pager only shows pages from 1 to [pageCount] (or page 1). *)
Lemma pager_bounds pageCount p :
  pager_reachable pageCount p → 1 ≤ p ∧ p ≤ Nat.max 1 pageCount.
Proof. induction 1 as [|[] p _ IH Hc]; simpl; lia. Qed.

Section EndToEnd.
Context {dp : DateParse}.

(** (C14) Upload, extraction and viewing round trip: when the
    extraction of a receipt commits (its last object validates, the
    report exists, the receipt id is new, an id of the form cuid2
    produces, no blob of the receipt existed), then for every page
    [p] the pager of the receipt can show, [GET /api/receipt/file]
    on the pager's URL answers with exactly the bytes uploaded for
    page [p], for every signed-in user. *)
Theorem extraction_images_served partials reportId receiptId files srv data u :
  ExtractReceiptSchema (last_partial partials) = Some data →
  db_wf (srv_db srv) → is_Some (db_reports (srv_db srv) !! reportId) →
  db_receipts (srv_db srv) !! receiptId = None →
  receiptId ≠ "" → no_char "&" receiptId = true → no_char "?" receiptId = true →
  (∀ n, is_Some (srv_blobs srv !! n) →
        startsWith n (receipt_blob_prefix reportId receiptId "") = false) →
  files ≠ [] →
  ∃ r, db_receipts (srv_db (snd (extraction_task partials reportId receiptId files srv)))
         !! receiptId = Some r ∧
    ∀ p, pager_reachable (receipt_pageCount r) p →
      ∃ f, files !! (p - 1) = Some f ∧
        GET (Some u) (url_search_params (image_url receiptId p))
          (snd (extraction_task partials reportId receiptId files srv))
        = RespFile (page_buffer f).
Proof.
  intros Hs Hwf Hrep Hnone Hid Hamp Hq Hfresh Hfiles.
  destruct (createExpenseReportFromParse_success_spec (srv_db srv) data reportId receiptId
              (length files) Hwf Hrep Hnone (ExtractReceiptSchema_date _ _ Hs))
    as (r & lis & om & oc & d' & Hrun & Hwf' & _ & Hr & Hrep' & Hn & _).
  rewrite (extraction_task_ok _ _ _ _ _ _ _ _ Hs Hrun). simpl.
  exists r. split; [done|]. intros p Hp.
  apply pager_bounds in Hp. rewrite Hn in Hp.
  destruct p as [|i]; [lia|].
  destruct (lookup_lt_is_Some_2 files i) as [f Hf]; [destruct files; [done|simpl in *; lia]|].
  exists f. split; [by rewrite Nat.sub_1_r|].
  pose proof (wf_receipts_keyed _ Hwf' _ _ Hr) as Hkey.
  subst receiptId reportId.
  exact (GET_uploaded_page u (mkServer _ _) r files (srv_blobs srv) i f Hr Hid Hamp Hq
           eq_refl Hfresh Hf).
Qed.
End EndToEnd.

(** ** Concrete runs *)

Definition example_user : User := mkUser "u2" Normal.

(** Page 2 of the receipt extracted from [example_pages]. *)
Example GET_example_page_2 :
  GET (Some example_user) (url_search_params (image_url "rc1" 2))
    (snd (extraction_task (dp:=iso_date_parse) [example_receipt_json] "r1" "rc1"
            example_pages example_server)) = RespFile [x02].
Proof. vm_compute. reflexivity. Qed.

Lemma extraction_images_served_witness :
  ∃ r, db_receipts (srv_db (snd (extraction_task (dp:=iso_date_parse) [example_receipt_json]
                                  "r1" "rc1" example_pages example_server))) !! "rc1" = Some r ∧
    ∀ p, pager_reachable (receipt_pageCount r) p →
      ∃ f, example_pages !! (p - 1) = Some f ∧
        GET (Some example_user) (url_search_params (image_url "rc1" p))
          (snd (extraction_task (dp:=iso_date_parse) [example_receipt_json] "r1" "rc1"
                  example_pages example_server))
        = RespFile (page_buffer f).
Proof.
  apply (extraction_images_served (dp:=iso_date_parse) [example_receipt_json] "r1" "rc1"
           example_pages example_server example_data example_user).
  - reflexivity.
  - apply example_db_wf.
  - eexists; reflexivity.
  - reflexivity.
  - discriminate.
  - reflexivity.
  - reflexivity.
  - intros n [b Hb]. simpl in Hb. by rewrite lookup_empty in Hb.
  - discriminate.
Defined.
