(* ===== verification/Client.v ===== *)
(** The browser side of the receipt pipeline: the collections of
    [src/src/client-db/collections.ts] and [startReceipt] of
    [src/src/components/reports/upload-form.tsx], which registers a
    pending extraction, calls the server action [extractReceipt] and
    consumes the stream of messages it returns.

    The client state [Collections] holds the synced query collections
    (keyed as their [getKey] says: reports, receipts and line items by
    [id], merchants and categories by [normalizedName]) and the
    local-only collection [receiptsPendingExtractionCollection].  A
    pending extraction's [partial] is the JSON object the message
    handler writes field by field.  An operation that throws in the
    code (a TanStack insert of an existing key, an update of a missing
    key, a [TypeError] in the update callback) is an [Err]; when the
    update callback throws, nothing of the update is applied and the
    consuming loop stops.  [URL.createObjectURL] is a parameter. *)

From S2P Require Import Prelude JsString Db Schema ProcessReceipt Actions.
From Stdlib Require Import Init.Byte Ascii.

(** ** JSON objects as the client reads and writes them *)

(** [o.k] on any value: a missing field and a field of a non-object are
    [undefined]. *)
Definition js_get (v : json) (k : string) : json :=
  match v with JObj fs => get_field fs k | _ => JUndefined end.

(** [o.k = v]: replaces the first field [k], or adds it at the end. *)
Fixpoint set_field (fs : list (string * json)) (k : string) (v : json) : list (string * json) :=
  match fs with
  | [] => [(k, v)]
  | (k', v') :: fs' => if String.eqb k k' then (k, v) :: fs' else (k', v') :: set_field fs' k v
  end.

(** [!v] *)
Definition js_falsy (v : json) : bool :=
  match v with
  | JUndefined | JNull => true
  | JBool b => negb b
  | JNum n => Z.eqb n 0
  | JStr s => String.eqb s ""
  | JArr _ | JObj _ => false
  end.

(** [v ?? d] *)
Definition nullish_or (v d : json) : json :=
  match v with JUndefined | JNull => d | _ => v end.

(** ** The collections *)

Inductive ExtractionStatus := PENDING | EXTRACTING | DONE.

#[export] Instance ExtractionStatus_eq_dec : EqDecision ExtractionStatus.
Proof. solve_decision. Defined.

(** [ReceiptExtractionSchema] *)
Record ReceiptExtractionData := mkReceiptExtractionData {
  re_id : string;
  re_expenseReportId : string;
  re_file : File;
  re_status : ExtractionStatus;
  re_partial : option json;
  re_preview : option string;
}.

Record Collections := mkCollections {
  cl_reports : gmap string ExpenseReport;       (** [getKey: (x) => x.id] *)
  cl_receipts : gmap string Receipt;            (** [getKey: (x) => x.id] *)
  cl_lineItems : gmap string ReceiptLineItem;   (** [getKey: (x) => x.id] *)
  cl_merchants : gmap string Merchant;          (** [getKey: (x) => x.normalizedName] *)
  cl_categories : gmap string Category;         (** [getKey: (x) => x.normalizedName] *)
  cl_pending : gmap string ReceiptExtractionData;  (** local only, by [id] *)
}.

Definition set_pending f c :=
  mkCollections (cl_reports c) (cl_receipts c) (cl_lineItems c) (cl_merchants c)
    (cl_categories c) (f (cl_pending c)).

(** [collection.utils.writeInsert(rows)] on the collections the finished
    message writes. *)
Definition write_finished (res : ExtractionResult) (c : Collections) : Collections :=
  let '(receipt, lineItems, merchant, category) := res in
  mkCollections (cl_reports c)
    (<[receipt_id receipt := receipt]> (cl_receipts c))
    (foldl (λ m li, <[lineItem_id li := li]> m) (cl_lineItems c) lineItems)
    (match merchant with
     | Some m => <[merchant_normalizedName m := m]> (cl_merchants c)
     | None => cl_merchants c
     end)
    (match category with
     | Some k => <[category_normalizedName k := k]> (cl_categories c)
     | None => cl_categories c
     end)
    (cl_pending c).

(** [collection.update(key, cb)]: throws when the key is missing. *)
Definition pending_update (receiptId : string)
    (f : ReceiptExtractionData → result ReceiptExtractionData) (c : Collections)
    : result Collections :=
  match cl_pending c !! receiptId with
  | None => Err "key not found"
  | Some r => r' ← f r; Ok (set_pending (insert receiptId r') c)
  end.

(** ** startReceipt *)

(** [partial.items?.map((x) => x!) ?? []]: [map] of a value that is not
    an array throws a [TypeError]. *)
Definition partial_items (partial : json) : result json :=
  match js_get partial "items" with
  | JUndefined | JNull => Ok (JArr [])
  | JArr xs => Ok (JArr xs)
  | _ => Err "partial.items?.map is not a function"
  end.

(** The update callback of a [partial] message.  [tip] and [currency]
    are not copied. *)
Definition apply_partial (partial : json) (r : ReceiptExtractionData)
    : result ReceiptExtractionData :=
  match re_partial r with
  | None => Ok r
  | Some (JObj fs) =>
      items ← partial_items partial;
      let fs := set_field fs "merchant" (js_get partial "merchant") in
      let fs := set_field fs "category"
                  (nullish_or (js_get partial "category") (JStr "Uncategorized")) in
      let fs := set_field fs "confidence" (js_get partial "confidence") in
      let fs := set_field fs "date" (js_get partial "date") in
      let fs := set_field fs "items" items in
      let fs := set_field fs "paymentMethod" (js_get partial "paymentMethod") in
      let fs := set_field fs "tax" (js_get partial "tax") in
      Ok (mkReceiptExtractionData (re_id r) (re_expenseReportId r) (re_file r) (re_status r)
            (Some (JObj fs)) (re_preview r))
  | Some _ => Err "Cannot create property on primitive"
  end.

Definition set_status (s : ExtractionStatus) (r : ReceiptExtractionData) : ReceiptExtractionData :=
  mkReceiptExtractionData (re_id r) (re_expenseReportId r) (re_file r) s (re_partial r)
    (re_preview r).

(** One message of [for await (const message of readStreamableValue(...))]. *)
Definition handle_message (receiptId : string) (message : option ReceiptExtractionStreamMessage)
    (c : Collections) : result Collections :=
  match message with
  | None => Ok c
  | Some (MsgPartial partial) =>
      if js_falsy partial then Ok c
      else pending_update receiptId (apply_partial partial) c
  | Some (MsgFinished res) =>
      Ok (set_pending (delete receiptId) (write_finished res c))
  end.

(** The loop over the values of the stream; it stops at the first throw. *)
Fixpoint consume (receiptId : string) (messages : list ReceiptExtractionStreamMessage)
    (c : Collections) : Collections :=
  match messages with
  | [] => c
  | m :: ms =>
      match handle_message receiptId (Some m) c with
      | Ok c' => consume receiptId ms c'
      | Err _ => c
      end
  end.

Section StartReceipt.
Context (createObjectURL : File → string).

(** [receiptsPendingExtractionCollection.insert({...})] *)
Definition startReceipt_insert (expenseReportId receiptId : string) (file : File)
    (c : Collections) : result Collections :=
  match cl_pending c !! receiptId with
  | Some _ => Err "duplicate key"
  | None =>
      Ok (set_pending (<[receiptId := mkReceiptExtractionData receiptId expenseReportId file
            PENDING (Some (JObj []))
            (if negb (endsWith (file_type file) ".pdf") then Some (createObjectURL file)
             else None)]>) c)
  end.

Definition startReceipt_form (expenseReportId receiptId : string) (file : File) : FormData :=
  mkFormData (Some (FVFile file)) (Some receiptId) (Some expenseReportId).

Context {dp : DateParse} (pdfToImages : list byte → list (list byte)).

(** [startReceipt(file)] run to the end of its detached task, against
    the server: the model sends [partials]; the server's stream is
    consumed to its last value. *)
Definition startReceipt (expenseReportId receiptId : string) (file : File)
    (partials : list json) (c : Collections) (srv : Server) : Collections * Server :=
  match startReceipt_insert expenseReportId receiptId file c with
  | Err _ => (c, srv)
  | Ok c1 =>
      match extractReceipt pdfToImages (startReceipt_form expenseReportId receiptId file)
              partials srv with
      | Err _ => (c1, srv)
      | Ok (s, srv') =>
          match pending_update receiptId (λ r, Ok (set_status EXTRACTING r)) c1 with
          | Err _ => (c1, srv')
          | Ok c2 => (consume receiptId (sv_values s) c2, srv')
          end
      end
  end.
End StartReceipt.

(** ** The pending extractions as a transition system *)

(** What happens to the pending collection: [startReceipt] inserts, the
    server action returns, a message of the stream arrives. *)
Inductive ClientEvent :=
| EvStart (expenseReportId receiptId : string) (file : File)
| EvReturned (receiptId : string)
| EvMessage (receiptId : string) (message : option ReceiptExtractionStreamMessage).

Definition client_step (createObjectURL : File → string) (e : ClientEvent) (c : Collections)
    : result Collections :=
  match e with
  | EvStart rep rid f => startReceipt_insert createObjectURL rep rid f c
  | EvReturned rid => pending_update rid (λ r, Ok (set_status EXTRACTING r)) c
  | EvMessage rid m => handle_message rid m c
  end.

Inductive client_reachable (createObjectURL : File → string) : Collections → Prop :=
| client_init c : cl_pending c = ∅ → client_reachable createObjectURL c
| client_next e c c' :
    client_reachable createObjectURL c → client_step createObjectURL e c = Ok c' →
    client_reachable createObjectURL c'.

(** The pending partial has no [tip] field: [ReceiptPreview] shows
    [Number(receipt?.tip ?? 0)]. *)
Definition tip_unset (r : ReceiptExtractionData) : Prop :=
  ∃ fs, re_partial r = Some (JObj fs) ∧ get_field fs "tip" = JUndefined.

Definition pending_wf (c : Collections) : Prop :=
  ∀ id r, cl_pending c !! id = Some r → re_id r = id ∧ re_status r ≠ DONE ∧ tip_unset r.

(** The partials whose [items] the handler can map. *)
Definition partial_items_ok (partial : json) : bool :=
  match js_get partial "items" with JUndefined | JNull | JArr _ => true | _ => false end.

(** ** The query collections and their handlers *)

(** Each server action starts with [getCurrentUser()]. *)
Definition with_session {A} (session : option User) (f : User → dbm A) : dbm A :=
  match getCurrentUser session with
  | Ok u => f u
  | Err e => dbm_throw e
  end.

(** The options of [queryCollectionOptions]: how the collection reads
    the server, keys its rows, and writes its mutations back. *)
Record CollectionHandlers (V : Type) := mkCollectionHandlers {
  h_queryFn : dbm (list V);
  h_getKey : V → string;
  h_onInsert : list V → dbm unit;
  h_onUpdate : list V → dbm unit;
  h_onDelete : list string → dbm unit;
}.
Arguments h_queryFn {V} _.
Arguments h_getKey {V} _ _.
Arguments h_onInsert {V} _ _.
Arguments h_onUpdate {V} _ _.
Arguments h_onDelete {V} _ _.

Definition reportCollection (session : option User) : CollectionHandlers ExpenseReport :=
  mkCollectionHandlers _ (with_session session getReports) report_id
    (λ rows, with_session session (λ u, createReports u rows))
    (λ rows, with_session session (λ u, updateReports u rows))
    (λ keys, with_session session (λ u, deleteReports u keys)).

Definition receiptCollection (session : option User) : CollectionHandlers Receipt :=
  mkCollectionHandlers _ (with_session session getReceipts) receipt_id
    (λ rows, with_session session (λ u, createReceipts u rows))
    (λ rows, with_session session (λ u, updateReceipts u rows))
    (λ keys, with_session session (λ u, deleteReceipts u keys)).

Definition receiptLineItemCollection (session : option User)
    : CollectionHandlers ReceiptLineItem :=
  mkCollectionHandlers _ (with_session session getReceiptLineItems) lineItem_id
    (λ rows, with_session session (λ u, createReceiptLineItems u rows))
    (λ rows, with_session session (λ u, updateReceiptLineItems u rows))
    (λ keys, with_session session (λ u, deleteReceiptLineItems u keys)).

(** Keyed by [normalizedName]; the handlers pass the keys on as ids. *)
Definition merchantCollection : CollectionHandlers Merchant :=
  mkCollectionHandlers _ getMerchants merchant_normalizedName createMerchants updateMerchants
    deleteMerchants.

Definition categoryCollection : CollectionHandlers Category :=
  mkCollectionHandlers _ getCategories category_normalizedName createCategories
    updateCategories deleteCategories.

(** A mutation of a query collection once its handler has settled: when
    the handler throws, the optimistic change is rolled back; when it
    succeeds, the collection is refetched through [queryFn]. *)
Definition collection_commit {V} (h : CollectionHandlers V) (local : gmap string V)
    (handler : dbm unit) (d : Db) : gmap string V * Db :=
  match run_dbm handler d with
  | (Err _, d') => (local, d')
  | (Ok _, d') =>
      match fst (run_dbm (h_queryFn h) d') with
      | Ok rows => (list_to_map ((λ v, (h_getKey h v, v)) <$> rows), d')
      | Err _ => (local, d')
      end
  end.

(** [collection.delete(key)] *)
Definition collection_delete {V} (h : CollectionHandlers V) (local : gmap string V)
    (key : string) (d : Db) : gmap string V * Db :=
  collection_commit h local (h_onDelete h [key]) d.

(** [collection.update(key, (draft) => ...)]: an update of a missing key
    throws; a draft callback that changes nothing commits an empty
    transaction, which calls no handler; otherwise the [onUpdate]
    handler receives the modified row. *)
Definition collection_update {V} `{EqDecision V} (h : CollectionHandlers V)
    (local : gmap string V) (key : string) (f : V → V) (d : Db)
    : result (gmap string V * Db) :=
  match local !! key with
  | None => Err "key not found"
  | Some v =>
      if decide (f v = v) then Ok (local, d)
      else Ok (collection_commit h local (h_onUpdate h [f v]) d)
  end.

(** ** Inputs for concrete runs *)

Definition example_objectURL : File → string := λ _, "blob:1".
Definition no_pdf_pages : list byte → list (list byte) := λ _, [].
Definition empty_collections : Collections := mkCollections ∅ ∅ ∅ ∅ ∅ ∅.

(** The client after [startReceipt] registered [example_file]. *)
Definition client_after_start : Collections :=
  match client_step example_objectURL (EvStart "r1" "rc1" example_file) empty_collections with
  | Ok c => c
  | Err _ => empty_collections
  end.

(** The pending extraction [client_after_start] holds. *)
Definition pending_rc1 : ReceiptExtractionData :=
  mkReceiptExtractionData "rc1" "r1" example_file PENDING (Some (JObj [])) (Some "blob:1").

(** ** Lemmas *)

Lemma get_set_field_ne fs k k' v : k ≠ k' → get_field (set_field fs k v) k' = get_field fs k'.
Proof.
  intros Hne. induction fs as [|[k0 v0] fs IH]; simpl.
  - destruct (String.eqb_spec k' k); congruence.
  - destruct (String.eqb_spec k k0) as [->|Hk]; simpl.
    + destruct (String.eqb_spec k' k0); congruence.
    + destruct (String.eqb_spec k' k0); [done|]. exact IH.
Qed.

Lemma apply_partial_tip p r r' :
  tip_unset r → apply_partial p r = Ok r' →
  tip_unset r' ∧ re_status r' = re_status r ∧ re_id r' = re_id r.
Proof.
  intros (fs & Hp & Ht). unfold apply_partial. rewrite Hp.
  destruct (partial_items p) as [items|]; simpl; [|discriminate]. intros [= <-].
  split_and!; [|done..]. eexists; split; [done|]. by rewrite !get_set_field_ne.
Qed.

Lemma apply_partial_ok p r :
  tip_unset r → partial_items_ok p = true → ∃ r', apply_partial p r = Ok r'.
Proof.
  intros (fs & Hp & _) Hok. unfold apply_partial, partial_items_ok, partial_items in *.
  rewrite Hp. destruct (js_get p "items"); try discriminate; simpl; eauto.
Qed.

Lemma pending_update_Ok rid f c c' :
  pending_update rid f c = Ok c' →
  ∃ r r', cl_pending c !! rid = Some r ∧ f r = Ok r' ∧ c' = set_pending (<[rid := r']>) c.
Proof.
  unfold pending_update. destruct (cl_pending c !! rid) as [r|]; [|discriminate].
  destruct (f r) as [r'|] eqn:Hf; simpl; [|discriminate]. intros [= <-]. eauto.
Qed.

Lemma pending_wf_insert c rid r :
  pending_wf c → re_id r = rid → re_status r ≠ DONE → tip_unset r →
  pending_wf (set_pending (<[rid := r]>) c).
Proof.
  intros Hwf Hid Hs Ht id r'. simpl. rewrite lookup_insert_Some.
  intros [[<- <-]|[_ H]]; [done|by apply Hwf].
Qed.

Lemma client_step_wf cou e c c' :
  pending_wf c → client_step cou e c = Ok c' → pending_wf c'.
Proof.
  intros Hwf. destruct e as [rep rid f|rid|rid [[p|res]|]]; simpl.
  - unfold startReceipt_insert. destruct (cl_pending c !! rid); [discriminate|].
    intros [= <-]. apply pending_wf_insert; [done|done|done|]. by exists [].
  - intros (r & r' & Hr & [= <-] & ->)%pending_update_Ok.
    destruct (Hwf _ _ Hr) as (? & _ & ?). by apply pending_wf_insert.
  - destruct (js_falsy p); [by intros [= <-]|].
    intros (r & r' & Hr & Hap & ->)%pending_update_Ok.
    destruct (Hwf _ _ Hr) as (Hid & Hs & Ht).
    destruct (apply_partial_tip _ _ _ Ht Hap) as (Ht' & Hs' & Hid').
    apply pending_wf_insert; [done|congruence|congruence|done].
  - intros [= <-] id r. destruct res as [[[??]?]?]. simpl.
    rewrite lookup_delete_Some. intros [_ H]. by apply Hwf.
  - by intros [= <-].
Qed.

(** Consuming the partial messages keeps the pending entry, its status
    and the other collections; only its [partial] changes. *)
Lemma consume_partials rid partials rest c r :
  cl_pending c !! rid = Some r → tip_unset r →
  Forall (λ p, partial_items_ok p = true) partials →
  ∃ c' r', consume rid (map MsgPartial partials ++ rest) c = consume rid rest c' ∧
    cl_pending c' !! rid = Some r' ∧ re_status r' = re_status r ∧ tip_unset r' ∧
    cl_receipts c' = cl_receipts c.
Proof.
  intros Hr Ht Hok. revert c r Hr Ht.
  induction Hok as [|p ps Hp _ IH]; intros c r Hr Ht; simpl; [by exists c, r|].
  destruct (js_falsy p); [by apply IH|].
  destruct (apply_partial_ok p r Ht Hp) as [r' Hap].
  unfold pending_update. rewrite Hr, Hap. simpl.
  destruct (apply_partial_tip _ _ _ Ht Hap) as (Ht' & Hs' & _).
  destruct (IH (set_pending (<[rid := r']>) c) r') as (c'' & r'' & -> & H1 & H2 & H3 & H4);
    [simpl; by rewrite lookup_insert_eq|done|].
  exists c'', r''. split_and!; [done|done|congruence|done|by rewrite H4].
Qed.

Lemma tip_unset_new s rid rep file st pv :
  tip_unset (set_status s (mkReceiptExtractionData rid rep file st (Some (JObj [])) pv)).
Proof. by exists []. Qed.

Lemma consume_finished rid res c :
  consume rid [MsgFinished res] c = set_pending (delete rid) (write_finished res c).
Proof. reflexivity. Qed.

Lemma write_finished_receipt r lis om oc c :
  cl_receipts (write_finished (r, lis, om, oc) c) = <[receipt_id r := r]> (cl_receipts c).
Proof. reflexivity. Qed.

Lemma startReceipt_insert_run cou rep rid file c :
  cl_pending c !! rid = None →
  ∃ c1 r, startReceipt_insert cou rep rid file c = Ok c1 ∧
    pending_update rid (λ r, Ok (set_status EXTRACTING r)) c1
    = Ok (set_pending (<[rid := r]>) c1) ∧
    tip_unset r ∧ re_status r = EXTRACTING ∧ cl_receipts c1 = cl_receipts c.
Proof.
  intros Hn. unfold startReceipt_insert. rewrite Hn. do 2 eexists; split; [done|].
  unfold pending_update. simpl. rewrite lookup_insert_eq.
  split_and!; [reflexivity|apply tip_unset_new|done..].
Qed.

(** Every reachable state satisfies [pending_wf]. *)
Lemma client_reachable_pending_wf cou c : client_reachable cou c → pending_wf c.
Proof.
  induction 1 as [c Hc|e c c' _ IH Hstep].
  - intros id r. by rewrite Hc, lookup_empty.
  - by eapply client_step_wf.
Qed.

Section ClientClaims.
Context {dp : DateParse} (createObjectURL : File → string)
  (pdfToImages : list byte → list (list byte)).

(** (C15) In every state the client reaches, every pending extraction
    is stored under its own id and its status is [PENDING] or
    [EXTRACTING]: the status [DONE] of [ReceiptExtractionSchema] is
    never set, so an entry is either deleted by a [finished] message
    or keeps its spinner. *)
Theorem client_reachable_status c :
  client_reachable createObjectURL c →
  ∀ id r, cl_pending c !! id = Some r →
    re_id r = id ∧ (re_status r = PENDING ∨ re_status r = EXTRACTING).
Proof.
  intros Hc id r Hr. destruct (client_reachable_pending_wf _ _ Hc id r Hr) as (? & Hs & _).
  split; [done|]. destruct (re_status r); auto. by destruct Hs.
Qed.

(** (C16) When the server commits the extraction, the client's run of
    [startReceipt] ends with the pending entry deleted and the
    receipt the server stored in the client's receipt collection,
    provided the [items] of every partial object can be mapped. *)
Theorem startReceipt_commits rep rid file partials c srv data files :
  cl_pending c !! rid = None →
  extractReceipt_prepare pdfToImages (startReceipt_form rep rid file) = Ok (rid, rep, files) →
  db_wf (srv_db srv) → is_Some (db_reports (srv_db srv) !! rep) →
  db_receipts (srv_db srv) !! rid = None →
  ExtractReceiptSchema (last_partial partials) = Some data →
  Forall (λ p, partial_items_ok p = true) partials →
  let '(c', srv') := startReceipt createObjectURL pdfToImages rep rid file partials c srv in
  cl_pending c' !! rid = None ∧
  ∃ r, db_receipts (srv_db srv') !! rid = Some r ∧ cl_receipts c' !! rid = Some r.
Proof.
  intros Hn Hprep Hwf Hrep Hnone Hs Hok.
  destruct (createExpenseReportFromParse_success_spec (srv_db srv) data rep rid
              (length files) Hwf Hrep Hnone (ExtractReceiptSchema_date _ _ Hs))
    as (r & lis & om & oc & d' & Hrun & Hwf' & _ & Hr & _).
  destruct (startReceipt_insert_run createObjectURL rep rid file c Hn)
    as (c1 & R & Hins & Hupd & HR & _).
  unfold startReceipt. rewrite Hins. unfold extractReceipt. rewrite Hprep.
  cbn [mbind result_bind mret result_ret].
  rewrite (extraction_task_ok _ _ _ _ _ _ _ _ Hs Hrun), Hupd. cbn [sv_values].
  destruct (consume_partials rid partials [MsgFinished (r, lis, om, oc)]
              (set_pending (<[rid := R]>) c1) R (lookup_insert_eq _ _ _) HR Hok)
    as (c' & r' & -> & _).
  rewrite consume_finished. split; [apply lookup_delete_eq|].
  exists r. split; [done|]. simpl.
  rewrite <-(wf_receipts_keyed _ Hwf' _ _ Hr) at 1. apply lookup_insert_eq.
Qed.

(** (C17) When the server does not commit (the last object does not
    validate, or the transaction fails), the client's run of
    [startReceipt] leaves the pending entry in place with status
    [EXTRACTING] and adds no receipt: since nothing else deletes it
    (C17), its spinner turns until the page is reloaded. *)
Theorem startReceipt_spins rep rid file partials c srv files :
  cl_pending c !! rid = None →
  extractReceipt_prepare pdfToImages (startReceipt_form rep rid file) = Ok (rid, rep, files) →
  Forall (λ p, partial_items_ok p = true) partials →
  (ExtractReceiptSchema (last_partial partials) = None ∨
   ∃ data e, ExtractReceiptSchema (last_partial partials) = Some data ∧
     fst (run_dbm (createExpenseReportFromParse data rep rid (length files)) (srv_db srv))
     = Err e) →
  let '(c', srv') := startReceipt createObjectURL pdfToImages rep rid file partials c srv in
  (∃ r, cl_pending c' !! rid = Some r ∧ re_status r = EXTRACTING) ∧
  cl_receipts c' = cl_receipts c.
Proof.
  intros Hn Hprep Hok Hfail.
  destruct (startReceipt_insert_run createObjectURL rep rid file c Hn)
    as (c1 & R & Hins & Hupd & HR & HRs & Hc1).
  assert (∃ s srv', extraction_task partials rep rid files srv = (s, srv') ∧
                    sv_values s = map MsgPartial partials ++ []) as (s & srv' & Htask & Hv).
  { rewrite app_nil_r. destruct Hfail as [Hs|(data & e & Hs & He)].
    - rewrite (extraction_task_none _ _ _ _ _ Hs). by eexists _, _.
    - destruct (run_dbm _ (srv_db srv)) as [res d'] eqn:Hrun; simpl in He; subst res.
      rewrite (extraction_task_err _ _ _ _ _ _ _ _ Hs Hrun). by eexists _, _. }
  unfold startReceipt. rewrite Hins. unfold extractReceipt. rewrite Hprep.
  cbn [mbind result_bind mret result_ret]. rewrite Htask, Hupd, Hv.
  destruct (consume_partials rid partials [] (set_pending (<[rid := R]>) c1) R
              (lookup_insert_eq _ _ _) HR Hok)
    as (c' & r' & -> & Hr' & Hs' & _ & Hrc). simpl.
  split; [exists r'; split; congruence|]. by rewrite Hrc, <-Hc1.
Qed.
End ClientClaims.

(** ** Collections and server *)

Lemma deleteMerchants_missing k d :
  db_merchants d !! k = None → run_dbm (deleteMerchants [k]) d = (Err err_not_found, d).
Proof. intros Hk. unfold deleteMerchants, table_delete. dbm_simpl. cbn [t_get merchants_table]. by rewrite Hk. Qed.

(** (C18) The merchant collection is keyed by [normalizedName] and its
    [onDelete] passes the keys to [deleteMerchants], which deletes by
    [id]: deleting a merchant through the collection deletes nothing
    (whenever no merchant id equals its normalized name, which cuid2
    ids never do); the handler throws, and the collection and the
    database are left as they were. *)
Theorem merchant_collection_delete_fails local d m :
  db_merchants d !! merchant_normalizedName m = None →
  collection_delete merchantCollection local (merchant_normalizedName m) d = (local, d).
Proof.
  intros Hk. unfold collection_delete, collection_commit. cbn [h_onDelete merchantCollection].
  by rewrite deleteMerchants_missing.
Qed.

(** ** Witnesses *)

Lemma client_reachable_status_witness :
  re_id pending_rc1 = "rc1" ∧
  (re_status pending_rc1 = PENDING ∨ re_status pending_rc1 = EXTRACTING).
Proof.
  apply (client_reachable_status example_objectURL client_after_start).
  - apply (client_next _ (EvStart "r1" "rc1" example_file) empty_collections).
    + by apply client_init.
    + reflexivity.
  - vm_compute. reflexivity.
Defined.

Lemma startReceipt_commits_witness :
  let '(c', srv') := startReceipt (dp:=iso_date_parse) example_objectURL no_pdf_pages "r1" "rc1"
                       example_file [JObj []; example_receipt_json] empty_collections
                       example_server in
  cl_pending c' !! "rc1" = None ∧
  ∃ r, db_receipts (srv_db srv') !! "rc1" = Some r ∧ cl_receipts c' !! "rc1" = Some r.
Proof.
  apply (startReceipt_commits (dp:=iso_date_parse) example_objectURL no_pdf_pages "r1" "rc1"
           example_file [JObj []; example_receipt_json] empty_collections example_server
           example_data [mkPageFile (file_bytes example_file) (Some "jpg")]).
  - reflexivity.
  - vm_compute. reflexivity.
  - apply example_db_wf.
  - eexists; reflexivity.
  - reflexivity.
  - reflexivity.
  - repeat constructor.
Defined.

Lemma startReceipt_spins_witness :
  let '(c', srv') := startReceipt (dp:=iso_date_parse) example_objectURL no_pdf_pages "r1" "rc1"
                       example_file [JObj []] empty_collections example_server in
  (∃ r, cl_pending c' !! "rc1" = Some r ∧ re_status r = EXTRACTING) ∧
  cl_receipts c' = cl_receipts empty_collections.
Proof.
  apply (startReceipt_spins (dp:=iso_date_parse) example_objectURL no_pdf_pages "r1" "rc1"
           example_file [JObj []] empty_collections example_server
           [mkPageFile (file_bytes example_file) (Some "jpg")]).
  - reflexivity.
  - vm_compute. reflexivity.
  - repeat constructor.
  - left. reflexivity.
Defined.

Lemma merchant_collection_delete_fails_witness :
  collection_delete merchantCollection {[ "BLUE CAFE" := merchant_m1 ]} "BLUE CAFE" actions_db
  = ({[ "BLUE CAFE" := merchant_m1 ]}, actions_db).
Proof. apply (merchant_collection_delete_fails _ actions_db merchant_m1). reflexivity. Defined.
