(* ===== verification/Totals.v ===== *)
(** The sums the browser computes over the client collections:
    [totalPaid] of [src/src/components/reports/upload-form.tsx], the
    subtotal and total of one receipt in [receipt-view.tsx] and of a
    pending extraction in [receipt-preview.tsx], the pie chart of
    [charts/spend-by-category.tsx] and the date range of
    [src/src/hooks/use-report-date-range.ts].

    A live query is a list comprehension over the collections (a join
    is a bind in the list monad) in the order TanStack iterates them,
    here the order of [map_to_list]; the sums do not depend on it.  A
    JavaScript [Map] is an association list in insertion order.
    Amounts are exact integers; [Number(v)] of a JSON value is
    [js_number_or], with [None] for [NaN]. *)

From S2P Require Import Prelude JsString Db Schema ProcessReceipt Client.

#[local] Set Warnings "-clear-no-such-hyp".

Definition values {V} (m : gmap string V) : list V := (map_to_list m).*2.

(** ** One receipt: [ReceiptView] *)

(** [useLiveQuery((q) => q.from({ lineItem }).where(eq(lineItem.receiptId, receipt.id)))] *)
Definition receipt_items (c : Collections) (r : Receipt) : list ReceiptLineItem :=
  filter (λ li, lineItem_receiptId li = receipt_id r) (values (cl_lineItems c)).

(** [items.reduce((sum, it) => sum + price * qty, 0)] *)
Definition receipt_subtotal (items : list ReceiptLineItem) : Z :=
  foldl (λ sum it, sum + lineItem_unitPrice it * lineItem_quantity it)%Z 0%Z items.

(** [const total = subtotal + tax + tip] *)
Definition receipt_total (items : list ReceiptLineItem) (r : Receipt) : Z :=
  (receipt_subtotal items + receipt_tax r + receipt_tip r)%Z.

(** ** [totalPaid] of the upload form *)

(** The receipts of a report. *)
Definition report_receipts (c : Collections) (reportId : string) : list Receipt :=
  filter (λ r, receipt_expenseReportId r = reportId) (values (cl_receipts c)).

(** [from lineItem join receipt on lineItem.receiptId = receipt.id
    where receipt.expenseReportId = expenseReportId] *)
Definition report_lineItem_rows (c : Collections) (reportId : string)
    : list (ReceiptLineItem * Receipt) :=
  values (cl_lineItems c) ≫= λ li,
  values (cl_receipts c) ≫= λ r,
  if decide (lineItem_receiptId li = receipt_id r ∧ receipt_expenseReportId r = reportId)
  then [(li, r)] else [].

(** The rows of [from receipt fullJoin receiptExtraction on id where
    receipt?.expenseReportId = id or receiptExtraction?.expenseReportId = id]
    that carry a receipt (a row of a pending extraction alone adds 0);
    the pending collection is keyed by id, so the join is a lookup. *)
Definition report_receipt_rows (c : Collections) (reportId : string) : list Receipt :=
  filter (λ r, receipt_expenseReportId r = reportId ∨
               re_expenseReportId <$> cl_pending c !! receipt_id r = Some reportId)
    (values (cl_receipts c)).

(** [totalPaid]: the line items, then the tax and tip of every receipt. *)
Definition totalPaid (c : Collections) (reportId : string) : Z :=
  let total := foldl (λ t row, t + lineItem_quantity row.1 * lineItem_unitPrice row.1)%Z
                 0%Z (report_lineItem_rows c reportId) in
  foldl (λ t r, t + (receipt_tax r + receipt_tip r))%Z total (report_receipt_rows c reportId).

(** ** [SpendByCategoryChart] *)

(** [m.set(k, (m.has(k) ? m.get(k) : 0) + v)] on a [Map]. *)
Fixpoint map_add (m : list (string * Z)) (k : string) (v : Z) : list (string * Z) :=
  match m with
  | [] => [(k, v)]
  | (k', v') :: m' =>
      if String.eqb k k' then (k', v' + v)%Z :: m' else (k', v') :: map_add m' k v
  end.

(** [lineItemsWithReceipt]: line item, receipt and category by inner joins. *)
Definition category_lineItem_rows (c : Collections) (reportId : string)
    : list (ReceiptLineItem * Receipt * Category) :=
  values (cl_lineItems c) ≫= λ li,
  values (cl_receipts c) ≫= λ r,
  values (cl_categories c) ≫= λ k,
  if decide (lineItem_receiptId li = receipt_id r ∧ receipt_categoryId r = category_id k ∧
             receipt_expenseReportId r = reportId)
  then [(li, r, k)] else [].

(** [receipts]: receipt and category by an inner join. *)
Definition category_receipt_rows (c : Collections) (reportId : string)
    : list (Receipt * Category) :=
  values (cl_receipts c) ≫= λ r,
  values (cl_categories c) ≫= λ k,
  if decide (receipt_categoryId r = category_id k ∧ receipt_expenseReportId r = reportId)
  then [(r, k)] else [].

(** [chartData]: the totals by category name, in insertion order. *)
Definition spendByCategory (c : Collections) (reportId : string) : list (string * Z) :=
  let totals := foldl (λ m row, map_add m (category_name row.2)
                         (lineItem_quantity row.1.1 * lineItem_unitPrice row.1.1)%Z)
                  [] (category_lineItem_rows c reportId) in
  foldl (λ m row, map_add m (category_name row.2) (receipt_tax row.1 + receipt_tip row.1)%Z)
    totals (category_receipt_rows c reportId).

(** [chartColors] *)
Definition chartColors : list string :=
  ["var(--color-blue-600)"; "var(--color-orange-500)"; "var(--color-yellow-500)";
   "var(--color-emerald-500)"].

(** The pie: [null] when [chartData] is empty, otherwise one slice per
    entry with the color [chartColors[i % chartColors.length]]. *)
Definition SpendByCategoryChart (c : Collections) (reportId : string)
    : option (list (string * Z * string)) :=
  let chartData := spendByCategory c reportId in
  if bool_decide (length chartData = 0) then None
  else Some (imap (λ i x, (x.1, x.2, default "" (chartColors !! (i `mod` length chartColors))))
               chartData).

(** How many categories of the collection a receipt joins with. *)
Definition category_count (c : Collections) (r : Receipt) : nat :=
  length (filter (λ k, receipt_categoryId r = category_id k) (values (cl_categories c))).

(** ** [useReportDateRange] *)

(** [xs.reduce(f)] without an initial value; [None] for an empty array
    (where [reduce] throws; the hook returns before). *)
Definition reduce {A} (f : A → A → A) (xs : list A) : option A :=
  match xs with [] => None | x :: xs' => Some (foldl f x xs') end.

Definition useReportDateRange (c : Collections) (reportId : string) : option Z * option Z :=
  let receiptDates := omap receipt_date (report_receipts c reportId) in
  match receiptDates with
  | [] => (None, None)
  | _ => (reduce (λ a b, if (a <? b)%Z then a else b) receiptDates,
          reduce (λ a b, if (a <? b)%Z then b else a) receiptDates)
  end.

(** ** [ReceiptPreview] of a pending extraction *)

(** [Number(v ?? d)]; an array or an object is [NaN] here. *)
Definition js_number_or (d : Z) (v : json) : option Z :=
  match v with
  | JUndefined | JNull => Some d
  | JNum n => Some n
  | JBool b => Some (if b then 1 else 0)%Z
  | JStr s => js_Number s
  | JArr _ | JObj _ => None
  end.

(** [receipt?.items ?? []]; [reduce] of a value that is not an array
    throws ([None]). *)
Definition preview_items (p : json) : option (list json) :=
  match js_get p "items" with
  | JUndefined | JNull => Some []
  | JArr xs => Some xs
  | _ => None
  end.

Definition preview_subtotal (p : json) : option Z :=
  items ← preview_items p;
  foldl (λ acc it,
           sum ← acc;
           price ← js_number_or 0 (js_get it "unitPrice");
           qty ← js_number_or 1 (js_get it "quantity");
           Some (sum + price * qty)%Z) (Some 0%Z) items.

Definition preview_tax (p : json) : option Z := js_number_or 0 (js_get p "tax").
Definition preview_tip (p : json) : option Z := js_number_or 0 (js_get p "tip").

Definition preview_total (p : json) : option Z :=
  subtotal ← preview_subtotal p;
  tax ← preview_tax p;
  tip ← preview_tip p;
  Some (subtotal + tax + tip)%Z.

(** ** Inputs for concrete runs *)

Definition category_meals : Category := mkCategory "k1" "Meals" "MEALS" 0 0.
Definition receipt_meals : Receipt :=
  mkReceipt "rc1" "r1" "m1" "k1" 1 90 100 (Some 20240501%Z) None 1 "USD" 0 0.
(** A receipt whose category is not in the collection. *)
Definition receipt_uncategorized : Receipt :=
  mkReceipt "rc3" "r1" "m1" "k9" 1 10 0 (Some 20240503%Z) None 1 "USD" 0 0.
Definition item_latte : ReceiptLineItem := mkLineItem "li1" "rc1" "Latte" 2 450 None (Some "USD") 0 0.

Definition report_collections : Collections :=
  mkCollections ∅ (<["rc1" := receipt_meals]> {[ "rc3" := receipt_uncategorized ]})
    {[ "li1" := item_latte ]} ∅ {[ "MEALS" := category_meals ]} ∅.

(** ** Lemmas *)

Lemma elem_of_values {V} (m : gmap string V) v : v ∈ values m ↔ ∃ k, m !! k = Some v.
Proof.
  unfold values. rewrite list_elem_of_fmap. split.
  - intros ([k v'] & -> & Hk). apply elem_of_map_to_list in Hk. eauto.
  - intros [k Hk]. exists (k, v). by rewrite elem_of_map_to_list.
Qed.

Lemma receipt_subtotal_zsum items :
  receipt_subtotal items = zsum (λ it, lineItem_quantity it * lineItem_unitPrice it)%Z items.
Proof.
  unfold receipt_subtotal. rewrite foldl_add_zsum, Z.add_0_l. apply zsum_ext. intros ? _. lia.
Qed.

Lemma zsum_snd_map_add m k v : zsum snd (map_add m k v) = (zsum snd m + v)%Z.
Proof.
  induction m as [|[k' v'] m IH]; [cbn; lia|]. cbn [map_add].
  destruct (String.eqb k k'); rewrite !zsum_cons; simpl; rewrite ?IH; lia.
Qed.

(** Grouping into a [Map] keeps the grand total. *)
Lemma map_add_not_nil m k v : map_add m k v ≠ [].
Proof. destruct m as [|[k' v'] m]; simpl; [done|]. by case_match. Qed.

(** The totals of a loop of [Map.set] are empty only when the map was
    and the loop ran on no row. *)
Lemma foldl_map_add_nil {A} (key : A → string) (val : A → Z) m l :
  foldl (λ m x, map_add m (key x) (val x)) m l = [] ↔ m = [] ∧ l = [].
Proof.
  revert m. induction l as [|x l IH]; intros m; cbn [foldl]; [naive_solver|].
  rewrite IH. split; [intros [Hm _]; by apply map_add_not_nil in Hm|by intros [_ ?]].
Qed.

(** A line item row of the chart comes with a receipt row. *)
Lemma category_lineItem_receipt c reportId li r k :
  (li, r, k) ∈ category_lineItem_rows c reportId → (r, k) ∈ category_receipt_rows c reportId.
Proof.
  unfold category_lineItem_rows, category_receipt_rows. intros Hin.
  apply list_elem_of_bind in Hin as (li' & Hin & _). apply list_elem_of_bind in Hin as (r' & Hin & Hr).
  apply list_elem_of_bind in Hin as (k' & Hin & Hk). case_decide as Hc; [|by apply elem_of_nil in Hin].
  apply list_elem_of_singleton in Hin. injection Hin as <- <- <-.
  apply list_elem_of_bind. exists r. split; [|done]. apply list_elem_of_bind. exists k. split; [|done].
  rewrite decide_True by naive_solver. by apply list_elem_of_singleton.
Qed.

Lemma zsum_snd_foldl_map_add {A} (key : A → string) (val : A → Z) m l :
  zsum snd (foldl (λ m x, map_add m (key x) (val x)) m l) = (zsum snd m + zsum val l)%Z.
Proof.
  revert m. induction l as [|x l IH]; intros m; cbn [foldl]; [rewrite zsum_nil; lia|].
  rewrite IH, zsum_snd_map_add, zsum_cons. lia.
Qed.

(** A sum over the rows of a join on the receipts of a report, as a sum
    over the receipts. *)
Lemma report_lineItem_rows_sum_dep c reportId (f : ReceiptLineItem → Receipt → Z) :
  zsum (λ row, f row.1 row.2) (report_lineItem_rows c reportId)
  = zsum (λ r, if decide (receipt_expenseReportId r = reportId)
               then zsum (λ li, f li r) (receipt_items c r) else 0%Z) (values (cl_receipts c)).
Proof.
  unfold report_lineItem_rows. rewrite zsum_bind. setoid_rewrite zsum_bind_if.
  rewrite zsum_swap. apply zsum_ext. intros r _. unfold receipt_items.
  rewrite zsum_filter. case_decide.
  - apply zsum_ext. intros li _. repeat case_decide; naive_solver.
  - apply zsum_all0. intros li _. case_decide; naive_solver.
Qed.

Lemma report_lineItem_rows_sum c reportId (f : ReceiptLineItem → Z) :
  zsum (λ row, f row.1) (report_lineItem_rows c reportId)
  = zsum (λ r, if decide (receipt_expenseReportId r = reportId)
               then zsum f (receipt_items c r) else 0%Z) (values (cl_receipts c)).
Proof. exact (report_lineItem_rows_sum_dep c reportId (λ li _, f li)). Qed.

Lemma category_receipt_rows_sum c reportId (g : Receipt → Z) :
  zsum (λ row, g row.1) (category_receipt_rows c reportId)
  = zsum (λ r, if decide (receipt_expenseReportId r = reportId)
               then (Z.of_nat (category_count c r) * g r)%Z else 0%Z) (values (cl_receipts c)).
Proof.
  unfold category_receipt_rows. rewrite zsum_bind. setoid_rewrite zsum_bind_if.
  apply zsum_ext. intros r _. unfold category_count. case_decide.
  - rewrite Z.mul_comm, <-(zsum_indicator (λ k, receipt_categoryId r = category_id k)).
    apply zsum_ext. intros k _. repeat case_decide; naive_solver.
  - apply zsum_all0. intros k _. case_decide; naive_solver.
Qed.

Lemma category_lineItem_rows_sum c reportId (f : ReceiptLineItem → Z) :
  zsum (λ row, f row.1.1) (category_lineItem_rows c reportId)
  = zsum (λ r, if decide (receipt_expenseReportId r = reportId)
               then (Z.of_nat (category_count c r) * zsum f (receipt_items c r))%Z else 0%Z)
      (values (cl_receipts c)).
Proof.
  unfold category_lineItem_rows. rewrite zsum_bind. setoid_rewrite zsum_bind.
  setoid_rewrite zsum_bind_if. rewrite zsum_swap. apply zsum_ext. intros r _.
  unfold receipt_items, category_count. rewrite zsum_filter. case_decide as Hrep.
  - rewrite Z.mul_comm, zsum_mul_r. apply zsum_ext. intros li _. case_decide as Hli.
    + rewrite <-zsum_indicator. apply zsum_ext. intros k _. repeat case_decide; naive_solver.
    + rewrite Z.mul_0_l. apply zsum_all0. intros k _. case_decide; naive_solver.
  - apply zsum_all0. intros li _. apply zsum_all0. intros k _. case_decide; naive_solver.
Qed.

Lemma foldl_min_spec (l : list Z) x :
  let m := foldl (λ a b, if (a <? b)%Z then a else b) x l in
  (m ≤ x)%Z ∧ (∀ y, y ∈ l → (m ≤ y)%Z) ∧ (m = x ∨ m ∈ l).
Proof.
  revert x. induction l as [|y l IH]; intros x; simpl.
  { split_and!; [lia|by intros ? ?%not_elem_of_nil|by left]. }
  destruct (IH (if (x <? y)%Z then x else y)) as (H1 & H2 & H3).
  destruct (Z.ltb_spec x y); split_and!; try lia.
  1,3: intros z [->|Hz]%elem_of_cons; [lia|auto].
  all: destruct H3 as [->|]; [|right; by apply elem_of_cons; right].
  all: first [by left | right; by apply elem_of_cons; left].
Qed.

Lemma foldl_max_spec (l : list Z) x :
  let m := foldl (λ a b, if (a <? b)%Z then b else a) x l in
  (x ≤ m)%Z ∧ (∀ y, y ∈ l → (y ≤ m)%Z) ∧ (m = x ∨ m ∈ l).
Proof.
  revert x. induction l as [|y l IH]; intros x; simpl.
  { split_and!; [lia|by intros ? ?%not_elem_of_nil|by left]. }
  destruct (IH (if (x <? y)%Z then y else x)) as (H1 & H2 & H3).
  destruct (Z.ltb_spec x y); split_and!; try lia.
  1,3: intros z [->|Hz]%elem_of_cons; [lia|auto].
  all: destruct H3 as [->|]; [|right; by apply elem_of_cons; right].
  all: first [by left | right; by apply elem_of_cons; left].
Qed.

Lemma report_receipts_sum c reportId (g : Receipt → Z) :
  zsum g (report_receipts c reportId)
  = zsum (λ r, if decide (receipt_expenseReportId r = reportId) then g r else 0%Z)
      (values (cl_receipts c)).
Proof. apply zsum_filter. Qed.

(** ** Totals *)

(** (C19) The total of the upload form is the sum of the totals the
    receipt views of the report show (subtotal of its line items, tax
    and tip), provided a receipt and its pending extraction, if any,
    name the same report. *)
Theorem totalPaid_receipt_totals c reportId :
  (∀ k r p, cl_receipts c !! k = Some r → cl_pending c !! receipt_id r = Some p →
            re_expenseReportId p = receipt_expenseReportId r) →
  totalPaid c reportId
  = zsum (λ r, receipt_total (receipt_items c r) r) (report_receipts c reportId).
Proof.
  intros Hpend. unfold totalPaid. rewrite !foldl_add_zsum.
  rewrite (report_lineItem_rows_sum c reportId (λ li, lineItem_quantity li * lineItem_unitPrice li)%Z).
  unfold report_receipt_rows. rewrite zsum_filter, report_receipts_sum, Z.add_0_l, <-zsum_plus.
  apply zsum_ext. intros r [k Hk]%elem_of_values. unfold receipt_total.
  rewrite receipt_subtotal_zsum.
  destruct (cl_pending c !! receipt_id r) as [p|] eqn:Hp; simpl.
  - pose proof (Hpend k r p Hk Hp). repeat case_decide; naive_solver lia.
  - repeat case_decide; naive_solver lia.
Qed.

(** (C20) The pie chart of spending by category adds each receipt of
    the report (its line items, tax and tip) once for every category
    of the collection it joins with: a receipt whose category is not
    in the category collection is left out of the chart, and with
    unique category ids the chart adds up to the receipts it keeps. *)
Theorem spendByCategory_total c reportId :
  zsum snd (spendByCategory c reportId)
  = zsum (λ r, Z.of_nat (category_count c r) * receipt_total (receipt_items c r) r)%Z
      (report_receipts c reportId).
Proof.
  unfold spendByCategory. rewrite !zsum_snd_foldl_map_add, zsum_nil.
  rewrite (category_lineItem_rows_sum c reportId (λ li, lineItem_quantity li * lineItem_unitPrice li)%Z).
  rewrite (category_receipt_rows_sum c reportId (λ r, receipt_tax r + receipt_tip r)%Z).
  rewrite report_receipts_sum, Z.add_0_l, <-zsum_plus. apply zsum_ext. intros r _.
  unfold receipt_total. rewrite receipt_subtotal_zsum. case_decide; lia.
Qed.

(** The pie is hidden exactly when no receipt of the report joins a
    category of the collection: line items alone never show it, since
    each of their rows comes with its receipt's row. *)
Theorem SpendByCategoryChart_hidden c reportId :
  SpendByCategoryChart c reportId = None ↔ category_receipt_rows c reportId = [].
Proof.
  assert (spendByCategory c reportId = [] ↔ category_receipt_rows c reportId = []) as Hiff.
  { unfold spendByCategory. rewrite !foldl_map_add_nil. split; [naive_solver|]. intros Hr.
    split_and!; [done| |done]. destruct (category_lineItem_rows c reportId) as [|[[li r] k] l] eqn:E; [done|].
    assert ((li, r, k) ∈ category_lineItem_rows c reportId) as Hin by (rewrite E; left).
    apply category_lineItem_receipt in Hin. rewrite Hr in Hin. by apply elem_of_nil in Hin. }
  rewrite <-Hiff. unfold SpendByCategoryChart.
  destruct (spendByCategory c reportId) as [|x l];
    [rewrite bool_decide_true by done|rewrite bool_decide_false by done]; split; done.
Qed.

(** The date range bounds every dated receipt of the report; both ends are dates of its receipts. *)
Lemma useReportDateRange_spec c reportId r t :
  r ∈ report_receipts c reportId → receipt_date r = Some t →
  ∃ s e, useReportDateRange c reportId = (Some s, Some e) ∧ (s ≤ t ≤ e)%Z ∧
    s ∈ omap receipt_date (report_receipts c reportId) ∧
    e ∈ omap receipt_date (report_receipts c reportId).
Proof.
  intros Hr Ht. assert (t ∈ omap receipt_date (report_receipts c reportId)) as Hin
    by (apply list_elem_of_omap; eauto).
  unfold useReportDateRange.
  destruct (omap receipt_date (report_receipts c reportId)) as [|x ds]; [by apply not_elem_of_nil in Hin|].
  destruct (foldl_min_spec ds x) as (Hm1 & Hm2 & Hm3), (foldl_max_spec ds x) as (HM1 & HM2 & HM3).
  do 2 eexists. split; [reflexivity|]. simpl.
  apply elem_of_cons in Hin as [->|Hin]; split_and!; try lia; try (apply Hm2 || apply HM2; done).
  all: first [destruct Hm3 as [->|]|destruct HM3 as [->|]]; by constructor.
Qed.

(** (C21) The date range of a report bounds the date of each of its
    dated receipts, and both ends are dates of its receipts. *)
Theorem useReportDateRange_bounds c reportId r t :
  r ∈ report_receipts c reportId → receipt_date r = Some t →
  ∃ s e, useReportDateRange c reportId = (Some s, Some e) ∧ (s ≤ t ≤ e)%Z ∧
    s ∈ omap receipt_date (report_receipts c reportId) ∧
    e ∈ omap receipt_date (report_receipts c reportId).
Proof. apply useReportDateRange_spec. Qed.

(** The preview of a pending extraction never shows a tip: in
    every state the client reaches, the partial object of a pending
    extraction has no [tip] (the message handler copies every other
    total but [tip]), so [ReceiptPreview] shows a tip of 0 and a total
    of subtotal plus tax, whatever tip the model has streamed. *)
Theorem preview_omits_tip cou c :
  client_reachable cou c →
  ∀ id r, cl_pending c !! id = Some r →
    ∃ p, re_partial r = Some p ∧ preview_tip p = Some 0%Z ∧
      preview_total p = (s ← preview_subtotal p; t ← preview_tax p; Some (s + t)%Z).
Proof.
  intros Hc id r Hr.
  destruct (client_reachable_pending_wf _ _ Hc id r Hr) as (_ & _ & fs & Hp & Ht).
  assert (preview_tip (JObj fs) = Some 0%Z) as Htip by (unfold preview_tip; simpl; by rewrite Ht).
  exists (JObj fs). split_and!; [done|done|]. unfold preview_total. rewrite Htip.
  destruct (preview_subtotal (JObj fs)), (preview_tax (JObj fs)); simpl; [|done..].
  f_equal. lia.
Qed.

(** ** Concrete runs and witnesses *)

(** The form's total counts both receipts; the pie chart leaves out the
    receipt of the missing category. *)
Example totals_example :
  totalPaid report_collections "r1" = 1100%Z ∧
  spendByCategory report_collections "r1" = [("Meals", 1090%Z)].
Proof. split; vm_compute; reflexivity. Qed.

Lemma totalPaid_receipt_totals_witness :
  totalPaid report_collections "r1"
  = zsum (λ r, receipt_total (receipt_items report_collections r) r)
      (report_receipts report_collections "r1").
Proof.
  apply (totalPaid_receipt_totals report_collections "r1").
  intros k r p _ Hp. simpl in Hp. by rewrite lookup_empty in Hp.
Defined.

Lemma useReportDateRange_bounds_witness :
  ∃ s e, useReportDateRange report_collections "r1" = (Some s, Some e) ∧
    (s ≤ 20240503 ≤ e)%Z ∧
    s ∈ omap receipt_date (report_receipts report_collections "r1") ∧
    e ∈ omap receipt_date (report_receipts report_collections "r1").
Proof.
  apply (useReportDateRange_bounds report_collections "r1" receipt_uncategorized).
  - vm_compute. repeat constructor.
  - reflexivity.
Defined.

Lemma preview_omits_tip_witness :
  ∃ p, re_partial pending_rc1 = Some p ∧ preview_tip p = Some 0%Z ∧
    preview_total p = (s ← preview_subtotal p; t ← preview_tax p; Some (s + t)%Z).
Proof.
  refine (preview_omits_tip example_objectURL client_after_start _ "rc1" pending_rc1 _).
  - apply (client_next _ (EvStart "r1" "rc1" example_file) empty_collections).
    + by apply client_init.
    + reflexivity.
  - vm_compute. reflexivity.
Defined.
