(* ===== verification/ReportsList.v ===== *)
(** The list of expense reports, [src/src/app/reports/page.tsx], and the
    "New" entry of the sidebar, [src/src/components/layout/nav.tsx].

    [ReportsPage] reads [page] and [pageSize] from the query string
    ([parseIntOr]), shows the user's reports ordered by [updatedAt]
    descending with [offset]/[limit], and renders the page-size links
    and the Previous and Next links ([buildUrl]); a link whose class
    carries [pointer-events-none] cannot be followed.  The view is a
    record of what the page renders.  [reports_nav] is the set of
    query strings a user reaches from the sidebar's [/reports] link by
    following links of the page.

    [createNewReport] inserts a draft report through
    [reportCollection] (the [createReports] server action) and
    navigates to it.

    [Number(v)] on a query value is [js_Number]: digit strings are
    numbers, other strings [NaN]; [Math.floor] is the identity on the
    integers the model has; [Math.ceil(a / b)] for [b > 0] is
    [- ((- a) / b)] with [Z.div] rounding down. *)

From S2P Require Import Prelude JsString Db Schema ProcessReceipt Actions Route Client Totals.
From stdpp Require Import sorting.
From Stdlib Require Import Ascii.

#[local] Set Warnings "-clear-no-such-hyp".

(** ** Query string *)

(** [Number(v)]: [Number(null)] is [0]. *)
Definition Number_of (v : option string) : option Z :=
  match v with None => Some 0%Z | Some s => js_Number s end.

Definition parseIntOr (v : option string) (defaultN : Z) : Z :=
  match Number_of v with
  | Some n => if (0 <? n)%Z then n else defaultN
  | None => defaultN
  end.

(** [`/reports?${qs.toString()}`] after [qs.set("page", ...)] and
    [qs.set("pageSize", ...)]. *)
Definition buildUrl (page pageSize : Z) : string :=
  "/reports?" +:+ "page=" +:+ js_num_to_string (Some page) +:+
  "&pageSize=" +:+ js_num_to_string (Some pageSize).

(** ** The live query *)

(** [.orderBy((q) => q.reports.updatedAt, { direction: "desc" })]; the
    sort is stable, rows with equal [updatedAt] keep the collection's
    order. *)
Definition updatedAt_desc (a b : ExpenseReport) : Prop :=
  (report_updatedAt b ≤ report_updatedAt a)%Z.

#[export] Instance updatedAt_desc_dec : RelDecision updatedAt_desc.
Proof. intros a b. unfold updatedAt_desc. apply _. Defined.

Definition reports_ordered (c : Collections) : list ExpenseReport :=
  merge_sort updatedAt_desc (values (cl_reports c)).

(** [.offset((page - 1) * pageSize).limit(pageSize)] *)
Definition reports_query (c : Collections) (page pageSize : Z) : list ExpenseReport :=
  take (Z.to_nat pageSize) (drop (Z.to_nat ((page - 1) * pageSize)) (reports_ordered c)).

(** [Math.ceil(a / b)] for [b > 0]. *)
Definition js_ceil_div (a b : Z) : Z := (- ((- a) / b))%Z.

(** ** The page *)

Record Link := mkLink { link_href : string; link_enabled : bool }.

Record ReportsPageView := mkReportsPageView {
  view_rows : list ExpenseReport;
  view_page : Z;
  view_pageSize : Z;
  view_totalPages : Z;
  view_sizeLinks : list Link;
  view_prev : Link;
  view_next : Link;
}.

Definition page_sizes : list Z := [5; 10; 20; 50]%Z.

Definition ReportsPage (searchParams : list (string * string)) (c : Collections)
    : ReportsPageView :=
  let page := parseIntOr (search_get searchParams "page") 1 in
  let pageSize := parseIntOr (search_get searchParams "pageSize") 10 in
  let reports := reports_query c page pageSize in
  let totalPages := Z.max 1 (js_ceil_div (Z.of_nat (length reports)) pageSize) in
  mkReportsPageView reports page pageSize totalPages
    (map (λ s, mkLink (buildUrl 1 s) true) page_sizes)
    (mkLink (buildUrl (Z.max 1 (page - 1)) pageSize) (negb (page <=? 1)%Z))
    (mkLink (buildUrl (Z.min totalPages (page + 1)) pageSize) (negb (totalPages <=? page)%Z)).

Definition view_links (v : ReportsPageView) : list Link :=
  view_sizeLinks v ++ [view_prev v; view_next v].

(** The sidebar's [<Link href="/reports">], then any link of the page
    that can be followed. *)
Inductive reports_nav (c : Collections) : list (string * string) → Prop :=
| nav_sidebar : reports_nav c (url_search_params "/reports")
| nav_follow ps l :
    reports_nav c ps → l ∈ view_links (ReportsPage ps c) → link_enabled l = true →
    reports_nav c (url_search_params (link_href l)).

(** ** createNewReport *)

(** The report [createNewReport] builds for the signed-in [user], with
    the id [cuid2()] returned and the clock [new Date()] read. *)
Definition new_report (user : User) (id : string) (now : Z) : ExpenseReport :=
  mkReport id "Untitled Expense Report" "Untitled Expense Report" DRAFT (user_id user) now now.

(** [collection.insert(row)] once the [onInsert] handler has settled. *)
Definition collection_insert {V} (h : CollectionHandlers V) (local : gmap string V)
    (row : V) (d : Db) : gmap string V * Db :=
  collection_commit h local (h_onInsert h [row]) d.

Definition set_reports_cl (m : gmap string ExpenseReport) (c : Collections) : Collections :=
  mkCollections m (cl_receipts c) (cl_lineItems c) (cl_merchants c) (cl_categories c)
    (cl_pending c).

(** [createNewReport]: nothing without a user; otherwise the insert and
    [router.push(`/reports/${report.id}`)]. *)
Definition createNewReport (user : option User) (session : option User) (id : string)
    (now : Z) (c : Collections) (d : Db) : Collections * Db * option string :=
  match user with
  | None => (c, d, None)
  | Some u =>
      let report := new_report u id now in
      let '(reports, d') := collection_insert (reportCollection session) (cl_reports c) report d in
      (set_reports_cl reports c, d', Some ("/reports/" +:+ report_id report))
  end.

(** ** Inputs for concrete runs *)

(** [n] reports of user [u1], the [i]-th with id and [updatedAt] [i]. *)
Definition numbered_report (i : nat) : ExpenseReport :=
  mkReport (pretty i) "" "" DRAFT "u1" 0 (Z.of_nat i).

Definition numbered_reports (n : nat) : Collections :=
  set_reports_cl (list_to_map ((λ r, (report_id r, r)) <$> map numbered_report (seq 0 n)))
    empty_collections.

(** ** Lemmas *)

Lemma parseIntOr_pos v d : (0 < d)%Z → (0 < parseIntOr v d)%Z.
Proof.
  intros Hd. unfold parseIntOr. destruct (Number_of v) as [n|]; [|done].
  destruct (Z.ltb_spec 0 n); lia.
Qed.

Lemma parseIntOr_pretty (n : nat) d : 0 < n → parseIntOr (Some (pretty n)) d = Z.of_nat n.
Proof.
  intros Hn. unfold parseIntOr, Number_of. rewrite js_Number_pretty.
  destruct (Z.ltb_spec 0 (Z.of_nat n)); lia.
Qed.

(** The query string of a link of the page. *)
Lemma buildUrl_params (p s : nat) :
  url_search_params (buildUrl (Z.of_nat p) (Z.of_nat s))
    = [("page", pretty p); ("pageSize", pretty s)].
Proof.
  unfold url_search_params, buildUrl, JsString.split. cbn [js_num_to_string].
  rewrite !pretty_Z_of_nat.
  change ("/reports?" +:+ "page=" +:+ pretty p +:+ "&pageSize=" +:+ pretty s)
    with ("/reports" +:+ String "?" ("page=" +:+ pretty p +:+ "&pageSize=" +:+ pretty s)).
  rewrite split_go_app_sep by reflexivity.
  rewrite split_go_no_sep; cycle 1.
  { rewrite !no_char_app, !pretty_nat_no_char by reflexivity. reflexivity. }
  cbn [js_join String.concat]. rewrite !string_app_nil_l.
  unfold parse_query, JsString.split.
  change ("page=" +:+ pretty p +:+ "&pageSize=" +:+ pretty s)
    with (("page=" +:+ pretty p) +:+ String "&" ("pageSize=" +:+ pretty s)).
  rewrite split_go_app_sep by (rewrite no_char_app, pretty_nat_no_char; reflexivity).
  rewrite split_go_no_sep by (rewrite no_char_app, pretty_nat_no_char; reflexivity).
  rewrite !string_app_nil_l, filter_cons_True, filter_cons_True, filter_nil by done.
  cbn [map]. unfold query_pair, JsString.split.
  change ("page=" +:+ pretty p) with ("page" +:+ String "=" (pretty p)).
  change ("pageSize=" +:+ pretty s) with ("pageSize" +:+ String "=" (pretty s)).
  rewrite !split_go_app_sep by reflexivity.
  rewrite !split_go_no_sep by (apply pretty_nat_no_char; reflexivity).
  done.
Qed.

(** Following a link to [buildUrl p s] shows page [p] of size [s]. *)
Lemma ReportsPage_buildUrl (p s : nat) c :
  0 < p → 0 < s →
  view_page (ReportsPage (url_search_params (buildUrl (Z.of_nat p) (Z.of_nat s))) c) = Z.of_nat p ∧
  view_pageSize (ReportsPage (url_search_params (buildUrl (Z.of_nat p) (Z.of_nat s))) c) = Z.of_nat s.
Proof.
  intros Hp Hs. rewrite buildUrl_params. cbn [ReportsPage view_page view_pageSize].
  change (search_get [("page", pretty p); ("pageSize", pretty s)] "page") with (Some (pretty p)).
  change (search_get [("page", pretty p); ("pageSize", pretty s)] "pageSize")
    with (Some (pretty s)).
  by rewrite !parseIntOr_pretty.
Qed.

Lemma ReportsPage_pos ps c :
  (0 < view_page (ReportsPage ps c))%Z ∧ (0 < view_pageSize (ReportsPage ps c))%Z.
Proof. split; apply parseIntOr_pos; lia. Qed.

Lemma js_ceil_div_le_1 a b : (0 ≤ a ≤ b)%Z → (0 < b)%Z → (js_ceil_div a b ≤ 1)%Z.
Proof.
  intros Ha Hb. unfold js_ceil_div.
  enough (-1 ≤ (- a) / b)%Z by lia. apply Z.div_le_lower_bound; lia.
Qed.

Lemma reports_query_length c page pageSize :
  (0 ≤ pageSize)%Z → (Z.of_nat (length (reports_query c page pageSize)) ≤ pageSize)%Z.
Proof. intros. unfold reports_query. rewrite length_take. lia. Qed.

(** A row past position [s] of a list without duplicates is not in its
    first [s] rows. *)
Lemma NoDup_not_in_take {A} (l : list A) i s x :
  NoDup l → l !! i = Some x → s ≤ i → x ∉ take s l.
Proof.
  intros Hnd Hi Hs Hx. apply list_elem_of_lookup in Hx as [j Hj].
  apply lookup_take_Some in Hj as [Hj Hjs].
  pose proof (NoDup_lookup l i j x Hnd Hi Hj). lia.
Qed.

Lemma values_NoDup_keyed {V} (key : V → string) (m : gmap string V) :
  keyed_by key m → NoDup (values m).
Proof.
  intros Hk. apply (NoDup_fmap_1 key). unfold values.
  replace (key <$> (map_to_list m).*2) with ((map_to_list m).*1); [apply NoDup_fst_map_to_list|].
  rewrite <-!list_fmap_compose. apply list_fmap_ext. intros i [k v] Hkv.
  apply list_elem_of_lookup_2, elem_of_map_to_list in Hkv. symmetry. by apply Hk.
Qed.

Lemma reports_ordered_NoDup c :
  keyed_by report_id (cl_reports c) → NoDup (reports_ordered c).
Proof.
  intros Hk. unfold reports_ordered. rewrite merge_sort_Permutation.
  by eapply values_NoDup_keyed.
Qed.

(** The slices of [offset]/[limit] for pages [1 .. k] put together are
    the first [k * s] rows. *)
Lemma concat_pages {A} (l : list A) s k :
  concat (map (λ p, take s (drop ((p - 1) * s) l)) (seq 1 k)) = take (k * s) l.
Proof.
  induction k as [|k IH]; [done|].
  rewrite seq_S, map_app, concat_app, IH. cbn [map concat]. rewrite app_nil_r.
  replace ((1 + k - 1) * s) with (k * s) by lia.
  rewrite take_take_drop. f_equal. lia.
Qed.

Lemma ReportsPage_buildUrl_Z p s c :
  (0 < p)%Z → (0 < s)%Z →
  view_page (ReportsPage (url_search_params (buildUrl p s)) c) = p ∧
  view_pageSize (ReportsPage (url_search_params (buildUrl p s)) c) = s.
Proof.
  intros Hp Hs. rewrite <-(Z2Nat.id p), <-(Z2Nat.id s) by lia.
  apply ReportsPage_buildUrl; lia.
Qed.

(** [reports] is the page itself, so [Math.ceil(reports.length / pageSize)]
    is at most 1. *)
Lemma ReportsPage_totalPages ps c : view_totalPages (ReportsPage ps c) = 1%Z.
Proof.
  destruct (ReportsPage_pos ps c) as [_ Hs]. revert Hs. cbn [ReportsPage view_pageSize view_totalPages].
  intros Hs. pose proof (reports_query_length c
    (parseIntOr (search_get ps "page") 1) (parseIntOr (search_get ps "pageSize") 10)).
  pose proof (js_ceil_div_le_1 (Z.of_nat (length (reports_query c
    (parseIntOr (search_get ps "page") 1) (parseIntOr (search_get ps "pageSize") 10))))
    (parseIntOr (search_get ps "pageSize") 10)). lia.
Qed.

Lemma ReportsPage_next_disabled ps c : link_enabled (view_next (ReportsPage ps c)) = false.
Proof.
  pose proof (ReportsPage_totalPages ps c) as Ht. destruct (ReportsPage_pos ps c) as [Hp _].
  revert Ht Hp. cbn [ReportsPage view_next link_enabled view_totalPages view_page].
  intros -> Hp. destruct (Z.leb_spec 1 (parseIntOr (search_get ps "page") 1)); [done|lia].
Qed.

(** Every page a user reaches by following links is page 1, at one of
    the offered sizes. *)
Lemma reports_nav_first_page c ps :
  reports_nav c ps →
  view_page (ReportsPage ps c) = 1%Z ∧ view_pageSize (ReportsPage ps c) ∈ page_sizes.
Proof.
  induction 1 as [|ps l _ [IHp IHs] Hl Hen].
  - split; [reflexivity|]. cbn. set_solver.
  - unfold view_links in Hl. apply elem_of_app in Hl as [Hl|Hl].
    + cbn [ReportsPage view_sizeLinks] in Hl. apply list_elem_of_fmap in Hl as (s & -> & Hs).
      cbn [link_href]. assert (0 < s)%Z by (unfold page_sizes in Hs; set_solver).
      destruct (ReportsPage_buildUrl_Z 1 s c) as [-> ->]; [lia|done|done].
    + apply elem_of_cons in Hl as [->|Hl].
      * revert Hen IHp. cbn [ReportsPage view_prev link_enabled view_page]. intros Hen Hp. by rewrite Hp in Hen.
      * apply list_elem_of_singleton in Hl as ->. by rewrite ReportsPage_next_disabled in Hen.
Qed.

Lemma reports_nav_rows c ps :
  reports_nav c ps → ∃ s, s ∈ page_sizes ∧
    view_rows (ReportsPage ps c) = take (Z.to_nat s) (reports_ordered c).
Proof.
  intros Hnav. destruct (reports_nav_first_page c ps Hnav) as [Hp Hs].
  exists (view_pageSize (ReportsPage ps c)). split; [done|].
  revert Hp. cbn [ReportsPage view_page view_rows view_pageSize]. intros Hp.
  unfold reports_query. by rewrite Hp, Z.sub_diag, Z.mul_0_l, drop_0.
Qed.

(** A collection written back by [queryFn] is keyed by [getKey]. *)
Lemma keyed_by_list_to_map {V} (key : V → string) (l : list V) :
  keyed_by key (list_to_map ((λ v, (key v, v)) <$> l) : gmap string V).
Proof.
  intros k v Hkv. apply elem_of_list_to_map_2, list_elem_of_fmap in Hkv as (w & Hw & _).
  by simplify_eq.
Qed.

(** The collection built from the rows of a keyed table that pass a
    filter holds exactly those rows. *)
Lemma list_to_map_keyed_filter {V} (key : V → string) (P : V → bool) (m : gmap string V) k :
  keyed_by key m →
  (list_to_map ((λ v, (key v, v)) <$> filter (λ v, P v = true) (values m)) : gmap string V) !! k
    = m !! k ≫= (λ v, if P v then Some v else None).
Proof.
  intros Hk. assert (∀ y, (k, y) ∈ (λ v, (key v, v)) <$> filter (λ v, P v = true) (values m)
    ↔ m !! k = Some y ∧ P y = true) as Hin.
  { intros y. rewrite list_elem_of_fmap. split.
    - intros (w & [=] & Hw). subst. apply list_elem_of_filter in Hw as [HP Hw].
      apply list_elem_of_fmap in Hw as ([k' w'] & -> & Hw). apply elem_of_map_to_list in Hw.
      simpl. by rewrite (Hk _ _ Hw).
    - intros [Hy HP]. exists y. rewrite (Hk _ _ Hy). split; [done|].
      apply list_elem_of_filter. split; [done|]. apply list_elem_of_fmap.
      exists (k, y). split; [done|]. by apply elem_of_map_to_list. }
  destruct (m !! k) as [v|] eqn:Hv; simpl; [destruct (P v) eqn:HP|].
  - apply elem_of_list_to_map_1'; [|by apply Hin].
    intros y Hy. destruct (proj1 (Hin y) Hy); by simplify_eq.
  - apply not_elem_of_list_to_map_1. intros HH. apply list_elem_of_fmap in HH.
    destruct HH as ([k2 y] & Heq & Hy). simpl in Heq. subst k2.
    destruct (proj1 (Hin y) Hy); simplify_eq; congruence.
  - apply not_elem_of_list_to_map_1. intros HH. apply list_elem_of_fmap in HH.
    destruct HH as ([k2 y] & Heq & Hy). simpl in Heq. subst k2.
    destruct (proj1 (Hin y) Hy); simplify_eq; congruence.
Qed.

#[export] Instance updatedAt_desc_total : Total updatedAt_desc.
Proof. intros a b. unfold updatedAt_desc. lia. Qed.

#[export] Instance updatedAt_desc_trans : Transitive updatedAt_desc.
Proof. intros a b c. unfold updatedAt_desc. lia. Qed.

Lemma head_take_S {A} (l : list A) n : head (take (S n) l) = head l.
Proof. by destruct l. Qed.

(** The row updated last comes first. *)
Lemma merge_sort_head_latest (l : list ExpenseReport) x :
  x ∈ l → (∀ y, y ∈ l → y ≠ x → (report_updatedAt y < report_updatedAt x)%Z) →
  head (merge_sort updatedAt_desc l) = Some x.
Proof.
  intros Hx Hlt. pose proof (merge_sort_Permutation updatedAt_desc l) as Hperm.
  pose proof (Sorted_StronglySorted updatedAt_desc (merge_sort updatedAt_desc l)
    (Sorted_merge_sort updatedAt_desc l)) as Hs.
  assert (x ∈ merge_sort updatedAt_desc l) as Hx' by (by rewrite Hperm).
  destruct (merge_sort updatedAt_desc l) as [|h t] eqn:E; [by apply not_elem_of_nil in Hx'|].
  simpl. destruct (decide (h = x)) as [->|Hne]; [done|].
  apply elem_of_cons in Hx' as [->|Ht]; [done|].
  apply StronglySorted_inv in Hs as [_ Hall]. eapply Forall_forall in Hall; [|exact Ht].
  unfold updatedAt_desc in Hall. specialize (Hlt h). rewrite <-Hperm in Hlt.
  assert (h ∈ h :: t) as Hh by left. specialize (Hlt Hh Hne). lia.
Qed.

(** The [onInsert] handler of [reportCollection] on a new id. *)
Lemma createReports_one_run u r d :
  db_reports d !! report_id r = None →
  run_dbm (h_onInsert (reportCollection (Some u)) [r]) d
    = (Ok tt, set_reports (insert (report_id r) (with_user u r)) d).
Proof.
  intros Hnone. cbn [h_onInsert reportCollection with_session getCurrentUser].
  unfold createReports, table_createMany. cbn [map]. dbm_simpl.
  cbn [t_get t_id t_unique t_fk t_modify reports_table with_user report_id].
  rewrite Hnone. reflexivity.
Qed.

(** The collection [reportCollection] refetches: the rows of the table
    the user may see. *)
Lemma reportCollection_refetch u d :
  keyed_by report_id (db_reports d) →
  ∃ rows, fst (run_dbm (h_queryFn (reportCollection (Some u))) d) = Ok rows ∧
    ∀ k, (list_to_map ((λ v, (report_id v, v)) <$> rows) : gmap string ExpenseReport) !! k
      = db_reports d !! k ≫= (λ v, if report_visible u v then Some v else None).
Proof.
  intros Hk. eexists. split; [reflexivity|]. intros k.
  by rewrite <-(list_to_map_keyed_filter report_id (report_visible u)).
Qed.

Lemma with_user_new_report u id now : with_user u (new_report u id now) = new_report u id now.
Proof. reflexivity. Qed.

(** [createNewReport] for a signed-in user whose session is valid, on a
    fresh id: the report is written and the collection is refetched. *)
Lemma createNewReport_run u id now c d :
  keyed_by report_id (db_reports d) → db_reports d !! id = None →
  ∃ m, createNewReport (Some u) (Some u) id now c d =
      (set_reports_cl m c, set_reports (<[id := new_report u id now]>) d, Some ("/reports/" +:+ id)) ∧
    ∀ k, m !! k = <[id := new_report u id now]> (db_reports d) !! k
                    ≫= (λ v, if report_visible u v then Some v else None).
Proof.
  intros Hk Hnone. set (d' := set_reports (<[id := new_report u id now]>) d).
  assert (keyed_by report_id (db_reports d')) as Hk'.
  { intros k v. cbn [d' db_reports set_reports]. rewrite lookup_insert_Some.
    intros [[<- <-]|[_ Hv]]; [done|by apply Hk]. }
  destruct (reportCollection_refetch u d' Hk') as (rows & Hrows & Hmap).
  eexists. split; [|exact Hmap].
  unfold createNewReport, collection_insert, collection_commit.
  rewrite (createReports_one_run u (new_report u id now) d Hnone), with_user_new_report.
  change (report_id (new_report u id now)) with id. fold d'. by rewrite Hrows.
Qed.

(** ** Properties *)

(** The reports list always shows "of 1" pages and its Next link
    can never be followed: [totalPages] is computed from the rows of the
    current page, not from the number of reports. *)
Theorem ReportsPage_one_page ps c :
  view_totalPages (ReportsPage ps c) = 1%Z ∧ link_enabled (view_next (ReportsPage ps c)) = false.
Proof. split; [apply ReportsPage_totalPages|apply ReportsPage_next_disabled]. Qed.

(** (C24) Consequently, when a user has more than 50 reports, one of
    them is on no page a user reaches from the sidebar by following
    links of the list. *)
Theorem reports_list_hides c :
  keyed_by report_id (cl_reports c) → 50 < length (values (cl_reports c)) →
  ∃ r, r ∈ values (cl_reports c) ∧ ∀ ps, reports_nav c ps → r ∉ view_rows (ReportsPage ps c).
Proof.
  intros Hk Hlen. pose proof (merge_sort_Permutation updatedAt_desc (values (cl_reports c))) as Hp.
  destruct (lookup_lt_is_Some_2 (reports_ordered c) 50) as [r Hr].
  { unfold reports_ordered. by rewrite Hp. }
  exists r. split.
  { rewrite <-Hp. by eapply list_elem_of_lookup_2. }
  intros ps Hnav. destruct (reports_nav_rows c ps Hnav) as (s & Hs & ->).
  eapply NoDup_not_in_take; [by apply reports_ordered_NoDup|exact Hr|].
  unfold page_sizes in Hs. repeat (apply elem_of_cons in Hs as [->|Hs]; [simpl; lia|]).
  by apply not_elem_of_nil in Hs.
Qed.

Lemma reports_list_hides_witness :
  ∃ r, r ∈ values (cl_reports (numbered_reports 51)) ∧
    ∀ ps, reports_nav (numbered_reports 51) ps → r ∉ view_rows (ReportsPage ps (numbered_reports 51)).
Proof.
  apply reports_list_hides; [apply keyed_by_list_to_map|vm_compute; lia].
Defined.

(** (C25) Refinement of the paging: following [buildUrl p s] for the
    pages [p = 1 .. k] shows rows that, put together, are the user's
    reports in the order of the query, each exactly once, as soon as
    [k] pages of [s] rows can hold them all. *)
Theorem reports_pages_partition c (s k : nat) :
  0 < s → length (reports_ordered c) ≤ k * s →
  concat (map (λ p, view_rows (ReportsPage (url_search_params
      (buildUrl (Z.of_nat p) (Z.of_nat s))) c)) (seq 1 k)) = reports_ordered c.
Proof.
  intros Hs Hk. rewrite <-(take_ge (reports_ordered c) (k * s)) by done.
  rewrite <-concat_pages. f_equal. apply map_ext_in. intros p Hp%in_seq.
  destruct (ReportsPage_buildUrl p s c) as [Hpg Hsz]; [lia|done|].
  revert Hpg Hsz. cbn [ReportsPage view_page view_pageSize view_rows]. intros -> ->.
  unfold reports_query. rewrite Nat2Z.id. replace (Z.of_nat p - 1)%Z with (Z.of_nat (p - 1)) by lia.
  by rewrite <-Nat2Z.inj_mul, Nat2Z.id.
Qed.

Lemma reports_pages_partition_witness :
  concat (map (λ p, view_rows (ReportsPage (url_search_params
      (buildUrl (Z.of_nat p) (Z.of_nat 2))) (numbered_reports 5))) (seq 1 3))
    = reports_ordered (numbered_reports 5).
Proof. apply reports_pages_partition; [lia|vm_compute; lia]. Defined.

(** (C26) "New" in the sidebar, for a signed-in normal user on a fresh
    id: the draft report is written with the user as owner, the browser
    goes to [/reports/<id>], and the refetched list shows the new report
    first when it is the most recently updated one. *)
Theorem createNewReport_first u id now c d :
  user_role u = Normal → keyed_by report_id (db_reports d) → db_reports d !! id = None →
  Forall (λ r, report_updatedAt r < now)%Z (values (db_reports d)) →
  ∃ c' d',
    createNewReport (Some u) (Some u) id now c d = (c', d', Some ("/reports/" +:+ id)) ∧
    db_reports d' !! id = Some (new_report u id now) ∧
    head (view_rows (ReportsPage (url_search_params "/reports") c')) = Some (new_report u id now).
Proof.
  intros Hrole Hk Hnone Hnow. destruct (createNewReport_run u id now c d Hk Hnone) as (m & -> & Hm).
  eexists _, _. split; [reflexivity|]. split; [apply lookup_insert_eq|].
  assert (report_visible u (new_report u id now) = true) as Hvis.
  { unfold report_visible. rewrite Hrole. apply String.eqb_refl. }
  cbn [ReportsPage view_rows]. change (url_search_params "/reports") with (@nil (string * string)).
  cbn [search_get parseIntOr Number_of Z.ltb Z.compare]. unfold reports_query, reports_ordered.
  cbn [cl_reports set_reports_cl]. rewrite Z.sub_diag, drop_0.
  change (Z.to_nat 10) with (S 9). rewrite head_take_S.
  rewrite (merge_sort_head_latest _ (new_report u id now)); [done| |].
  - apply elem_of_values. exists id. by rewrite Hm, lookup_insert_eq; simpl; rewrite Hvis.
  - intros y (k & Hy)%elem_of_values Hne. rewrite Hm in Hy.
    destruct (decide (k = id)) as [->|Hki].
    + rewrite lookup_insert_eq in Hy. simpl in Hy. rewrite Hvis in Hy. by simplify_eq.
    + rewrite lookup_insert_ne in Hy by done.
      destruct (db_reports d !! k) as [v|] eqn:Hv; simpl in Hy; [|done].
      destruct (report_visible u v); simplify_eq. simpl.
      eapply Forall_forall in Hnow; [exact Hnow|]. apply elem_of_values. eauto.
Qed.

Lemma createNewReport_first_witness :
  ∃ c' d',
    createNewReport (Some user_u1) (Some user_u1) "r2" 5 empty_collections example_db
      = (c', d', Some ("/reports/" +:+ "r2")) ∧
    db_reports d' !! "r2" = Some (new_report user_u1 "r2" 5) ∧
    head (view_rows (ReportsPage (url_search_params "/reports") c'))
      = Some (new_report user_u1 "r2" 5).
Proof.
  apply createNewReport_first; [reflexivity|apply example_db_wf|reflexivity|].
  apply (bool_decide_unpack _). vm_compute. reflexivity.
Defined.
