(* ===== verification/ReportsTable.v ===== *)
(** The rows of the reports list, [ReportsTable] and [ReportsTableRow]
    of [src/src/app/reports/page.tsx]: the cells a row shows (link,
    status, date range of its receipts, creation date) and its delete
    button, which deletes through [reportCollection] and then flips the
    [rerenderFlag] of [ReportsPage].

    [toLocaleDateString] is a parameter of the section. *)

From S2P Require Import Prelude JsString Db Actions Client Totals ReportsList.
From Stdlib Require Import Ascii.
From stdpp Require Import sorting.

#[local] Set Warnings "-clear-no-such-hyp".

(** ** Cells of a row *)

(** [String.prototype.toLowerCase] on ASCII. *)
Definition ascii_lower (c : ascii) : ascii :=
  let n := nat_of_ascii c in
  if (65 <=? n) && (n <=? 90) then ascii_of_nat (n + 32) else c.

Fixpoint toLowerCase (s : string) : string :=
  match s with
  | EmptyString => EmptyString
  | String c s' => String (ascii_lower c) (toLowerCase s')
  end.

(** The Prisma enum value of a status, as the client receives it. *)
Definition status_name (s : ExpenseReportStatus) : string :=
  match s with
  | DRAFT => "DRAFT"
  | SUBMITTED => "SUBMITTED"
  | REJECTED => "REJECTED"
  | APPROVED => "APPROVED"
  end.

(** [v === null] for a value of [useReportDateRange]: the hook returns
    a [Date] or [undefined], and neither is strictly equal to [null]. *)
Definition strict_eq_null (v : option Z) : bool :=
  match v with
  | Some _ => false
  | None => false
  end.

Record ReportRowView := mkReportRowView {
  rrv_href : string;     (** [`/reports/${report.id}`] *)
  rrv_title : string;    (** [report.title ?? "Untitled"] *)
  rrv_status : string;   (** [report.status.toLowerCase() ?? "-"] *)
  rrv_dates : string;
  rrv_created : string;  (** [report.createdAt.toLocaleDateString()] *)
}.

Section Row.
Context (toLocaleDateString : Z → string).

(** [start === null && end === null ? "-" : `${start?.toLocaleDateString() ?? "-"} → ${end?.toLocaleDateString() ?? "-"}`] *)
Definition dates_cell (range : option Z * option Z) : string :=
  let '(start, end_) := range in
  if strict_eq_null start && strict_eq_null end_ then "-"
  else default "-" (toLocaleDateString <$> start) +:+ " → " +:+
       default "-" (toLocaleDateString <$> end_).

(** The title is a string, never [null], so [?? "Untitled"] does not
    apply; nor does [?? "-"] to the lower-cased status. *)
Definition ReportsTableRow (c : Collections) (r : ExpenseReport) : ReportRowView :=
  mkReportRowView ("/reports/" +:+ report_id r) (report_title r)
    (toLowerCase (status_name (report_status r)))
    (dates_cell (useReportDateRange c (report_id r)))
    (toLocaleDateString (report_createdAt r)).

(** [ReportsTable] with one row per report of the page. *)
Definition ReportsTable (c : Collections) (reports : list ExpenseReport) : list ReportRowView :=
  ReportsTableRow c <$> reports.

End Row.

(** ** The delete button *)

(** The state of [ReportsPage] the button touches: the collections, the
    database and [rerenderFlag]. *)
Record ReportsPageState := mkReportsPageState {
  rp_cl : Collections;
  rp_db : Db;
  rp_rerenderFlag : bool;
}.

(** [reportCollection.delete(report.id); props.onDeleted();]: the
    delete of a key the collection does not hold throws before
    [onDeleted] runs; otherwise the deletion settles as
    [collection_delete] and [onDeleted] is [rerender((r) => !r)]. *)
Definition row_delete (session : option User) (r : ExpenseReport) (st : ReportsPageState)
    : ReportsPageState :=
  match cl_reports (rp_cl st) !! report_id r with
  | None => st
  | Some _ =>
      let '(reports, d') :=
        collection_delete (reportCollection session) (cl_reports (rp_cl st)) (report_id r) (rp_db st) in
      mkReportsPageState (set_reports_cl reports (rp_cl st)) d' (negb (rp_rerenderFlag st))
  end.

(** ** Inputs for concrete runs *)

(** A submitted report of user [u2] and a reviewer. *)
Definition report_submitted_u2 : ExpenseReport := mkReport "r5" "Trip" "" SUBMITTED "u2" 3 4.

Definition user_reviewer : User := mkUser "u9" Reviewer.

Definition table_db : Db :=
  mkDb {[ "r5" := report_submitted_u2 ]} ∅ ∅ ∅ ∅ 10 0.

Definition table_state : ReportsPageState :=
  mkReportsPageState (mkCollections {[ "r5" := report_submitted_u2 ]} ∅ ∅ ∅ ∅ ∅) table_db false.

(** ** Lemmas *)

Lemma string_length_app (a b : string) : String.length (a +:+ b) = String.length a + String.length b.
Proof.
  induction a as [|c a IH]; [by rewrite string_app_nil_l|]. by rewrite string_app_cons; cbn; rewrite IH.
Qed.

(** A user passes the guard of [deleteReports] for every report they
    can see: their own, or any report for a reviewer. *)
Lemma skip_unowned_visible u d id r :
  db_reports d !! id = Some r → report_visible u r = true →
  skip_unowned u (filter (λ id, report_owned (user_id u) d id = true) [id]) id = false.
Proof.
  intros Hr Hv. unfold report_visible in Hv. destruct (user_role u) eqn:Hrole.
  - apply skip_unowned_in, list_elem_of_filter. split; [|by apply list_elem_of_singleton].
    unfold report_owned. by rewrite Hr.
  - unfold skip_unowned. by rewrite Hrole.
Qed.

(** The [onDelete] handler of [reportCollection] for a report the user
    can see deletes it. *)
Lemma deleteReports_visible_run u d id r :
  db_reports d !! id = Some r → report_visible u r = true →
  run_dbm (h_onDelete (reportCollection (Some u)) [id]) d = (Ok tt, set_reports (delete id) d).
Proof.
  intros Hr Hv. cbn [h_onDelete reportCollection with_session getCurrentUser].
  unfold deleteReports, getOwnedReportIds. rewrite run_read_bind.
  apply (guarded_delete_one reports_table u _ id d r); [|done].
  by eapply skip_unowned_visible.
Qed.

Lemma keyed_by_delete {V} (key : V → string) (m : gmap string V) id :
  keyed_by key m → keyed_by key (delete id m).
Proof. intros Hk k v Hkv. apply lookup_delete_Some in Hkv as [_ Hkv]. by apply Hk. Qed.

(** A row of a page is a report of the collection. *)
Lemma reports_query_values c p s x : x ∈ reports_query c p s → x ∈ values (cl_reports c).
Proof.
  unfold reports_query, reports_ordered. intros Hx. apply list_elem_of_lookup in Hx as [i Hi].
  apply lookup_take_Some in Hi as [Hi _]. rewrite lookup_drop in Hi.
  apply list_elem_of_lookup_2 in Hi. by rewrite merge_sort_Permutation in Hi.
Qed.

(** The date cell always holds the arrow: [useReportDateRange] never
    returns [null], so the ["-"] branch is dead. *)
Lemma dates_cell_arrow fmt range :
  ∃ a b, dates_cell fmt range = a +:+ " → " +:+ b.
Proof. destruct range as [[s|] [e|]]; eexists _, _; reflexivity. Qed.

Lemma dates_cell_not_dash fmt range : dates_cell fmt range ≠ "-".
Proof.
  destruct (dates_cell_arrow fmt range) as (a & b & ->). intros Heq.
  apply (f_equal String.length) in Heq. rewrite !string_length_app in Heq. cbn in Heq. lia.
Qed.

(** ** Properties *)

(** (C27) The delete button of a row deletes the report for every
    signed-in user who can see it: a normal user's own report, and for a
    reviewer any report that is not a draft, another user's included.
    The report is gone from the database and, once the collection has
    refetched, from every page of the list; [rerenderFlag] is flipped. *)
Theorem row_delete_visible u r r1 st :
  keyed_by report_id (db_reports (rp_db st)) →
  is_Some (cl_reports (rp_cl st) !! report_id r) →
  db_reports (rp_db st) !! report_id r = Some r1 → report_visible u r1 = true →
  db_reports (rp_db (row_delete (Some u) r st)) = delete (report_id r) (db_reports (rp_db st)) ∧
  rp_rerenderFlag (row_delete (Some u) r st) = negb (rp_rerenderFlag st) ∧
  ∀ p s x, x ∈ reports_query (rp_cl (row_delete (Some u) r st)) p s → report_id x ≠ report_id r.
Proof.
  intros Hk [r0 Hc] Hr Hv. set (d' := set_reports (delete (report_id r)) (rp_db st)).
  assert (keyed_by report_id (db_reports d')) as Hk' by by apply keyed_by_delete.
  destruct (reportCollection_refetch u d' Hk') as (rows & Hrows & Hmap).
  unfold row_delete. rewrite Hc. unfold collection_delete, collection_commit.
  rewrite (deleteReports_visible_run u _ _ r1 Hr Hv). fold d'. rewrite Hrows.
  split_and!; [done|done|]. intros p s x Hx.
  apply reports_query_values, elem_of_values in Hx as [k Hx]. cbn in Hx. rewrite Hmap in Hx.
  destruct (db_reports d' !! k) as [y|] eqn:Hy; [|done]. simpl in Hx.
  destruct (report_visible u y); [|done]. injection Hx as <-.
  rewrite (Hk' _ _ Hy). cbn in Hy. by apply lookup_delete_Some in Hy as [? _].
Qed.

(** A report without dated receipts shows ["- → -"] in its date cell,
    not ["-"]; no row ever shows ["-"] there. *)
Lemma dates_cell_undated fmt c r :
  omap receipt_date (report_receipts c (report_id r)) = [] →
  rrv_dates (ReportsTableRow fmt c r) = "- → -" ∧
  ∀ c' r', rrv_dates (ReportsTableRow fmt c' r') ≠ "-".
Proof.
  intros Hnone. split; [|intros; apply dates_cell_not_dash].
  cbn [ReportsTableRow rrv_dates]. unfold useReportDateRange. by rewrite Hnone.
Qed.

(** ** Witnesses *)

(** A reviewer deletes the submitted report of user [u2]. *)
Lemma row_delete_visible_witness :
  db_reports (rp_db (row_delete (Some user_reviewer) report_submitted_u2 table_state))
    = delete "r5" (db_reports (rp_db table_state)) ∧
  rp_rerenderFlag (row_delete (Some user_reviewer) report_submitted_u2 table_state) = true ∧
  ∀ p s x, x ∈ reports_query (rp_cl (row_delete (Some user_reviewer) report_submitted_u2 table_state)) p s →
    report_id x ≠ "r5".
Proof.
  apply (row_delete_visible user_reviewer report_submitted_u2 report_submitted_u2 table_state).
  - intros k v Hkv. cbn in Hkv. apply lookup_singleton_Some in Hkv as [<- <-]. reflexivity.
  - eexists; reflexivity.
  - reflexivity.
  - reflexivity.
Defined.

Lemma dates_cell_undated_witness :
  rrv_dates (ReportsTableRow (λ _, "x") (rp_cl table_state) report_submitted_u2) = "- → -" ∧
  ∀ c' r', rrv_dates (ReportsTableRow (λ _, "x") c' r') ≠ "-".
Proof. apply (dates_cell_undated (λ _, "x") (rp_cl table_state) report_submitted_u2). reflexivity. Defined.
