(* ===== verification/ReportPage.v ===== *)
(** The page of one report, [ViewReportPage] of
    [src/src/app/reports/[id]/page.tsx]: the live query of the report
    collection on the id of the route, [null] while no report has that
    id, and otherwise the heading and the [UploadForm] given the report
    as [initialData] (its [handleValueChanged] is in [ReportForm]). *)

From S2P Require Import Prelude JsString Db Actions Client Totals ReportsList.

#[local] Set Warnings "-clear-no-such-hyp".

(** [q.from({ report: reportCollection }).where(({ report }) => eq(report.id, id))] *)
Definition report_query (c : Collections) (id : string) : list ExpenseReport :=
  filter (λ r, report_id r = id) (values (cl_reports c)).

(** What the page renders when it does not return [null]. *)
Record ReportPageView := mkReportPageView {
  rp_heading : string;              (** [Manage Expense Report: {report?.title}] *)
  rp_initialData : ExpenseReport;   (** [<UploadForm initialData={report} />] *)
}.

(** [const report = reports[0]!; if (!report) return null;] *)
Definition ViewReportPage (c : Collections) (id : string) : option ReportPageView :=
  match head (report_query c id) with
  | None => None
  | Some r => Some (mkReportPageView ("Manage Expense Report: " +:+ report_title r) r)
  end.

(** ** Lemmas *)

Lemma report_query_elem c id x :
  keyed_by report_id (cl_reports c) → x ∈ report_query c id ↔ cl_reports c !! id = Some x.
Proof.
  intros Hk. unfold report_query. rewrite list_elem_of_filter, elem_of_values. split.
  - intros [<- [k Hx]]. by rewrite (Hk _ _ Hx).
  - intros Hx. split; [by apply Hk|eauto].
Qed.

(** The query of a keyed collection holds the row under the id and
    nothing else. *)
Lemma report_query_head c id :
  keyed_by report_id (cl_reports c) → head (report_query c id) = cl_reports c !! id.
Proof.
  intros Hk. destruct (report_query c id) as [|x l] eqn:Hq; simpl.
  - destruct (cl_reports c !! id) as [r|] eqn:Hr; [|done].
    apply (report_query_elem c id r) in Hr; [|done]. rewrite Hq in Hr. by apply elem_of_nil in Hr.
  - symmetry. apply (report_query_elem c id x); [done|]. rewrite Hq. by left.
Qed.

(** ** Properties *)

(** The page of a report shows the report of the collection under the
    id of the route, with its title in the heading, and renders nothing
    when the collection has no such report. *)
Theorem ViewReportPage_lookup c id :
  keyed_by report_id (cl_reports c) →
  ViewReportPage c id =
    (λ r, mkReportPageView ("Manage Expense Report: " +:+ report_title r) r) <$> cl_reports c !! id.
Proof.
  intros Hk. unfold ViewReportPage. rewrite report_query_head by done.
  by destruct (cl_reports c !! id).
Qed.

(** "New" in the sidebar opens the page of the new report: after
    [createNewReport] the route [/reports/<id>] it pushes shows the form
    of the draft [Untitled Expense Report]. *)
Theorem createNewReport_opens_page u id now c d :
  user_role u = Normal → keyed_by report_id (db_reports d) → db_reports d !! id = None →
  ∃ c' d', createNewReport (Some u) (Some u) id now c d = (c', d', Some ("/reports/" +:+ id)) ∧
    ViewReportPage c' id =
      Some (mkReportPageView "Manage Expense Report: Untitled Expense Report" (new_report u id now)).
Proof.
  intros Hrole Hk Hnone. destruct (createNewReport_run u id now c d Hk Hnone) as (m & -> & Hm).
  eexists _, _. split; [reflexivity|].
  assert (report_visible u (new_report u id now) = true) as Hvis.
  { unfold report_visible. rewrite Hrole. apply String.eqb_refl. }
  assert (keyed_by report_id m) as Hkm.
  { intros k v Hv. rewrite Hm in Hv. destruct (decide (k = id)) as [->|Hki].
    - rewrite lookup_insert_eq in Hv. simpl in Hv. rewrite Hvis in Hv. by simplify_eq.
    - rewrite lookup_insert_ne in Hv by done.
      destruct (db_reports d !! k) as [w|] eqn:Hw; simpl in Hv; [|done].
      destruct (report_visible u w); simplify_eq. by apply Hk. }
  rewrite ViewReportPage_lookup by done. cbn [cl_reports set_reports_cl].
  by rewrite Hm, lookup_insert_eq; simpl; rewrite Hvis.
Qed.

(** ** Witnesses *)

Lemma ViewReportPage_lookup_witness :
  ViewReportPage (numbered_reports 3) "1" =
    (λ r, mkReportPageView ("Manage Expense Report: " +:+ report_title r) r)
      <$> cl_reports (numbered_reports 3) !! "1".
Proof. apply ViewReportPage_lookup, keyed_by_list_to_map. Defined.

Lemma createNewReport_opens_page_witness :
  ∃ c' d', createNewReport (Some user_u1) (Some user_u1) "r2" 5 empty_collections example_db
      = (c', d', Some ("/reports/" +:+ "r2")) ∧
    ViewReportPage c' "r2" =
      Some (mkReportPageView "Manage Expense Report: Untitled Expense Report" (new_report user_u1 "r2" 5)).
Proof. apply createNewReport_opens_page; [reflexivity|apply example_db_wf|reflexivity]. Defined.
