(* ===== verification/Upload.v ===== *)
(** The upload list: the hook [useReceiptUpload] of
    [src/src/hooks/use-receipt-upload.ts] and the list that renders it,
    [src/src/components/reports/file-list.tsx].

    The hook's state is [UploadState]: the [files] array, the
    [validationError] and, beside them, the object URLs the hook has
    created with [URL.createObjectURL] and not yet revoked (the part of
    the browser's blob-URL store the hook is responsible for).  Each
    [useCallback] is a function on the state; the [setFiles] updater
    runs on the current state.  The entry ids
    [`${Date.now()}-${Math.random()...}`] and the URLs
    [createObjectURL] returns are the [k]-th values of two supplies,
    [entry_id] and [object_url], where [k] counts the entries ever
    created; the theorems assume what the code relies on: the supplies
    never repeat and object URLs start with "blob:".

    [f.size] is the length of the file's bytes. *)

From S2P Require Import Prelude JsString ProcessReceipt.
From Stdlib Require Import Init.Byte Strings.Byte Ascii.

#[local] Set Warnings "-clear-no-such-hyp".

(** ** Data *)

Record FileEntry := mkFileEntry {
  fe_id : string;
  fe_file : File;
  fe_preview : option string;
}.

#[export] Instance byte_eq_decision : EqDecision byte := byte_eq_dec.
#[export] Instance File_eq_dec : EqDecision File.
Proof. solve_decision. Defined.
#[export] Instance FileEntry_eq_dec : EqDecision FileEntry.
Proof. solve_decision. Defined.

Record UploadState := mkUploadState {
  us_files : list FileEntry;
  us_validationError : option string;
  us_urls : list string;   (** object URLs created by the hook and not revoked *)
  us_created : nat;        (** entries created so far *)
}.

Inductive MoveDir := Up | Down.

Definition MAX_SIZE_BYTES : nat := 10 * 1024 * 1024.

Definition file_size (f : File) : nat := length (file_bytes f).

(** A double quote character. *)
Definition dq : string := String (ascii_of_nat 34) EmptyString.

Definition initial_upload : UploadState := mkUploadState [] None [] 0.

Section Hook.
Context (entry_id : nat → string) (object_url : nat → string).

(** ** addFiles *)

Definition allowed_type (f : File) : bool :=
  startsWith (file_type f) "image/" || String.eqb (file_type f) "application/pdf".

(** [allowed.map((f) => ({ id, file: f, preview }))], numbering the new
    entries from [k]. *)
Fixpoint make_entries (k : nat) (allowed : list File) : list FileEntry :=
  match allowed with
  | [] => []
  | f :: fs =>
      mkFileEntry (entry_id k) f
        (if startsWith (file_type f) "image/" then Some (object_url k) else None)
        :: make_entries (S k) fs
  end.

Definition addFiles (incoming : list File) (s : UploadState) : UploadState :=
  match list_find (λ f, MAX_SIZE_BYTES < file_size f) incoming with
  | Some (_, oversized) =>
      mkUploadState (us_files s)
        (Some (dq +:+ file_name oversized +:+ dq +:+ " exceeds max size (10 MB)."))
        (us_urls s) (us_created s)
  | None =>
      let allowed := filter (λ f, allowed_type f = true) incoming in
      let err := if bool_decide (length allowed ≠ length incoming)
                 then Some "Some files were skipped — only images and PDFs are allowed."
                 else None in
      let entries := make_entries (us_created s) allowed in
      mkUploadState (us_files s ++ entries) err
        (us_urls s ++ omap fe_preview entries) (us_created s + length allowed)
  end.

(** ** removeFile, moveFile, reset *)

(** [if (p?.preview && p.preview.startsWith("blob:")) URL.revokeObjectURL(p.preview)] *)
Definition revoke (p : option string) (urls : list string) : list string :=
  match p with
  | Some u => if startsWith u "blob:" then filter (λ u', u' ≠ u) urls else urls
  | None => urls
  end.

Definition removeFile (id : string) (s : UploadState) : UploadState :=
  let cur := us_files s in
  let toRemove := fe_preview ∘ snd <$> list_find (λ c, fe_id c = id) cur in
  mkUploadState (filter (λ c, fe_id c ≠ id) cur) (us_validationError s)
    (revoke (mjoin toRemove) (us_urls s)) (us_created s).

(** [[newArr[idx], newArr[swapIdx]] = [newArr[swapIdx]!, newArr[idx]!]] *)
Definition swap {A} (i j : nat) (l : list A) : list A :=
  match l !! i, l !! j with
  | Some x, Some y => <[i := y]> (<[j := x]> l)
  | _, _ => l
  end.

Definition moveFile (id : string) (dir : MoveDir) (s : UploadState) : UploadState :=
  let cur := us_files s in
  match list_find (λ c, fe_id c = id) cur with
  | None => s
  | Some (idx, _) =>
      let swapIdx : Z := match dir with Up => (Z.of_nat idx - 1)%Z | Down => (Z.of_nat idx + 1)%Z end in
      if bool_decide (swapIdx < 0 ∨ Z.of_nat (length cur) ≤ swapIdx)%Z then s
      else mkUploadState (swap idx (Z.to_nat swapIdx) cur) (us_validationError s)
             (us_urls s) (us_created s)
  end.

Definition reset (s : UploadState) : UploadState :=
  mkUploadState [] None (foldl (λ urls f, revoke (fe_preview f) urls) (us_urls s) (us_files s))
    (us_created s).

(** ** The hook as a transition system *)

Inductive UploadEvent :=
| EvAdd (incoming : list File)
| EvRemove (id : string)
| EvMove (id : string) (dir : MoveDir)
| EvReset.

Definition upload_step (e : UploadEvent) (s : UploadState) : UploadState :=
  match e with
  | EvAdd fs => addFiles fs s
  | EvRemove id => removeFile id s
  | EvMove id dir => moveFile id dir s
  | EvReset => reset s
  end.

Definition upload_run (es : list UploadEvent) (s : UploadState) : UploadState :=
  foldl (λ s e, upload_step e s) s es.

End Hook.

(** ** FileList *)

Record FileRow := mkFileRow {
  row_id : string;
  row_isPdf : bool;
  row_src : option string;
  row_up_enabled : bool;     (** [disabled={idx === 0}] *)
  row_down_enabled : bool;   (** [disabled={idx === files.length - 1}] *)
}.

Definition FileList (files : list FileEntry) : list FileRow :=
  imap (λ idx f, mkFileRow (fe_id f) (String.eqb (file_type (fe_file f)) "application/pdf")
          (fe_preview f) (negb (Nat.eqb idx 0)) (negb (Nat.eqb idx (length files - 1)))) files.

Definition row_enabled (dir : MoveDir) (r : FileRow) : bool :=
  match dir with Up => row_up_enabled r | Down => row_down_enabled r end.

(** ** Inputs for concrete runs *)

Definition example_entry_id (k : nat) : string := "e" +:+ pretty k.
Definition example_object_url (k : nat) : string := "blob:" +:+ pretty k.
Definition photo (name : string) : File := mkFile name "image/png" [].
Definition scan (name : string) : File := mkFile name "application/pdf" [].

(** Three files added, the last moved up, the first removed. *)
Definition example_events : list UploadEvent :=
  [EvAdd [photo "a.png"; scan "b.pdf"; photo "c.png"]; EvMove "e2" Up; EvRemove "e0"].

Definition entry_a : FileEntry := mkFileEntry "e0" (photo "a.png") (Some "blob:0").
Definition entry_b : FileEntry := mkFileEntry "e1" (photo "b.png") (Some "blob:1").
Definition entry_c : FileEntry := mkFileEntry "e2" (photo "c.png") (Some "blob:2").
Definition two_photos : UploadState := mkUploadState [entry_a; entry_b] None ["blob:0"; "blob:1"] 2.

(** ** Lemmas on the list operations *)

Lemma swap_cons {A} (i j : nat) z (l : list A) : swap (S i) (S j) (z :: l) = z :: swap i j l.
Proof. unfold swap. simpl. by destruct (l !! i), (l !! j). Qed.

Lemma swap_middle {A} (a b : list A) x y :
  swap (length a) (S (length a)) (a ++ x :: y :: b) = a ++ y :: x :: b.
Proof. induction a as [|z a IH]; [done|]. simpl. by rewrite swap_cons, IH. Qed.

Lemma swap_middle_rev {A} (a b : list A) x y :
  swap (S (length a)) (length a) (a ++ x :: y :: b) = a ++ y :: x :: b.
Proof. induction a as [|z a IH]; [done|]. simpl. by rewrite swap_cons, IH. Qed.

Lemma swap_adjacent_split {A} (l : list A) i :
  S i < length l → ∃ a x y b, l = a ++ x :: y :: b ∧ length a = i.
Proof.
  intros Hi. destruct (lookup_lt_is_Some_2 l i) as [x Hx]; [lia|].
  destruct (lookup_lt_is_Some_2 l (S i)) as [y Hy]; [lia|].
  exists (take i l), x, y, (drop (S (S i)) l). split; [|rewrite length_take; lia].
  by rewrite <-(drop_S _ y), take_drop_middle.
Qed.

Lemma swap_adjacent_perm {A} (l : list A) i : S i < length l → swap i (S i) l ≡ₚ l.
Proof.
  intros (a & x & y & b & -> & <-)%swap_adjacent_split. rewrite swap_middle.
  by apply Permutation_app_head, perm_swap.
Qed.

Lemma swap_adjacent_perm_rev {A} (l : list A) i : S i < length l → swap (S i) i l ≡ₚ l.
Proof.
  intros (a & x & y & b & -> & <-)%swap_adjacent_split. rewrite swap_middle_rev.
  by apply Permutation_app_head, perm_swap.
Qed.

Lemma list_find_id_middle (a b : list FileEntry) e :
  NoDup (fe_id <$> a ++ e :: b) →
  list_find (λ c, fe_id c = fe_id e) (a ++ e :: b) = Some (length a, e).
Proof.
  intros Hnd. apply list_find_Some. split_and!; [by apply list_lookup_middle|done|].
  intros j y Hj Hlt Hid. rewrite lookup_app_l in Hj by done.
  rewrite fmap_app, fmap_cons in Hnd. apply NoDup_app in Hnd as (_ & Hdis & _).
  apply (Hdis (fe_id e)); [|by left]. apply list_elem_of_fmap. exists y.
  split; [done|]. by eapply list_elem_of_lookup_2.
Qed.

Definition with_files (fs : list FileEntry) (s : UploadState) : UploadState :=
  mkUploadState fs (us_validationError s) (us_urls s) (us_created s).

Lemma moveFile_down_middle s a e f b :
  us_files s = a ++ e :: f :: b → NoDup (fe_id <$> us_files s) →
  moveFile (fe_id e) Down s = with_files (a ++ f :: e :: b) s.
Proof.
  intros Hs Hnd. unfold moveFile. rewrite Hs in *. rewrite list_find_id_middle by done.
  rewrite bool_decide_false by (rewrite length_app; simpl; lia).
  replace (Z.to_nat (Z.of_nat (length a) + 1)) with (S (length a)) by lia.
  by rewrite swap_middle.
Qed.

Lemma moveFile_up_middle s a e f b :
  us_files s = a ++ f :: e :: b → NoDup (fe_id <$> us_files s) →
  moveFile (fe_id e) Up s = with_files (a ++ e :: f :: b) s.
Proof.
  intros Hs Hnd. unfold moveFile. rewrite Hs in *.
  rewrite (cons_middle f), app_assoc, list_find_id_middle by (by rewrite <-app_assoc).
  rewrite bool_decide_false by (rewrite !length_app; simpl; lia).
  rewrite length_app. simpl.
  replace (Z.to_nat (Z.of_nat (length a + 1) - 1)) with (length a) by lia.
  replace (length a + 1) with (S (length a)) by lia.
  rewrite <-app_assoc. simpl. by rewrite swap_middle_rev.
Qed.

Lemma make_entries_lookup entry_id object_url k fs i :
  make_entries entry_id object_url k fs !! i =
    (λ f, mkFileEntry (entry_id (k + i)) f
       (if startsWith (file_type f) "image/" then Some (object_url (k + i)) else None)) <$> fs !! i.
Proof.
  revert k i. induction fs as [|f fs IH]; intros k [|i]; simpl; [done|done|by rewrite Nat.add_0_r|].
  rewrite IH. by replace (S k + i) with (k + S i) by lia.
Qed.

Lemma length_make_entries entry_id object_url k fs :
  length (make_entries entry_id object_url k fs) = length fs.
Proof. revert k. induction fs; simpl; auto. Qed.

(** Revoking works on the store up to reordering. *)
#[export] Instance revoke_Permutation p : Proper ((≡ₚ) ==> (≡ₚ)) (revoke p).
Proof.
  intros l1 l2 Hl. unfold revoke. destruct p as [u|]; [|done].
  destruct (startsWith u "blob:"); [by rewrite Hl|done].
Qed.

(** ** The invariant of the hook *)

Section Invariant.
Context (entry_id object_url : nat → string).
Context (Hid : Inj eq eq entry_id) (Hurl : Inj eq eq object_url).
Context (Hblob : ∀ k, startsWith (object_url k) "blob:" = true).

(** An entry of the list: the [k]-th entry created, an allowed file
    within the size bound, with a preview URL exactly for images. *)
Definition entry_ok (created : nat) (e : FileEntry) : Prop :=
  ∃ k, k < created ∧ fe_id e = entry_id k ∧
    allowed_type (fe_file e) = true ∧ file_size (fe_file e) ≤ MAX_SIZE_BYTES ∧
    fe_preview e = (if startsWith (file_type (fe_file e)) "image/" then Some (object_url k) else None).

Record upload_wf (s : UploadState) : Prop := {
  wf_entries : Forall (entry_ok (us_created s)) (us_files s);
  wf_ids : NoDup (fe_id <$> us_files s);
  wf_urls : us_urls s ≡ₚ omap fe_preview (us_files s);
}.

Lemma entry_ok_mono n m e : n ≤ m → entry_ok n e → entry_ok m e.
Proof. intros ? (k & ? & ?). exists k. split; [lia|done]. Qed.

(** Two entries with different ids never share a preview URL. *)
Lemma entry_ok_preview_ne n e1 e2 u :
  entry_ok n e1 → entry_ok n e2 → fe_id e1 ≠ fe_id e2 →
  fe_preview e1 = Some u → fe_preview e2 ≠ Some u.
Proof.
  intros (k1 & _ & Hk1 & _ & _ & Hp1) (k2 & _ & Hk2 & _ & _ & Hp2) Hne Hu1 Hu2.
  rewrite Hp1 in Hu1. rewrite Hp2 in Hu2.
  destruct (startsWith _ "image/"), (startsWith _ "image/"); simplify_eq.
  congruence.
Qed.

Lemma entry_ok_preview_blob n e u :
  entry_ok n e → fe_preview e = Some u → startsWith u "blob:" = true.
Proof.
  intros (k & _ & _ & _ & _ & Hp) Hu. rewrite Hp in Hu.
  destruct (startsWith _ "image/"); simplify_eq. apply Hblob.
Qed.

Lemma make_entries_ok n fs :
  Forall (λ f, allowed_type f = true ∧ file_size f ≤ MAX_SIZE_BYTES) fs →
  Forall (entry_ok (n + length fs)) (make_entries entry_id object_url n fs).
Proof.
  intros Hfs. apply Forall_lookup. intros i e He. rewrite make_entries_lookup in He.
  apply fmap_Some in He as (f & Hf & ->). eapply Forall_lookup in Hfs as [? ?]; [|done].
  exists (n + i). apply lookup_lt_Some in Hf. split_and!; done || lia.
Qed.

Lemma make_entries_ids n fs :
  fe_id <$> make_entries entry_id object_url n fs = entry_id <$> seq n (length fs).
Proof.
  revert n. induction fs as [|f fs IH]; intros n; [done|]. simpl. by rewrite IH.
Qed.
Lemma addFiles_wf fs s : upload_wf s → upload_wf (addFiles entry_id object_url fs s).
Proof.
  intros [Hent Hids Hurls]. unfold addFiles.
  destruct (list_find _ fs) as [[? ?]|] eqn:Hfind; [by constructor|].
  apply list_find_None in Hfind.
  set (allowed := filter (λ f, allowed_type f = true) fs).
  assert (Forall (λ f, allowed_type f = true ∧ file_size f ≤ MAX_SIZE_BYTES) allowed) as Hal.
  { apply Forall_forall. intros f (Hf & Hin)%list_elem_of_filter. split; [done|].
    eapply Forall_forall in Hfind; [|done]. simpl in Hfind. lia. }
  constructor; simpl.
  - apply Forall_app. split.
    + eapply Forall_impl; [done|]. intros e. apply entry_ok_mono. lia.
    + by apply make_entries_ok.
  - rewrite fmap_app, make_entries_ids. apply NoDup_app. split_and!; [done| |].
    + intros x Hx (k & -> & Hk%elem_of_seq)%list_elem_of_fmap.
      apply list_elem_of_fmap in Hx as (e & He & Hx). eapply Forall_forall in Hent; [|done].
      destruct Hent as (k' & Hk' & Hid' & _). rewrite Hid' in He. apply Hid in He. lia.
    + apply NoDup_fmap; [done|]. apply NoDup_seq.
  - rewrite omap_app. by apply Permutation_app_tail.
Qed.

Lemma filter_id_middle a e b :
  NoDup (fe_id <$> a ++ e :: b) → filter (λ c, fe_id c ≠ fe_id e) (a ++ e :: b) = a ++ b.
Proof.
  rewrite fmap_app, fmap_cons. intros (_ & Hdis & (Hb & _)%NoDup_cons)%NoDup_app.
  rewrite filter_app, filter_cons_False by tauto. rewrite !filter_Forall_id; [done| |].
  - apply Forall_forall. intros c Hc Heq. apply Hb, list_elem_of_fmap. eauto.
  - apply Forall_forall. intros c Hc Heq. apply (Hdis (fe_id e)); [|by left].
    apply list_elem_of_fmap. eauto.
Qed.

(** Revoking the preview of a removed entry removes exactly its URL. *)
Lemma revoke_middle n a e b urls :
  Forall (entry_ok n) (a ++ e :: b) → NoDup (fe_id <$> a ++ e :: b) →
  urls ≡ₚ omap fe_preview (a ++ e :: b) →
  revoke (fe_preview e) urls ≡ₚ omap fe_preview (a ++ b).
Proof.
  intros Hent Hnd Hurls.
  assert (entry_ok n e) as He by (eapply Forall_forall; [exact Hent|]; set_solver).
  rewrite Hurls, !omap_app. simpl. unfold revoke.
  destruct (fe_preview e) as [u|] eqn:Hu; [|done].
  rewrite (entry_ok_preview_blob n e u) by done.
  rewrite filter_app, filter_cons_False by tauto.
  assert (∀ c v, c ∈ a ++ b → fe_preview c = Some v → v ≠ u) as Hne.
  { intros c v Hc Hv ->. eapply (entry_ok_preview_ne n e c u); [done| | |done|done].
    - eapply Forall_forall; [exact Hent|]. apply elem_of_app in Hc as [?|?]; set_solver.
    - intros Hid'. apply (NoDup_Permutation_proper _ _ (Permutation_map fe_id (Permutation_middle a b e))) in Hnd.
      simpl in Hnd. apply NoDup_cons in Hnd as [Hnot _]. apply Hnot.
      rewrite Hid'. apply list_elem_of_fmap. eauto. }
  rewrite !filter_Forall_id; [done| |]; apply Forall_forall; intros v (c & Hc & Hv)%list_elem_of_omap;
    eapply Hne; eauto; set_solver.
Qed.

Lemma removeFile_wf id s : upload_wf s → upload_wf (removeFile id s).
Proof.
  destruct s as [files err urls n]. intros [Hent Hids Hurls]; simpl in *. unfold removeFile; simpl.
  destruct (list_find (λ c, fe_id c = id) files) as [[i e]|] eqn:Hf; simpl.
  - apply list_find_Some in Hf as (Hi & <- & _).
    rewrite <-(take_drop_middle _ _ _ Hi) in Hent, Hids, Hurls |- *.
    rewrite filter_id_middle by done.
    constructor; simpl.
    + apply Forall_app in Hent as [? ?%Forall_cons]. apply Forall_app. tauto.
    + rewrite <-Permutation_middle, fmap_cons in Hids. by apply NoDup_cons in Hids as [_ ?].
    + by eapply revoke_middle.
  - apply list_find_None in Hf. rewrite filter_Forall_id by done. by constructor.
Qed.

Lemma moveFile_perm id dir s : us_files (moveFile id dir s) ≡ₚ us_files s.
Proof.
  unfold moveFile. destruct (list_find _ _) as [[idx e]|] eqn:Hf; [|done].
  apply list_find_Some in Hf as (Hi & _ & _). apply lookup_lt_Some in Hi.
  destruct (bool_decide _) eqn:Hb; [done|]. apply bool_decide_eq_false in Hb. simpl.
  destruct dir; simpl in Hb.
  - destruct idx as [|i]; [lia|]. replace (Z.to_nat (Z.of_nat (S i) - 1)) with i by lia.
    apply swap_adjacent_perm_rev. lia.
  - replace (Z.to_nat (Z.of_nat idx + 1)) with (S idx) by lia.
    apply swap_adjacent_perm. lia.
Qed.

Lemma moveFile_wf id dir s : upload_wf s → upload_wf (moveFile id dir s).
Proof.
  intros [Hent Hids Hurls]. pose proof (moveFile_perm id dir s) as Hp.
  assert (us_urls (moveFile id dir s) = us_urls s ∧ us_created (moveFile id dir s) = us_created s)
    as [Hu Hc].
  { unfold moveFile. destruct (list_find _ _) as [[? ?]|]; [|done]. by case_bool_decide. }
  constructor; rewrite ?Hu, ?Hc, ?Hp; done.
Qed.

(** [reset] revokes every URL of the store that is the blob preview of a
    listed entry. *)
Lemma foldl_revoke_all files urls :
  (∀ u, u ∈ urls → ∃ e, e ∈ files ∧ fe_preview e = Some u ∧ startsWith u "blob:" = true) →
  foldl (λ urls f, revoke (fe_preview f) urls) urls files = [].
Proof.
  revert urls. induction files as [|f fs IH]; intros urls Hurls; simpl.
  - destruct urls as [|u urls]; [done|]. destruct (Hurls u) as (e & He & _); [by left|].
    by apply not_elem_of_nil in He.
  - apply IH. intros u Hu. unfold revoke in Hu.
    destruct (fe_preview f) as [v|] eqn:Hv; [destruct (startsWith v "blob:") eqn:Hb|].
    + apply list_elem_of_filter in Hu as [Hne Hu].
      destruct (Hurls u Hu) as (e & [->|He]%elem_of_cons & Hp & Hbl); [congruence|eauto].
    + destruct (Hurls u Hu) as (e & [->|He]%elem_of_cons & Hp & Hbl); [congruence|eauto].
    + destruct (Hurls u Hu) as (e & [->|He]%elem_of_cons & Hp & Hbl); [congruence|eauto].
Qed.

Lemma reset_wf s : upload_wf s → upload_wf (reset s) ∧ us_urls (reset s) = [].
Proof.
  intros [Hent Hids Hurls].
  assert (us_urls (reset s) = []) as Hnil.
  { apply foldl_revoke_all. intros u Hu. rewrite Hurls in Hu.
    apply list_elem_of_omap in Hu as (e & He & Hp). exists e. split_and!; [done|done|].
    eapply entry_ok_preview_blob; [|done]. by eapply Forall_forall. }
  split; [|done]. constructor; [by apply Forall_nil|by apply NoDup_nil|].
  change (us_urls (reset s) ≡ₚ omap fe_preview []). by rewrite Hnil.
Qed.

Lemma upload_step_wf ev s : upload_wf s → upload_wf (upload_step entry_id object_url ev s).
Proof.
  destruct ev; simpl.
  - apply addFiles_wf.
  - apply removeFile_wf.
  - apply moveFile_wf.
  - intros Hs. by apply reset_wf.
Qed.

Lemma upload_run_wf es s : upload_wf s → upload_wf (upload_run entry_id object_url es s).
Proof.
  unfold upload_run. revert s. induction es as [|ev es IH]; intros s Hs; simpl; [done|].
  apply IH, upload_step_wf, Hs.
Qed.

Lemma initial_upload_wf : upload_wf initial_upload.
Proof. constructor; simpl; [by apply Forall_nil|by apply NoDup_nil|done]. Qed.

End Invariant.

(** ** What a move does *)

Lemma with_files_us_files s : with_files (us_files s) s = s.
Proof. by destruct s. Qed.

Lemma NoDup_ids_adjacent a e f b :
  NoDup (fe_id <$> a ++ e :: f :: b) → fe_id e ≠ fe_id f.
Proof.
  rewrite fmap_app. intros (_ & _ & Hnd)%NoDup_app. simpl in Hnd.
  apply NoDup_cons in Hnd as [Hnot _]. intros Heq. apply Hnot. rewrite Heq. by left.
Qed.

Lemma middle_swap_ne (a b : list FileEntry) e f : e ≠ f → a ++ e :: f :: b ≠ a ++ f :: e :: b.
Proof. intros Hne Heq. apply app_inv_head in Heq. congruence. Qed.

Lemma moveFile_up_changes s i e :
  NoDup (fe_id <$> us_files s) → us_files s !! i = Some e →
  us_files (moveFile (fe_id e) Up s) ≠ us_files s ↔ i ≠ 0.
Proof.
  intros Hnd Hi. destruct i as [|j].
  - destruct (us_files s) as [|e' b] eqn:Hs; [done|]. simpl in Hi. simplify_eq.
    assert (list_find (λ c, fe_id c = fe_id e) (e :: b) = Some (0, e)) as Hf.
    { apply (list_find_id_middle [] b e). exact Hnd. }
    unfold moveFile. rewrite Hs, Hf.
    rewrite bool_decide_true by lia. split; [done|lia].
  - destruct (swap_adjacent_split (us_files s) j) as (a & f & e' & b & Hs & Ha);
      [by apply lookup_lt_Some in Hi|].
    assert (e' = e) as ->.
    { rewrite Hs, lookup_app_r in Hi by lia. rewrite Ha, Nat.sub_succ_l, Nat.sub_diag in Hi by lia.
      simpl in Hi. by simplify_eq. }
    rewrite (moveFile_up_middle s a e f b) by done. simpl. rewrite Hs.
    split; [lia|intros _]. apply middle_swap_ne. intros ->.
    rewrite Hs in Hnd. by apply (NoDup_ids_adjacent a f f b).
Qed.

Lemma moveFile_down_changes s i e :
  NoDup (fe_id <$> us_files s) → us_files s !! i = Some e →
  us_files (moveFile (fe_id e) Down s) ≠ us_files s ↔ i ≠ length (us_files s) - 1.
Proof.
  intros Hnd Hi. pose proof (lookup_lt_Some _ _ _ Hi) as Hlt.
  destruct (decide (S i < length (us_files s))) as [Hs'|Hs'].
  - destruct (swap_adjacent_split (us_files s) i) as (a & e' & f & b & Hs & Ha); [done|].
    assert (e' = e) as ->.
    { rewrite Hs, lookup_app_r in Hi by lia. rewrite Ha, Nat.sub_diag in Hi. simpl in Hi.
      by simplify_eq. }
    rewrite (moveFile_down_middle s a e f b) by done. simpl.
    split; [intros _; lia|intros _]. rewrite Hs. apply middle_swap_ne. intros Heq.
    rewrite Hs in Hnd. apply (NoDup_ids_adjacent a e f b Hnd). by subst.
  - rewrite <-(take_drop_middle _ _ _ Hi) in Hnd.
    unfold moveFile. rewrite <-(take_drop_middle _ _ _ Hi) at 1.
    rewrite list_find_id_middle by done. rewrite length_take.
    rewrite bool_decide_true by lia.
    split; [done|lia].
Qed.

Lemma example_entry_id_inj : Inj eq eq example_entry_id.
Proof. intros x y Hxy. unfold example_entry_id in Hxy. simplify_eq. by apply (inj pretty). Qed.

Lemma example_object_url_inj : Inj eq eq example_object_url.
Proof. intros x y Hxy. unfold example_object_url in Hxy. simplify_eq. by apply (inj pretty). Qed.

Lemma example_object_url_blob k : startsWith (example_object_url k) "blob:" = true.
Proof. unfold example_object_url, startsWith. cbn. by destruct (pretty k). Qed.

(** ** Properties *)

Section UploadClaims.
Context (entry_id object_url : nat → string).
Context (Hid : Inj eq eq entry_id) (Hurl : Inj eq eq object_url).
Context (Hblob : ∀ k, startsWith (object_url k) "blob:" = true).

(** (C28) No object URL leaks: after any sequence of [addFiles],
    [removeFile], [moveFile] and [reset], the URLs the hook created and
    has not revoked are exactly the previews of the listed files, and
    [reset] revokes all of them. *)
Theorem upload_no_leak es :
  us_urls (upload_run entry_id object_url es initial_upload)
    ≡ₚ omap fe_preview (us_files (upload_run entry_id object_url es initial_upload)) ∧
  us_urls (reset (upload_run entry_id object_url es initial_upload)) = [].
Proof.
  pose proof (upload_run_wf entry_id object_url Hid Hurl Hblob es _ (initial_upload_wf entry_id object_url)) as Hwf.
  split; [apply Hwf|]. by apply (reset_wf entry_id object_url Hblob).
Qed.

(** (C29) Every listed entry is well typed: an image or a PDF of at
    most 10 MB, with a preview URL exactly when it is an image, and the
    ids of the list are distinct. *)
Theorem upload_entries_typed es e :
  e ∈ us_files (upload_run entry_id object_url es initial_upload) →
  allowed_type (fe_file e) = true ∧ file_size (fe_file e) ≤ MAX_SIZE_BYTES ∧
  (is_Some (fe_preview e) ↔ startsWith (file_type (fe_file e)) "image/" = true) ∧
  NoDup (fe_id <$> us_files (upload_run entry_id object_url es initial_upload)).
Proof.
  intros He. destruct (upload_run_wf entry_id object_url Hid Hurl Hblob es _ (initial_upload_wf entry_id object_url))
    as [Hent Hids _].
  eapply Forall_forall in Hent as (k & _ & _ & Hty & Hsz & Hp); [|done].
  split_and!; [done|done| |done]. rewrite Hp.
  destruct (startsWith _ "image/"); split; intros H; done.
Qed.
End UploadClaims.

Lemma upload_no_leak_witness :
  us_urls (upload_run example_entry_id example_object_url example_events initial_upload)
    ≡ₚ omap fe_preview
         (us_files (upload_run example_entry_id example_object_url example_events initial_upload)) ∧
  us_urls (reset (upload_run example_entry_id example_object_url example_events initial_upload))
    = [].
Proof.
  apply upload_no_leak;
    [apply example_entry_id_inj|apply example_object_url_inj|apply example_object_url_blob].
Defined.

Lemma upload_entries_typed_witness :
  allowed_type (fe_file entry_c) = true ∧ file_size (fe_file entry_c) ≤ MAX_SIZE_BYTES ∧
  (is_Some (fe_preview entry_c) ↔ startsWith (file_type (fe_file entry_c)) "image/" = true) ∧
  NoDup (fe_id <$> us_files (upload_run example_entry_id example_object_url example_events
                               initial_upload)).
Proof.
  apply (upload_entries_typed example_entry_id example_object_url example_entry_id_inj
    example_object_url_inj example_object_url_blob example_events).
  apply (bool_decide_unpack _). vm_compute. reflexivity.
Defined.

(** Moving a file up and then down again restores the list (and
    the whole state), when the move up is possible and ids are
    distinct. *)
Theorem moveFile_up_down s a f e b :
  us_files s = a ++ f :: e :: b → NoDup (fe_id <$> us_files s) →
  moveFile (fe_id e) Down (moveFile (fe_id e) Up s) = s.
Proof.
  intros Hs Hnd. rewrite (moveFile_up_middle s a e f b Hs Hnd).
  assert (NoDup (fe_id <$> a ++ e :: f :: b)) as Hnd'.
  { rewrite Hs in Hnd. by rewrite (Permutation_app_head a (perm_swap f e b)). }
  rewrite (moveFile_down_middle _ a e f b) by done.
  destruct s; simpl in *. by subst.
Qed.

(** The arrows of [FileList] agree with [moveFile]: the up (down)
    arrow of row [i] is enabled exactly when moving that row's file up
    (down) changes the list, for a list with distinct ids. *)
Theorem FileList_move_enabled s i e dir :
  NoDup (fe_id <$> us_files s) → us_files s !! i = Some e →
  row_enabled dir <$> FileList (us_files s) !! i
    = Some (bool_decide (us_files (moveFile (fe_id e) dir s) ≠ us_files s)).
Proof.
  intros Hnd Hi. unfold FileList. rewrite list_lookup_imap, Hi. simpl. f_equal.
  destruct dir; simpl.
  - rewrite (bool_decide_ext _ _ (moveFile_up_changes s i e Hnd Hi)).
    destruct (Nat.eqb_spec i 0); simpl;
      [rewrite bool_decide_false; [done|lia]|rewrite bool_decide_true; [done|lia]].
  - rewrite (bool_decide_ext _ _ (moveFile_down_changes s i e Hnd Hi)).
    destruct (Nat.eqb_spec i (length (us_files s) - 1)); simpl;
      [rewrite bool_decide_false; [done|lia]|rewrite bool_decide_true; [done|lia]].
Qed.

Lemma moveFile_up_down_witness :
  moveFile (fe_id entry_b) Down (moveFile (fe_id entry_b) Up two_photos) = two_photos.
Proof.
  apply (moveFile_up_down two_photos [] entry_a entry_b []); [reflexivity|].
  apply (bool_decide_unpack _). vm_compute. reflexivity.
Defined.

Lemma FileList_move_enabled_witness :
  row_enabled Down <$> FileList (us_files two_photos) !! 0
    = Some (bool_decide (us_files (moveFile (fe_id entry_a) Down two_photos) ≠ us_files two_photos)).
Proof.
  apply FileList_move_enabled; [|reflexivity].
  apply (bool_decide_unpack _). vm_compute. reflexivity.
Defined.
