(* ===== verification/SpendByDay.v ===== *)
(** The spend-by-day bar chart,
    [src/src/components/reports/charts/spend-by-day.tsx], and the loop of
    date-fns' [eachDayOfInterval] it calls.

    Times are [Z] milliseconds in a time zone without daylight saving,
    so [date.setHours(0, 0, 0, 0)] is [startOfDay] and
    [date.setDate(date.getDate() + 1)] adds [DAY_MS].  The loop of
    [eachDayOfInterval] is [each_day_loop] with fuel; [eachDayOfInterval]
    gives it one more unit of fuel than the iterations it makes
    ([day_count], the loop variant), and the termination theorem shows
    that this fuel is always enough.  [toLocaleDateString] is a parameter
    of the chart; the totals theorem assumes what a locale without
    daylight saving guarantees: the string depends only on the day, two
    days have different strings, and no string is "(No date)".

    The chart's two live queries are [report_lineItem_rows] and
    [report_receipts] of [Totals]; its [Map] is an association list
    updated by [map_add] and read by [assoc_get]. *)

From S2P Require Import Prelude JsString Db Schema ProcessReceipt Client Totals.

#[local] Set Warnings "-clear-no-such-hyp".

(** ** eachDayOfInterval *)

Definition DAY_MS : Z := 86400000.

(** [date.setHours(0, 0, 0, 0)] *)
Definition startOfDay (t : Z) : Z := (t - t mod DAY_MS)%Z.

(** [while (+date <= endTime) { dates.push(date); date.setDate(date.getDate() + 1); }],
    [None] when the fuel runs out. *)
Fixpoint each_day_loop (fuel : nat) (date endTime : Z) : option (list Z) :=
  match fuel with
  | O => None
  | S fuel' =>
      if (date <=? endTime)%Z then cons date <$> each_day_loop fuel' (date + DAY_MS) endTime
      else Some []
  end.

(** The number of iterations of the loop from [date]. *)
Definition day_count (date endTime : Z) : nat := Z.to_nat ((endTime - date) / DAY_MS + 1).

(** [eachDayOfInterval({ start, end })] of date-fns: a reversed interval
    is walked from its end and the result reversed. *)
Definition eachDayOfInterval (start end_ : Z) : list Z :=
  let reversed := (end_ <? start)%Z in
  let endTime := if reversed then start else end_ in
  let date := startOfDay (if reversed then end_ else start) in
  let dates := default [] (each_day_loop (S (day_count date endTime)) date endTime) in
  if reversed then reverse dates else dates.

(** The days from [date] on, [day_count] of them. *)
Definition day_list (date endTime : Z) : list Z :=
  map (λ i, date + Z.of_nat i * DAY_MS)%Z (seq 0 (day_count date endTime)).

(** ** The chart *)

(** [map.get(k)] on a [Map] kept as an association list. *)
Fixpoint assoc_get (m : list (string * Z)) (k : string) : option Z :=
  match m with
  | [] => None
  | (k', v) :: m' => if String.eqb k k' then Some v else assoc_get m' k
  end.

Section Chart.
Context (toLocaleDateString : Z → string).

(** [receipt.date?.toLocaleDateString() ?? "(No date)"] *)
Definition date_key (r : Receipt) : string :=
  match receipt_date r with Some t => toLocaleDateString t | None => "(No date)" end.

(** [totalsByDay]: the line items, then the tax and tip of each receipt. *)
Definition day_totals (c : Collections) (reportId : string) : list (string * Z) :=
  let totals := foldl (λ m row, map_add m (date_key row.2)
                         (lineItem_quantity row.1 * lineItem_unitPrice row.1)%Z)
                  [] (report_lineItem_rows c reportId) in
  foldl (λ m r, map_add m (date_key r) (receipt_tax r + receipt_tip r)%Z)
    totals (report_receipts c reportId).

(** [chartData]: one bar per day from the first to the last receipt
    date ([end ?? new Date()] with the clock [now]). *)
Definition spendByDay (c : Collections) (reportId : string) (now : Z) : list (string * Z) :=
  let '(start, end_) := useReportDateRange c reportId in
  let endToUse := default now end_ in
  match start with
  | None => []
  | Some s =>
      let totalsByDay := day_totals c reportId in
      map (λ day, (toLocaleDateString day,
                   default 0%Z (assoc_get totalsByDay (toLocaleDateString day))))
        (eachDayOfInterval s endToUse)
  end.

(** [if (!start) return null;], otherwise the bars of [chartData]. *)
Definition SpendByDayChart (c : Collections) (reportId : string) (now : Z)
    : option (list (string * Z)) :=
  match (useReportDateRange c reportId).1 with
  | None => None
  | Some _ => Some (spendByDay c reportId now)
  end.
End Chart.

(** ** Inputs for concrete runs *)

(** A locale that prints the day number. *)
Definition example_locale (t : Z) : string := pretty (t / DAY_MS)%Z.

Definition day_receipt (id : string) (day : Z) (tax : Z) : Receipt :=
  mkReceipt id "r1" "m1" "k1" 1 tax 0 (Some (day * DAY_MS + 3600000)%Z) None 1 "USD" 0 0.

(** Two receipts two days apart and one without a date. *)
Definition day_collections : Collections :=
  mkCollections ∅ (<["a" := day_receipt "a" 3 100]> (<["b" := day_receipt "b" 5 50]>
    {[ "c" := mkReceipt "c" "r1" "m1" "k1" 1 7 0 None None 1 "USD" 0 0 ]})) ∅ ∅ ∅ ∅.

(** ** The loop *)

Lemma day_count_step date endTime :
  (date ≤ endTime)%Z → day_count date endTime = S (day_count (date + DAY_MS) endTime).
Proof.
  intros Hle. unfold day_count.
  replace (endTime - (date + DAY_MS))%Z with (endTime - date + (-1) * DAY_MS)%Z by lia.
  rewrite Z_div_plus_full by (unfold DAY_MS; lia).
  assert (0 ≤ (endTime - date) / DAY_MS)%Z by (apply Z.div_pos; unfold DAY_MS; lia). lia.
Qed.

Lemma day_count_stop date endTime : (endTime < date)%Z → day_count date endTime = 0.
Proof.
  intros Hlt. unfold day_count.
  assert ((endTime - date) / DAY_MS < 0)%Z by (apply Z.div_lt_upper_bound; unfold DAY_MS; lia). lia.
Qed.

Lemma day_list_step date endTime :
  (date ≤ endTime)%Z → day_list date endTime = date :: day_list (date + DAY_MS) endTime.
Proof.
  intros Hle. unfold day_list. rewrite day_count_step by done. cbn [seq map]. f_equal; [lia|].
  rewrite <-seq_shift, map_map. apply map_ext. intros i. lia.
Qed.

Lemma day_list_stop date endTime : (endTime < date)%Z → day_list date endTime = [].
Proof. intros Hlt. unfold day_list. by rewrite day_count_stop. Qed.

(** With more fuel than iterations the loop returns the days. *)
Lemma each_day_loop_fuel fuel date endTime :
  day_count date endTime < fuel → each_day_loop fuel date endTime = Some (day_list date endTime).
Proof.
  revert date. induction fuel as [|fuel IH]; intros date Hf; [lia|]. cbn [each_day_loop].
  destruct (Z.leb_spec date endTime).
  - rewrite day_count_step in Hf by done.
    rewrite IH, (day_list_step date endTime) by (done || lia). reflexivity.
  - by rewrite day_list_stop.
Qed.

Lemma eachDayOfInterval_spec s e :
  (s ≤ e)%Z → eachDayOfInterval s e = day_list (startOfDay s) e.
Proof.
  intros Hse. unfold eachDayOfInterval. destruct (Z.ltb_spec e s); [lia|].
  rewrite each_day_loop_fuel by lia. reflexivity.
Qed.

(** ** The days of the interval *)

Lemma startOfDay_mul t : startOfDay t = (DAY_MS * (t / DAY_MS))%Z.
Proof. unfold startOfDay. rewrite Z.mod_eq by (unfold DAY_MS; lia). lia. Qed.

Lemma startOfDay_idem t : startOfDay (startOfDay t) = startOfDay t.
Proof. rewrite (startOfDay_mul t). unfold startOfDay. rewrite Z.mul_comm, Z_mod_mult. lia. Qed.

Lemma startOfDay_le t : (startOfDay t ≤ t)%Z.
Proof. unfold startOfDay. pose proof (Z.mod_pos_bound t DAY_MS). unfold DAY_MS in *. lia. Qed.

Lemma day_list_elem date endTime d :
  d ∈ day_list date endTime ↔ ∃ i, i < day_count date endTime ∧ d = (date + Z.of_nat i * DAY_MS)%Z.
Proof.
  unfold day_list. rewrite list_elem_of_In, in_map_iff.
  split; intros (i & ? & ?); exists i; rewrite in_seq in *; naive_solver lia.
Qed.

Lemma day_list_NoDup date endTime : NoDup (day_list date endTime).
Proof.
  apply (NoDup_fmap_2_strong (λ i, date + Z.of_nat i * DAY_MS)%Z); [|apply NoDup_seq].
  intros i j _ _ Hij. unfold DAY_MS in Hij. lia.
Qed.

(** The days of [eachDayOfInterval] are starts of days. *)
Lemma day_list_startOfDay s e d : d ∈ day_list (startOfDay s) e → startOfDay d = d.
Proof.
  intros (i & _ & ->)%day_list_elem. rewrite (startOfDay_mul s). unfold startOfDay.
  replace (DAY_MS * (s / DAY_MS) + Z.of_nat i * DAY_MS)%Z
    with ((s / DAY_MS + Z.of_nat i) * DAY_MS)%Z by lia.
  rewrite Z_mod_mult. lia.
Qed.

(** The day of a time of the interval is one of its days. *)
Lemma startOfDay_in_day_list s e t :
  (s ≤ t ≤ e)%Z → startOfDay t ∈ day_list (startOfDay s) e.
Proof.
  intros Ht. apply day_list_elem. exists (Z.to_nat (t / DAY_MS - s / DAY_MS)).
  assert (s / DAY_MS ≤ t / DAY_MS)%Z by (apply Z.div_le_mono; unfold DAY_MS; lia).
  pose proof (startOfDay_le t). rewrite !startOfDay_mul in *. split.
  - unfold day_count. enough (t / DAY_MS - s / DAY_MS ≤ (e - DAY_MS * (s / DAY_MS)) / DAY_MS)%Z by lia.
    apply Z.div_le_lower_bound; unfold DAY_MS in *; lia.
  - rewrite Z2Nat.id by lia. lia.
Qed.

(** ** The totals map *)

Lemma assoc_get_map_add m k v k' :
  default 0%Z (assoc_get (map_add m k v) k')
  = (default 0%Z (assoc_get m k') + if decide (k' = k) then v else 0)%Z.
Proof.
  induction m as [|[k0 v0] m IH]; cbn [map_add assoc_get].
  - destruct (String.eqb_spec k' k); case_decide; simpl; congruence || lia.
  - destruct (String.eqb_spec k k0) as [->|Hk]; cbn [assoc_get].
    + destruct (String.eqb_spec k' k0); case_decide; simpl; congruence || lia.
    + destruct (String.eqb_spec k' k0) as [->|]; [|done].
      rewrite decide_False by congruence. simpl. lia.
Qed.

Lemma assoc_get_foldl {A} (key : A → string) (val : A → Z) m l k :
  default 0%Z (assoc_get (foldl (λ m x, map_add m (key x) (val x)) m l) k)
  = (default 0%Z (assoc_get m k) + zsum (λ x, if decide (k = key x) then val x else 0) l)%Z.
Proof.
  revert m. induction l as [|x l IH]; intros m; cbn [foldl]; [rewrite zsum_nil; lia|].
  rewrite IH, assoc_get_map_add, zsum_cons. lia.
Qed.

Lemma filter_eq_absent {A} `{EqDecision A} (l : list A) x : x ∉ l → filter (λ y, y = x) l = [].
Proof.
  induction l as [|y l IH]; intros Hx; [done|]. rewrite filter_cons.
  case_decide; [set_solver|apply IH; set_solver].
Qed.

(** An element of a list without duplicates is found once. *)
Lemma filter_eq_NoDup {A} `{EqDecision A} (l : list A) x :
  NoDup l → x ∈ l → length (filter (λ y, y = x) l) = 1.
Proof.
  induction 1 as [|y l Hy Hnd IH]; [by intros ?%not_elem_of_nil|]. intros Hx.
  rewrite filter_cons. case_decide as Hyx.
  - subst y. by rewrite filter_eq_absent.
  - apply IH. set_solver.
Qed.

(** ** The chart adds up to the dated receipts *)

Section ChartTotals.
Context (loc : Z → string).
Context (Hday : ∀ t, loc (startOfDay t) = loc t).
Context (Hinj : ∀ a b, loc (startOfDay a) = loc (startOfDay b) → startOfDay a = startOfDay b).
Context (Hnodate : ∀ t, loc t ≠ "(No date)").

(** Exactly one day of the interval prints like a time of the interval. *)
Lemma days_match_count s e t :
  (s ≤ t ≤ e)%Z → length (filter (λ d, loc d = loc t) (day_list (startOfDay s) e)) = 1.
Proof.
  intros Ht. rewrite (filter_ext_in _ (λ d, d = startOfDay t)).
  - apply filter_eq_NoDup; [apply day_list_NoDup|by apply startOfDay_in_day_list].
  - intros d Hd. rewrite <-(Hday t), <-(day_list_startOfDay s e d Hd) at 1.
    split; [|intros ->; by rewrite startOfDay_idem].
    intros Heq%Hinj. by rewrite (day_list_startOfDay s e d Hd) in Heq.
Qed.

(** No day prints as "(No date)". *)
Lemma days_nodate ds : filter (λ d, loc d = "(No date)") ds = [].
Proof. induction ds as [|d ds IH]; [done|]. by rewrite filter_cons_False by apply Hnodate. Qed.

(** The bars count a row once when its receipt is dated within the
    interval, and not at all when it has no date. *)
Lemma date_key_count s e r :
  (∀ t, receipt_date r = Some t → (s ≤ t ≤ e)%Z) →
  length (filter (λ d, loc d = date_key loc r) (day_list (startOfDay s) e))
  = match receipt_date r with Some _ => 1 | None => 0 end.
Proof.
  intros Hrange. unfold date_key. destruct (receipt_date r) as [t|] eqn:Ht.
  - by apply days_match_count, Hrange.
  - by rewrite days_nodate.
Qed.
End ChartTotals.

(** The start of the date range comes with an end, and both bound every
    dated receipt of the report. *)
Lemma useReportDateRange_Some c reportId s e_opt :
  useReportDateRange c reportId = (Some s, e_opt) →
  ∃ e, e_opt = Some e ∧ (s ≤ e)%Z ∧
    ∀ r t, r ∈ report_receipts c reportId → receipt_date r = Some t → (s ≤ t ≤ e)%Z.
Proof.
  intros Hr. assert (∃ r t, r ∈ report_receipts c reportId ∧ receipt_date r = Some t) as (r0 & t0 & Hr0 & Ht0).
  { unfold useReportDateRange in Hr.
    destruct (omap receipt_date (report_receipts c reportId)) as [|x ds] eqn:Hl; [done|].
    assert (x ∈ omap receipt_date (report_receipts c reportId)) as Hx by (rewrite Hl; left).
    apply list_elem_of_omap in Hx as (r & ? & ?). eauto. }
  destruct (useReportDateRange_spec c reportId r0 t0 Hr0 Ht0) as (s' & e & Hse & Hb & _).
  rewrite Hr in Hse. simplify_eq. exists e. split_and!; [done|lia|].
  intros r t Hr' Ht. destruct (useReportDateRange_spec c reportId r t Hr' Ht) as (? & ? & Hse' & ? & _).
  rewrite Hr in Hse'. simplify_eq. lia.
Qed.

(** Summing the bars of a [Map] built from rows: each row counts once
    per day whose string is its key. *)
Lemma zsum_days_rows {A} (loc : Z → string) (key : A → string) (val : A → Z) days rows :
  zsum (λ d, zsum (λ x, if decide (loc d = key x) then val x else 0%Z) rows) days
  = zsum (λ x, val x * Z.of_nat (length (filter (λ d, loc d = key x) days)))%Z rows.
Proof.
  rewrite zsum_swap. apply zsum_ext. intros x _. by rewrite zsum_indicator.
Qed.

Lemma spendByDay_sum loc c reportId s e :
  zsum snd (map (λ day, (loc day, default 0%Z (assoc_get (day_totals loc c reportId) (loc day))))
              (day_list (startOfDay s) e))
  = (zsum (λ row, lineItem_quantity row.1 * lineItem_unitPrice row.1 *
            Z.of_nat (length (filter (λ d, loc d = date_key loc row.2) (day_list (startOfDay s) e))))
        (report_lineItem_rows c reportId) +
     zsum (λ r, (receipt_tax r + receipt_tip r) *
            Z.of_nat (length (filter (λ d, loc d = date_key loc r) (day_list (startOfDay s) e))))
        (report_receipts c reportId))%Z.
Proof.
  rewrite zsum_map. rewrite <-!zsum_days_rows, <-zsum_plus. apply zsum_ext. intros d _.
  cbn [compose snd]. unfold day_totals. rewrite !assoc_get_foldl. cbn [assoc_get default]. lia.
Qed.

(** The receipt of a row of the line-item query is a receipt of the report. *)
Lemma report_lineItem_rows_receipt c reportId row :
  row ∈ report_lineItem_rows c reportId → row.2 ∈ report_receipts c reportId.
Proof.
  unfold report_lineItem_rows, report_receipts.
  intros (li & (r & Hrow & Hr)%list_elem_of_bind & _)%list_elem_of_bind.
  case_decide as Hc; [|by apply not_elem_of_nil in Hrow].
  apply list_elem_of_singleton in Hrow as ->. apply list_elem_of_filter. naive_solver.
Qed.

(** The example locale meets the assumptions of the totals theorem. *)
Lemma example_locale_day t : example_locale (startOfDay t) = example_locale t.
Proof.
  unfold example_locale. rewrite startOfDay_mul, Z.mul_comm, Z.div_mul by (unfold DAY_MS; lia).
  done.
Qed.

Lemma example_locale_inj a b :
  example_locale (startOfDay a) = example_locale (startOfDay b) → startOfDay a = startOfDay b.
Proof.
  rewrite !example_locale_day. unfold example_locale. intros Hab%(inj pretty).
  by rewrite !startOfDay_mul, Hab.
Qed.

Lemma example_locale_nodate t : example_locale t ≠ "(No date)".
Proof.
  unfold example_locale. destruct (t / DAY_MS)%Z as [|p|p]; [discriminate| |discriminate].
  intros H. pose proof (pretty_nat_digits (Pos.to_nat p)) as Hd.
  rewrite <-pretty_Z_of_nat, positive_nat_Z, H in Hd. discriminate.
Qed.

(** The bar chart is hidden exactly when no receipt of the report has
    a date. *)
Lemma SpendByDayChart_hidden loc c reportId now :
  SpendByDayChart loc c reportId now = None ↔ omap receipt_date (report_receipts c reportId) = [].
Proof.
  unfold SpendByDayChart, useReportDateRange.
  by destruct (omap receipt_date (report_receipts c reportId)).
Qed.

(** ** Properties *)



Section ChartClaims.
Context (loc : Z → string).
Context (Hday : ∀ t, loc (startOfDay t) = loc t).
Context (Hinj : ∀ a b, loc (startOfDay a) = loc (startOfDay b) → startOfDay a = startOfDay b).
Context (Hnodate : ∀ t, loc t ≠ "(No date)").

(** (C32) The spend-by-day chart adds up to the dated receipts of the
    report (line items, tax and tip): each dated receipt lands in the
    bar of its day, and a receipt without a date is left out of the
    chart (its "(No date)" total is never drawn). *)
Theorem spendByDay_dated_total c reportId now :
  zsum snd (spendByDay loc c reportId now)
  = zsum (λ r, match receipt_date r with
               | Some _ => receipt_total (receipt_items c r) r
               | None => 0%Z
               end) (report_receipts c reportId).
Proof.
  unfold spendByDay. destruct (useReportDateRange c reportId) as [[s|] e_opt] eqn:Hr.
  - destruct (useReportDateRange_Some c reportId s e_opt Hr) as (e & -> & Hse & Hb).
    cbn [default]. rewrite eachDayOfInterval_spec, spendByDay_sum by done.
    rewrite (zsum_ext _ (λ row, match receipt_date row.2 with
               | Some _ => lineItem_quantity row.1 * lineItem_unitPrice row.1 | None => 0 end)%Z);
      cycle 1.
    { intros row Hrow%report_lineItem_rows_receipt.
      rewrite (date_key_count loc Hday Hinj Hnodate s e) by eauto.
      destruct (receipt_date row.2); lia. }
    rewrite (zsum_ext (λ r, (receipt_tax r + receipt_tip r) * _)%Z (λ r, match receipt_date r with
               | Some _ => receipt_tax r + receipt_tip r | None => 0 end)%Z); cycle 1.
    { intros r Hrr. rewrite (date_key_count loc Hday Hinj Hnodate s e) by eauto.
      destruct (receipt_date r); lia. }
    rewrite (report_lineItem_rows_sum_dep c reportId (λ li r, match receipt_date r with
               | Some _ => lineItem_quantity li * lineItem_unitPrice li | None => 0 end)%Z).
    rewrite !report_receipts_sum, <-zsum_plus. apply zsum_ext. intros r _.
    case_decide; [|lia]. unfold receipt_total. rewrite receipt_subtotal_zsum.
    destruct (receipt_date r); [lia|]. rewrite zsum_0. lia.
  - rewrite zsum_nil. symmetry. apply zsum_all0. intros r Hr'.
    destruct (receipt_date r) as [t|] eqn:Ht; [|done].
    destruct (useReportDateRange_spec c reportId r t Hr' Ht) as (? & ? & Hse & _).
    congruence.
Qed.
End ChartClaims.

Lemma spendByDay_dated_total_witness :
  zsum snd (spendByDay example_locale day_collections "r1" 0)
  = zsum (λ r, match receipt_date r with
               | Some _ => receipt_total (receipt_items day_collections r) r
               | None => 0%Z
               end) (report_receipts day_collections "r1").
Proof.
  apply spendByDay_dated_total;
    [apply example_locale_day|apply example_locale_inj|apply example_locale_nodate].
Defined.

(** A concrete run: three bars for days 3 to 5; the receipt without a
    date (tax 7) is in no bar. *)
Example spendByDay_example :
  spendByDay example_locale day_collections "r1" 0 = [("3", 100%Z); ("4", 0%Z); ("5", 50%Z)].
Proof. vm_compute. reflexivity. Qed.
