(* ===== verification/ReportForm.v ===== *)
(** The expense-report form of [src/src/components/reports/upload-form.tsx]
    and the page that hosts it, [src/src/app/reports/[id]/page.tsx]: the
    zod schema of the form ([src/src/lib/schemas/report-upload.ts]), the
    [form.subscribe] callback that saves the form one second after an
    edit, and [handleValueChanged], which writes the values to the
    report collection.

    The subscription is a state machine over the events of the page: a
    render (the component body runs again and calls [form.subscribe]
    again, each call with its own [timeoutId]), an input (react-hook-form
    notifies every subscription with the values and [isDirty]) and the
    passing of time (the timers that are due fire, in the order they
    were registered).  What a save does is a parameter [valueChanged] of
    the machine: a log of the calls for the timing theorems, the report
    collection and the database for the end-to-end ones. *)

From S2P Require Import Prelude JsString Db Actions Client.
From Stdlib Require Import Ascii.

#[local] Set Warnings "-clear-no-such-hyp".

(** ** [UploadExpenseReportFormSchema] *)

Record UploadExpenseReportFormData := mkFormData {
  fd_id : string;
  fd_title : string;
  fd_description : string;
  fd_status : ExpenseReportStatus;
}.

#[export] Instance FormData_eq_dec : EqDecision UploadExpenseReportFormData.
Proof. solve_decision. Defined.

(** zod v4's [z.cuid2()]: the regular expression [/^[0-9a-z]+$/]. *)
Definition is_cuid2_char (c : ascii) : bool :=
  is_digit c || ((97 <=? nat_of_ascii c) && (nat_of_ascii c <=? 122))%nat.

Definition is_cuid2 (s : string) : bool :=
  negb (String.eqb s "") && all_chars is_cuid2_char s.

(** The issues [safeParse] reports, in the order of the fields; the
    [status] enum holds by the type of the field. *)
Definition form_issues (v : UploadExpenseReportFormData) : list string :=
  (if is_cuid2 (fd_id v) then [] else ["Invalid cuid2"]) ++
  (if (1 <=? String.length (fd_title v))%nat then [] else ["Title is required"]).

Definition UploadExpenseReportFormSchema (v : UploadExpenseReportFormData)
    : result UploadExpenseReportFormData :=
  match form_issues v with
  | [] => Ok v
  | m :: _ => Err m
  end.

(** The form's values as the page reads them: the initial data is the
    report row, [defaultValues: props.initialData]. *)
Definition report_form_data (r : ExpenseReport) : UploadExpenseReportFormData :=
  mkFormData (report_id r) (report_title r) (report_description r) (report_status r).

(** ** [handleValueChanged] *)

(** [DeepPartial<UploadExpenseReportFormData>]: every field may be
    missing. *)
Record FormValues := mkFormValues {
  fv_id : option string;
  fv_title : option string;
  fv_description : option string;
  fv_status : option ExpenseReportStatus;
}.

(** [d.values] of the subscription: every field is present. *)
Definition form_values (v : UploadExpenseReportFormData) : FormValues :=
  mkFormValues (Some (fd_id v)) (Some (fd_title v)) (Some (fd_description v))
    (Some (fd_status v)).

(** The draft callback: [description] and [title] default to the empty
    string; [status] is written when it is present (a status is a
    non-empty string, so [if (v.status)] tests presence). *)
Definition handleValueChanged_draft (v : FormValues) (x : ExpenseReport) : ExpenseReport :=
  mkReport (report_id x) (default "" (fv_title v)) (default "" (fv_description v))
    (default (report_status x) (fv_status v)) (report_userId x) (report_createdAt x)
    (report_updatedAt x).

(** [reportCollection.update(v.id, ...)]: without an id the update
    throws. *)
Definition handleValueChanged (session : option User) (v : FormValues)
    (reports : gmap string ExpenseReport) (d : Db)
    : result (gmap string ExpenseReport * Db) :=
  match fv_id v with
  | None => Err "key not found"
  | Some id => collection_update (reportCollection session) reports id (handleValueChanged_draft v) d
  end.

(** ** [ExpenseReportStatusSelect] *)

(** The options of the status select of
    [src/src/components/reports/status-select.tsx]: reviewers get all
    four statuses, every other session (a normal user, or no role) the
    draft and submitted ones. *)
Definition SUBMITTER_OPTIONS : list ExpenseReportStatus := [DRAFT; SUBMITTED].
Definition REVIEWER_OPTIONS : list ExpenseReportStatus := [DRAFT; SUBMITTED; APPROVED; REJECTED].

Definition optionsForRole (role : option UserRole) : list ExpenseReportStatus :=
  if decide (role = Some Reviewer) then REVIEWER_OPTIONS else SUBMITTER_OPTIONS.

(** ** The subscription of the form *)

(** [setTimeout(..., 1000)] *)
Definition SAVE_DELAY_MS : Z := 1000.

(** The [timeoutId] of one subscription: the deadline of the pending
    timer and the values its callback will save. *)
Definition Timer : Type := option (Z * UploadExpenseReportFormData).

Inductive FormEvent :=
| ev_render
| ev_input (v : UploadExpenseReportFormData)
| ev_wait (ms : N).

Section Subscription.
Context {S : Type} (valueChanged : UploadExpenseReportFormData → S → S).

Record FormState := mkFormState {
  fs_now : Z;
  fs_defaults : UploadExpenseReportFormData;
  fs_values : UploadExpenseReportFormData;
  fs_timers : list Timer;   (** one per [form.subscribe] call, in order *)
  fs_app : S;               (** what the saves have done *)
}.

(** The callback of one subscription: [if (!d.isDirty) return;] then
    the pending timer is cleared and a new one is set. *)
Definition subscribe_callback (now : Z) (defaults v : UploadExpenseReportFormData)
    (timer : Timer) : Timer :=
  if decide (v = defaults) then timer else Some (now + SAVE_DELAY_MS, v)%Z.

(** The timers due at time [t] fire in the order of the subscriptions:
    [props.valueChanged(d.values); timeoutId = undefined]. *)
Fixpoint fire_due (t : Z) (timers : list Timer) (s : S) : list Timer * S :=
  match timers with
  | [] => ([], s)
  | Some (dl, v) :: ts =>
      if decide (dl ≤ t)%Z then
        let '(ts', s') := fire_due t ts (valueChanged v s) in (None :: ts', s')
      else
        let '(ts', s') := fire_due t ts s in (Some (dl, v) :: ts', s')
  | None :: ts => let '(ts', s') := fire_due t ts s in (None :: ts', s')
  end.

Definition form_step (st : FormState) (e : FormEvent) : FormState :=
  match e with
  | ev_render =>
      mkFormState (fs_now st) (fs_defaults st) (fs_values st) (fs_timers st ++ [None]) (fs_app st)
  | ev_input v =>
      mkFormState (fs_now st) (fs_defaults st) v
        (subscribe_callback (fs_now st) (fs_defaults st) v <$> fs_timers st) (fs_app st)
  | ev_wait ms =>
      let t := (fs_now st + Z.of_N ms)%Z in
      let '(ts, s) := fire_due t (fs_timers st) (fs_app st) in
      mkFormState t (fs_defaults st) (fs_values st) ts s
  end.

Definition form_run (st : FormState) (es : list FormEvent) : FormState :=
  foldl form_step st es.

(** The page as it mounts: the form holds the report and has not been
    rendered yet. *)
Definition form_init (now : Z) (r : ExpenseReport) (s : S) : FormState :=
  mkFormState now (report_form_data r) (report_form_data r) [] s.

(** The timers left after [fire_due]: the due ones are cleared. *)
Definition timer_after (t : Z) (tm : Timer) : Timer :=
  match tm with
  | Some (dl, v) => if decide (dl ≤ t)%Z then None else Some (dl, v)
  | None => None
  end.

(** The timers of a state are sound: an armed timer is due within the
    delay, holds values other than the initial ones, and every armed
    timer is the same one (so the order in which due timers fire does
    not matter). *)
Definition timers_ok (now : Z) (defaults : UploadExpenseReportFormData) (ts : list Timer) : Prop :=
  ∀ dl v, Some (dl, v) ∈ ts →
    (now < dl ≤ now + SAVE_DELAY_MS)%Z ∧ v ≠ defaults ∧
    ∀ tm, tm ∈ ts → tm = None ∨ tm = Some (dl, v).

Definition form_ok (st : FormState) : Prop := timers_ok (fs_now st) (fs_defaults st) (fs_timers st).

Inductive form_reachable (init : FormState) : FormState → Prop :=
| fr_init : form_reachable init init
| fr_step st e : form_reachable init st → form_reachable init (form_step st e).

End Subscription.

Arguments FormState : clear implicits.

(** A burst of typing: each input followed by a pause. *)
Fixpoint typing (xs : list (UploadExpenseReportFormData * N)) : list FormEvent :=
  match xs with
  | [] => []
  | (v, w) :: xs' => ev_input v :: ev_wait w :: typing xs'
  end.

(** ** [useDebouncedFunction] *)

(** The hook of [src/src/hooks/use-debounced-function.ts]: one timer
    kept in a ref across renders; each call clears it and sets a new
    one with the call's arguments. *)
Section Debounced.
Context {A S : Type} (delay : Z) (callback : A → S → S).

Record DebouncedState := mkDebounced {
  dbs_now : Z;
  dbs_timer : option (Z * A);  (** [timeoutRef.current] *)
  dbs_app : S;
}.

Definition debounced_call (a : A) (st : DebouncedState) : DebouncedState :=
  mkDebounced (dbs_now st) (Some (dbs_now st + delay, a))%Z (dbs_app st).

(** Time passes: a due timer runs [callback(...args)] and clears the ref. *)
Definition debounced_wait (ms : N) (st : DebouncedState) : DebouncedState :=
  let t := (dbs_now st + Z.of_N ms)%Z in
  match dbs_timer st with
  | Some (dl, a) =>
      if decide (dl ≤ t)%Z then mkDebounced t None (callback a (dbs_app st))
      else mkDebounced t (Some (dl, a)) (dbs_app st)
  | None => mkDebounced t None (dbs_app st)
  end.

(** Calls, each followed by a pause. *)
Fixpoint debounced_run (xs : list (A * N)) (st : DebouncedState) : DebouncedState :=
  match xs with
  | [] => st
  | (a, w) :: xs' => debounced_run xs' (debounced_wait w (debounced_call a st))
  end.

End Debounced.

(** The log of the saves, for the timing theorems. *)
Definition log_changed (v : UploadExpenseReportFormData) (l : list UploadExpenseReportFormData)
    : list UploadExpenseReportFormData := l ++ [v].

(** The save of the page: [handleValueChanged(d.values)] on the report
    collection and the database; when it throws inside the timer
    callback, nothing changes. *)
Definition save_report (session : option User) (v : UploadExpenseReportFormData)
    (p : gmap string ExpenseReport * Db) : gmap string ExpenseReport * Db :=
  match handleValueChanged session (form_values v) p.1 p.2 with
  | Ok p' => p'
  | Err _ => p
  end.

(** ** Lemmas on the subscription *)

Section SubscriptionLemmas.
Context {S : Type} (valueChanged : UploadExpenseReportFormData → S → S).
Implicit Types (st : FormState S) (ts : list Timer) (s : S).

Lemma fire_due_timers t ts s : (fire_due valueChanged t ts s).1 = timer_after t <$> ts.
Proof.
  revert s. induction ts as [|[[dl v]|] ts IH]; intros s; [done|..]; simpl.
  - case_decide; [specialize (IH (valueChanged v s))|specialize (IH s)];
      destruct (fire_due _ _ ts _); simpl in *; by subst.
  - specialize (IH s). destruct (fire_due _ _ ts _). simpl in *. by subst.
Qed.

(** No timer is due: nothing fires. *)
Lemma fire_due_quiet t ts s :
  (∀ dl v, Some (dl, v) ∈ ts → (t < dl)%Z) → fire_due valueChanged t ts s = (ts, s).
Proof.
  revert s. induction ts as [|[[dl v]|] ts IH]; intros s Hq; [done|..]; cbn [fire_due].
  - rewrite decide_False by (specialize (Hq dl v (list_elem_of_here _ _)); lia).
    rewrite IH; [done|]. intros dl' v' ?. apply (Hq dl' v'). by right.
  - rewrite IH; [done|]. intros dl' v' ?. apply (Hq dl' v'). by right.
Qed.

(** [k] subscriptions armed with the same due timer: [valueChanged]
    runs [k] times. *)
Lemma fire_due_replicate t k dl v s :
  (dl ≤ t)%Z →
  fire_due valueChanged t (replicate k (Some (dl, v))) s
    = (replicate k None, Nat.iter k (valueChanged v) s).
Proof.
  intros Hdl. revert s. induction k as [|k IH]; intros s; [done|]. cbn [replicate fire_due].
  rewrite decide_True by done. rewrite IH. by rewrite (Nat.iter_succ_r k).
Qed.

(** A dirty input arms every subscription with the same timer. *)
Lemma subscribe_dirty now defaults v ts :
  v ≠ defaults →
  subscribe_callback now defaults v <$> ts = replicate (length ts) (Some (now + SAVE_DELAY_MS, v))%Z.
Proof.
  intros Hv. induction ts as [|tm ts IH]; [done|]. rewrite fmap_cons, IH.
  unfold subscribe_callback. destruct (decide (v = defaults)); first [contradiction|done].
Qed.

Lemma form_step_input_dirty st v :
  v ≠ fs_defaults st →
  form_step valueChanged st (ev_input v)
    = mkFormState (fs_now st) (fs_defaults st) v
        (replicate (length (fs_timers st)) (Some (fs_now st + SAVE_DELAY_MS, v))%Z) (fs_app st).
Proof. intros Hv. unfold form_step. by rewrite subscribe_dirty. Qed.

Lemma form_run_cons st e es :
  form_run valueChanged st (e :: es) = form_run valueChanged (form_step valueChanged st e) es.
Proof. done. Qed.

Lemma form_run_app st es1 es2 :
  form_run valueChanged st (es1 ++ es2) = form_run valueChanged (form_run valueChanged st es1) es2.
Proof. apply foldl_app. Qed.

(** The pause after an input that is shorter than the delay fires
    nothing. *)
Lemma input_then_short_wait st v w :
  v ≠ fs_defaults st → (Z.of_N w < SAVE_DELAY_MS)%Z →
  form_run valueChanged st [ev_input v; ev_wait w]
    = mkFormState (fs_now st + Z.of_N w) (fs_defaults st) v
        (replicate (length (fs_timers st)) (Some (fs_now st + SAVE_DELAY_MS, v))%Z) (fs_app st).
Proof.
  intros Hv Hw. rewrite form_run_cons, form_step_input_dirty by done. cbn -[fire_due].
  rewrite fire_due_quiet; [done|]. intros dl u Hin.
  apply elem_of_replicate in Hin as [[= -> _] _]. lia.
Qed.

(** The pause after an input that reaches the delay fires every
    subscription once, with the values of the input. *)
Lemma input_then_long_wait st v w :
  v ≠ fs_defaults st → (SAVE_DELAY_MS ≤ Z.of_N w)%Z →
  form_run valueChanged st [ev_input v; ev_wait w]
    = mkFormState (fs_now st + Z.of_N w) (fs_defaults st) v
        (replicate (length (fs_timers st)) None)
        (Nat.iter (length (fs_timers st)) (valueChanged v) (fs_app st)).
Proof.
  intros Hv Hw. rewrite form_run_cons, form_step_input_dirty by done. cbn -[fire_due].
  rewrite fire_due_replicate by lia. done.
Qed.

(** A burst of dirty inputs, each followed by a pause shorter than the
    delay, and a last input followed by a pause that reaches it: only
    the values of the last input are saved, once per subscription. *)
Lemma typing_burst st xs v W :
  Forall (λ x, x.1 ≠ fs_defaults st ∧ (Z.of_N x.2 < SAVE_DELAY_MS)%Z) xs →
  v ≠ fs_defaults st → (SAVE_DELAY_MS ≤ Z.of_N W)%Z →
  form_run valueChanged st (typing (xs ++ [(v, W)]))
    = mkFormState (fs_now st + zsum (λ x, Z.of_N x.2) (xs ++ [(v, W)])) (fs_defaults st) v
        (replicate (length (fs_timers st)) None)
        (Nat.iter (length (fs_timers st)) (valueChanged v) (fs_app st)).
Proof.
  revert st. induction xs as [|[u w] xs IH]; intros st Hxs Hv HW.
  - cbn [app typing]. rewrite input_then_long_wait by done.
    by rewrite zsum_cons, zsum_nil, Z.add_0_r.
  - apply Forall_cons in Hxs as [[Hu Hw] Hxs]. simpl in Hu, Hw.
    change (typing (((u, w) :: xs) ++ [(v, W)]))
      with ([ev_input u; ev_wait w] ++ typing (xs ++ [(v, W)])).
    rewrite form_run_app, input_then_short_wait by done.
    rewrite IH by done. cbn [fs_now fs_defaults fs_timers fs_app].
    rewrite length_replicate, <-app_comm_cons, zsum_cons. simpl. f_equal. lia.
Qed.

(** Renders add subscriptions, one per render. *)
Lemma form_run_renders st n :
  length (fs_timers (form_run valueChanged st (replicate n ev_render)))
    = length (fs_timers st) + n.
Proof.
  revert st. induction n as [|n IH]; intros st; simpl; [lia|].
  rewrite IH. simpl. rewrite length_app. simpl. lia.
Qed.

(** An input that equals the initial values leaves the timers alone. *)
Lemma subscribe_clean now defaults ts :
  subscribe_callback now defaults defaults <$> ts = ts.
Proof.
  induction ts as [|tm ts IH]; [done|]. rewrite fmap_cons, IH.
  unfold subscribe_callback. by rewrite decide_True.
Qed.

Lemma timers_ok_nil now defaults : timers_ok now defaults [].
Proof. intros dl v Hin. by apply elem_of_nil in Hin. Qed.

Lemma timers_ok_render now defaults ts :
  timers_ok now defaults ts → timers_ok now defaults (ts ++ [None]).
Proof.
  intros Hok dl v [Hin|[=]%list_elem_of_singleton]%elem_of_app.
  destruct (Hok dl v Hin) as (Hb & Hv & Hall). refine (conj Hb (conj Hv _)).
  intros tm [Htm|Htm%list_elem_of_singleton]%elem_of_app; [by apply Hall|by left].
Qed.

Lemma timers_ok_input now defaults v ts :
  timers_ok now defaults ts →
  timers_ok now defaults (subscribe_callback now defaults v <$> ts).
Proof.
  intros Hok. destruct (decide (v = defaults)) as [->|Hv]; [by rewrite subscribe_clean|].
  rewrite subscribe_dirty by done. intros dl u [[= -> ->] _]%elem_of_replicate.
  unfold SAVE_DELAY_MS. split_and!; [lia|lia|done|].
  intros tm [-> _]%elem_of_replicate. by right.
Qed.

Lemma timers_ok_wait now defaults ts ms :
  timers_ok now defaults ts →
  timers_ok (now + Z.of_N ms) defaults (timer_after (now + Z.of_N ms) <$> ts).
Proof.
  intros Hok dl v (tm & Htm & Hin)%list_elem_of_fmap.
  destruct tm as [[dl0 v0]|]; simpl in Htm; [|done].
  case_decide as Hdue; [done|]. injection Htm as <- <-.
  destruct (Hok dl v Hin) as (Hb & Hv & Hall). split_and!; [lia|lia|done|].
  intros tm' (tm0 & -> & Hin0)%list_elem_of_fmap.
  destruct (Hall tm0 Hin0) as [->| ->]; [by left|]. simpl. case_decide; [by left|by right].
Qed.

(** Every step keeps the timers sound. *)
Lemma form_step_ok st e : form_ok st → form_ok (form_step valueChanged st e).
Proof.
  unfold form_ok. intros Hok. destruct e as [|v|ms]; simpl.
  - by apply timers_ok_render.
  - by apply timers_ok_input.
  - pose proof (fire_due_timers (fs_now st + Z.of_N ms) (fs_timers st) (fs_app st)) as Ht.
    destruct (fire_due _ _ _ _) as [ts s] eqn:E. simpl in *. subst ts.
    by apply timers_ok_wait.
Qed.

Lemma form_reachable_ok init st :
  form_ok init → form_reachable valueChanged init st → form_ok st.
Proof. intros Hinit Hr. induction Hr; [done|]. by apply form_step_ok. Qed.

End SubscriptionLemmas.

Lemma iter_log_changed v k l : Nat.iter k (log_changed v) l = l ++ replicate k v.
Proof.
  induction k as [|k IH]; simpl; [by rewrite app_nil_r|]. rewrite IH. unfold log_changed.
  rewrite <-app_assoc. f_equal. by rewrite replicate_cons_app.
Qed.

(** The status select offers a normal user neither APPROVED nor
    REJECTED; the save path does not check the status (see
    [Actions.updateReports_owned_run]). *)
Lemma status_options_normal :
  (APPROVED ∉ optionsForRole (Some Normal)) ∧ (REJECTED ∉ optionsForRole (Some Normal)).
Proof. split; apply (bool_decide_unpack _); by vm_compute. Qed.

(** ** The debounced hook *)

(** Calls of the hook less than [delay] apart, then a pause of at
    least [delay]: the callback runs once, with the last arguments. *)
Lemma debounced_burst {A S} (delay : Z) (callback : A → S → S) st xs a W :
  (0 < delay)%Z →
  Forall (λ x, (Z.of_N x.2 < delay)%Z) xs → (delay ≤ Z.of_N W)%Z →
  dbs_app (debounced_run delay callback (xs ++ [(a, W)]) st) = callback a (dbs_app st).
Proof.
  intros Hd. revert st. induction xs as [|[b w] xs IH]; intros st Hxs HW.
  - simpl. unfold debounced_call, debounced_wait. simpl. by rewrite decide_True by lia.
  - apply Forall_cons in Hxs as [Hw Hxs]. simpl in Hw. simpl.
    rewrite IH by done. unfold debounced_call, debounced_wait. simpl.
    by rewrite decide_False by lia.
Qed.

(** ** The save of the page *)

Lemma handleValueChanged_draft_changes v r :
  fd_id v = report_id r → v ≠ report_form_data r →
  handleValueChanged_draft (form_values v) r ≠ r.
Proof.
  intros Hid Hv Heq. apply Hv. destruct v as [i t de st], r. simpl in *.
  injection Heq as -> -> ->. by subst.
Qed.

(** A save of values of the report, by its normal owner, writes them
    to the database. *)
Lemma save_report_owned u r reports d v :
  user_role u = Normal → db_reports d !! report_id r = Some r → report_userId r = user_id u →
  reports !! report_id r = Some r → fd_id v = report_id r → v ≠ report_form_data r →
  (save_report (Some u) v (reports, d)).2
    = set_reports (insert (report_id r)
        (report_touch (db_now d) (handleValueChanged_draft (form_values v) r))) d.
Proof.
  intros Hn Hd Hown Hloc Hid Hv. unfold save_report, handleValueChanged, collection_update.
  cbn [fv_id form_values fst snd]. rewrite Hid, Hloc.
  rewrite decide_False by (by apply handleValueChanged_draft_changes).
  unfold collection_commit. cbn [h_onUpdate reportCollection with_session getCurrentUser].
  rewrite (updateReports_owned_run u d _ r) by done.
  by destruct (fst (run_dbm _ _)).
Qed.

(** ** Inputs for concrete runs *)

Definition retitled : UploadExpenseReportFormData := mkFormData "r1" "Client trip NYC" "" DRAFT.
Definition untitled : UploadExpenseReportFormData := mkFormData "r1" "" "" DRAFT.
Definition example_reports : gmap string ExpenseReport := {[ "r1" := example_report ]}.

(** ** Properties *)

(** The timers of the form are sound in every state the page
    reaches: an armed timer is due within the next second, it holds
    values other than the report's, and all armed timers are the same
    one. *)
Theorem form_timers_sound {S} (valueChanged : UploadExpenseReportFormData → S → S) now r s st :
  form_reachable valueChanged (form_init now r s) st → form_ok st.
Proof. apply form_reachable_ok, timers_ok_nil. Qed.

(** (C33) Debounce: after a burst of edits, each followed by a pause
    shorter than a second, and a last edit followed by a pause of a
    second or more, only the values of the last edit are saved, and
    they are saved once per subscription: once per render of the page,
    since every render subscribes again. *)
Theorem form_saves_last_values (st : FormState (list UploadExpenseReportFormData)) xs v W :
  Forall (λ x, x.1 ≠ fs_defaults st ∧ (Z.of_N x.2 < SAVE_DELAY_MS)%Z) xs →
  v ≠ fs_defaults st → (SAVE_DELAY_MS ≤ Z.of_N W)%Z →
  fs_app (form_run log_changed st (typing (xs ++ [(v, W)])))
    = fs_app st ++ replicate (length (fs_timers st)) v.
Proof. intros Hxs Hv HW. rewrite typing_burst by done. apply iter_log_changed. Qed.

(** (C34) An edit that is undone within a second is saved anyway: the
    callback returns early when the form is no longer dirty, without
    clearing the pending timer, so the timer saves the edited values
    while the form shows the report's own. *)
Theorem form_saves_reverted_edit (st : FormState (list UploadExpenseReportFormData)) v W :
  v ≠ fs_defaults st → (SAVE_DELAY_MS ≤ Z.of_N W)%Z →
  fs_values (form_run log_changed st [ev_input v; ev_input (fs_defaults st); ev_wait W])
    = fs_defaults st ∧
  fs_app (form_run log_changed st [ev_input v; ev_input (fs_defaults st); ev_wait W])
    = fs_app st ++ replicate (length (fs_timers st)) v.
Proof.
  intros Hv HW. rewrite form_run_cons, form_step_input_dirty by done.
  cbn -[fire_due]. rewrite subscribe_clean, fire_due_replicate by lia.
  split; [done|]. apply iter_log_changed.
Qed.

(** (C35) One second after the owner edits the report on its page,
    the database holds the edited title, description and status; the
    values are not checked against [UploadExpenseReportFormSchema], so
    an empty title, which the schema rejects, is saved too. *)
Theorem report_form_saves u r reports d now v W :
  user_role u = Normal → db_reports d !! report_id r = Some r → report_userId r = user_id u →
  reports !! report_id r = Some r → fd_id v = report_id r → v ≠ report_form_data r →
  (SAVE_DELAY_MS ≤ Z.of_N W)%Z →
  db_reports (fs_app (form_run (save_report (Some u)) (form_init now r (reports, d))
                [ev_render; ev_input v; ev_wait W])).2 !! report_id r
    = Some (report_touch (db_now d) (mkReport (report_id r) (fd_title v) (fd_description v)
              (fd_status v) (report_userId r) (report_createdAt r) (report_updatedAt r))).
Proof.
  intros Hn Hd Hown Hloc Hid Hv HW. rewrite form_run_cons.
  rewrite input_then_long_wait by done. cbn -[save_report].
  rewrite (save_report_owned u r) by done. cbn. by rewrite lookup_insert_eq.
Qed.

(** ** Witnesses *)

Lemma form_timers_sound_witness :
  form_ok (form_step log_changed (form_step log_changed (form_init 0 example_report []) ev_render)
             (ev_input retitled)).
Proof. apply (form_timers_sound log_changed 0 example_report []). apply fr_step, fr_step, fr_init. Defined.

(** Two renders: the last title of the burst is saved twice. *)
Lemma form_saves_last_values_witness :
  fs_app (form_run log_changed (form_run log_changed (form_init 0 example_report []) [ev_render; ev_render])
            (typing ([(untitled, 300%N)] ++ [(retitled, 1000%N)])))
    = [retitled; retitled].
Proof.
  refine (eq_trans (form_saves_last_values _ [(untitled, 300%N)] retitled 1000%N _ _ _) _).
  - apply Forall_singleton. split; [vm_compute; congruence|vm_compute; reflexivity].
  - vm_compute. congruence.
  - vm_compute. congruence.
  - reflexivity.
Defined.

Lemma form_saves_reverted_edit_witness :
  fs_values (form_run log_changed (form_run log_changed (form_init 0 example_report []) [ev_render])
               [ev_input retitled; ev_input (report_form_data example_report); ev_wait 1000])
    = report_form_data example_report ∧
  fs_app (form_run log_changed (form_run log_changed (form_init 0 example_report []) [ev_render])
            [ev_input retitled; ev_input (report_form_data example_report); ev_wait 1000])
    = [retitled].
Proof.
  destruct (form_saves_reverted_edit
              (form_run log_changed (form_init 0 example_report []) [ev_render]) retitled 1000%N)
    as [H1 H2].
  - vm_compute. congruence.
  - vm_compute. congruence.
  - split; [exact H1|exact H2].
Defined.

(** Clearing the title: the schema rejects it, the database gets it. *)
Lemma report_form_saves_witness :
  UploadExpenseReportFormSchema untitled = Err "Title is required" ∧
  db_reports (fs_app (form_run (save_report (Some user_u1)) (form_init 0 example_report (example_reports, example_db))
                [ev_render; ev_input untitled; ev_wait 1000])).2 !! "r1"
    = Some (report_touch (db_now example_db) (mkReport "r1" "" "" DRAFT "u1" 0 0)).
Proof.
  split; [reflexivity|].
  apply (report_form_saves user_u1 example_report example_reports example_db 0 untitled 1000%N).
  - reflexivity.
  - reflexivity.
  - reflexivity.
  - reflexivity.
  - reflexivity.
  - vm_compute. congruence.
  - vm_compute. congruence.
Defined.
