(* ===== verification/ReceiptView.v ===== *)
(** The edits of one receipt in [src/src/components/reports/receipt-view.tsx]:
    the inline editors of tax and tip ([updateTax], [updateTip] and the
    [InlineEdit] of [src/src/components/ui/inline-edit.tsx] around them),
    the category popover ([src/src/components/category/select.tsx]),
    the date picker, the "Add Line Item" button and the editable line
    item rows ([ReceiptViewLineItemRow] with [EditLineItemSchema]).

    Each handler is a function on the view state, the client collections
    and the database; a TanStack call that throws (an update of a
    missing key, an insert of a key already in the collection) aborts
    the handler, so the state of the view is the one before the event.
    The number builtins [parseFloat], [Number], [toFixed(2)] and
    [toString()] are the class [JsNumber]; [parseFloat] and [Number]
    return [None] for [NaN]. *)

From S2P Require Import Prelude JsString Db Actions Client Totals ReportsList.

#[local] Set Warnings "-clear-no-such-hyp".

(** ** The number builtins *)

Class JsNumber := {
  js_parseFloat : string → option Z;    (** [parseFloat(s)] *)
  js_coerceNumber : string → option Z;  (** [Number(s)], as [z.coerce.number()] reads it *)
  js_toFixed2 : Z → string;             (** [n.toFixed(2)] *)
  js_numToString : Z → string;          (** [n.toString()] *)
  js_coerceNumber_empty : js_coerceNumber "" = Some 0%Z;  (** [Number("") === 0] *)
  js_parseFloat_empty : js_parseFloat "" = None;          (** [parseFloat("")] is [NaN] *)
}.

(** ** Rows the view writes *)

Inductive AmountField := TipField | TaxField.

Definition amount_of (fld : AmountField) (r : Receipt) : Z :=
  match fld with TipField => receipt_tip r | TaxField => receipt_tax r end.

(** [r.tip = newTip] and [r.tax = newTax] *)
Definition set_amount (fld : AmountField) (v : Z) (r : Receipt) : Receipt :=
  mkReceipt (receipt_id r) (receipt_expenseReportId r) (receipt_merchantId r)
    (receipt_categoryId r) (receipt_pageCount r)
    (match fld with TaxField => v | TipField => receipt_tax r end)
    (match fld with TipField => v | TaxField => receipt_tip r end)
    (receipt_date r) (receipt_paymentMethod r) (receipt_confidence r) (receipt_currency r)
    (receipt_createdAt r) (receipt_updatedAt r).

(** [r.categoryId = categoryId] *)
Definition set_categoryId (k : string) (r : Receipt) : Receipt :=
  mkReceipt (receipt_id r) (receipt_expenseReportId r) (receipt_merchantId r) k
    (receipt_pageCount r) (receipt_tax r) (receipt_tip r) (receipt_date r)
    (receipt_paymentMethod r) (receipt_confidence r) (receipt_currency r)
    (receipt_createdAt r) (receipt_updatedAt r).

(** [r.date = d] *)
Definition set_date (t : Z) (r : Receipt) : Receipt :=
  mkReceipt (receipt_id r) (receipt_expenseReportId r) (receipt_merchantId r)
    (receipt_categoryId r) (receipt_pageCount r) (receipt_tax r) (receipt_tip r) (Some t)
    (receipt_paymentMethod r) (receipt_confidence r) (receipt_currency r)
    (receipt_createdAt r) (receipt_updatedAt r).

Definition set_cl_receipts (m : gmap string Receipt) (c : Collections) : Collections :=
  mkCollections (cl_reports c) m (cl_lineItems c) (cl_merchants c) (cl_categories c) (cl_pending c).
Definition set_cl_lineItems (m : gmap string ReceiptLineItem) (c : Collections) : Collections :=
  mkCollections (cl_reports c) (cl_receipts c) m (cl_merchants c) (cl_categories c) (cl_pending c).
Definition set_cl_categories (m : gmap string Category) (c : Collections) : Collections :=
  mkCollections (cl_reports c) (cl_receipts c) (cl_lineItems c) (cl_merchants c) m (cl_pending c).

(** [collection.insert(row)]: a key already in the collection throws
    [DuplicateKeyError]; otherwise the insert settles as
    [collection_insert]. *)
Definition collection_insert_new {V} (h : CollectionHandlers V) (local : gmap string V)
    (row : V) (d : Db) : result (gmap string V * Db) :=
  match local !! h_getKey h row with
  | Some _ => Err "duplicate key"
  | None => Ok (collection_insert h local row d)
  end.

(** ** The state of the view *)

(** An [InlineEdit] with [open] given by the view: the input exists
    while it is open and holds the text typed into it. *)
Record InlineEditState := mkInlineEdit { ie_open : bool; ie_text : option string }.

Definition ie_closed : InlineEditState := mkInlineEdit false None.

Record ReceiptViewState := mkReceiptView {
  rv_tip : InlineEditState;       (** [editingTip], [tipInputRef] *)
  rv_tax : InlineEditState;       (** [editingTax], [taxInputRef] *)
  rv_datePickerOpen : bool;
  rv_categoryOpen : bool;         (** [open] of [CategorySelect] *)
  rv_search : string;             (** [search] of [CategoryCommand] *)
  rv_cl : Collections;
  rv_db : Db;
}.

Definition rv_edit (fld : AmountField) (st : ReceiptViewState) : InlineEditState :=
  match fld with TipField => rv_tip st | TaxField => rv_tax st end.

Definition set_edit (fld : AmountField) (e : InlineEditState) (st : ReceiptViewState)
    : ReceiptViewState :=
  mkReceiptView (match fld with TipField => e | TaxField => rv_tip st end)
    (match fld with TaxField => e | TipField => rv_tax st end)
    (rv_datePickerOpen st) (rv_categoryOpen st) (rv_search st) (rv_cl st) (rv_db st).

(** The result of a [receiptCollection.update] written back. *)
Definition with_receipts (p : gmap string Receipt * Db) (st : ReceiptViewState) : ReceiptViewState :=
  mkReceiptView (rv_tip st) (rv_tax st) (rv_datePickerOpen st) (rv_categoryOpen st)
    (rv_search st) (set_cl_receipts p.1 (rv_cl st)) p.2.

Definition with_lineItems (p : gmap string ReceiptLineItem * Db) (st : ReceiptViewState)
    : ReceiptViewState :=
  mkReceiptView (rv_tip st) (rv_tax st) (rv_datePickerOpen st) (rv_categoryOpen st)
    (rv_search st) (set_cl_lineItems p.1 (rv_cl st)) p.2.

Definition with_categories (p : gmap string Category * Db) (st : ReceiptViewState)
    : ReceiptViewState :=
  mkReceiptView (rv_tip st) (rv_tax st) (rv_datePickerOpen st) (rv_categoryOpen st)
    (rv_search st) (set_cl_categories p.1 (rv_cl st)) p.2.

Definition set_flags (datePickerOpen categoryOpen : bool) (st : ReceiptViewState)
    : ReceiptViewState :=
  mkReceiptView (rv_tip st) (rv_tax st) datePickerOpen categoryOpen (rv_search st)
    (rv_cl st) (rv_db st).

(** ** The handlers of [ReceiptView] *)

Section Handlers.
Context `{JsNumber} (session : option User) (rid : string).

(** [updateTip] / [updateTax]: nothing without the input or when the
    text is [NaN]; otherwise the update, whose draft callback also
    closes the editor. *)
Definition updateAmount (fld : AmountField) (st : ReceiptViewState) : result ReceiptViewState :=
  match ie_text (rv_edit fld st) with
  | None => Ok st
  | Some s =>
      match js_parseFloat s with
      | None => Ok st
      | Some v =>
          p ← collection_update (receiptCollection session) (cl_receipts (rv_cl st)) rid
                (set_amount fld v) (rv_db st);
          Ok (set_edit fld ie_closed (with_receipts p st))
      end
  end.

Definition updateTip : ReceiptViewState → result ReceiptViewState := updateAmount TipField.
Definition updateTax : ReceiptViewState → result ReceiptViewState := updateAmount TaxField.

Inductive InlineEditEvent :=
| ie_click_trigger     (** [InlineEditTrigger] onClick: [setOpen(true)] *)
| ie_type (s : string) (** typing into the input *)
| ie_enter             (** [onKeyDown] with [Enter] *)
| ie_click_outside.    (** [useOutsideClick]: [setOpen(false)] *)

(** [setOpen={(isOpen) => { if (!isOpen) updateX(); setEditingX(isOpen); }}];
    the trigger is rendered only while the editor is closed, and the
    input opens with [defaultValue={x.toFixed(2)}]. *)
Definition inline_edit_step (fld : AmountField) (e : InlineEditEvent) (st : ReceiptViewState)
    : result ReceiptViewState :=
  match e with
  | ie_click_trigger =>
      if ie_open (rv_edit fld st) then Ok st else
      match cl_receipts (rv_cl st) !! rid with
      | Some r => Ok (set_edit fld (mkInlineEdit true (Some (js_toFixed2 (amount_of fld r)))) st)
      | None => Ok st
      end
  | ie_type s =>
      if ie_open (rv_edit fld st) then Ok (set_edit fld (mkInlineEdit true (Some s)) st) else Ok st
  | ie_enter => updateAmount fld st
  | ie_click_outside => st' ← updateAmount fld st; Ok (set_edit fld ie_closed st')
  end.

(** [onValueChanged] of the category select: the update of the
    receipt's category, then [setOpen(false)]. *)
Definition setCategoryValue (k : string) (st : ReceiptViewState) : result ReceiptViewState :=
  p ← collection_update (receiptCollection session) (cl_receipts (rv_cl st)) rid
        (set_categoryId k) (rv_db st);
  Ok (set_flags (rv_datePickerOpen st) false (with_receipts p st)).

(** [handleSearchKeyDown] on [Enter]: an empty search does nothing;
    otherwise the category [{ id: cuid2(), name: search, normalizedName:
    search.toUpperCase() }] is inserted and selected. *)
Definition categoryEnter (newCategoryId : string) (st : ReceiptViewState)
    : result ReceiptViewState :=
  let search := rv_search st in
  if String.eqb search "" then Ok st else
  let now := db_now (rv_db st) in
  p ← collection_insert_new categoryCollection (cl_categories (rv_cl st))
        (mkCategory newCategoryId search (toUpperCase search) now now) (rv_db st);
  setCategoryValue newCategoryId (with_categories p st).

(** [onSelect] of the calendar. *)
Definition selectDate (d : option Z) (st : ReceiptViewState) : result ReceiptViewState :=
  match d with
  | Some t =>
      p ← collection_update (receiptCollection session) (cl_receipts (rv_cl st)) rid
            (set_date t) (rv_db st);
      Ok (set_flags false (rv_categoryOpen st) (with_receipts p st))
  | None => Ok (set_flags false (rv_categoryOpen st) st)
  end.

(** The row the "Add Line Item" button inserts. *)
Definition new_line_item (id : string) (now : Z) : ReceiptLineItem :=
  mkLineItem id rid "New item" 1 0 None (Some "USD") now now.

Definition addLineItem (newId : string) (st : ReceiptViewState) : result ReceiptViewState :=
  p ← collection_insert_new (receiptLineItemCollection session) (cl_lineItems (rv_cl st))
        (new_line_item newId (db_now (rv_db st))) (rv_db st);
  Ok (with_lineItems p st).

(** An event of the view; a handler that throws leaves the state as
    it was.  The search input and the items of the category popover,
    and the calendar, exist only while their popover is open. *)
Inductive ReceiptViewEvent :=
| rv_inline (fld : AmountField) (e : InlineEditEvent)
| rv_category_open (o : bool)      (** [onOpenChange] of [CategorySelect]'s popover *)
| rv_date_open (o : bool)          (** [onOpenChange={setDatePickerOpen}] *)
| rv_category_search (s : string)
| rv_category_enter (newCategoryId : string)
| rv_category_select (k : string)
| rv_date_select (d : option Z)
| rv_add_line_item (newId : string).

Definition receipt_view_handler (e : ReceiptViewEvent) (st : ReceiptViewState)
    : result ReceiptViewState :=
  match e with
  | rv_inline fld e => inline_edit_step fld e st
  | rv_category_open o =>
      (* opening mounts [CategoryCommand] afresh: [useState("")] *)
      Ok (mkReceiptView (rv_tip st) (rv_tax st) (rv_datePickerOpen st) o
            (if o then "" else rv_search st) (rv_cl st) (rv_db st))
  | rv_date_open o => Ok (set_flags o (rv_categoryOpen st) st)
  | rv_category_search s =>
      if rv_categoryOpen st then
        Ok (mkReceiptView (rv_tip st) (rv_tax st) (rv_datePickerOpen st) (rv_categoryOpen st) s
              (rv_cl st) (rv_db st))
      else Ok st
  | rv_category_enter k => if rv_categoryOpen st then categoryEnter k st else Ok st
  | rv_category_select k => if rv_categoryOpen st then setCategoryValue k st else Ok st
  | rv_date_select d => if rv_datePickerOpen st then selectDate d st else Ok st
  | rv_add_line_item k => addLineItem k st
  end.

Definition receipt_view_step (st : ReceiptViewState) (e : ReceiptViewEvent) : ReceiptViewState :=
  match receipt_view_handler e st with Ok st' => st' | Err _ => st end.

Definition receipt_view_run (st : ReceiptViewState) (es : list ReceiptViewEvent)
    : ReceiptViewState :=
  foldl receipt_view_step st es.

(** The total the view shows, from the collections. *)
Definition view_total (st : ReceiptViewState) : option Z :=
  r ← cl_receipts (rv_cl st) !! rid;
  Some (receipt_total (receipt_items (rv_cl st) r) r).

End Handlers.

(** ** [ReceiptViewLineItemRow] *)

(** The fields of the row's form, as the inputs hold them. *)
Record EditLineItemValues := mkEditValues {
  ev_description : string;
  ev_quantity : string;
  ev_unitPrice : string;
}.

Record LineItemRowState := mkRowState {
  row_editing : bool;
  row_values : EditLineItemValues;
}.

Section Row.
Context `{JsNumber} (session : option User).

(** [useForm({ defaultValues })] *)
Definition row_init (li : ReceiptLineItem) : LineItemRowState :=
  mkRowState false (mkEditValues (lineItem_description li) (js_numToString (lineItem_quantity li))
    (js_toFixed2 (lineItem_unitPrice li))).

(** [EditLineItemSchema]: [z.coerce.number()] is [Number(input)], and a
    [NaN] fails. *)
Definition EditLineItemSchema (v : EditLineItemValues) : result (string * Z * Z) :=
  match js_coerceNumber (ev_quantity v), js_coerceNumber (ev_unitPrice v) with
  | Some q, Some p => Ok (ev_description v, q, p)
  | _, _ => Err "Invalid input: expected number, received NaN"
  end.

(** [li.description = ...; li.quantity = ...; li.unitPrice = ...] *)
Definition set_line_item (desc : string) (q p : Z) (li : ReceiptLineItem) : ReceiptLineItem :=
  mkLineItem (lineItem_id li) (lineItem_receiptId li) desc q p (lineItem_sku li)
    (lineItem_currency li) (lineItem_createdAt li) (lineItem_updatedAt li).

(** [submitForm]: nothing unless editing; an invalid form stays open
    ([console.log(e)]); a positive quantity updates the line item, any
    other quantity deletes it. *)
Definition submitForm (li : ReceiptLineItem) (row : LineItemRowState) (c : Collections) (d : Db)
    : result (LineItemRowState * Collections * Db) :=
  if negb (row_editing row) then Ok (row, c, d) else
  match EditLineItemSchema (row_values row) with
  | Err _ => Ok (row, c, d)
  | Ok (desc, q, p) =>
      if (0 <? q)%Z then
        m ← collection_update (receiptLineItemCollection session) (cl_lineItems c) (lineItem_id li)
              (set_line_item desc q p) d;
        Ok (mkRowState false (row_values row), set_cl_lineItems m.1 c, m.2)
      else
        let m := collection_delete (receiptLineItemCollection session) (cl_lineItems c)
                   (lineItem_id li) d in
        Ok (mkRowState false (row_values row), set_cl_lineItems m.1 c, m.2)
  end.

(** [editTotal]: the product the row shows while editing; [NaN] is
    [None]. *)
Definition editTotal (v : EditLineItemValues) : option Z :=
  q ← js_coerceNumber (ev_quantity v); p ← js_coerceNumber (ev_unitPrice v); Some (q * p)%Z.

(** [lineTotal]: the product the row shows otherwise. *)
Definition lineTotal (li : ReceiptLineItem) : Z := (lineItem_quantity li * lineItem_unitPrice li)%Z.

Inductive RowEvent :=
| row_click                           (** [onClick={() => setEditing(true)}] *)
| row_type (v : EditLineItemValues)   (** typing into the fields *)
| row_click_outside.                  (** [useOutsideClick(tableRowRef, submitForm)] *)

Definition row_step (li : ReceiptLineItem) (e : RowEvent) (row : LineItemRowState)
    (c : Collections) (d : Db) : result (LineItemRowState * Collections * Db) :=
  match e with
  | row_click => Ok (mkRowState true (row_values row), c, d)
  | row_type v => Ok (if row_editing row then mkRowState true v else row, c, d)
  | row_click_outside => submitForm li row c d
  end.

End Row.

(** ** Number builtins on strings of digits *)

(** The builtins on the strings of decimal digits, where [parseFloat]
    and [Number] agree except on the empty string; integers print
    without a fraction.  Used by the concrete runs. *)
#[export] Program Instance digits_number : JsNumber := {
  js_parseFloat s := if String.eqb s "" then None else js_Number s;
  js_coerceNumber := js_Number;
  js_toFixed2 z := pretty z;
  js_numToString z := pretty z;
}.
Next Obligation. done. Qed.
Next Obligation. done. Qed.

(** ** Inputs for concrete runs *)

(** A receipt of report [r1] of user [u1], with a line item, in the
    database and in the collections. *)
Definition view_db : Db :=
  mkDb {[ "r1" := report_r1 ]} {[ "rc1" := receipt_meals ]} {[ "li1" := item_latte ]}
    {[ "m1" := merchant_m1 ]} {[ "k1" := category_meals ]} 100 0.

Definition view_cl : Collections :=
  mkCollections {[ "r1" := report_r1 ]} {[ "rc1" := receipt_meals ]} {[ "li1" := item_latte ]}
    {[ "BLUE CAFE" := merchant_m1 ]} {[ "MEALS" := category_meals ]} ∅.

Definition view_closed : ReceiptViewState := mkReceiptView ie_closed ie_closed false false "" view_cl view_db.

(** The category popover opened and a search typed. *)
Definition view_searching (s : string) : ReceiptViewState :=
  receipt_view_run (Some user_u1) "rc1" view_closed [rv_category_open true; rv_category_search s].

(** ** Lemmas on the collections *)

(** An update that changes the row and whose handler succeeds settles
    with the database the handler leaves. *)
Lemma collection_update_commit {V} `{EqDecision V} (h : CollectionHandlers V) local key f d v d' :
  local !! key = Some v → f v ≠ v → run_dbm (h_onUpdate h [f v]) d = (Ok tt, d') →
  ∃ m, collection_update h local key f d = Ok (m, d').
Proof.
  intros Hk Hf Hrun. unfold collection_update, collection_commit. rewrite Hk, decide_False by done.
  rewrite Hrun. destruct (fst (run_dbm _ _)); eauto.
Qed.

Lemma collection_delete_commit {V} (h : CollectionHandlers V) local key d d' :
  run_dbm (h_onDelete h [key]) d = (Ok tt, d') → (collection_delete h local key d).2 = d'.
Proof.
  intros Hrun. unfold collection_delete, collection_commit. rewrite Hrun.
  by destruct (fst (run_dbm _ _)).
Qed.

Lemma collection_insert_new_commit {V} (h : CollectionHandlers V) local row d d' :
  local !! h_getKey h row = None → run_dbm (h_onInsert h [row]) d = (Ok tt, d') →
  ∃ m, collection_insert_new h local row d = Ok (m, d').
Proof.
  intros Hk Hrun. unfold collection_insert_new, collection_insert, collection_commit.
  rewrite Hk, Hrun. destruct (fst (run_dbm _ _)); eauto.
Qed.

(** The foreign keys of a receipt do not depend on its amounts or date. *)
Lemma receipt_fk_set_amount d now fld v r :
  t_fk receipts_table d (receipt_touch now (set_amount fld v r)) = t_fk receipts_table d r.
Proof. done. Qed.

Lemma set_amount_changes fld v r : amount_of fld r ≠ v → set_amount fld v r ≠ r.
Proof. intros Hne Heq. apply Hne. destruct fld, r; simpl in *; by injection Heq. Qed.

Lemma rv_edit_set_edit fld e st : rv_edit fld (set_edit fld e st) = e.
Proof. by destruct fld. Qed.

(** The update of the receipt of the view by the normal user who owns
    it, when it changes the row. *)
Lemma receipt_update_owned u c d rid f r r0 :
  cl_receipts c !! rid = Some r → f r ≠ r → receipt_id (f r) = rid →
  db_receipts d !! rid = Some r0 → receipt_owned (user_id u) d rid = true →
  t_fk receipts_table d (receipt_touch (db_now d) (f r)) = true →
  ∃ m, collection_update (receiptCollection (Some u)) (cl_receipts c) rid f d
         = Ok (m, set_receipts (insert rid (receipt_touch (db_now d) (f r))) d).
Proof.
  intros Hloc Hf <- Hd Ho Hfk. apply (collection_update_commit _ _ _ _ _ r); [done|done|].
  by apply (updateReceipts_owned_run u d (f r) r0).
Qed.

Lemma set_edit_twice fld e1 e2 st : set_edit fld e2 (set_edit fld e1 st) = set_edit fld e2 st.
Proof. by destruct fld. Qed.

Lemma set_edit_same fld st : set_edit fld (rv_edit fld st) st = st.
Proof. by destruct fld, st. Qed.

Lemma receipt_id_set_amount fld v r : receipt_id (set_amount fld v r) = receipt_id r.
Proof. by destruct fld. Qed.

(** The steps of an inline editor. *)
Section InlineSteps.
Context `{JsNumber} (session : option User) (rid : string) (fld : AmountField).

Lemma step_trigger_closed st r :
  rv_edit fld st = ie_closed → cl_receipts (rv_cl st) !! rid = Some r →
  receipt_view_step session rid st (rv_inline fld ie_click_trigger)
    = set_edit fld (mkInlineEdit true (Some (js_toFixed2 (amount_of fld r)))) st.
Proof. intros Hc Hl. unfold receipt_view_step. simpl. rewrite Hc. simpl. by rewrite Hl. Qed.

Lemma step_type_open st s :
  ie_open (rv_edit fld st) = true →
  receipt_view_step session rid st (rv_inline fld (ie_type s)) = set_edit fld (mkInlineEdit true (Some s)) st.
Proof. intros Ho. unfold receipt_view_step. simpl. by rewrite Ho. Qed.

Lemma step_enter_nan st s :
  ie_text (rv_edit fld st) = Some s → js_parseFloat s = None →
  receipt_view_step session rid st (rv_inline fld ie_enter) = st.
Proof. intros Ht Hp. unfold receipt_view_step. simpl. unfold updateAmount. by rewrite Ht, Hp. Qed.

Lemma step_outside_nan st s :
  ie_text (rv_edit fld st) = Some s → js_parseFloat s = None →
  receipt_view_step session rid st (rv_inline fld ie_click_outside) = set_edit fld ie_closed st.
Proof. intros Ht Hp. unfold receipt_view_step. simpl. unfold updateAmount. by rewrite Ht, Hp. Qed.
End InlineSteps.

(** No category of the table has the normalized name of the row. *)
Lemma unique_free_intro {R} (id field : R → string) (tbl : gmap string R) row :
  (∀ j v, tbl !! j = Some v → field v ≠ field row) → unique_free id field tbl row = true.
Proof.
  intros Hfree. apply forallb_forall. intros [j v] Hin%list_elem_of_In%elem_of_map_to_list.
  apply orb_true_intro. right. apply negb_true_iff, String.eqb_neq. by apply (Hfree j).
Qed.

(** [createCategories] of one new category, whose id and normalized
    name are free, inserts it. *)
Lemma createCategories_new_run d k :
  db_categories d !! category_id k = None →
  unique_free category_id category_normalizedName (db_categories d) k = true →
  run_dbm (createCategories [k]) d = (Ok tt, set_categories (insert (category_id k) k) d).
Proof. intros Hk Hu. unfold createCategories, table_createMany. simpl. by rewrite Hk, Hu. Qed.

Lemma set_categoryId_changes k r : receipt_categoryId r ≠ k → set_categoryId k r ≠ r.
Proof. intros Hne Heq. apply Hne. by rewrite <-Heq. Qed.

(** The foreign keys of a receipt whose report, merchant and category exist. *)
Lemma receipt_fk_intro d r :
  is_Some (db_reports d !! receipt_expenseReportId r) → is_Some (db_merchants d !! receipt_merchantId r) →
  is_Some (db_categories d !! receipt_categoryId r) → t_fk receipts_table d r = true.
Proof. intros Hr Hm Hk. simpl. by rewrite !bool_decide_true. Qed.

(** ** Properties *)

Section ViewClaims.
Context `{JsNumber}.

(** (C36) Pressing Enter in the tip or tax editor with a number that
    differs from the current amount writes it to the receipt in the
    database (for the normal user who owns the receipt) and closes the
    editor. *)
Theorem inline_enter_saves u rid fld st s v r r0 :
  ie_text (rv_edit fld st) = Some s → js_parseFloat s = Some v →
  cl_receipts (rv_cl st) !! rid = Some r → receipt_id r = rid → amount_of fld r ≠ v →
  db_receipts (rv_db st) !! rid = Some r0 → receipt_owned (user_id u) (rv_db st) rid = true →
  t_fk receipts_table (rv_db st) r = true →
  rv_edit fld (receipt_view_step (Some u) rid st (rv_inline fld ie_enter)) = ie_closed ∧
  db_receipts (rv_db (receipt_view_step (Some u) rid st (rv_inline fld ie_enter))) !! rid
    = Some (receipt_touch (db_now (rv_db st)) (set_amount fld v r)).
Proof.
  intros Ht Hp Hloc Hid Hne Hd Ho Hfk.
  destruct (receipt_update_owned u (rv_cl st) (rv_db st) rid (set_amount fld v) r r0 Hloc
              (set_amount_changes fld v r Hne) (eq_trans (receipt_id_set_amount fld v r) Hid) Hd Ho
              (eq_trans (receipt_fk_set_amount _ _ fld v r) Hfk)) as [m Hm].
  unfold receipt_view_step, receipt_view_handler, inline_edit_step, updateAmount.
    rewrite Ht, Hp, Hm. simpl. split; [apply rv_edit_set_edit|].
    destruct fld; simpl; by rewrite lookup_insert_eq.
Qed.

(** A tip or tax entry that is not a number is never written:
    Enter keeps the editor open with the entry, and a click outside
    closes the editor and discards the entry, leaving the view, the
    collections and the database as they were. *)
Theorem inline_nan_discarded session rid fld st r s :
  rv_edit fld st = ie_closed → cl_receipts (rv_cl st) !! rid = Some r → js_parseFloat s = None →
  receipt_view_run session rid st
    [rv_inline fld ie_click_trigger; rv_inline fld (ie_type s); rv_inline fld ie_enter]
    = set_edit fld (mkInlineEdit true (Some s)) st ∧
  receipt_view_run session rid st
    [rv_inline fld ie_click_trigger; rv_inline fld (ie_type s); rv_inline fld ie_click_outside]
    = st.
Proof.
  intros Hc Hloc Hp. unfold receipt_view_run. cbn [foldl].
  rewrite (step_trigger_closed _ _ _ _ r), step_type_open, set_edit_twice by (by rewrite ?rv_edit_set_edit).
  split.
  - apply (step_enter_nan _ _ _ _ s); [by rewrite rv_edit_set_edit|done].
  - rewrite (step_outside_nan _ _ _ _ s), set_edit_twice, <-Hc; [apply set_edit_same|by rewrite rv_edit_set_edit|done].
Qed.

(** (C37) Clearing the quantity of a line item and clicking outside the
    row deletes the line item: [z.coerce.number()] reads the empty
    field as [Number("") = 0], which is not positive. *)
Theorem clear_quantity_deletes u li row c d p li0 :
  row_editing row = true → ev_quantity (row_values row) = "" →
  js_coerceNumber (ev_unitPrice (row_values row)) = Some p →
  db_lineItems d !! lineItem_id li = Some li0 → lineItem_owned (user_id u) d (lineItem_id li) = true →
  ∃ row' c', row_step (Some u) li row_click_outside row c d = Ok (row', c', set_lineItems (delete (lineItem_id li)) d)
    ∧ row_editing row' = false.
Proof.
  intros He Hq Hp Hd Ho. unfold row_step, submitForm. rewrite He. simpl.
  unfold EditLineItemSchema. rewrite Hq, js_coerceNumber_empty, Hp. simpl.
  rewrite (collection_delete_commit _ _ _ d (set_lineItems (delete (lineItem_id li)) d)).
  - by eexists _, _.
  - by apply (deleteReceiptLineItems_owned_run u d _ li0).
Qed.

(** (C38) Typing a new category name in the category popover and
    pressing Enter creates the category (its normalized name the upper
    case of the text) and moves the receipt to it: the insert settles
    before the receipt update, whose foreign key then holds. *)
Theorem category_enter_creates u rid st r r0 newId :
  rv_categoryOpen st = true → rv_search st ≠ "" → cl_categories (rv_cl st) !! toUpperCase (rv_search st) = None →
  db_categories (rv_db st) !! newId = None →
  (∀ j k, db_categories (rv_db st) !! j = Some k → category_normalizedName k ≠ toUpperCase (rv_search st)) →
  cl_receipts (rv_cl st) !! rid = Some r → receipt_id r = rid → receipt_categoryId r ≠ newId →
  db_receipts (rv_db st) !! rid = Some r0 → receipt_owned (user_id u) (rv_db st) rid = true →
  is_Some (db_reports (rv_db st) !! receipt_expenseReportId r) →
  is_Some (db_merchants (rv_db st) !! receipt_merchantId r) →
  db_categories (rv_db (receipt_view_step (Some u) rid st (rv_category_enter newId))) !! newId
    = Some (mkCategory newId (rv_search st) (toUpperCase (rv_search st)) (db_now (rv_db st))
              (db_now (rv_db st))) ∧
  db_receipts (rv_db (receipt_view_step (Some u) rid st (rv_category_enter newId))) !! rid
    = Some (receipt_touch (db_now (rv_db st)) (set_categoryId newId r)) ∧
  rv_categoryOpen (receipt_view_step (Some u) rid st (rv_category_enter newId)) = false.
Proof.
  intros Hopen Hs Hloc Hid Hfree Hr Hrid Hne Hd Ho Hrep Hmer.
  set (k := mkCategory newId (rv_search st) (toUpperCase (rv_search st)) (db_now (rv_db st))
              (db_now (rv_db st))).
  destruct (collection_insert_new_commit categoryCollection (cl_categories (rv_cl st)) k (rv_db st)
              (set_categories (insert newId k) (rv_db st)) Hloc) as [cats Hc].
  { apply createCategories_new_run; [done|]. by apply unique_free_intro. }
  destruct (receipt_update_owned u (rv_cl (with_categories (cats, set_categories (insert newId k) (rv_db st)) st))
              (set_categories (insert newId k) (rv_db st)) rid (set_categoryId newId) r r0 Hr
              (set_categoryId_changes newId r Hne) Hrid Hd Ho) as [m Hm].
  { apply receipt_fk_intro; [done|done|]. simpl. by rewrite lookup_insert_eq. }
  unfold receipt_view_step, receipt_view_handler, categoryEnter. rewrite Hopen.
  rewrite (proj2 (String.eqb_neq _ _) Hs). fold k. rewrite Hc. simpl.
  unfold setCategoryValue, with_categories in *. cbn [rv_db rv_cl fst snd] in *. rewrite Hm. simpl.
  split_and!; by rewrite ?lookup_insert_eq.
Qed.

(** Typing the name of a category that is already in the
    collection (in any case) and pressing Enter changes nothing: the
    insert under the existing normalized name throws before the
    category is selected, so the existing category is not selected
    either. *)
Theorem category_enter_existing session rid st newId k :
  rv_categoryOpen st = true →
  rv_search st ≠ "" → cl_categories (rv_cl st) !! toUpperCase (rv_search st) = Some k →
  receipt_view_step session rid st (rv_category_enter newId) = st.
Proof.
  intros Hopen Hs Hk. unfold receipt_view_step, receipt_view_handler, categoryEnter. rewrite Hopen.
  rewrite (proj2 (String.eqb_neq _ _) Hs). unfold collection_insert_new. simpl. by rewrite Hk.
Qed.

End ViewClaims.

(** ** Witnesses *)

Lemma inline_enter_saves_witness :
  rv_edit TipField (receipt_view_step (Some user_u1) "rc1"
    (set_edit TipField (mkInlineEdit true (Some "200")) view_closed) (rv_inline TipField ie_enter))
    = ie_closed ∧
  db_receipts (rv_db (receipt_view_step (Some user_u1) "rc1"
    (set_edit TipField (mkInlineEdit true (Some "200")) view_closed) (rv_inline TipField ie_enter)))
    !! "rc1" = Some (receipt_touch 100 (set_amount TipField 200 receipt_meals)).
Proof.
  apply (inline_enter_saves user_u1 "rc1" TipField
           (set_edit TipField (mkInlineEdit true (Some "200")) view_closed) "200" 200
           receipt_meals receipt_meals);
    try reflexivity; vm_compute; congruence.
Defined.

Lemma inline_nan_discarded_witness :
  receipt_view_run (Some user_u1) "rc1" view_closed
    [rv_inline TipField ie_click_trigger; rv_inline TipField (ie_type "abc"); rv_inline TipField ie_enter]
    = set_edit TipField (mkInlineEdit true (Some "abc")) view_closed ∧
  receipt_view_run (Some user_u1) "rc1" view_closed
    [rv_inline TipField ie_click_trigger; rv_inline TipField (ie_type "abc"); rv_inline TipField ie_click_outside]
    = view_closed.
Proof. apply (inline_nan_discarded _ _ TipField view_closed receipt_meals "abc"); reflexivity. Defined.

Lemma clear_quantity_deletes_witness :
  ∃ row' c', row_step (Some user_u1) item_latte row_click_outside
      (mkRowState true (mkEditValues "Latte" "" "450")) view_cl view_db
      = Ok (row', c', set_lineItems (delete "li1") view_db) ∧ row_editing row' = false.
Proof.
  apply (clear_quantity_deletes user_u1 item_latte _ view_cl view_db 450 item_latte); reflexivity.
Defined.

Lemma category_enter_creates_witness :
  db_categories (rv_db (receipt_view_step (Some user_u1) "rc1"
      (view_searching "Travel")
      (rv_category_enter "k2"))) !! "k2"
    = Some (mkCategory "k2" "Travel" "TRAVEL" 100 100) ∧
  db_receipts (rv_db (receipt_view_step (Some user_u1) "rc1"
      (view_searching "Travel")
      (rv_category_enter "k2"))) !! "rc1"
    = Some (receipt_touch 100 (set_categoryId "k2" receipt_meals)) ∧
  rv_categoryOpen (receipt_view_step (Some user_u1) "rc1"
      (view_searching "Travel")
      (rv_category_enter "k2")) = false.
Proof.
  apply (category_enter_creates user_u1 "rc1"
           (view_searching "Travel") receipt_meals receipt_meals "k2");
    try reflexivity; try (vm_compute; congruence); try (eexists; reflexivity).
  intros j k Hj.
  change (({[ "k1" := category_meals ]} : gmap string Category) !! j = Some k) in Hj.
  apply lookup_singleton_Some in Hj as [_ <-]. vm_compute. congruence.
Defined.

Lemma category_enter_existing_witness :
  receipt_view_step (Some user_u1) "rc1" (view_searching "meals") (rv_category_enter "k2")
  = view_searching "meals".
Proof. apply (category_enter_existing _ _ _ "k2" category_meals); vm_compute; congruence. Defined.
