(* ===== verification/AppShell.v ===== *)
(** The shell of the application: the root layout
    ([src/src/app/layout.tsx]), the redirects of [src/src/app/page.tsx]
    and [src/src/app/check-auth.tsx], the loading screen of
    [src/src/app/collection-loader.tsx], the sign-in page
    ([src/src/app/sign-in/page.tsx]) and the sidebar of
    [src/src/components/layout/nav.tsx] (its [createNewReport] is in
    [ReportsList]).

    A page is a function of the session and the path; what a handler
    does is a navigation or a toast.  The outcomes of the better-auth
    calls ([signIn.social], [signOut]) and of the collection preloads
    are inputs. *)

From S2P Require Import Prelude JsString Db.
From Stdlib Require Import Ascii.

#[local] Set Warnings "-clear-no-such-hyp".

(** ** Sessions and outcomes *)

(** The user of a better-auth session: the row of [User] and the
    profile fields the sidebar shows. *)
Record SessionUser := mkSessionUser {
  su_user : User;
  su_name : string;
  su_image : option string;
}.

(** What a handler does in the browser. *)
Inductive Outcome :=
| navigate (path : string)   (** [redirect(path)] or [router.push(path)] *)
| toast_error (msg : string) (** [toast.error(msg)] *)
| stay.

#[export] Instance Outcome_eq_dec : EqDecision Outcome.
Proof. solve_decision. Defined.

(** ** Redirects *)

(** [Home]: the root path redirects by session. *)
Definition Home (session : option SessionUser) : Outcome :=
  match session with
  | None => navigate "/sign-in"
  | Some _ => navigate "/reports"
  end.

(** [CheckAuth]: without a user, every path but the sign-in page
    redirects to it. *)
Definition CheckAuth (user : option SessionUser) (pathname : string) : Outcome :=
  match user with
  | None => if String.eqb pathname "/sign-in" then stay else navigate "/sign-in"
  | Some _ => stay
  end.

(** [handleSignIn]: the Microsoft sign-in, or the toast when it throws. *)
Definition handleSignIn (signIn : result unit) : Outcome :=
  match signIn with
  | Ok _ => stay
  | Err _ => toast_error "Sign-in failed. See console for details."
  end.

(** ** [SidebarNav] *)

(** [user.name.split(" ").map((x) => x[0]).join("")]: [x[0]] of an
    empty part is [undefined], which [join] prints as the empty
    string. *)
Definition first_char (s : string) : string :=
  match s with
  | EmptyString => ""
  | String c _ => String c ""
  end.

Definition initials (name : string) : string :=
  String.concat "" (map first_char (split " " name)).

Record NavView := mkNavView {
  nav_list_active : bool;   (** [isActive={pathname === "/reports"}] *)
  nav_new_active : bool;    (** [isActive={pathname?.startsWith("/reports/new")}] *)
  nav_fallback : string;    (** [AvatarFallback] *)
  nav_image : option string;
  nav_name : string;
}.

(** [if (!user) return null;] and the menu otherwise. *)
Definition SidebarNav (user : option SessionUser) (pathname : string) : option NavView :=
  match user with
  | None => None
  | Some u =>
      Some (mkNavView (String.eqb pathname "/reports") (startsWith pathname "/reports/new")
              (initials (su_name u)) (su_image u) (su_name u))
  end.

(** [handleSignOut] *)
Definition handleSignOut (signOut : result unit) : Outcome :=
  match signOut with
  | Ok _ => navigate "/sign-in"
  | Err _ => toast_error "Sign out failed"
  end.

(** ** [CollectionLoader] *)

(** [COLLECTIONS_TO_PRELOAD]: reports, receipts, line items, merchants
    and categories. *)
Definition COLLECTIONS_TO_PRELOAD : nat := 5.

(** [await x.preload(); setTotalLoaded((l) => l + 1);]: a preload that
    rejects skips the increment, and [Promise.allSettled] swallows the
    rejection.  The preloads settle in the order of the list. *)
Definition loader_settle (totalLoaded : nat) (preloaded : bool) : nat :=
  if preloaded then S totalLoaded else totalLoaded.

Definition totalLoaded (settled : list bool) : nat := foldl loader_settle 0 settled.

(** The loading screen is shown until [totalLoaded] reaches the number
    of collections. *)
Definition loader_visible (n : nat) : bool := negb (n =? COLLECTIONS_TO_PRELOAD).

(** [((totalLoaded / COLLECTIONS_TO_PRELOAD) * 100).toFixed(0)] on the
    values it takes, multiples of [20]. *)
Definition loader_percent (n : nat) : nat := n * 100 / COLLECTIONS_TO_PRELOAD.

(** ** [RootLayout] *)

(** What the layout renders around the page: the redirect of
    [CheckAuth], the sidebar, and the sidebar trigger with the loading
    screen when there is a user. *)
Record LayoutView := mkLayoutView {
  lay_redirect : Outcome;
  lay_nav : option NavView;
  lay_loader : bool;
}.

Definition RootLayout (session : option SessionUser) (pathname : string) : LayoutView :=
  mkLayoutView (CheckAuth session pathname) (SidebarNav session pathname)
    (bool_decide (is_Some session)).

(** ** Lemmas *)

Lemma totalLoaded_from n settled :
  foldl loader_settle n settled = n + length (filter (λ b, b = true) settled).
Proof.
  revert n. induction settled as [|b settled IH]; intros n; [simpl; lia|].
  cbn [foldl]. rewrite IH. destruct b; unfold loader_settle.
  - rewrite filter_cons_True by done. simpl. lia.
  - rewrite filter_cons_False by done. lia.
Qed.

(** [totalLoaded] counts the preloads that succeeded. *)
Lemma totalLoaded_count settled :
  totalLoaded settled = length (filter (λ b, b = true) settled).
Proof. apply totalLoaded_from. Qed.

Lemma filter_true_all (settled : list bool) :
  length (filter (λ b, b = true) settled) = length settled ↔ Forall (λ b, b = true) settled.
Proof.
  induction settled as [|b settled IH]; [simpl; split; auto|].
  rewrite Forall_cons. pose proof (length_filter (λ b, b = true) settled).
  destruct b.
  - rewrite filter_cons_True by done. cbn [length]. rewrite <-IH. naive_solver lia.
  - rewrite filter_cons_False by done. cbn [length]. split; [lia|]. by intros [? _].
Qed.

(** The sidebar on the page of a report: the "New" button is active
    exactly when the report id starts with "new". *)
Lemma nav_new_active_report u id :
  option_map nav_new_active (SidebarNav (Some u) ("/reports/" +:+ id)) = Some (startsWith id "new").
Proof. done. Qed.

(** ** Properties *)

(** (C40) The loading screen of the application hides only when all
    five collections preload: the preloads run once, a preload that
    rejects is not counted, so after all five have settled the screen
    stays up for good when any of them failed. *)
Theorem loader_hides_iff_all_preloaded (settled : list bool) :
  length settled = COLLECTIONS_TO_PRELOAD →
  loader_visible (totalLoaded settled) = false ↔ Forall (λ b, b = true) settled.
Proof.
  intros Hlen. rewrite totalLoaded_count, <-filter_true_all, Hlen.
  unfold loader_visible. rewrite negb_false_iff, Nat.eqb_eq. done.
Qed.

(** ** Witnesses *)

Lemma loader_hides_iff_all_preloaded_witness :
  loader_visible (totalLoaded [true; true; false; true; true]) = false
    ↔ Forall (λ b, b = true) [true; true; false; true; true].
Proof. apply loader_hides_iff_all_preloaded. reflexivity. Defined.

Example initials_example : initials "Ada  Lovelace" = "AL".
Proof. reflexivity. Qed.
