(* ===== verification/UploadPage.v ===== *)
(** The receipt list of the upload form,
    [src/src/components/reports/upload-form.tsx]: the files chosen or
    dropped ([onFileChanged], [onFileDrop]), the rows of the receipts
    query (a full join of the receipt collection with the pending
    extractions, left joins with merchants and categories), and what
    [UploadFormReceiptPreview] shows for a row.

    The extractions of several files run one after the other: each
    [startReceipt] runs its detached task to the end before the next
    one starts.  The order of the rows ([orderBy] on the date and the
    merchant's normalized name) is not modelled; the properties do not
    depend on it. *)

From S2P Require Import Prelude JsString Db Schema ProcessReceipt Client Totals ReportsList.
From Stdlib Require Import Init.Byte.

#[local] Set Warnings "-clear-no-such-hyp".

(** ** Choosing and dropping files *)

Section Files.
Context (createObjectURL : File → string) {dp : DateParse}
  (pdfToImages : list byte → list (list byte)).

(** One extraction: the receipt id [cuid2()] gives the file, and the
    partial objects the model streams for it. *)
Record Extraction := mkExtraction {
  ex_receiptId : string;
  ex_file : File;
  ex_partials : list json;
}.

(** [for (const file of files) startReceipt(file)] *)
Definition start_all (expenseReportId : string) (xs : list Extraction)
    (c : Collections) (srv : Server) : Collections * Server :=
  foldl (λ cs x, startReceipt createObjectURL pdfToImages expenseReportId (ex_receiptId x)
                   (ex_file x) (ex_partials x) cs.1 cs.2) (c, srv) xs.

(** [onFileChanged]: nothing when the input has no file list. *)
Definition onFileChanged (expenseReportId : string) (files : option (list Extraction))
    (c : Collections) (srv : Server) : Collections * Server :=
  match files with
  | None => (c, srv)
  | Some xs => start_all expenseReportId xs c srv
  end.

(** [onFileDrop]: [Array.from(e.dataTransfer.files || [])]. *)
Definition onFileDrop (expenseReportId : string) (files : option (list Extraction))
    (c : Collections) (srv : Server) : Collections * Server :=
  start_all expenseReportId (default [] files) c srv.

End Files.

(** ** The rows of the receipts query *)

Record ReceiptRow := mkReceiptRow {
  row_receipt : option Receipt;
  row_extraction : option ReceiptExtractionData;
  row_merchant : option Merchant;
  row_category : option Category;
}.

(** [leftJoin ... eq(receipt?.merchantId, merchant.id)]: the merchant
    collection is keyed by normalized name, the join is on the id
    field. *)
Definition merchant_of (c : Collections) (r : Receipt) : option Merchant :=
  head (filter (λ m, merchant_id m = receipt_merchantId r) (values (cl_merchants c))).

Definition category_of (c : Collections) (r : Receipt) : option Category :=
  head (filter (λ k, category_id k = receipt_categoryId r) (values (cl_categories c))).

(** [from receipt fullJoin receiptExtraction on id ... where
    receipt?.expenseReportId = id or receiptExtraction?.expenseReportId = id]. *)
Definition upload_rows (c : Collections) (reportId : string) : list ReceiptRow :=
  filter (λ row, (receipt_expenseReportId <$> row_receipt row) = Some reportId ∨
                 (re_expenseReportId <$> row_extraction row) = Some reportId)
    ((values (cl_receipts c) ≫= λ r,
        [mkReceiptRow (Some r) (cl_pending c !! receipt_id r) (merchant_of c r) (category_of c r)])
     ++ (values (cl_pending c) ≫= λ e,
        match cl_receipts c !! re_id e with
        | Some _ => []
        | None => [mkReceiptRow None (Some e) None None]
        end)).

(** The charts are hidden while no row carries a receipt. *)
Definition charts_hidden (rows : list ReceiptRow) : bool :=
  bool_decide (length (filter (λ row, is_Some (row_receipt row)) rows) = 0).

(** ** [UploadFormReceiptPreview] *)

Inductive PreviewBody :=
| body_preview (partial : json)                    (** [<ReceiptPreview receipt={partial} />] *)
| body_view (r : Receipt) (k : Category) (m : Merchant)  (** [<ReceiptView ... />] *)
| body_none.

Record PreviewView := mkPreviewView {
  pv_source : option string;  (** the image source *)
  pv_isImage : bool;
  pv_spinner : bool;
  pv_delete : bool;           (** the delete button *)
  pv_body : PreviewBody;
}.

Definition UploadFormReceiptPreview (row : ReceiptRow) : PreviewView :=
  let source :=
    match row_receipt row with
    | Some r => Some ("/api/receipt/file?id=" +:+ receipt_id r)
    | None => row_extraction row ≫= re_preview
    end in
  let isImage := negb (default false ((λ e, endsWith (file_name (re_file e)) ".pdf") <$> row_extraction row)) in
  let spinner :=
    match row_extraction row with
    | Some e => bool_decide (re_status e = PENDING ∨ re_status e = EXTRACTING)
    | None => false
    end in
  let body :=
    match row_receipt row, row_extraction row ≫= re_partial with
    | None, Some p => body_preview p
    | Some r, _ =>
        match row_category row, row_merchant row with
        | Some k, Some m => body_view r k m
        | _, _ => body_none
        end
    | None, None => body_none
    end in
  mkPreviewView source isImage spinner (bool_decide (is_Some (row_receipt row))) body.

(** ** The page of [UploadForm] *)

(** [key={x.receipt?.id || x.receiptExtraction?.id}] *)
Definition row_key (row : ReceiptRow) : option string :=
  match row_receipt row with
  | Some r => if String.eqb (receipt_id r) "" then re_id <$> row_extraction row else Some (receipt_id r)
  | None => re_id <$> row_extraction row
  end.

(** [startDate ? startDate.toLocaleDateString() : "--"]: a [Date] is
    always truthy. *)
Definition date_label (toLocaleDateString : Z → string) (d : option Z) : string :=
  match d with Some t => toLocaleDateString t | None => "--" end.

Record UploadFormView := mkUploadFormView {
  uf_startDate : string;
  uf_endDate : string;
  uf_chartsHidden : bool;
  uf_totalSpent : string;   (** [totalPaid.toLocaleString(undefined, { currency: "USD" })] *)
  uf_rows : list (option string * PreviewView);
}.

(** What [UploadForm] shows below the form fields. *)
Definition UploadForm (toLocaleDateString toLocaleString : Z → string) (c : Collections)
    (reportId : string) : UploadFormView :=
  let '(startDate, endDate) := useReportDateRange c reportId in
  let rows := upload_rows c reportId in
  mkUploadFormView (date_label toLocaleDateString startDate) (date_label toLocaleDateString endDate)
    (charts_hidden rows) (toLocaleString (totalPaid c reportId))
    ((λ row, (row_key row, UploadFormReceiptPreview row)) <$> rows).

(** ** Inputs for concrete runs *)

(** A receipt of report [r1] already extracted, and a file of the same
    report still being extracted. *)
Definition receipt_done : Receipt :=
  mkReceipt "rc0" "r1" "m1" "k1" 1 80 150 (Some 20240501%Z) None 1 "USD" 0 0.

Definition upload_page_cl : Collections :=
  mkCollections ∅ {[ "rc0" := receipt_done ]} ∅ ∅ ∅ {[ "rc1" := pending_rc1 ]}.

(** ** Lemmas *)

(** A pending extraction without its receipt yet is a row of its
    report. *)
Lemma pending_row_in c reportId e :
  cl_pending c !! re_id e = Some e → cl_receipts c !! re_id e = None →
  re_expenseReportId e = reportId →
  mkReceiptRow None (Some e) None None ∈ upload_rows c reportId.
Proof.
  intros Hp Hr Hrep. apply list_elem_of_filter. split; [right; simpl; by rewrite Hrep|].
  apply elem_of_app. right. apply list_elem_of_bind. exists e. split.
  - rewrite Hr. by apply list_elem_of_singleton.
  - apply elem_of_values. eauto.
Qed.

(** A receipt of the report is a row with its merchant and category. *)
Lemma receipt_row_in c reportId r :
  cl_receipts c !! receipt_id r = Some r → receipt_expenseReportId r = reportId →
  mkReceiptRow (Some r) (cl_pending c !! receipt_id r) (merchant_of c r) (category_of c r)
    ∈ upload_rows c reportId.
Proof.
  intros Hr Hrep. apply list_elem_of_filter. split; [left; simpl; by rewrite Hrep|].
  apply elem_of_app. left. apply list_elem_of_bind. exists r. split.
  - by apply list_elem_of_singleton.
  - apply elem_of_values. eauto.
Qed.

Lemma bind_singleton {A B} (f : A → B) (l : list A) : (l ≫= λ x, [f x]) = f <$> l.
Proof. induction l as [|x l IH]; [done|]. by rewrite bind_cons, IH. Qed.

Lemma bind_unmatched {A B} (g : A → B) (m : gmap string Receipt) (key : A → string) (l : list A) :
  (l ≫= λ e, match m !! key e with Some _ => [] | None => [g e] end)
    = g <$> filter (λ e, m !! key e = None) l.
Proof.
  induction l as [|x l IH]; [done|]. rewrite bind_cons, IH.
  destruct (m !! key x) eqn:Hx; [by rewrite filter_cons_False by congruence|].
  by rewrite filter_cons_True.
Qed.

(** The rows of the receipts query: one per receipt, one per pending
    extraction without its receipt. *)
Definition receipt_part (c : Collections) : list ReceiptRow :=
  (λ r, mkReceiptRow (Some r) (cl_pending c !! receipt_id r) (merchant_of c r) (category_of c r))
    <$> values (cl_receipts c).
Definition pending_part (c : Collections) : list ReceiptRow :=
  (λ e, mkReceiptRow None (Some e) None None)
    <$> filter (λ e, cl_receipts c !! re_id e = None) (values (cl_pending c)).

Lemma upload_rows_parts c reportId :
  upload_rows c reportId = filter (λ row, (receipt_expenseReportId <$> row_receipt row) = Some reportId ∨
                 (re_expenseReportId <$> row_extraction row) = Some reportId)
    (receipt_part c ++ pending_part c).
Proof. unfold upload_rows, receipt_part, pending_part. by rewrite bind_singleton, bind_unmatched. Qed.

Lemma parts_NoDup c :
  keyed_by receipt_id (cl_receipts c) → keyed_by re_id (cl_pending c) →
  NoDup (receipt_part c ++ pending_part c).
Proof.
  intros Hr Hp. apply NoDup_app. split_and!.
  - apply NoDup_fmap_2_strong; [by intros ??? _ [= ->]|]. by eapply values_NoDup_keyed.
  - intros x (r & -> & _)%list_elem_of_fmap (e & [=] & _)%list_elem_of_fmap.
  - apply NoDup_fmap_2_strong; [by intros ??? _ [= ->]|].
    apply NoDup_filter. by eapply values_NoDup_keyed.
Qed.

(** Two rows with the same key are the same row. *)
Lemma row_key_inj c x y :
  keyed_by receipt_id (cl_receipts c) → keyed_by re_id (cl_pending c) →
  (∀ k r, cl_receipts c !! k = Some r → receipt_id r ≠ "") →
  x ∈ receipt_part c ++ pending_part c → y ∈ receipt_part c ++ pending_part c →
  row_key x = row_key y → x = y.
Proof.
  intros Hr Hp Hne Hx Hy. unfold receipt_part, pending_part in *.
  apply elem_of_app in Hx as [(r & -> & (k & Hk)%elem_of_values)%list_elem_of_fmap
                              |(e & -> & [He (k & Hk)%elem_of_values]%list_elem_of_filter)%list_elem_of_fmap];
  apply elem_of_app in Hy as [(r' & -> & (k' & Hk')%elem_of_values)%list_elem_of_fmap
                              |(e' & -> & [He' (k' & Hk')%elem_of_values]%list_elem_of_filter)%list_elem_of_fmap];
  cbn [row_key row_receipt row_extraction fmap option_fmap option_map];
  rewrite ?(proj2 (String.eqb_neq _ _) (Hne _ _ Hk)), ?(proj2 (String.eqb_neq _ _) (Hne _ _ Hk'));
  intros [=Heq].
  - pose proof (Hr _ _ Hk). pose proof (Hr _ _ Hk'). subst k k'.
    rewrite Heq, Hk' in Hk. by simplify_eq.
  - pose proof (Hr _ _ Hk). subst k. rewrite Heq in Hk. congruence.
  - pose proof (Hr _ _ Hk'). subst k'. rewrite <-Heq in Hk'. congruence.
  - pose proof (Hp _ _ Hk). pose proof (Hp _ _ Hk'). subst k k'.
    rewrite Heq, Hk' in Hk. by simplify_eq.
Qed.

(** ** Properties *)

(** While a file is being extracted, the upload form lists it
    with a turning spinner, without a delete button, and shows the
    partial object streamed so far; once its receipt is in the
    collection with its merchant and category, the row shows the
    receipt view and a delete button. *)
Theorem upload_rows_show c reportId e p r :
  cl_pending c !! re_id e = Some e → cl_receipts c !! re_id e = None →
  re_expenseReportId e = reportId → re_status e ≠ DONE → re_partial e = Some p →
  cl_receipts c !! receipt_id r = Some r → receipt_expenseReportId r = reportId →
  (∃ row, row ∈ upload_rows c reportId ∧
     pv_spinner (UploadFormReceiptPreview row) = true ∧
     pv_delete (UploadFormReceiptPreview row) = false ∧
     pv_body (UploadFormReceiptPreview row) = body_preview p) ∧
  (∀ k m, category_of c r = Some k → merchant_of c r = Some m →
     ∃ row, row ∈ upload_rows c reportId ∧
       pv_delete (UploadFormReceiptPreview row) = true ∧
       pv_body (UploadFormReceiptPreview row) = body_view r k m).
Proof.
  intros Hp Hr Hrep Hst Hpart Hrr Hrrep. split.
  - eexists. split; [by apply pending_row_in|]. cbn. rewrite Hpart. split_and!; [|done|done].
    apply bool_decide_eq_true. destruct (re_status e); naive_solver.
  - intros k m Hk Hm. eexists. split; [by apply receipt_row_in|]. cbn. by rewrite Hk, Hm.
Qed.

(** The keys React gets for the rows of the receipt list are distinct:
    a receipt and its pending extraction share one row, and the ids of
    the receipt and pending collections are their keys. *)
Theorem upload_row_keys_NoDup c reportId :
  keyed_by receipt_id (cl_receipts c) → keyed_by re_id (cl_pending c) →
  (∀ k r, cl_receipts c !! k = Some r → receipt_id r ≠ "") →
  NoDup (row_key <$> upload_rows c reportId).
Proof.
  intros Hr Hp Hne. rewrite upload_rows_parts. apply NoDup_fmap_2_strong.
  - intros x y [_ Hx]%list_elem_of_filter [_ Hy]%list_elem_of_filter. by apply (row_key_inj c).
  - apply NoDup_filter. by apply parts_NoDup.
Qed.

(** ** Witnesses *)

Lemma upload_rows_show_witness :
  (∃ row, row ∈ upload_rows upload_page_cl "r1" ∧
     pv_spinner (UploadFormReceiptPreview row) = true ∧
     pv_delete (UploadFormReceiptPreview row) = false ∧
     pv_body (UploadFormReceiptPreview row) = body_preview (JObj [])) ∧
  (∀ k m, category_of upload_page_cl receipt_done = Some k → merchant_of upload_page_cl receipt_done = Some m →
     ∃ row, row ∈ upload_rows upload_page_cl "r1" ∧
       pv_delete (UploadFormReceiptPreview row) = true ∧
       pv_body (UploadFormReceiptPreview row) = body_view receipt_done k m).
Proof. apply (upload_rows_show upload_page_cl "r1" pending_rc1 (JObj []) receipt_done); vm_compute; congruence. Defined.

Lemma upload_row_keys_NoDup_witness : NoDup (row_key <$> upload_rows upload_page_cl "r1").
Proof.
  apply upload_row_keys_NoDup.
  - intros k v Hkv. unfold upload_page_cl in Hkv. cbn [cl_receipts cl_pending] in Hkv. apply lookup_singleton_Some in Hkv as [<- <-]. reflexivity.
  - intros k v Hkv. unfold upload_page_cl in Hkv. cbn [cl_receipts cl_pending] in Hkv. apply lookup_singleton_Some in Hkv as [<- <-]. reflexivity.
  - intros k v Hkv. unfold upload_page_cl in Hkv. cbn [cl_receipts cl_pending] in Hkv. apply lookup_singleton_Some in Hkv as [<- <-]. discriminate.
Defined.
