(* ===== verification/CategorySearch.v ===== *)
(** The category search of the category popover,
    [CategoryCommand] in [src/src/components/category/select.tsx]: the
    live query [where(like(category.normalizedName, `%${search.toUpperCase()}%`))]
    over the category collection, and the items it lists.

    TanStack's [like] turns the pattern into a regular expression
    anchored at both ends, [%] matching any run of characters and [_]
    any one character; here it is [like_match], by recursion on the
    pattern.  The order of the items ([orderBy] on the name) is not
    modelled. *)

From S2P Require Import Prelude JsString Db Client Totals ReceiptView.
From Stdlib Require Import Ascii.

#[local] Set Warnings "-clear-no-such-hyp".

(** ** [like] *)

Fixpoint like_match (p s : string) : bool :=
  match p with
  | EmptyString => match s with EmptyString => true | _ => false end
  | String "%" p' =>
      (fix star (s : string) : bool :=
         like_match p' s || match s with EmptyString => false | String _ s' => star s' end) s
  | String "_" p' => match s with EmptyString => false | String _ s' => like_match p' s' end
  | String c p' =>
      match s with
      | EmptyString => false
      | String d s' => Ascii.eqb c d && like_match p' s'
      end
  end.

(** The pattern of the query. *)
Definition search_pattern (search : string) : string :=
  String "%" (toUpperCase search +:+ "%").

(** The categories the popover lists for a search. *)
Definition category_search (c : Collections) (search : string) : list Category :=
  filter (λ k, like_match (search_pattern search) (category_normalizedName k) = true)
    (values (cl_categories c)).

(** The check mark of an item: [value === x.id]. *)
Definition item_checked (value : string) (k : Category) : bool := String.eqb value (category_id k).

(** A [CommandItem]: its key and value [x.id], its label [x.name] and
    whether its check mark is shown. *)
Record CategoryItem := mkCategoryItem {
  item_value : string;
  item_label : string;
  item_check : bool;
}.

Definition category_items (value : string) (c : Collections) (search : string) : list CategoryItem :=
  (λ k, mkCategoryItem (category_id k) (category_name k) (item_checked value k))
    <$> category_search c search.

(** [CommandEmpty] shows [No categories found.] when no item is listed. *)
Definition command_empty (value : string) (c : Collections) (search : string) : bool :=
  bool_decide (category_items value c search = []).

(** A string without the wildcards of [like]. *)
Fixpoint no_wildcard (t : string) : bool :=
  match t with
  | EmptyString => true
  | String c t' => negb (Ascii.eqb c "%") && negb (Ascii.eqb c "_") && no_wildcard t'
  end.

(** ** [like] as a matcher *)

Lemma like_match_percent_nil p : like_match (String "%" p) "" = like_match p "".
Proof. simpl. by destruct (like_match p ""). Qed.

Lemma like_match_percent_cons p c s :
  like_match (String "%" p) (String c s) = like_match p (String c s) || like_match (String "%" p) s.
Proof. reflexivity. Qed.

(** [%] matches any split of the text. *)
Lemma like_match_percent p s :
  like_match (String "%" p) s = true ↔ ∃ a b, s = a +:+ b ∧ like_match p b = true.
Proof.
  induction s as [|c s IH].
  - rewrite like_match_percent_nil. split; [by exists "", ""|].
    intros ([|? a] & b & Hs & Hb); [rewrite string_app_nil_l in Hs; by subst|by rewrite string_app_cons in Hs].
  - rewrite like_match_percent_cons, orb_true_iff, IH. split.
    + intros [Hp | (a & b & -> & Hb)]; [by exists "", (String c s)|by exists (String c a), b].
    + intros ([|d a] & b & Hs & Hb); [rewrite string_app_nil_l in Hs; left; by subst|].
      rewrite string_app_cons in Hs. injection Hs as -> ->. right. eauto.
Qed.

(** A character other than [%] and [_] matches itself only. *)
Lemma like_match_lit c p s :
  Ascii.eqb c "%" = false → Ascii.eqb c "_" = false →
  like_match (String c p) s =
    match s with EmptyString => false | String d s' => Ascii.eqb c d && like_match p s' end.
Proof.
  intros H1 H2. destruct c as [[] [] [] [] [] [] [] []]; first [reflexivity | discriminate H1 | discriminate H2].
Qed.

(** A wildcard-free prefix of the pattern is matched literally. *)
Lemma like_match_lit_app t p s :
  no_wildcard t = true →
  like_match (t +:+ p) s = true ↔ ∃ b, s = t +:+ b ∧ like_match p b = true.
Proof.
  revert s. induction t as [|c t IH]; intros s Ht.
  - split; [eauto|]. by intros (b & -> & Hb).
  - simpl in Ht. apply andb_true_iff in Ht as [[H1 H2]%andb_true_iff Ht].
    apply negb_true_iff in H1, H2.
    rewrite string_app_cons, like_match_lit by done. destruct s as [|d s].
    + split; [done|]. by intros (b & ? & _).
    + rewrite andb_true_iff, IH by done. split.
      * intros [->%Ascii.eqb_eq (b & -> & Hb)]. eauto.
      * intros (b & Hs & Hb). rewrite string_app_cons in Hs. injection Hs as -> ->. rewrite Ascii.eqb_refl. eauto.
Qed.

Lemma like_match_percent_all s : like_match "%" s = true.
Proof. apply like_match_percent. exists s, "". by rewrite string_app_nil_r. Qed.

(** Every text matches itself as a pattern: a literal character
    matches itself, [_] matches one character and [%] the run of that
    one character. *)
Lemma like_match_refl t p s : like_match p s = true → like_match (t +:+ p) (t +:+ s) = true.
Proof.
  induction t as [|c t IH]; intros Hp; [done|]. rewrite !string_app_cons.
  destruct (Ascii.eqb c "%") eqn:H1; [apply Ascii.eqb_eq in H1 as ->|].
  { apply like_match_percent. exists "%", (t +:+ s). split; [reflexivity|by apply IH]. }
  destruct (Ascii.eqb c "_") eqn:H2; [apply Ascii.eqb_eq in H2 as ->; simpl; by apply IH|].
  rewrite like_match_lit by done. rewrite Ascii.eqb_refl. by apply IH.
Qed.

Lemma no_wildcard_upper t : no_wildcard (toUpperCase t) = no_wildcard t.
Proof.
  induction t as [|c t IH]; [done|]. cbn [toUpperCase no_wildcard]. rewrite IH.
  destruct c as [[] [] [] [] [] [] [] []]; vm_compute; reflexivity.
Qed.

(** The query's pattern matches exactly the names that contain the
    upper-cased search, when the search has no wildcard. *)
Lemma search_pattern_contains search name :
  no_wildcard search = true →
  like_match (search_pattern search) name = true ↔
    ∃ a b, name = a +:+ toUpperCase search +:+ b.
Proof.
  intros Hw. rewrite <- no_wildcard_upper in Hw. unfold search_pattern.
  rewrite like_match_percent. setoid_rewrite like_match_lit_app; [|done..]. split.
  - intros (a & b & -> & c & -> & _). eauto.
  - intros (a & b & ->). exists a, (toUpperCase search +:+ b). split; [done|].
    exists b. split; [done|]. apply like_match_percent_all.
Qed.

Lemma filter_all {A} (P : A → Prop) `{∀ x, Decision (P x)} (l : list A) :
  (∀ x, P x) → filter P l = l.
Proof. intros HP. induction l as [|x l IH]; [done|]. by rewrite filter_cons_True, IH. Qed.

(** ** Properties *)

(** (C39) For a search without [%] and [_], the category popover lists
    exactly the categories of the collection whose normalized name
    contains the upper-cased search: the [like] query is a
    case-insensitive substring search. *)
Theorem category_search_contains c search k :
  no_wildcard search = true →
  k ∈ category_search c search ↔
    (∃ j, cl_categories c !! j = Some k) ∧
    ∃ a b, category_normalizedName k = a +:+ toUpperCase search +:+ b.
Proof.
  intros Hw. unfold category_search. rewrite list_elem_of_filter, elem_of_values,
    search_pattern_contains by done. tauto.
Qed.

(** The empty search, the state the popover opens in, lists every
    category of the collection. *)
Lemma category_search_empty c : category_search c "" = values (cl_categories c).
Proof.
  apply filter_all. intros k. apply like_match_percent.
  exists (category_normalizedName k), "". rewrite string_app_nil_r. split; [done|].
  apply like_match_percent_all.
Qed.

(** Opening the popover of a receipt view mounts [CategoryCommand]
    afresh: its search is empty, so it lists every category of the
    collection, whatever was typed before it was last closed. *)
Lemma category_popover_open `{JsNumber} session rid st :
  rv_search (receipt_view_step session rid st (rv_category_open true)) = "" ∧
  category_search (rv_cl (receipt_view_step session rid st (rv_category_open true)))
    (rv_search (receipt_view_step session rid st (rv_category_open true)))
    = values (cl_categories (rv_cl st)).
Proof. split; [done|]. apply category_search_empty. Qed.

(** A search holding [_] lists categories whose names do not contain
    it: [_] matches any one character. *)
Lemma category_search_wildcard :
  category_meals ∈ category_search report_collections "_" ∧
  includes (category_normalizedName category_meals) "_" = false.
Proof. split; [|reflexivity]. apply list_elem_of_filter. split; [reflexivity|]. by apply elem_of_values; exists "MEALS". Qed.

(** The current category of the receipt is listed with its check
    mark whenever its normalized name contains the search. *)
Lemma category_items_checked value c search k j :
  no_wildcard search = true → cl_categories c !! j = Some k → category_id k = value →
  (∃ a b, category_normalizedName k = a +:+ toUpperCase search +:+ b) →
  mkCategoryItem value (category_name k) true ∈ category_items value c search.
Proof.
  intros Hw Hj <- Hs. apply list_elem_of_fmap. exists k. split.
  - unfold item_checked. by rewrite String.eqb_refl.
  - apply list_elem_of_filter. rewrite elem_of_values, search_pattern_contains by done. eauto.
Qed.

(** ** Witnesses *)

Lemma category_search_contains_witness :
  category_meals ∈ category_search report_collections "meal" ↔
    (∃ j, cl_categories report_collections !! j = Some category_meals) ∧
    ∃ a b, category_normalizedName category_meals = a +:+ toUpperCase "meal" +:+ b.
Proof. apply (category_search_contains report_collections "meal" category_meals). reflexivity. Defined.
