(* ===== verification/Preview.v ===== *)
(** What [ReceiptPreview] of [src/src/components/reports/receipt-preview.tsx]
    renders for a partial object: merchant, category, date, one row per
    line item and the money lines, each amount through
    [Intl.NumberFormat] with the currency of the first item.

    Rendering is partial: [items.reduce] on a value that is not an
    array, a React child that is an object, and an [Intl.NumberFormat]
    whose currency is not a well-formed code all throw, and the result
    is then [None].  The formatters ([Intl.NumberFormat(...).format],
    [Intl.DateTimeFormat(...).format]) and [new Date(v)] are parameters
    of the section; the address and confidence lines are not modelled. *)

From S2P Require Import Prelude JsString Db Schema ProcessReceipt Client Totals.
From Stdlib Require Import Ascii.

#[local] Set Warnings "-clear-no-such-hyp".

(** ** JavaScript values as text *)

(** [String(v)]; the elements [undefined] and [null] of an array join
    as empty strings. *)
Fixpoint js_ToString (v : json) : string :=
  match v with
  | JUndefined => "undefined"
  | JNull => "null"
  | JBool b => if b then "true" else "false"
  | JNum n => js_num_to_string (Some n)
  | JStr s => s
  | JArr xs => js_join "," (map (λ x, match x with JUndefined | JNull => "" | _ => js_ToString x end) xs)
  | JObj _ => "[object Object]"
  end.

(** A React child: strings and numbers are shown, [true], [false],
    [null] and [undefined] show nothing, arrays show their elements, and
    a plain object throws. *)
Fixpoint render_text (v : json) : option string :=
  match v with
  | JUndefined | JNull | JBool _ => Some ""
  | JNum n => Some (js_num_to_string (Some n))
  | JStr s => Some s
  | JArr xs => foldr (λ x acc, s ← render_text x; rest ← acc; Some (s +:+ rest)) (Some "") xs
  | JObj _ => None
  end.

(** ECMA-402 [IsWellFormedCurrencyCode]: three ASCII letters. *)
Definition is_ascii_alpha (c : ascii) : bool :=
  let n := nat_of_ascii c in ((65 <=? n) && (n <=? 90)) || ((97 <=? n) && (n <=? 122)).

Definition well_formed_currency (s : string) : bool :=
  (String.length s =? 3) && all_chars is_ascii_alpha s.

(** [(items[0]?.currency as string) || "USD"] *)
Definition preview_currency (items : list json) : json :=
  let c := match items with [] => JUndefined | it :: _ => js_get it "currency" end in
  if js_falsy c then JStr "USD" else c.

Record PreviewLine := mkPreviewLine {
  pl_description : string;
  pl_qty : string;
  pl_unit : string;
  pl_total : string;
}.

Record PreviewCard := mkPreviewCard {
  pc_merchant : string;
  pc_category : string;
  pc_date : string;
  pc_noItems : bool;          (** [No line items found] *)
  pc_lines : list PreviewLine;
  pc_subtotal : string;
  pc_tax : string;
  pc_tip : string;
  pc_total : string;
}.

Section Render.
Context (formatCurrency : string → option Z → string)
  (formatDate : Z → string) (new_Date : json → option Z).

(** [formatMoney]: [new Intl.NumberFormat(undefined, { style:
    "currency", currency }).format(v)]; the constructor throws a
    [RangeError] on a currency that is not well formed. *)
Definition formatMoney (currency : json) (v : option Z) : option string :=
  let code := js_ToString currency in
  if well_formed_currency code then Some (formatCurrency (toUpperCase code) v) else None.

(** [receipt?.merchant?.name ?? "Unknown merchant"] *)
Definition merchant_label (p : json) : json :=
  nullish_or (js_get (js_get p "merchant") "name") (JStr "Unknown merchant").

(** [receipt?.category ?? "Uncategorized"] *)
Definition category_label (p : json) : json := nullish_or (js_get p "category") (JStr "Uncategorized").

(** [it?.description ?? "-"] *)
Definition item_description (it : json) : json := nullish_or (js_get it "description") (JStr "-").

(** [formattedDate] *)
Definition preview_date (p : json) : string :=
  let d := js_get p "date" in
  if js_falsy d then "Unknown date"
  else match new_Date d with Some t => formatDate t | None => "Unknown date" end.

(** One row of the items table. *)
Definition preview_line (currency : json) (it : json) : option PreviewLine :=
  let qty := js_number_or 1 (js_get it "quantity") in
  let unit := js_number_or 0 (js_get it "unitPrice") in
  let lineTotal := (q ← qty; u ← unit; Some (q * u)%Z) in
  description ← render_text (item_description it);
  unitText ← formatMoney currency unit;
  totalText ← formatMoney currency lineTotal;
  Some (mkPreviewLine description (js_num_to_string qty) unitText totalText).

Definition ReceiptPreview (p : json) : option PreviewCard :=
  items ← preview_items p;
  let currency := preview_currency items in
  merchant ← render_text (merchant_label p);
  category ← render_text (category_label p);
  lines ← mapM (preview_line currency) items;
  subtotal ← formatMoney currency (preview_subtotal p);
  tax ← formatMoney currency (preview_tax p);
  tip ← formatMoney currency (preview_tip p);
  total ← formatMoney currency (preview_total p);
  Some (mkPreviewCard merchant category (preview_date p) (bool_decide (items = [])) lines
          subtotal tax tip total).

(** ** Lemmas *)

Lemma is_Some_bind {A B} (x : option A) (f : A → option B) :
  is_Some (x ≫= f) ↔ ∃ a, x = Some a ∧ is_Some (f a).
Proof. destruct x; simpl; split; [eauto|naive_solver|by intros []|naive_solver]. Qed.

(** [formatMoney] throws exactly on a currency that is not well formed,
    whatever the amount. *)
Lemma formatMoney_is_Some c v : is_Some (formatMoney c v) ↔ well_formed_currency (js_ToString c) = true.
Proof. unfold formatMoney. destruct (well_formed_currency _); split; try done; by intros [? ?]. Qed.

Lemma formatMoney_Some c v :
  well_formed_currency (js_ToString c) = true →
  formatMoney c v = Some (formatCurrency (toUpperCase (js_ToString c)) v).
Proof. intros Hwf. unfold formatMoney. by rewrite Hwf. Qed.

Lemma preview_line_is_Some c it :
  well_formed_currency (js_ToString c) = true →
  is_Some (preview_line c it) ↔ is_Some (render_text (item_description it)).
Proof.
  intros Hwf. unfold preview_line. rewrite !(formatMoney_Some c) by done.
  destruct (render_text _); simpl; split; try done; by intros [? ?].
Qed.

Lemma preview_lines_is_Some c items :
  well_formed_currency (js_ToString c) = true →
  is_Some (mapM (preview_line c) items) ↔ Forall (λ it, is_Some (render_text (item_description it))) items.
Proof.
  intros Hwf. rewrite mapM_is_Some. apply Forall_iff. intros it. by apply preview_line_is_Some.
Qed.

(** The money lines of a rendered card are the amounts of
    [Totals.v] formatted with one currency code. *)
Lemma ReceiptPreview_money p card :
  ReceiptPreview p = Some card →
  ∃ code, pc_subtotal card = formatCurrency code (preview_subtotal p) ∧
    pc_tax card = formatCurrency code (preview_tax p) ∧
    pc_tip card = formatCurrency code (preview_tip p) ∧
    pc_total card = formatCurrency code (preview_total p).
Proof.
  unfold ReceiptPreview. intros H. destruct (preview_items p) as [items|]; [|done]. simpl in H.
  destruct (render_text (merchant_label p)); [|done]. destruct (render_text (category_label p)); [|done].
  simpl in H. destruct (mapM _ items); [|done]. simpl in H. unfold formatMoney in H.
  destruct (well_formed_currency _); [|done]. simpl in H. injection H as <-. by eexists.
Qed.

(** ** Properties *)

(** [ReceiptPreview] renders exactly when [items] is an array (or
    absent), the currency of the first item is a well-formed code (or
    falsy, then ["USD"]), and the merchant name, the category and every
    item description are texts React can show; otherwise it throws. *)
Theorem ReceiptPreview_renders_iff p :
  is_Some (ReceiptPreview p) ↔
    ∃ items, preview_items p = Some items ∧
      well_formed_currency (js_ToString (preview_currency items)) = true ∧
      is_Some (render_text (merchant_label p)) ∧ is_Some (render_text (category_label p)) ∧
      Forall (λ it, is_Some (render_text (item_description it))) items.
Proof.
  unfold ReceiptPreview. rewrite is_Some_bind. split.
  - intros (items & Hi & H). cbv zeta in H.
    apply is_Some_bind in H as (m & Hm & H). apply is_Some_bind in H as (k & Hk & H).
    apply is_Some_bind in H as (ls & Hls & H). apply is_Some_bind in H as (st & Hst & _).
    assert (well_formed_currency (js_ToString (preview_currency items)) = true) as Hwf
      by (eapply formatMoney_is_Some; eexists; exact Hst).
    exists items. split_and!; [done|done|by eexists|by eexists|].
    apply (preview_lines_is_Some (preview_currency items)); [done|by eexists].
  - intros (items & Hi & Hwf & [m Hm] & [k Hk] & Hall). exists items. split; [done|]. simpl.
    rewrite Hm, Hk. destruct (proj2 (preview_lines_is_Some _ items Hwf) Hall) as [ls Hls].
    rewrite Hls. simpl. rewrite !formatMoney_Some by done. by eexists.
Qed.

(** (C23) A first line item whose currency is a non-empty string other than
    three letters, as an incomplete code streamed by the model
    (["U"], ["US"]), makes the whole preview throw a [RangeError]. *)
Theorem preview_currency_throws p it its s :
  preview_items p = Some (it :: its) → js_get it "currency" = JStr s →
  s ≠ "" → well_formed_currency s = false →
  ReceiptPreview p = None.
Proof.
  intros Hi Hc Hs Hwf. destruct (ReceiptPreview p) eqn:E; [exfalso|done].
  destruct (proj1 (ReceiptPreview_renders_iff p) (mk_is_Some _ _ E)) as (items & Hi' & Hwf' & _).
  rewrite Hi in Hi'. injection Hi' as <-. unfold preview_currency in Hwf'. rewrite Hc in Hwf'.
  cbn [js_falsy] in Hwf'. rewrite (proj2 (String.eqb_neq _ _) Hs) in Hwf'. simpl in Hwf'. congruence.
Qed.

(** (C22) The preview of a pending extraction never shows a tip: in
    every state the client reaches, the card [ReceiptPreview] renders
    for a pending extraction shows the tip as the formatted 0 and the
    total as the formatted subtotal plus tax, whatever tip the model
    streamed (the message handler does not copy [tip]). *)
Theorem preview_card_omits_tip cou c id r :
  client_reachable cou c → cl_pending c !! id = Some r →
  ∃ p, re_partial r = Some p ∧
    ∀ card, ReceiptPreview p = Some card →
      ∃ code, pc_tip card = formatCurrency code (Some 0%Z) ∧
        pc_total card = formatCurrency code (s ← preview_subtotal p; t ← preview_tax p; Some (s + t)%Z).
Proof.
  intros Hc Hr. destruct (client_reachable_pending_wf _ _ Hc id r Hr) as (_ & _ & fs & Hp & Ht).
  exists (JObj fs). split; [done|]. intros card Hcard.
  destruct (ReceiptPreview_money _ _ Hcard) as (code & _ & _ & Htip & Htot). exists code.
  assert (preview_tip (JObj fs) = Some 0%Z) as H0 by (unfold preview_tip; simpl; by rewrite Ht).
  rewrite Htip, Htot, H0. split; [done|]. f_equal. unfold preview_total. rewrite H0.
  destruct (preview_subtotal _), (preview_tax _); simpl; [|done..]. f_equal. lia.
Qed.

End Render.

(** ** Witnesses *)

(** A partial object in the middle of the stream: the currency of its
    line item has reached ["US"]. *)
Definition partial_streaming : json :=
  JObj [("items", JArr [JObj [("description", JStr "Latte"); ("unitPrice", JNum 450); ("currency", JStr "US")]])].

Lemma preview_currency_throws_witness :
  ReceiptPreview (λ code _, code) (λ _, "") (λ _, None) partial_streaming = None.
Proof.
  apply (preview_currency_throws (λ code _, code) (λ _, "") (λ _, None) partial_streaming
           (JObj [("description", JStr "Latte"); ("unitPrice", JNum 450); ("currency", JStr "US")]) [] "US");
    [reflexivity|reflexivity|discriminate|reflexivity].
Defined.

Lemma preview_card_omits_tip_witness :
  ∃ p, re_partial pending_rc1 = Some p ∧
    ∀ card, ReceiptPreview (λ code _, code) (λ _, "") (λ _, None) p = Some card →
      ∃ code, pc_tip card = code ∧ pc_total card = code.
Proof.
  refine (preview_card_omits_tip (λ code _, code) (λ _, "") (λ _, None) example_objectURL
            client_after_start "rc1" pending_rc1 _ _).
  - apply (client_next _ (EvStart "r1" "rc1" example_file) empty_collections).
    + by apply client_init.
    + reflexivity.
  - vm_compute. reflexivity.
Defined.
